(** * The daily economy update of Project Alice: a shallow embedding

    The definitions below follow [src/economy/economy.cpp].  The game keeps
    its whole world in a generated data container ([state.world]) made of
    per-entity tables read with [xxx_get_field] and written with
    [xxx_set_field]; the embedding keeps that shape: one table per entity
    kind and value type, indexed by a field name and by entity ids.

    Numbers.  Every [float] of the source is modelled by a real number, so
    the arithmetic below is the exact arithmetic that the code approximates:
    rounding, infinities and NaN are outside the model.  Integer fields are
    in [Z], identifiers are indices in [nat], and a possibly invalid
    identifier is an [option]. *)

From Stdlib Require Import Reals Lra Lia List ZArith Bool Permutation.
Import ListNotations.
Open Scope R_scope.

(** ** C++ library functions over the reals *)

(** [std::max(a, b)] is [(a < b) ? b : a]. *)
Definition fmax (a b : R) : R := if Rlt_dec a b then b else a.

(** [std::min(a, b)] is [(b < a) ? b : a]. *)
Definition fmin (a b : R) : R := if Rlt_dec b a then b else a.

(** [std::clamp(v, lo, hi)] is [(v < lo) ? lo : (hi < v) ? hi : v]. *)
Definition clamp (v lo hi : R) : R :=
  if Rlt_dec v lo then lo else if Rlt_dec hi v then hi else v.

(** Conversion [int32_t(x)] of a float: truncation toward zero. *)
Definition to_int32 (x : R) : Z :=
  if Rle_dec 0 x then Int_part x else (- Int_part (- x))%Z.

(** ** Identifiers and field names *)

(** Identifiers are indices into the tables. *)
Abbreviation commodity_id := nat (only parsing).
Abbreviation nation_id := nat (only parsing).
Abbreviation pop_type_id := nat (only parsing).
Abbreviation pop_id := nat (only parsing).
Abbreviation province_id := nat (only parsing).
Abbreviation state_instance_id := nat (only parsing).
Abbreviation factory_id := nat (only parsing).
Abbreviation factory_type_id := nat (only parsing).

(** [economy::money] is the first commodity; the loops over tradeable goods
    start at index 1 and so skip it.  [stockpiles n money] is the treasury. *)
Definition money : commodity_id := 0%nat.

(** Writing one cell of a table. *)
Definition upd {A : Type} (f : nat -> A) (k : nat) (v : A) : nat -> A :=
  fun j => if Nat.eqb j k then v else f j.

Definition upd2 {A : Type} (f : nat -> nat -> A) (i k : nat) (v : A)
  : nat -> nat -> A :=
  fun a b => if (Nat.eqb a i && Nat.eqb b k)%bool then v else f a b.

Inductive economy_reason :=
| reason_pop | reason_factory | reason_rgo | reason_artisan
| reason_construction | reason_nation | reason_stockpile
| reason_overseas_penalty.

Module national_mod_offsets.
Inductive t :=
| loan_interest | max_loan_modifier | pension_level | unemployment_benefit
| mine_rgo_size | farm_rgo_size | rgo_throughput | mine_rgo_eff
| farm_rgo_eff | rgo_output | factory_input | factory_throughput
| factory_output | factory_maintenance.
Scheme Equality for t.
End national_mod_offsets.

Module provincial_mod_offsets.
Inductive t :=
| mine_rgo_size | farm_rgo_size | local_rgo_throughput | mine_rgo_eff
| farm_rgo_eff | local_rgo_output | local_factory_input
| local_factory_throughput | local_factory_output.
Scheme Equality for t.
End provincial_mod_offsets.

Scheme Equality for economy_reason.

Inductive commodity_float :=
| cost | current_price | total_production | total_real_demand
| total_consumption | global_market_pool | rgo_amount
| demand_by_category (r : economy_reason).

Inductive commodity_flag :=
| money_rgo | is_available_from_start | overseas_penalty | is_mine.

Inductive nation_commodity_float :=
| real_demand | intermediate_demand | demand_satisfaction
| direct_demand_satisfaction | domestic_market_pool | stockpiles
| stockpile_targets | effective_prices | imports | army_demand | navy_demand
| construction_demand | private_construction_demand | rgo_size_bonus
| rgo_goods_output | factory_goods_output | factory_goods_throughput.

(** [overseas_penalty_level] is the nation's [overseas_penalty]; the name
    [overseas_penalty] is taken by the flag of the commodities. *)
Inductive nation_float :=
| spending_level | private_investment | private_investment_effective_fraction
| administrative_efficiency | total_rich_income | total_middle_income
| total_poor_income | maximum_military_costs | gdp
| effective_naval_spending | effective_land_spending
| effective_construction_spending | overseas_penalty_level
| modifier_values (o : national_mod_offsets.t).

Inductive nation_int :=
| land_spending | naval_spending | construction_spending | overseas_spending
| administrative_spending | social_spending | education_spending
| military_spending | domestic_investment_spending | tariffs
| central_ports | central_blockaded | owned_province_count
| central_province_count.

Inductive nation_flag :=
| is_player_controlled | is_debt_spending.

Inductive pop_type_commodity_float :=
| life_needs | everyday_needs | luxury_needs.

Inductive nation_pop_type_float :=
| life_needs_costs | everyday_needs_costs | luxury_needs_costs
| demographics_key | demographics_employment_key.

Inductive province_commodity_float :=
| rgo_employment_per_good | rgo_target_employment_per_good
| rgo_max_size_per_good.

Inductive province_float :=
| subsistence_employment | rgo_employment | landowners_share
| capitalists_share | rgo_size | demographics_total
| province_modifier_values (o : provincial_mod_offsets.t).

Inductive factory_float :=
| production_scale | primary_employment | secondary_employment
| triggered_modifiers | actual_production | full_profit.

Inductive factory_flag :=
| unprofitable | subsidized.

Scheme Equality for commodity_float.
Scheme Equality for nation_commodity_float.
Scheme Equality for nation_float.
Scheme Equality for nation_flag.
Scheme Equality for province_commodity_float.
Scheme Equality for province_float.
Scheme Equality for factory_float.
Scheme Equality for factory_flag.

(** [culture::income_type], as far as the budget code distinguishes it. *)
Inductive income_type :=
| income_administration | income_education | income_military | income_other.

(** A recipe ([commodity_set], [small_commodity_set]): the slots in use, in
    order, up to the first empty slot. *)
Definition recipe := list (commodity_id * R).

(** The part of [state.defines], [state.economy_definitions] and of the
    constants of [economy.hpp] that the modelled code reads.  Their values
    are data of the game, not of this file. *)
Record defines := {
  base_goods_demand : R;
  alice_lf_needs_scale : R;
  alice_ev_needs_scale : R;
  alice_lx_needs_scale : R;
  alice_sat_delay_factor : R;
  alice_needs_scaling_factor : R;
  alice_domestic_investment_multiplier : R;
  alice_factory_per_level_employment : R;
  alice_inputs_base_factor : R;
  alice_rgo_per_size_employment : R;
  alice_base_rgo_employment_bonus : R;
  alice_base_rgo_efficiency_bonus : R;
  alice_rgo_boost : R;
  province_overseas_penalty : R;
  loan_base_interest : R;
  small_debt_limit : R;
  bankrupcy_duration : R;
  bankruptcy_external_loan_years : R;
  craftsmen_fraction : R;
  production_scale_delta : R
}.

(** The part of [state.culture_definitions] that the modelled code reads. *)
Record culture_definitions := {
  laborers : pop_type_id;
  capitalists : pop_type_id;
  aristocrat : pop_type_id;
  slaves : pop_type_id;
  rgo_workers : list pop_type_id
}.

(** What [go_bankrupt] asks of the event, modifier and notification
    systems. *)
Inductive default_event :=
| on_debtor_default | on_debtor_default_small | on_debtor_default_second.

Inductive timed_modifier := in_bankrupcy | bad_debter.

Inductive effect :=
| fire_fixed_event (e : default_event) (target from : nation_id)
| add_modifier_to_nation (n : nation_id) (m : timed_modifier) (expires : Z)
| post_bankruptcy_message (n : nation_id).

(** ** The world *)

(** Tables that the modelled code only reads.  A date is its day count;
    the invalid date is [0]. *)
Record environment := {
  commodity_size : nat;
  nation_size : nat;
  pop_type_size : nat;
  province_size : nat;
  current_date : Z;
  defs : defines;
  culture : culture_definitions;
  commodity_b : commodity_flag -> commodity_id -> bool;
  nation_active_key_factory : nation_id -> commodity_id -> bool;
  nation_drawing_on_stockpiles : nation_id -> commodity_id -> bool;
  nation_i : nation_int -> nation_id -> Z;
  nation_in_sphere_of : nation_id -> option nation_id;
  nation_tariff_efficiency : nation_id -> R;
  nation_ptf : nation_pop_type_float -> nation_id -> pop_type_id -> R;
  pop_type_cf : pop_type_commodity_float -> pop_type_id -> commodity_id -> R;
  pop_type_life_needs_income_type : pop_type_id -> income_type;
  pop_type_everyday_needs_income_type : pop_type_id -> income_type;
  pop_type_luxury_needs_income_type : pop_type_id -> income_type;
  pop_type_has_unemployment : pop_type_id -> bool;
  pop_type_is_paid_rgo_worker : pop_type_id -> bool;
  great_nations : list (option nation_id);
  province_owner : province_id -> nation_id;
  province_rgo : province_id -> commodity_id;
  province_demographics : province_id -> pop_type_id -> R;
  province_pop_location : province_id -> list pop_id;
  pop_poptype : pop_id -> pop_type_id;
  state_demographics_total : state_instance_id -> R;
  state_demographics : state_instance_id -> pop_type_id -> R;
  factory_building_type : factory_id -> factory_type_id;
  factory_level : factory_id -> nat;
  factory_type_output : factory_type_id -> commodity_id;
  factory_type_output_amount : factory_type_id -> R;
  factory_type_inputs : factory_type_id -> recipe;
  factory_type_efficiency_inputs : factory_type_id -> recipe
}.

(** The world: the environment and the tables that the modelled code
    writes. *)
Record world := {
  env : environment;
  commodity_f : commodity_float -> commodity_id -> R;
  nation_cf : nation_commodity_float -> nation_id -> commodity_id -> R;
  nation_f : nation_float -> nation_id -> R;
  nation_b : nation_flag -> nation_id -> bool;
  nation_bankrupt_until : nation_id -> Z;
  province_cf : province_commodity_float -> province_id -> commodity_id -> R;
  province_f : province_float -> province_id -> R;
  pop_raw_employment : pop_id -> R;
  factory_f : factory_float -> factory_id -> R;
  factory_b : factory_flag -> factory_id -> bool;
  effects : list effect
}.

(** The generated setters. *)
Definition commodity_set (fld : commodity_float) (c : commodity_id) (v : R)
  (w : world) : world :=
  {| env := env w;
     commodity_f := fun g =>
       if commodity_float_beq g fld then upd (commodity_f w g) c v
       else commodity_f w g;
     nation_cf := nation_cf w;
     nation_f := nation_f w;
     nation_b := nation_b w;
     nation_bankrupt_until := nation_bankrupt_until w;
     province_cf := province_cf w;
     province_f := province_f w;
     pop_raw_employment := pop_raw_employment w;
     factory_f := factory_f w;
     factory_b := factory_b w;
     effects := effects w |}.

Definition nation_cset (fld : nation_commodity_float) (n : nation_id)
  (c : commodity_id) (v : R) (w : world) : world :=
  {| env := env w;
     commodity_f := commodity_f w;
     nation_cf := fun g =>
       if nation_commodity_float_beq g fld then upd2 (nation_cf w g) n c v
       else nation_cf w g;
     nation_f := nation_f w;
     nation_b := nation_b w;
     nation_bankrupt_until := nation_bankrupt_until w;
     province_cf := province_cf w;
     province_f := province_f w;
     pop_raw_employment := pop_raw_employment w;
     factory_f := factory_f w;
     factory_b := factory_b w;
     effects := effects w |}.

Definition nation_set (fld : nation_float) (n : nation_id) (v : R)
  (w : world) : world :=
  {| env := env w;
     commodity_f := commodity_f w;
     nation_cf := nation_cf w;
     nation_f := fun g =>
       if nation_float_beq g fld then upd (nation_f w g) n v
       else nation_f w g;
     nation_b := nation_b w;
     nation_bankrupt_until := nation_bankrupt_until w;
     province_cf := province_cf w;
     province_f := province_f w;
     pop_raw_employment := pop_raw_employment w;
     factory_f := factory_f w;
     factory_b := factory_b w;
     effects := effects w |}.

Definition nation_bset (fld : nation_flag) (n : nation_id) (v : bool)
  (w : world) : world :=
  {| env := env w;
     commodity_f := commodity_f w;
     nation_cf := nation_cf w;
     nation_f := nation_f w;
     nation_b := fun g =>
       if nation_flag_beq g fld then upd (nation_b w g) n v
       else nation_b w g;
     nation_bankrupt_until := nation_bankrupt_until w;
     province_cf := province_cf w;
     province_f := province_f w;
     pop_raw_employment := pop_raw_employment w;
     factory_f := factory_f w;
     factory_b := factory_b w;
     effects := effects w |}.

Definition nation_set_bankrupt_until (n : nation_id) (d : Z) (w : world)
  : world :=
  {| env := env w;
     commodity_f := commodity_f w;
     nation_cf := nation_cf w;
     nation_f := nation_f w;
     nation_b := nation_b w;
     nation_bankrupt_until := upd (nation_bankrupt_until w) n d;
     province_cf := province_cf w;
     province_f := province_f w;
     pop_raw_employment := pop_raw_employment w;
     factory_f := factory_f w;
     factory_b := factory_b w;
     effects := effects w |}.

Definition province_cset (fld : province_commodity_float) (p : province_id)
  (c : commodity_id) (v : R) (w : world) : world :=
  {| env := env w;
     commodity_f := commodity_f w;
     nation_cf := nation_cf w;
     nation_f := nation_f w;
     nation_b := nation_b w;
     nation_bankrupt_until := nation_bankrupt_until w;
     province_cf := fun g =>
       if province_commodity_float_beq g fld
       then upd2 (province_cf w g) p c v
       else province_cf w g;
     province_f := province_f w;
     pop_raw_employment := pop_raw_employment w;
     factory_f := factory_f w;
     factory_b := factory_b w;
     effects := effects w |}.

Definition province_set (fld : province_float) (p : province_id) (v : R)
  (w : world) : world :=
  {| env := env w;
     commodity_f := commodity_f w;
     nation_cf := nation_cf w;
     nation_f := nation_f w;
     nation_b := nation_b w;
     nation_bankrupt_until := nation_bankrupt_until w;
     province_cf := province_cf w;
     province_f := fun g =>
       if province_float_beq g fld then upd (province_f w g) p v
       else province_f w g;
     pop_raw_employment := pop_raw_employment w;
     factory_f := factory_f w;
     factory_b := factory_b w;
     effects := effects w |}.

Definition set_raw_employment (q : pop_id) (v : R) (w : world) : world :=
  {| env := env w;
     commodity_f := commodity_f w;
     nation_cf := nation_cf w;
     nation_f := nation_f w;
     nation_b := nation_b w;
     nation_bankrupt_until := nation_bankrupt_until w;
     province_cf := province_cf w;
     province_f := province_f w;
     pop_raw_employment := upd (pop_raw_employment w) q v;
     factory_f := factory_f w;
     factory_b := factory_b w;
     effects := effects w |}.

Definition factory_set (fld : factory_float) (f : factory_id) (v : R)
  (w : world) : world :=
  {| env := env w;
     commodity_f := commodity_f w;
     nation_cf := nation_cf w;
     nation_f := nation_f w;
     nation_b := nation_b w;
     nation_bankrupt_until := nation_bankrupt_until w;
     province_cf := province_cf w;
     province_f := province_f w;
     pop_raw_employment := pop_raw_employment w;
     factory_f := fun g =>
       if factory_float_beq g fld then upd (factory_f w g) f v
       else factory_f w g;
     factory_b := factory_b w;
     effects := effects w |}.

Definition factory_bset (fld : factory_flag) (f : factory_id) (v : bool)
  (w : world) : world :=
  {| env := env w;
     commodity_f := commodity_f w;
     nation_cf := nation_cf w;
     nation_f := nation_f w;
     nation_b := nation_b w;
     nation_bankrupt_until := nation_bankrupt_until w;
     province_cf := province_cf w;
     province_f := province_f w;
     pop_raw_employment := pop_raw_employment w;
     factory_f := factory_f w;
     factory_b := fun g =>
       if factory_flag_beq g fld then upd (factory_b w g) f v
       else factory_b w g;
     effects := effects w |}.

Definition emit (e : effect) (w : world) : world :=
  {| env := env w;
     commodity_f := commodity_f w;
     nation_cf := nation_cf w;
     nation_f := nation_f w;
     nation_b := nation_b w;
     nation_bankrupt_until := nation_bankrupt_until w;
     province_cf := province_cf w;
     province_f := province_f w;
     pop_raw_employment := pop_raw_employment w;
     factory_f := factory_f w;
     factory_b := factory_b w;
     effects := effects w ++ [e] |}.

(** The ids visited by [for_each_commodity], by the loops over tradeable
    goods ([for(i = 1; i < total_commodities; ++i)]), by [for_each_nation]
    and by [for_each_pop_type]. *)
Definition all_commodities (w : world) : list commodity_id :=
  seq 0 (commodity_size (env w)).
Definition traded_commodities (w : world) : list commodity_id :=
  seq 1 (commodity_size (env w) - 1).
Definition all_nations (w : world) : list nation_id :=
  seq 0 (nation_size (env w)).
Definition all_pop_types (w : world) : list pop_type_id :=
  seq 0 (pop_type_size (env w)).

(** A float accumulator that starts at [0.0f] and is increased once per
    visited id. *)
Definition accumulate (ids : list nat) (term : nat -> R) : R :=
  fold_left (fun acc i => acc + term i) ids 0.

(** ** Price adjustment ([daily_update], lines 3897-3977) *)

(** The price of a money commodity follows the laborers' needs basket
    (lines 3901-3926). *)
Definition luxury_costs_laborer (w : world) : R :=
  let base_demand := base_goods_demand (defs (env w)) in
  let t := laborers (culture (env w)) in
  fold_left (fun acc i =>
      if commodity_b (env w) is_available_from_start i then
        let price := commodity_f w current_price i in
        let base_life := pop_type_cf (env w) life_needs t i in
        let base_everyday := 0.5 * pop_type_cf (env w) everyday_needs t i in
        let base_luxury := 0.1 * pop_type_cf (env w) luxury_needs t i in
        acc
        + base_life * base_demand
          * alice_lf_needs_scale (defs (env w)) * price
        + base_everyday * base_demand
          * alice_ev_needs_scale (defs (env w)) * price
        + base_luxury * base_demand
          * alice_lx_needs_scale (defs (env w)) * price
      else acc)
    (traded_commodities w) 0.

Definition update_money_price (w : world) (c : commodity_id) : world :=
  if negb (commodity_b (env w) money_rgo c) then w
  else commodity_set current_price c
         (clamp (luxury_costs_laborer w * 0.3) 0.001 100000) w.

(** The new price of an ordinary commodity from its supply, its demand and
    its current price (lines 3958-3976). *)
Definition adjusted_price (supply demand price : R) : R :=
  let market_balance := demand - supply in
  let max_slope := sqrt (Rabs market_balance) + 20 in
  let oversupply_factor :=
    clamp ((supply + 0.001) / (demand + 0.001) - 1) 0 max_slope in
  let overdemand_factor :=
    clamp ((demand + 0.001) / (supply + 0.001) - 1) 0 max_slope in
  let speed_modifer := overdemand_factor - oversupply_factor in
  let price_speed := 0.05 * speed_modifer in
  let price_speed :=
    if Rlt_dec price 1 then price_speed * price
    else price_speed * sqrt price in
  let price := price + price_speed in
  clamp price 0.001 100000.

(** The body of the parallel loop over commodities (lines 3928-3977). *)
Definition update_commodity_price (w : world) (k : commodity_id) : world :=
  if commodity_b (env w) money_rgo k then w
  else
    let total_r_demand :=
      accumulate (all_nations w) (fun n => nation_cf w real_demand n k) in
    let total_consumption_ :=
      accumulate (all_nations w) (fun n =>
        nation_cf w real_demand n k * nation_cf w demand_satisfaction n k) in
    let total_production_ :=
      accumulate (all_nations w) (fun n =>
        nation_cf w domestic_market_pool n k) in
    let prior_production := commodity_f w total_production k in
    let supply :=
      prior_production + commodity_f w global_market_pool k / 12 in
    let demand := total_r_demand in
    let price := commodity_f w current_price k in
    let w := commodity_set total_consumption k total_consumption_ w in
    let w := commodity_set total_real_demand k total_r_demand w in
    let w := commodity_set total_production k total_production_ w in
    commodity_set current_price k (adjusted_price supply demand price) w.

(** The two loops in sequence. *)
Definition adjust_prices (w : world) : world :=
  let w := fold_left update_money_price (all_commodities w) w in
  fold_left update_commodity_price (all_commodities w) w.

(** ** Demand registration (lines 19-43) *)

Definition register_demand (w : world) (n : nation_id)
  (commodity_type : commodity_id) (amount : R) (reason : economy_reason)
  : world :=
  let w := nation_cset real_demand n commodity_type
             (nation_cf w real_demand n commodity_type + amount) w in
  commodity_set (demand_by_category reason) commodity_type
    (commodity_f w (demand_by_category reason) commodity_type + amount) w.

Definition register_intermediate_demand (w : world) (n : nation_id)
  (commodity_type : commodity_id) (amount : R) (reason : economy_reason)
  : world :=
  let w := register_demand w n commodity_type amount reason in
  let w := nation_cset intermediate_demand n commodity_type
             (nation_cf w intermediate_demand n commodity_type + amount) w in
  let price := commodity_f w current_price commodity_type in
  let sat := nation_cf w demand_satisfaction n commodity_type in
  nation_set gdp n (nation_f w gdp n - amount * price * sat) w.

(** ** Loans (lines 48-80) *)

Definition can_take_loans (w : world) (n : nation_id) : bool :=
  if (negb (nation_b w is_player_controlled n)
      || negb (nation_b w is_debt_spending n))%bool then false
  else
    let last_br := nation_bankrupt_until w n in
    if (negb (Z.eqb last_br 0)
        && Z.ltb (current_date (env w)) last_br)%bool then false
    else true.

Definition interest_payment (w : world) (n : nation_id) : R :=
  let debt := nation_cf w stockpiles n money in
  if Rge_dec debt 0 then 0
  else
    - debt
    * fmax 0.01
        ((nation_f w (modifier_values national_mod_offsets.loan_interest) n
          + 1) * loan_base_interest (defs (env w)))
    / 30.

Definition max_loan (w : world) (n : nation_id) : R :=
  let mod_ :=
    nation_f w (modifier_values national_mod_offsets.max_loan_modifier) n
    + 1 in
  let total_tax_base :=
    nation_f w total_rich_income n + nation_f w total_middle_income n
    + nation_f w total_poor_income n in
  fmax 0 (total_tax_base * mod_).

(** ** Tariffs and the price of the global pool (lines 860-874) *)

Definition effective_tariff_rate (w : world) (n : nation_id) : R :=
  let tariff_efficiency := nation_tariff_efficiency (env w) n in
  tariff_efficiency * IZR (nation_i (env w) tariffs n) / 100.

Definition global_market_price_multiplier (w : world) (n : nation_id) : R :=
  let central_ports_ := nation_i (env w) central_ports n in
  if Z.ltb 0 central_ports_ then
    effective_tariff_rate w n
    + IZR (nation_i (env w) central_blockaded n) / IZR central_ports_
    + 1
  else effective_tariff_rate w n + 1.

(** ** Effective prices (lines 2846-2896) *)

Definition domestic_supply_of (w : world) (n : nation_id) (c : commodity_id)
  : R :=
  nation_cf w domestic_market_pool n c
  + (match nation_in_sphere_of (env w) n with
     | Some sl => nation_cf w domestic_market_pool sl c
     | None => 0
     end)
  + (if nation_drawing_on_stockpiles (env w) n c
     then nation_cf w stockpiles n c else 0).

Definition effective_price_of (w : world) (n : nation_id) (c : commodity_id)
  : R :=
  let global_price_multiplier := global_market_price_multiplier w n in
  let domestic_supply := domestic_supply_of w n c in
  let global_supply := commodity_f w global_market_pool c in
  let last_demand := nation_cf w real_demand n c in
  let base_price := commodity_f w current_price c in
  if Rge_dec global_price_multiplier 1 then (* prefer domestic *)
    if Rle_dec last_demand domestic_supply then base_price
    else if Rle_dec last_demand (domestic_supply + global_supply) then
      let domestic_satisfiable_fraction := domestic_supply / last_demand in
      base_price * domestic_satisfiable_fraction
      + base_price * (1 - domestic_satisfiable_fraction)
        * global_price_multiplier
    else if Rgt_dec (domestic_supply + global_supply) 0 then
      let domestic_satisfiable_fraction :=
        domestic_supply / (domestic_supply + global_supply) in
      base_price * domestic_satisfiable_fraction
      + base_price * (1 - domestic_satisfiable_fraction)
        * global_price_multiplier
    else base_price * global_price_multiplier
  else (* prefer global *)
    if Rle_dec last_demand global_supply then base_price
    else if Rle_dec last_demand (domestic_supply + global_supply) then
      let global_satisfiable_fraction := global_supply / last_demand in
      base_price * global_satisfiable_fraction * global_price_multiplier
      + base_price * (1 - global_satisfiable_fraction)
    else if Rgt_dec (domestic_supply + global_supply) 0 then
      let global_satisfiable_fraction :=
        global_supply / (domestic_supply + global_supply) in
      base_price * global_satisfiable_fraction * global_price_multiplier
      + base_price * (1 - global_satisfiable_fraction)
    else base_price.

Definition populate_effective_prices (w : world) (n : nation_id) : world :=
  fold_left (fun w c =>
      nation_cset effective_prices n c (effective_price_of w n c) w)
    (all_commodities w) w.

(** ** The cost of a nation's full spending (lines 2223-2336) *)

(** [kf && nation_get_active_building(n, kf)] is the table
    [nation_active_key_factory]. *)
Definition pays_overseas_penalty (w : world) (n : nation_id)
  (cid : commodity_id) : bool :=
  (commodity_b (env w) overseas_penalty cid
   && (commodity_b (env w) is_available_from_start cid
       || nation_active_key_factory (env w) n cid))%bool.

Definition overseas_factor_of (w : world) (n : nation_id) : R :=
  province_overseas_penalty (defs (env w))
  * IZR (nation_i (env w) owned_province_count n
         - nation_i (env w) central_province_count n).

Definition stockpile_refill_wanted (w : world) (n : nation_id)
  (cid : commodity_id) : bool :=
  let difference :=
    nation_cf w stockpile_targets n cid - nation_cf w stockpiles n cid in
  if Rgt_dec difference 0
  then negb (nation_drawing_on_stockpiles (env w) n cid) else false.

(** The body of the loop over pop types (lines 2291-2331). *)
Definition pop_type_spending (w : world) (n : nation_id)
  (a_spending s_spending e_spending m_spending p_level unemp_level : R)
  (total : R) (pt : pop_type_id) : R :=
  let scaling := alice_needs_scaling_factor (defs (env w)) in
  let adj_pop_of_type := nation_ptf (env w) demographics_key n pt / scaling in
  if Rle_dec adj_pop_of_type 0 then total
  else
    let ln_costs := nation_ptf (env w) life_needs_costs n pt in
    let en_costs := nation_ptf (env w) everyday_needs_costs n pt in
    let lx_costs := nation_ptf (env w) luxury_needs_costs n pt in
    let total :=
      match pop_type_life_needs_income_type (env w) pt with
      | income_administration => total + a_spending * adj_pop_of_type * ln_costs
      | income_education => total + e_spending * adj_pop_of_type * ln_costs
      | income_military => total + m_spending * adj_pop_of_type * ln_costs
      | income_other =>
          let total :=
            total + s_spending * adj_pop_of_type * p_level * ln_costs in
          if pop_type_has_unemployment (env w) pt then
            let emp :=
              nation_ptf (env w) demographics_employment_key n pt / scaling in
            total
            + s_spending * (adj_pop_of_type - emp) * unemp_level * ln_costs
          else total
      end in
    let total :=
      match pop_type_everyday_needs_income_type (env w) pt with
      | income_administration => total + a_spending * adj_pop_of_type * en_costs
      | income_education => total + e_spending * adj_pop_of_type * en_costs
      | income_military => total + m_spending * adj_pop_of_type * en_costs
      | income_other => total
      end in
    match pop_type_luxury_needs_income_type (env w) pt with
    | income_administration => total + a_spending * adj_pop_of_type * lx_costs
    | income_education => total + e_spending * adj_pop_of_type * lx_costs
    | income_military => total + m_spending * adj_pop_of_type * lx_costs
    | income_other => total
    end.

(** [full_spending_cost] returns the total and records the military part
    in [maximum_military_costs]. *)
Definition full_spending_cost (w : world) (n : nation_id) : R * world :=
  let e := env w in
  let l_spending := IZR (nation_i e land_spending n) / 100 in
  let n_spending := IZR (nation_i e naval_spending n) / 100 in
  let c_spending := IZR (nation_i e construction_spending n) / 100 in
  let o_spending := IZR (nation_i e overseas_spending n) / 100 in
  let total :=
    fold_left (fun total cid =>
        total + nation_cf w army_demand n cid * l_spending
                * nation_cf w effective_prices n cid)
      (traded_commodities w) 0 in
  let total :=
    fold_left (fun total cid =>
        total + nation_cf w navy_demand n cid * n_spending
                * nation_cf w effective_prices n cid)
      (traded_commodities w) total in
  let military_total := total in
  let w' := nation_set maximum_military_costs n military_total w in
  let total :=
    fold_left (fun total cid =>
        total + nation_cf w construction_demand n cid * c_spending
                * nation_cf w effective_prices n cid)
      (traded_commodities w) total in
  let total :=
    fold_left (fun total cid =>
        let difference :=
          nation_cf w stockpile_targets n cid - nation_cf w stockpiles n cid in
        if stockpile_refill_wanted w n cid
        then total + difference * nation_cf w effective_prices n cid
        else total)
      (traded_commodities w) total in
  let overseas_factor := overseas_factor_of w n in
  let total :=
    if Rgt_dec overseas_factor 0 then
      fold_left (fun total cid =>
          if pays_overseas_penalty w n cid
          then total + overseas_factor * nation_cf w effective_prices n cid
                       * o_spending
          else total)
        (traded_commodities w) total
    else total in
  let a_spending :=
    IZR (nation_i e administrative_spending n) / 100
    * IZR (nation_i e administrative_spending n) / 100 in
  let s_spending :=
    nation_f w administrative_efficiency n
    * IZR (nation_i e social_spending n) / 100 in
  let e_spending :=
    IZR (nation_i e education_spending n)
    * IZR (nation_i e education_spending n) / 100 / 100 in
  let m_spending :=
    IZR (nation_i e military_spending n)
    * IZR (nation_i e military_spending n) / 100 / 100 in
  let p_level :=
    nation_f w (modifier_values national_mod_offsets.pension_level) n in
  let unemp_level :=
    nation_f w (modifier_values national_mod_offsets.unemployment_benefit) n
  in
  let di_spending :=
    IZR (nation_i e domestic_investment_spending n)
    * IZR (nation_i e domestic_investment_spending n) / 100 / 100 in
  let total :=
    total
    + alice_domestic_investment_multiplier (defs e) * di_spending
      * (nation_ptf e demographics_key n (capitalists (culture e))
         * nation_ptf e luxury_needs_costs n (capitalists (culture e))
         + nation_ptf e demographics_key n (aristocrat (culture e))
           * nation_ptf e luxury_needs_costs n (aristocrat (culture e)))
      / alice_needs_scaling_factor (defs e) in
  let total :=
    fold_left
      (pop_type_spending w n a_spending s_spending e_spending m_spending
         p_level unemp_level)
      (all_pop_types w) total in
  (total, w').

Definition full_private_investment_cost (w : world) (n : nation_id) : R :=
  fold_left (fun total cid =>
      total + nation_cf w private_construction_demand n cid
              * nation_cf w effective_prices n cid)
    (traded_commodities w) 0.

(** ** Registering the scaled national demand (lines 2383-2423) *)

Definition update_national_consumption (w : world) (n : nation_id)
  (spending_scale private_investment_scale : R) : world :=
  let e := env w in
  let ids := traded_commodities w in
  let l_spending := IZR (nation_i e land_spending n) / 100 in
  let n_spending := IZR (nation_i e naval_spending n) / 100 in
  let c_spending := IZR (nation_i e construction_spending n) / 100 in
  let o_spending := IZR (nation_i e overseas_spending n) / 100 in
  let w := fold_left (fun w cid =>
      register_demand w n cid
        (nation_cf w army_demand n cid * l_spending * spending_scale)
        reason_nation) ids w in
  let w := fold_left (fun w cid =>
      register_demand w n cid
        (nation_cf w navy_demand n cid * n_spending * spending_scale)
        reason_nation) ids w in
  let w := fold_left (fun w cid =>
      register_demand w n cid
        (nation_cf w construction_demand n cid * c_spending * spending_scale)
        reason_construction) ids w in
  let w := fold_left (fun w cid =>
      register_demand w n cid
        (nation_cf w private_construction_demand n cid
         * private_investment_scale)
        reason_construction) ids w in
  let w := fold_left (fun w cid =>
      let difference :=
        nation_cf w stockpile_targets n cid - nation_cf w stockpiles n cid in
      if stockpile_refill_wanted w n cid
      then register_demand w n cid (difference * spending_scale)
             reason_stockpile
      else w) ids w in
  let overseas_factor := overseas_factor_of w n in
  if Rgt_dec overseas_factor 0 then
    fold_left (fun w cid =>
        if pays_overseas_penalty w n cid
        then register_demand w n cid
               (overseas_factor * spending_scale * o_spending)
               reason_overseas_penalty
        else w) ids w
  else w.

(** ** The budget of the day ([daily_update], lines 3244-3283) *)

(** Step 2 of the block: the budget and the spending scale, from the total
    cost, once interest is paid. *)
Definition budget_and_scale (w : world) (n : nation_id) (total : R) : R * R :=
  if nation_b w is_player_controlled n then
    if can_take_loans w n then (total, 1)
    else
      let budget := fmax 0 (nation_cf w stockpiles n money) in
      (budget,
       if Rlt_dec total 0.001 then 1
       else if Rle_dec total budget then 1 else budget / total)
  else
    let budget := fmax 0 (nation_cf w stockpiles n money) in
    (budget,
     if Rlt_dec total 0.001 then 1
     else if Rle_dec total budget then 1 else budget / total).

Definition update_national_spending (w : world) (n : nation_id) : world :=
  let '(total, w) := full_spending_cost w n in
  let w :=
    if nation_b w is_player_controlled n then
      nation_cset stockpiles n money
        (nation_cf w stockpiles n money - interest_payment w n) w
    else w in
  let '(budget, spending_scale) := budget_and_scale w n total in
  let w :=
    nation_cset stockpiles n money
      (nation_cf w stockpiles n money - fmin budget (total * spending_scale))
      w in
  let w := nation_set spending_level n spending_scale w in
  let pi_total := full_private_investment_cost w n in
  let pi_budget := nation_f w private_investment n in
  let pi_scale :=
    if Rle_dec pi_total pi_budget then 1 else pi_budget / pi_total in
  let w := nation_set private_investment_effective_fraction n pi_scale w in
  let w := nation_set private_investment n (fmax 0 (pi_budget - pi_total)) w in
  update_national_consumption w n spending_scale pi_scale.

(** ** Market clearing ([daily_update], lines 3289-3336) *)

(** What one nation buys of one commodity; [sl] is the nation's sphere
    leader and [global_price_multiplier] was computed before the loop. *)
Definition clear_commodity (n : nation_id) (sl : option nation_id)
  (global_price_multiplier : R) (w : world) (c : commodity_id) : world :=
  let dom_pool := nation_cf w domestic_market_pool n c in
  let sl_pool :=
    match sl with
    | Some l => nation_cf w domestic_market_pool l c
    | None => 0
    end in
  let drawing := nation_drawing_on_stockpiles (env w) n c in
  let sp_pool := if drawing then nation_cf w stockpiles n c else 0 in
  let wm_pool := commodity_f w global_market_pool c in
  let total_supply := dom_pool + sl_pool + sp_pool + wm_pool in
  let rd := nation_cf w real_demand n c in
  let old_sat := nation_cf w demand_satisfaction n c in
  let new_sat := if Rgt_dec rd 0.0001 then total_supply / rd
                 else total_supply in
  let delay := alice_sat_delay_factor (defs (env w)) in
  let adj_sat := old_sat * delay + new_sat * (1 - delay) in
  let w := nation_cset demand_satisfaction n c (fmin 1 adj_sat) w in
  let w := nation_cset direct_demand_satisfaction n c (fmin 1 new_sat) w in
  if Rge_dec global_price_multiplier 1 then (* prefer domestic *)
    let w := nation_cset domestic_market_pool n c (fmax 0 (dom_pool - rd)) w in
    let rd := fmax (rd - dom_pool) 0 in
    let '(w, rd) :=
      match sl with
      | Some l =>
          (nation_cset domestic_market_pool l c (fmax 0 (sl_pool - rd)) w,
           fmax (rd - sl_pool) 0)
      | None => (w, rd)
      end in
    let '(w, rd) :=
      if drawing then
        (nation_cset stockpiles n c (fmax 0 (sp_pool - rd)) w,
         fmax (rd - sp_pool) 0)
      else (w, rd) in
    let w := commodity_set global_market_pool c (fmax 0 (wm_pool - rd)) w in
    nation_cset imports n c (fmin wm_pool rd) w
  else
    let w := nation_cset imports n c (fmin wm_pool rd) w in
    let w := commodity_set global_market_pool c (fmax 0 (wm_pool - rd)) w in
    let rd := fmax (rd - wm_pool) 0 in
    let w := nation_cset domestic_market_pool n c (fmax 0 (dom_pool - rd)) w in
    let rd := fmax (rd - dom_pool) 0 in
    let '(w, rd) :=
      match sl with
      | Some l =>
          (nation_cset domestic_market_pool l c (fmax 0 (sl_pool - rd)) w,
           fmax (rd - sl_pool) 0)
      | None => (w, rd)
      end in
    if drawing then nation_cset stockpiles n c (fmax 0 (sp_pool - rd)) w
    else w.

Definition clear_markets (w : world) (n : nation_id) : world :=
  let global_price_multiplier := global_market_price_multiplier w n in
  let sl := nation_in_sphere_of (env w) n in
  fold_left (clear_commodity n sl global_price_multiplier)
    (traded_commodities w) w.

(** ** Refunds for what could not be bought ([daily_update],
    lines 3481-3588) *)

(** The naval and land blocks: the refund and the effective spending. *)
Definition military_refund (w : world) (n : nation_id)
  (demand_fld : nation_commodity_float) (spending_level_ : R) (refund : R)
  : R * R :=
  let nations_commodity_spending := nation_f w spending_level n in
  let '(refund, total, max_sp) :=
    fold_left (fun '(refund, total, max_sp) c =>
        let sat := nation_cf w demand_satisfaction n c in
        let val := nation_cf w demand_fld n c in
        let delta :=
          val * (1 - sat) * nations_commodity_spending * spending_level_
          * commodity_f w current_price c in
        (refund + delta, total + val, max_sp + val * sat))
      (traded_commodities w) (refund, 0, 0) in
  let max_sp := if Rgt_dec total 0 then max_sp / total else max_sp in
  (refund, nations_commodity_spending * max_sp * spending_level_).

Definition construction_effective_spending (w : world) (n : nation_id) : R :=
  let nations_commodity_spending := nation_f w spending_level n in
  let spending_level_ := IZR (nation_i (env w) construction_spending n) / 100
  in
  let '(total, max_sp) :=
    fold_left (fun '(total, max_sp) c =>
        let sat := nation_cf w demand_satisfaction n c in
        let val := nation_cf w construction_demand n c in
        (total + val, max_sp + val * sat))
      (traded_commodities w) (0, 0) in
  let max_sp := if Rgt_dec total 0 then max_sp / total else max_sp in
  nations_commodity_spending * max_sp * spending_level_.

(** Filling the stockpiles (lines 3541-3555): the body of the loop, on the
    world and the local [refund], and the loop. *)
Definition fill_stockpile (n : nation_id) (nations_commodity_spending : R)
  (st : world * R) (c : commodity_id) : world * R :=
  let '(w, refund) := st in
  let difference :=
    nation_cf w stockpile_targets n c - nation_cf w stockpiles n c in
  if stockpile_refill_wanted w n c then
    let sat := nation_cf w direct_demand_satisfaction n c in
    let w :=
      nation_cset stockpiles n c
        (nation_cf w stockpiles n c
         + difference * nations_commodity_spending * sat) w in
    let delta :=
      difference * (1 - sat) * nations_commodity_spending
      * commodity_f w current_price c in
    (w, refund + delta)
  else (w, refund).

Definition fill_stockpiles (w : world) (n : nation_id) (refund : R)
  : world * R :=
  let nations_commodity_spending := nation_f w spending_level n in
  fold_left (fill_stockpile n nations_commodity_spending)
    (traded_commodities w) (w, refund).

(** The overseas penalty (lines 3561-3585). *)
Definition overseas_refund (w : world) (n : nation_id) (refund : R)
  : world * R :=
  let nations_commodity_spending := nation_f w spending_level n in
  let overseas_factor := overseas_factor_of w n in
  let overseas_budget := IZR (nation_i (env w) overseas_spending n) / 100 in
  if Rgt_dec overseas_factor 0 then
    let '(refund, overseas_budget_satisfaction) :=
      fold_left (fun '(refund, overseas_budget_satisfaction) c =>
          if pays_overseas_penalty w n c then
            let sat := nation_cf w demand_satisfaction n c in
            let price := commodity_f w current_price c in
            let delta :=
              overseas_factor * (1 - sat) * nations_commodity_spending
              * price in
            (refund + delta, fmin sat overseas_budget_satisfaction)
          else (refund, overseas_budget_satisfaction))
        (traded_commodities w) (refund, 1) in
    (nation_set overseas_penalty_level n
       (overseas_budget * overseas_budget_satisfaction) w, refund)
  else (nation_set overseas_penalty_level n 1 w, refund).

(** The block is part of the per-nation pass that starts at line 3427,
    which leaves a nation without provinces alone (line 3430). *)
Definition refund_unsatisfied_spending (w : world) (n : nation_id) : world :=
  if Z.eqb (nation_i (env w) owned_province_count n) 0 then w else
  let e := env w in
  let refund := 0 in
  let '(refund, eff_naval) :=
    military_refund w n navy_demand (IZR (nation_i e naval_spending n) / 100)
      refund in
  let w := nation_set effective_naval_spending n eff_naval w in
  let '(refund, eff_land) :=
    military_refund w n army_demand (IZR (nation_i e land_spending n) / 100)
      refund in
  let w := nation_set effective_land_spending n eff_land w in
  let w :=
    nation_set effective_construction_spending n
      (construction_effective_spending w n) w in
  let '(w, refund) := fill_stockpiles w n refund in
  let '(w, refund) := overseas_refund w n refund in
  nation_cset stockpiles n money (nation_cf w stockpiles n money + refund) w.

(** The start of [advance_construction] (lines 2641-2659): the refund for
    construction goods and the scaling of the construction demand.  The
    rest of the function moves the scaled demand into the ledgers of the
    projects and does not touch the treasury. *)
Definition scale_construction_demand (n : nation_id)
  (c_spending p_spending : R) (st : world * R) (c : commodity_id)
  : world * R :=
  let '(w, refund_amount) := st in
  let d_sat := nation_cf w demand_satisfaction n c in
  let nat_demand := nation_cf w construction_demand n c in
  let refund_amount :=
    refund_amount
    + nat_demand * c_spending * (1 - d_sat) * commodity_f w current_price c in
  let w :=
    nation_cset construction_demand n c (nat_demand * (c_spending * d_sat)) w
  in
  let w :=
    nation_cset private_construction_demand n c
      (nation_cf w private_construction_demand n c * (p_spending * d_sat)) w
  in
  (w, refund_amount).

Definition advance_construction_refund (w : world) (n : nation_id) : world :=
  let c_spending :=
    nation_f w spending_level n
    * IZR (nation_i (env w) construction_spending n) / 100 in
  let p_spending := nation_f w private_investment_effective_fraction n in
  let '(w, refund_amount) :=
    fold_left (scale_construction_demand n c_spending p_spending)
      (traded_commodities w) (w, 0) in
  nation_cset stockpiles n money
    (nation_cf w stockpiles n money + refund_amount) w.

(** ** Bankruptcy (lines 4060-4070 and 5387-5429) *)

Definition fire_to_great_nations (ev : default_event) (n : nation_id)
  (w : world) : world :=
  fold_left (fun w gn =>
      match gn with
      | Some g => if Nat.eqb g n then w else emit (fire_fixed_event ev g n) w
      | None => w
      end)
    (great_nations (env w)) w.

Definition go_bankrupt (w : world) (n : nation_id) : world :=
  let debt := nation_cf w stockpiles n money in
  let existing_br := nation_bankrupt_until w n in
  let today := current_date (env w) in
  let w :=
    if (negb (Z.eqb existing_br 0) && Z.ltb today existing_br)%bool then
      fire_to_great_nations on_debtor_default_second n w
    else if Rge_dec debt (- small_debt_limit (defs (env w))) then
      fire_to_great_nations on_debtor_default_small n w
    else fire_to_great_nations on_debtor_default n w in
  let w :=
    emit (add_modifier_to_nation n in_bankrupcy
            (today + to_int32 (bankrupcy_duration (defs (env w)) * 365))%Z) w
  in
  let w :=
    emit (add_modifier_to_nation n bad_debter
            (today + to_int32
                       (bankruptcy_external_loan_years (defs (env w)) * 365))%Z)
      w in
  let w := nation_cset stockpiles n money 0 w in
  let w := nation_bset is_debt_spending n false w in
  let w :=
    nation_set_bankrupt_until n
      (today + to_int32 (bankrupcy_duration (defs (env w)) * 365))%Z w in
  emit (post_bankruptcy_message n) w.

(** The body of the loop over nations (lines 4063-4070). *)
Definition check_bankruptcy (w : world) (n : nation_id) : world :=
  let m := nation_cf w stockpiles n money in
  if Rlt_dec m 0 then
    if Rlt_dec m (- max_loan w n) then go_bankrupt w n else w
  else w.

Definition bankruptcy_pass (w : world) : world :=
  fold_left check_bankruptcy (all_nations w) w.

(** ** RGO sizes and employment (lines 903-960, 1300-1339, 1792-1805) *)

Definition subsistence_size (w : world) (p : province_id) : R :=
  let rgo_ownership :=
    province_f w landowners_share p + province_f w capitalists_share p in
  province_f w rgo_size p * (1 - rgo_ownership) * 2.

Definition rgo_effective_size (w : world) (n : nation_id) (p : province_id)
  (c : commodity_id) : R :=
  let e := env w in
  let is_mine_ := commodity_b e is_mine c in
  let base :=
    if Nat.eqb (province_rgo e p) c
    then alice_base_rgo_employment_bonus (defs e)
         / alice_rgo_per_size_employment (defs e)
    else 0 in
  let rgo_ownership :=
    province_f w landowners_share p + province_f w capitalists_share p in
  let sz := province_cf w rgo_max_size_per_good p c * rgo_ownership + base in
  let pmod :=
    province_f w
      (province_modifier_values
         (if is_mine_ then provincial_mod_offsets.mine_rgo_size
          else provincial_mod_offsets.farm_rgo_size)) p in
  let nmod :=
    nation_f w
      (modifier_values
         (if is_mine_ then national_mod_offsets.mine_rgo_size
          else national_mod_offsets.farm_rgo_size)) n in
  let specific_pmod := nation_cf w rgo_size_bonus n c in
  let bonus := pmod + nmod + specific_pmod + 1 in
  fmax (sz * bonus) 0.

Definition subsistence_max_pseudoemployment (w : world) (n : nation_id)
  (p : province_id) : R :=
  alice_rgo_per_size_employment (defs (env w)) * subsistence_size w p * 1.1.

Definition rgo_total_employment (w : world) (n : nation_id) (p : province_id)
  : R :=
  accumulate (all_commodities w) (fun c =>
    province_cf w rgo_employment_per_good p c).

Definition rgo_max_employment (w : world) (n : nation_id) (p : province_id)
  (c : commodity_id) : R :=
  alice_rgo_per_size_employment (defs (env w)) * rgo_effective_size w n p c.

Definition rgo_efficiency (w : world) (n : nation_id) (p : province_id)
  (c : commodity_id) : R :=
  let e := env w in
  let is_mine_ := commodity_b e is_mine c in
  let main_rgo :=
    if Nat.eqb (province_rgo e p) c
    then alice_base_rgo_efficiency_bonus (defs e) else 1 in
  let base_amount := commodity_f w rgo_amount c in
  let throughput :=
    1
    + province_f w
        (province_modifier_values provincial_mod_offsets.local_rgo_throughput)
        p
    + nation_f w (modifier_values national_mod_offsets.rgo_throughput) n
    + province_f w
        (province_modifier_values
           (if is_mine_ then provincial_mod_offsets.mine_rgo_eff
            else provincial_mod_offsets.farm_rgo_eff)) p
    + nation_f w
        (modifier_values
           (if is_mine_ then national_mod_offsets.mine_rgo_eff
            else national_mod_offsets.farm_rgo_eff)) n in
  let saturation :=
    province_cf w rgo_employment_per_good p c
    / (rgo_max_employment w n p c + 1) in
  base_amount * main_rgo * (1 + 1 * (1 - saturation)) * fmax 0.5 throughput
  * alice_rgo_boost (defs e)
  * fmax 0.5
      (1
       + province_f w
           (province_modifier_values provincial_mod_offsets.local_rgo_output)
           p
       + nation_f w (modifier_values national_mod_offsets.rgo_output) n
       + nation_cf w rgo_goods_output n c).

Definition rgo_expected_worker_norm_profit (w : world) (p : province_id)
  (n : nation_id) (c : commodity_id) : R :=
  let efficiency := rgo_efficiency w n p c in
  let price := commodity_f w current_price c in
  let consumed_ratio :=
    fmin 1 ((commodity_f w total_consumption c + 0.0001)
            / (commodity_f w total_production c + 0.0001)) in
  let consumed_ratio :=
    if commodity_b (env w) money_rgo c then 1 else consumed_ratio in
  consumed_ratio * efficiency * price
  / alice_rgo_per_size_employment (defs (env w)).

(** ** The RGO employment allocator (lines 1014-1121) *)

Record commodity_profit_holder := {
  profit : R;
  c : commodity_id
}.

(** [std::sort] with the comparator [a.profit > b.profit] leaves the order
    of equal profits open; insertion in front of the first entry that is
    not more profitable is one of its outcomes. *)
Fixpoint insert_by_profit (x : commodity_profit_holder)
  (l : list commodity_profit_holder) : list commodity_profit_holder :=
  match l with
  | [] => [x]
  | y :: l' =>
      if Rgt_dec (profit y) (profit x) then y :: insert_by_profit x l'
      else x :: y :: l'
  end.

Definition sort_by_profit (l : list commodity_profit_holder)
  : list commodity_profit_holder :=
  fold_right insert_by_profit [] l.

(** The first loop over commodities (lines 1056-1064): the goods that the
    province can employ workers for, and no employment for the others. *)
Definition collect_rgo_good (owner : nation_id) (p : province_id)
  (st : world * list commodity_profit_holder) (c0 : commodity_id)
  : world * list commodity_profit_holder :=
  let '(w, ordered_list) := st in
  if Rgt_dec (rgo_max_employment w owner p c0) 0 then
    (w, ordered_list
        ++ [ {| profit := rgo_expected_worker_norm_profit w p owner c0;
                c := c0 |} ])
  else (province_cset rgo_employment_per_good p c0 0 w, ordered_list).

Definition collect_rgo_goods (owner : nation_id) (p : province_id)
  (w : world) : world * list commodity_profit_holder :=
  fold_left (collect_rgo_good owner p) (all_commodities w) (w, []).

(** The body of the distribution loop (lines 1077-1091); the state is the
    world and the locals [total_workforce], [max_employment_total] and
    [total_employed]. *)
Definition assign_rgo_workers (owner : nation_id) (p : province_id)
  (st : world * R * R * R) (h : commodity_profit_holder)
  : world * R * R * R :=
  let '(w, total_workforce, max_employment_total, total_employed) := st in
  let speed := 0.20 in
  let max_employment := rgo_max_employment w owner p (c h) in
  let max_employment_total := max_employment_total + max_employment in
  let target_workforce :=
    fmin (province_cf w rgo_target_employment_per_good p (c h))
      total_workforce in
  let current_workforce := province_cf w rgo_employment_per_good p (c h) in
  let new_employment :=
    fmin (current_workforce * (1 - speed) + target_workforce * speed)
      total_workforce in
  let total_workforce := total_workforce - new_employment in
  let new_employment := clamp new_employment 0 max_employment in
  let total_employed := total_employed + new_employment in
  (province_cset rgo_employment_per_good p (c h) new_employment w,
   total_workforce, max_employment_total, total_employed).

Definition worker_pool_of (w : world) (p : province_id) : R :=
  fold_left (fun acc wt => acc + province_demographics (env w) p wt)
    (rgo_workers (culture (env w))) 0.

Definition slave_pool_of (w : world) (p : province_id) : R :=
  province_demographics (env w) p (slaves (culture (env w))).

(** The eligible labor of a province: its RGO workers and its slaves. *)
Definition labor_pool_of (w : world) (p : province_id) : R :=
  worker_pool_of w p + slave_pool_of w p.

(** The body of the loop over provinces (lines 1024-1119). *)
Definition update_province_rgo_employment (w : world) (p : province_id)
  : world :=
  let e := env w in
  let owner := province_owner e p in
  let current_employment :=
    accumulate (all_commodities w) (fun c =>
      province_cf w rgo_employment_per_good p c)
    + province_f w subsistence_employment p in
  let worker_pool := worker_pool_of w p in
  let slave_pool := slave_pool_of w p in
  let labor_pool := worker_pool + slave_pool in
  let '(w, ordered_list) := collect_rgo_goods owner p w in
  let ordered_list := sort_by_profit ordered_list in
  let '(w, total_workforce, max_employment_total, total_employed) :=
    fold_left (assign_rgo_workers owner p) ordered_list
      (w, labor_pool, 0, 0) in
  let subsistence :=
    fmin (subsistence_max_pseudoemployment w owner p) total_workforce in
  let total_workforce := total_workforce - subsistence in
  let total_employed := total_employed + subsistence in
  let w := province_set subsistence_employment p subsistence w in
  let employment_ratio :=
    if Rgt_dec max_employment_total 1
    then total_employed / (max_employment_total + 1) else 1 in
  let w := province_set rgo_employment p employment_ratio w in
  let slave_fraction :=
    if Rgt_dec slave_pool current_employment
    then current_employment / slave_pool else 1 in
  let free_fraction :=
    fmax 0
      (if Rgt_dec worker_pool (current_employment - slave_pool)
       then (current_employment - slave_pool) / fmax worker_pool 0.01
       else 1) in
  fold_left (fun w pop =>
      let pt := pop_poptype e pop in
      if Nat.eqb pt (slaves (culture e)) then
        set_raw_employment pop slave_fraction w
      else if pop_type_is_paid_rgo_worker e pt then
        set_raw_employment pop free_fraction w
      else w)
    (province_pop_location e p) w.

(** [province_size] counts the land provinces, which come first. *)
Definition update_rgo_employment (w : world) : world :=
  fold_left update_province_rgo_employment (seq 0 (province_size (env w))) w.

(** ** Factories (lines 1123-1140, 1355-1534) *)

Definition factory_max_employment (w : world) (f : factory_id) : R :=
  alice_factory_per_level_employment (defs (env w))
  * INR (factory_level (env w) f).

Definition factory_input_total_cost (w : world) (n : nation_id)
  (fac_type : factory_type_id) : R :=
  fold_left (fun input_total '(commodity_type, amount) =>
      input_total + amount * nation_cf w effective_prices n commodity_type)
    (factory_type_inputs (env w) fac_type) 0.

Definition factory_min_input_available (w : world) (n : nation_id)
  (fac_type : factory_type_id) : R :=
  fold_left (fun min_input_available '(commodity_type, _) =>
      fmin min_input_available
        (nation_cf w demand_satisfaction n commodity_type))
    (factory_type_inputs (env w) fac_type) 1.

Definition factory_min_e_input_available (w : world) (n : nation_id)
  (fac_type : factory_type_id) : R :=
  fold_left (fun min_e_input_available '(commodity_type, _) =>
      fmin min_e_input_available
        (nation_cf w demand_satisfaction n commodity_type))
    (factory_type_efficiency_inputs (env w) fac_type) 1.

Definition factory_e_input_total_cost (w : world) (n : nation_id)
  (fac_type : factory_type_id) : R :=
  fold_left (fun e_input_total '(commodity_type, amount) =>
      e_input_total + amount * nation_cf w effective_prices n commodity_type)
    (factory_type_efficiency_inputs (env w) fac_type) 0.

Definition factory_input_multiplier (w : world) (fac : factory_id)
  (n : nation_id) (p : province_id) (s : state_instance_id) : R :=
  let e := env w in
  let total_workers := factory_max_employment w fac in
  let small_bound := alice_factory_per_level_employment (defs e) * 5 in
  let small_size_effect :=
    if Rlt_dec total_workers small_bound
    then 0.5 + total_workers / small_bound * 0.5 else 1 in
  let total_state_pop := fmax 0.01 (state_demographics_total e s) in
  let capitalists_ := state_demographics e s (capitalists (culture e)) in
  let owner_fraction :=
    if Rgt_dec total_state_pop 0
    then fmin 0.05 (capitalists_ / total_state_pop) else 0 in
  small_size_effect
  * factory_f w triggered_modifiers fac
  * fmax 0.1
      (alice_inputs_base_factor (defs e)
       + province_f w
           (province_modifier_values provincial_mod_offsets.local_factory_input)
           p
       + nation_f w (modifier_values national_mod_offsets.factory_input) n
       + owner_fraction * -2.5).

Definition factory_throughput_multiplier (w : world)
  (fac_type : factory_type_id) (n : nation_id) (p : province_id)
  (s : state_instance_id) : R :=
  nation_cf w factory_goods_throughput n (factory_type_output (env w) fac_type)
  + province_f w
      (province_modifier_values
         provincial_mod_offsets.local_factory_throughput) p
  + nation_f w (modifier_values national_mod_offsets.factory_throughput) n
  + 1.

Definition factory_output_multiplier (w : world) (fac : factory_id)
  (n : nation_id) (p : province_id) : R :=
  let fac_type := factory_building_type (env w) fac in
  nation_cf w factory_goods_output n (factory_type_output (env w) fac_type)
  + province_f w
      (province_modifier_values provincial_mod_offsets.local_factory_output) p
  + nation_f w (modifier_values national_mod_offsets.factory_output) n
  + factory_f w secondary_employment fac
    * (1 - craftsmen_fraction (defs (env w))) * 1.5
  + 1.

Definition factory_max_production_scale (w : world) (fac : factory_id)
  (mobilization_impact : R) (occupied : bool) : R :=
  factory_f w primary_employment fac
  * INR (factory_level (env w) fac)
  * (if occupied then 0.1 else 1)
  * fmax 0 mobilization_impact.

(** [update_factory_scale] stores the new production scale and returns the
    effective one. *)
Definition update_factory_scale (w : world) (fac : factory_id)
  (max_production_scale raw_profit desired_raw_profit : R) : R * world :=
  let e := env w in
  let fac_type := factory_building_type e fac in
  let level := INR (factory_level e fac) in
  let total_workers := factory_max_employment w fac in
  let several_workers_scale := 10 / total_workers in
  let relative_production_amount :=
    factory_type_output_amount e fac_type
    / (commodity_f w total_production (factory_type_output e fac_type)
       + commodity_f w total_real_demand (factory_type_output e fac_type)
       + 10) in
  let relative_modifier := (1 / (relative_production_amount + 0.01)) / 1000 in
  if factory_b w subsidized fac then
    let new_production_scale :=
      fmin 1 (factory_f w production_scale fac
              + several_workers_scale * level * 10) in
    let w := factory_set production_scale fac new_production_scale w in
    (fmin (new_production_scale * level) max_production_scale, w)
  else
    let over_profit_ratio := raw_profit / (desired_raw_profit + 0.0001) - 1 in
    let under_profit_ratio :=
      desired_raw_profit / (raw_profit + 0.0001) - 1 in
    let speed_modifier := over_profit_ratio - under_profit_ratio in
    let speed :=
      production_scale_delta (defs e) * speed_modifier
      + several_workers_scale
        * (if Rgt_dec (raw_profit - desired_raw_profit) 0 then 1 else -1) in
    let speed := clamp speed (- relative_modifier) relative_modifier in
    let new_production_scale :=
      clamp (factory_f w production_scale fac + speed) 0 1 in
    let w := factory_set production_scale fac new_production_scale w in
    (fmin (new_production_scale * level) max_production_scale, w).

Definition factory_desired_raw_profit (w : world) (fac : factory_id)
  (spendings : R) : R :=
  spendings
  * (1.2 + factory_f w secondary_employment fac
           * INR (factory_level (env w) fac) / 150).

(** ** Factory consumption (lines 1536-1663) *)

(** The production of one filled level of the factory. *)
Definition factory_level_production (w : world) (f : factory_id)
  (n : nation_id) (p : province_id) (s : state_instance_id) : R :=
  let fac_type := factory_building_type (env w) f in
  let min_input_available := factory_min_input_available w n fac_type in
  let min_e_input_available := factory_min_e_input_available w n fac_type in
  let throughput_multiplier := factory_throughput_multiplier w fac_type n p s
  in
  let output_multiplier := factory_output_multiplier w f n p in
  factory_type_output_amount (env w) fac_type
  * (0.75 + 0.25 * min_e_input_available)
  * throughput_multiplier * output_multiplier * min_input_available.

(** The raw profit of one filled level of the factory. *)
Definition factory_level_profit (w : world) (f : factory_id)
  (n : nation_id) (p : province_id) (s : state_instance_id) : R :=
  factory_level_production w f n p s
  * commodity_f w current_price
      (factory_type_output (env w) (factory_building_type (env w) f)).

(** The spendings of one filled level of the factory. *)
Definition factory_level_spendings (w : world) (f : factory_id)
  (n : nation_id) (p : province_id) (s : state_instance_id)
  (expected_min_wage : R) : R :=
  let e := env w in
  let fac_type := factory_building_type e f in
  let input_total := factory_input_total_cost w n fac_type in
  let min_input_available := factory_min_input_available w n fac_type in
  let e_input_total := factory_e_input_total_cost w n fac_type in
  let min_e_input_available := factory_min_e_input_available w n fac_type in
  let input_multiplier := factory_input_multiplier w f n p s in
  let mfactor :=
    nation_f w (modifier_values national_mod_offsets.factory_maintenance) n
    + 1 in
  let throughput_multiplier := factory_throughput_multiplier w fac_type n p s
  in
  expected_min_wage
  * (alice_factory_per_level_employment (defs e)
     / alice_needs_scaling_factor (defs e))
  + input_multiplier * throughput_multiplier * input_total
    * min_input_available
  + input_multiplier * mfactor * e_input_total * min_e_input_available
    * min_input_available.

Definition update_single_factory_consumption (w : world) (f : factory_id)
  (n : nation_id) (p : province_id) (s : state_instance_id)
  (mobilization_impact expected_min_wage : R) (occupied : bool) : world :=
  let e := env w in
  let fac_type := factory_building_type e f in
  let max_production_scale :=
    factory_max_production_scale w f mobilization_impact occupied in
  let min_input_available := factory_min_input_available w n fac_type in
  let min_e_input_available := factory_min_e_input_available w n fac_type in
  let input_multiplier := factory_input_multiplier w f n p s in
  let mfactor :=
    nation_f w (modifier_values national_mod_offsets.factory_maintenance) n
    + 1 in
  let throughput_multiplier := factory_throughput_multiplier w fac_type n p s
  in
  let total_production_ := factory_level_production w f n p s in
  let profit_ := factory_level_profit w f n p s in
  let spendings := factory_level_spendings w f n p s expected_min_wage in
  let desired_profit := factory_desired_raw_profit w f spendings in
  let max_pure_profit := profit_ - spendings in
  let w :=
    factory_bset unprofitable f
      (if Rgt_dec max_pure_profit 0 then false else true) w in
  let '(effective_production_scale, w) :=
    update_factory_scale w f max_production_scale profit_ desired_profit in
  let input_scale :=
    input_multiplier * throughput_multiplier * effective_production_scale
    * (0.1 + min_input_available * 0.9) in
  let w :=
    fold_left (fun w '(commodity_type, amount) =>
        register_intermediate_demand w n commodity_type
          (input_scale * amount) reason_factory)
      (factory_type_inputs e fac_type) w in
  let w :=
    fold_left (fun w '(commodity_type, amount) =>
        register_intermediate_demand w n commodity_type
          (mfactor * input_scale * amount
           * (0.1 + min_e_input_available * 0.9)) reason_factory)
      (factory_type_efficiency_inputs e fac_type) w in
  let actual_production_ := total_production_ * effective_production_scale in
  let pure_profit := max_pure_profit * effective_production_scale in
  let w := factory_set actual_production f actual_production_ w in
  factory_set full_profit f pure_profit w.

(** [factory_is_profitable] (lines 1010-1012). *)
Definition factory_is_profitable (w : world) (f : factory_id) : bool :=
  (Bool.eqb (factory_b w unprofitable f) false
   || factory_b w subsidized f)%bool.

(** ** The specification's wording, for comparison with the code *)

Module Spec.

(** "oversupply/overdemand factors are clamp((supply/demand)-1, 0,
    max_slope) / the symmetric inverse, where max_slope =
    sqrt(|demand-supply|)+20.  Net speed = 0.05 x (overdemand-oversupply),
    scaled by price if price<1 else sqrt(price), applied additively, then
    price is clamped to [0.001, 100000]." *)
Definition adjusted_price (supply demand price : R) : R :=
  let max_slope := sqrt (Rabs (demand - supply)) + 20 in
  let oversupply := clamp (supply / demand - 1) 0 max_slope in
  let overdemand := clamp (demand / supply - 1) 0 max_slope in
  let speed := 0.05 * (overdemand - oversupply) in
  let speed :=
    if Rlt_dec price 1 then speed * price else speed * sqrt price in
  clamp (price + speed) 0.001 100000.

(** "A nation's spending_scale = 1 if affordable or borrowing is
    permitted, else treasury / total_cost." *)
Definition spending_scale (treasury total_cost : R) (borrowing : bool) : R :=
  if borrowing then 1
  else if Rle_dec total_cost treasury then 1
  else treasury / total_cost.

(** Consuming a demand from pools in a fixed order: each pool gives what
    is still demanded, as far as it holds it.  The result lists what is
    left in each pool. *)
Fixpoint drain (pools : list R) (rd : R) : list R :=
  match pools with
  | [] => []
  | q :: rest => fmax 0 (q - rd) :: drain rest (fmax (rd - q) 0)
  end.

(** "consumes domestic pool -> sphere-leader pool -> stockpile -> global
    pool in a fixed priority order (or the reverse order if tariffs make
    the global pool cheaper)".  The result is what is left in the
    domestic pool, the sphere leader's pool, the stockpile and the global
    pool, in this order. *)
Definition clearing (multiplier dom sl sp wm rd : R) : list R :=
  if Rge_dec multiplier 1 then drain [dom; sl; sp; wm] rd
  else rev (drain [wm; sp; sl; dom] rd).

(** "a price multiplier ... applied to whichever pool is not preferred
    ...  If demand fits entirely within the preferred pool, effective
    price = base price; otherwise it blends base price and
    multiplier-inflated price proportionally to the fraction unmet." *)
Definition effective_price (multiplier domestic_supply global_supply
  last_demand base_price : R) : R :=
  let preferred :=
    if Rge_dec multiplier 1 then domestic_supply else global_supply in
  if Rle_dec last_demand preferred then base_price
  else
    let unmet := (last_demand - preferred) / last_demand in
    base_price * (1 - unmet) + base_price * multiplier * unmet.

(** The amount deducted from the treasury for one category of goods and
    one commodity: the category's term of [full_spending_cost], scaled by
    the spending scale; and its part that bought nothing, "the unspent
    part of the amount that was deducted for it". *)
Definition deducted (w : world) (n : nation_id)
  (demand_fld : nation_commodity_float) (category_spending : R)
  (cid : commodity_id) : R :=
  nation_cf w demand_fld n cid * category_spending
  * nation_cf w effective_prices n cid * nation_f w spending_level n.

Definition unspent (w : world) (n : nation_id)
  (demand_fld : nation_commodity_float) (category_spending : R) : R :=
  accumulate (traded_commodities w) (fun cid =>
    deducted w n demand_fld category_spending cid
    * (1 - nation_cf w demand_satisfaction n cid)).

(** The share of a purchase that is paid at the price of the global
    pool, as the amended wording of the effective price has it: nothing
    while the demand fits in the preferred pool; else the part of the
    demand, or of the whole supply when it falls short of the demand,
    that the global pool provides. *)
Definition global_share (multiplier domestic_supply global_supply
  last_demand : R) : R :=
  if Rge_dec multiplier 1 then
    if Rle_dec last_demand domestic_supply then 0
    else if Rle_dec last_demand (domestic_supply + global_supply)
    then 1 - domestic_supply / last_demand
    else if Rgt_dec (domestic_supply + global_supply) 0
    then 1 - domestic_supply / (domestic_supply + global_supply)
    else 1
  else
    if Rle_dec last_demand global_supply then 0
    else if Rle_dec last_demand (domestic_supply + global_supply)
    then global_supply / last_demand
    else if Rgt_dec (domestic_supply + global_supply) 0
    then global_supply / (domestic_supply + global_supply)
    else 0.

(** The same for the refill of the stockpiles, whose term of
    [full_spending_cost] is the missing amount at the effective price;
    what it bought is measured by the direct satisfaction. *)
Definition unspent_refill (w : world) (n : nation_id) : R :=
  accumulate (traded_commodities w) (fun cid =>
    if stockpile_refill_wanted w n cid then
      (nation_cf w stockpile_targets n cid - nation_cf w stockpiles n cid)
      * nation_cf w effective_prices n cid * nation_f w spending_level n
      * (1 - nation_cf w direct_demand_satisfaction n cid)
    else 0).

End Spec.

(** ** Worlds for examples *)

Definition zero_defines : defines :=
  {| base_goods_demand := 1; alice_lf_needs_scale := 1;
     alice_ev_needs_scale := 1; alice_lx_needs_scale := 1;
     alice_sat_delay_factor := 0.5; alice_needs_scaling_factor := 1;
     alice_domestic_investment_multiplier := 1;
     alice_factory_per_level_employment := 1000;
     alice_inputs_base_factor := 1; alice_rgo_per_size_employment := 100;
     alice_base_rgo_employment_bonus := 0;
     alice_base_rgo_efficiency_bonus := 1; alice_rgo_boost := 1;
     province_overseas_penalty := 0; loan_base_interest := 0.02;
     small_debt_limit := 10; bankrupcy_duration := 3;
     bankruptcy_external_loan_years := 5; craftsmen_fraction := 0.8;
     production_scale_delta := 0.1 |}.

(** An environment with [nc] commodities (the first is money), one nation,
    one province with [workers] farmers, no sphere leader, and one factory
    type without inputs that makes commodity 1.  [drawing] tells whether the
    nation draws on its stockpiles and [ni] gives its integer settings. *)
Definition example_env (nc : nat) (drawing : bool) (ni : nation_int -> Z)
  (workers : R) : environment :=
  {| commodity_size := nc; nation_size := 1; pop_type_size := 0;
     province_size := 1; current_date := 1000; defs := zero_defines;
     culture := {| laborers := 0%nat; capitalists := 1%nat;
                   aristocrat := 2%nat; slaves := 3%nat;
                   rgo_workers := [4%nat] |};
     commodity_b := fun _ _ => false;
     nation_active_key_factory := fun _ _ => false;
     nation_drawing_on_stockpiles := fun _ _ => drawing;
     nation_i := fun fld _ => ni fld;
     nation_in_sphere_of := fun _ => None;
     nation_tariff_efficiency := fun _ => 1;
     nation_ptf := fun _ _ _ => 0;
     pop_type_cf := fun _ _ _ => 0;
     pop_type_life_needs_income_type := fun _ => income_other;
     pop_type_everyday_needs_income_type := fun _ => income_other;
     pop_type_luxury_needs_income_type := fun _ => income_other;
     pop_type_has_unemployment := fun _ => false;
     pop_type_is_paid_rgo_worker := fun _ => false;
     great_nations := [];
     province_owner := fun _ => 0%nat;
     province_rgo := fun _ => 1%nat;
     province_demographics := fun _ pt =>
       if Nat.eqb pt 4 then workers else 0;
     province_pop_location := fun _ => [];
     pop_poptype := fun _ => 0%nat;
     state_demographics_total := fun _ => 0;
     state_demographics := fun _ _ => 0;
     factory_building_type := fun _ => 0%nat;
     factory_level := fun _ => 1%nat;
     factory_type_output := fun _ => 1%nat;
     factory_type_output_amount := fun _ => 1;
     factory_type_inputs := fun _ => [];
     factory_type_efficiency_inputs := fun _ => [] |}.

Definition plain_env (nc : nat) : environment :=
  example_env nc false (fun _ => 0%Z) 0.

(** A world over an environment with every table at zero. *)
Definition blank_world (e : environment) : world :=
  {| env := e;
     commodity_f := fun _ _ => 0;
     nation_cf := fun _ _ _ => 0;
     nation_f := fun _ _ => 0;
     nation_b := fun _ _ => false;
     nation_bankrupt_until := fun _ => 0%Z;
     province_cf := fun _ _ _ => 0;
     province_f := fun _ _ => 0;
     pop_raw_employment := fun _ => 0;
     factory_f := fun _ _ => 0;
     factory_b := fun _ _ => false;
     effects := [] |}.

(** One nation that wants 50 units of commodity 1 for its army at price 1,
    with land spending at 100 percent: its full spending cost is 50. *)
Definition budget_world (treasury : R) (player : bool) : world :=
  {| env := example_env 2 false
              (fun fld => match fld with land_spending => 100%Z | _ => 0%Z end)
              0;
     commodity_f := fun _ _ => 0;
     nation_cf := fun fld _ cid =>
       match fld, cid with
       | stockpiles, O => treasury
       | army_demand, S O => 50
       | effective_prices, S O => 1
       | _, _ => 0
       end;
     nation_f := fun _ _ => 0;
     nation_b := fun fld _ =>
       match fld with is_player_controlled => player | _ => false end;
     nation_bankrupt_until := fun _ => 0%Z;
     province_cf := fun _ _ _ => 0;
     province_f := fun _ _ => 0;
     pop_raw_employment := fun _ => 0;
     factory_f := fun _ _ => 0;
     factory_b := fun _ _ => false;
     effects := [] |}.

(** A nation with tariffs of -50 percent that draws on its stockpiles:
    [dom] in its domestic pool of commodity 1, [sp] in its stockpile, [wm]
    in the global pool, and a real demand of [rd] at price [price]. *)
Definition market_world (dom sp wm rd price : R) : world :=
  {| env := example_env 2 true
              (fun fld => match fld with tariffs => (-50)%Z | _ => 0%Z end)
              0;
     commodity_f := fun fld cid =>
       match fld, cid with
       | global_market_pool, S O => wm
       | current_price, S O => price
       | _, _ => 0
       end;
     nation_cf := fun fld _ cid =>
       match fld, cid with
       | domestic_market_pool, S O => dom
       | stockpiles, S O => sp
       | real_demand, S O => rd
       | _, _ => 0
       end;
     nation_f := fun _ _ => 0;
     nation_b := fun _ _ => false;
     nation_bankrupt_until := fun _ => 0%Z;
     province_cf := fun _ _ _ => 0;
     province_f := fun _ _ => 0;
     pop_raw_employment := fun _ => 0;
     factory_f := fun _ _ => 0;
     factory_b := fun _ _ => false;
     effects := [] |}.

(** A nation with a treasury of -20 and a tax base of 10, hence a
    [max_loan] of 10. *)
Definition indebted_world : world :=
  nation_cset stockpiles 0%nat money (-20)
    (nation_set total_rich_income 0%nat 10 (blank_world (plain_env 2))).

(** A nation with one province and tariffs of [tariff] percent that wants
    one unit of commodity 1 for its navy, with naval spending at 100
    percent and a spending scale of 1.  Nothing is on offer: none of the
    unit is bought, and its effective price [effective] is the current
    price of 1 times the price multiplier. *)
Definition navy_world (tariff : Z) (effective : R) : world :=
  {| env := example_env 2 false
              (fun fld =>
                 match fld with
                 | naval_spending => 100%Z
                 | tariffs => tariff
                 | owned_province_count => 1%Z
                 | central_province_count => 1%Z
                 | _ => 0%Z
                 end) 0;
     commodity_f := fun fld cid =>
       match fld, cid with
       | current_price, S O => 1
       | _, _ => 0
       end;
     nation_cf := fun fld _ cid =>
       match fld, cid with
       | navy_demand, S O => 1
       | real_demand, S O => 1
       | effective_prices, S O => effective
       | _, _ => 0
       end;
     nation_f := fun fld _ =>
       match fld with spending_level => 1 | _ => 0 end;
     nation_b := fun _ _ => false;
     nation_bankrupt_until := fun _ => 0%Z;
     province_cf := fun _ _ _ => 0;
     province_f := fun _ _ => 0;
     pop_raw_employment := fun _ => 0;
     factory_f := fun _ _ => 0;
     factory_b := fun _ _ => false;
     effects := [] |}.

(** A factory of level 1 without workers and without subsidy that would
    sell its output, commodity 1, at price 1 and has neither inputs nor
    wages to pay. *)
Definition idle_factory_world : world :=
  commodity_set current_price 1%nat 1 (blank_world (plain_env 2)).

(** A province of 150 RGO workers, half of whose land is owned.  The RGO
    of commodity 1 has a size of 1 and so room for 100 workers; it employs
    100 and aims at 500.  Subsistence has room for 11. *)
Definition rgo_world : world :=
  province_cset rgo_target_employment_per_good 0%nat 1%nat 500
    (province_cset rgo_employment_per_good 0%nat 1%nat 100
       (province_cset rgo_max_size_per_good 0%nat 1%nat 2
          (province_set landowners_share 0%nat 0.5
             (province_set rgo_size 0%nat 0.1
                (blank_world (example_env 2 false (fun _ => 0%Z) 150)))))).

(** ** Invariants of the loops *)

Definition price_in_range (w : world) (k : commodity_id) : Prop :=
  0.001 <= commodity_f w current_price k <= 100000.

(** What a price step reads of commodity [k]: untouched by the steps for
    the other commodities. *)
Definition same_market (w0 w : world) (k : commodity_id) : Prop :=
  env w = env w0 /\ nation_cf w = nation_cf w0
  /\ forall fld, commodity_f w fld k = commodity_f w0 fld k.

(** What the registration of demand leaves alone. *)
Definition same_budget (w0 w : world) : Prop :=
  env w = env w0 /\ nation_f w = nation_f w0 /\ nation_b w = nation_b w0
  /\ nation_bankrupt_until w = nation_bankrupt_until w0
  /\ forall fld, fld <> real_demand -> nation_cf w fld = nation_cf w0 fld.

Definition same_cells (w0 w : world) (k : commodity_id) : Prop :=
  env w = env w0
  /\ (forall fld a, nation_cf w fld a k = nation_cf w0 fld a k)
  /\ (forall fld, commodity_f w fld k = commodity_f w0 fld k).

(** The bankruptcy of [n] was announced. *)
Definition bankruptcy_posted (w : world) (n : nation_id) : Prop :=
  In (post_bankruptcy_message n) (effects w).

(** What [go_bankrupt] leaves alone for the nations other than [j]. *)
Definition same_finances (w0 w : world) (j : nation_id) : Prop :=
  env w = env w0 /\ nation_f w = nation_f w0
  /\ (forall fld a k, a <> j -> nation_cf w fld a k = nation_cf w0 fld a k)
  /\ (forall fld a, a <> j -> nation_b w fld a = nation_b w0 fld a)
  /\ (forall a, a <> j -> nation_bankrupt_until w a = nation_bankrupt_until w0 a)
  /\ (forall a, a <> j -> bankruptcy_posted w a <-> bankruptcy_posted w0 a).

(** The finances of one nation, which the checks of the others keep. *)
Definition same_nation (w0 w : world) (n : nation_id) : Prop :=
  env w = env w0 /\ nation_f w = nation_f w0
  /\ (forall fld k, nation_cf w fld n k = nation_cf w0 fld n k)
  /\ (forall fld, nation_b w fld n = nation_b w0 fld n)
  /\ nation_bankrupt_until w n = nation_bankrupt_until w0 n
  /\ (bankruptcy_posted w n <-> bankruptcy_posted w0 n).

(** The state of a loop that rewrites the cells [(n, c)] of some tables of
    the nation, one commodity after the other: everything else is as in
    [w0], and so are the cells of the commodities still to come. *)
Definition untouched (written : nation_commodity_float -> bool)
  (w0 w : world) (n : nation_id) (todo : list commodity_id) : Prop :=
  env w = env w0 /\ nation_f w = nation_f w0 /\ commodity_f w = commodity_f w0
  /\ (forall fld, written fld = false -> nation_cf w fld = nation_cf w0 fld)
  /\ (forall fld c0, In c0 todo -> nation_cf w fld n c0 = nation_cf w0 fld n c0)
  /\ (forall fld, nation_cf w fld n money = nation_cf w0 fld n money).

Definition stockpile_written (fld : nation_commodity_float) : bool :=
  nation_commodity_float_beq fld stockpiles.

Definition construction_written (fld : nation_commodity_float) : bool :=
  (nation_commodity_float_beq fld construction_demand
   || nation_commodity_float_beq fld private_construction_demand)%bool.

(** [w'] differs from [w] at most in the employment per good of
    province [p]. *)
Definition only_employment_of (w w' : world) (p : province_id) : Prop :=
  env w' = env w /\ commodity_f w' = commodity_f w
  /\ nation_cf w' = nation_cf w /\ nation_f w' = nation_f w
  /\ province_f w' = province_f w
  /\ forall fld q k,
       fld <> rgo_employment_per_good \/ q <> p ->
       province_cf w' fld q k = province_cf w fld q k.

(** The goods that the province can employ workers for. *)
Definition rgo_candidate (w : world) (owner : nation_id) (p : province_id)
  (k : commodity_id) : bool :=
  if Rgt_dec (rgo_max_employment w owner p k) 0 then true else false.

(** The employment of the goods of [ids] that are no longer waiting in
    [rest] for their workers. *)
Definition assigned_employment (w : world) (p : province_id)
  (rest : list commodity_profit_holder) (ids : list commodity_id) : R :=
  accumulate ids (fun k =>
    if existsb (Nat.eqb k) (map c rest) then 0
    else province_cf w rgo_employment_per_good p k).

(** The tables of province [p] and what the allocator reads besides. *)
Definition same_province (w0 w : world) (p : province_id) : Prop :=
  env w = env w0
  /\ (forall fld k, province_cf w fld p k = province_cf w0 fld p k)
  /\ (forall fld, province_f w fld p = province_f w0 fld p).

(** * Further functions of [economy.cpp]

    The functions below read and write tables of the game state that the
    blocks of the daily update above do not use.  These tables are kept in
    a record of their own beside the world, with the same shape. *)

(** ** Integers of the machine *)

(** [std::clamp(v, lo, hi)] on [int32_t]; [std::max] on [int32_t] is
    [Z.max]. *)
Definition iclamp (v lo hi : Z) : Z :=
  if Z.ltb v lo then lo else if Z.ltb hi v then hi else v.

(** Conversion [int8_t(x)] of an [int32_t]: the low eight bits, read as a
    signed number. *)
Definition to_int8 (x : Z) : Z := ((x + 128) mod 256 - 128)%Z.

(** ** Further tables *)

(** The national modifiers of the budget limits
    ([sys::national_mod_offsets]): further entries of the table that
    [modifier_values] reads, which no modelled function writes. *)
Inductive budget_modifier :=
| min_tariff | max_tariff | min_tax | max_tax
| min_military_spending | max_military_spending
| min_social_spending | max_social_spending
| min_domestic_investment | max_domestic_investment.

Inductive tax_setting := poor_tax | middle_tax | rich_tax.

Inductive rgo_figure := rgo_actual_production_per_good | rgo_profit_per_good.

Scheme Equality for nation_int.
Scheme Equality for tax_setting.
Scheme Equality for rgo_figure.
Scheme Equality for pop_type_commodity_float.

(** A factory project of a state ([state_building_construction]), as far
    as the modelled code reads it. *)
Record state_building_construction := {
  construction_type : factory_type_id;
  is_upgrade : bool
}.

(** The further tables.  [farmers], [artisans] and the two kinds of
    factory workers are pop types of [state.culture_definitions];
    [alice_need_drift_speed] and [gold_to_cash_rate] are values of
    [state.defines].  [all_province_size] bounds the provinces that
    [execute_parallel_over_province] visits and [state_instance_size] the
    ids of [for_each_state_instance]; [state_instance_provinces] lists the
    provinces that [province::for_each_province_in_state_instance] visits
    and [state_definition_provinces] the abstract state membership of a
    state definition.

    The needs of the pops come in three categories, named as the needs
    tables of the pop types are: [commodity_is_need life_needs] is
    [is_life_need], [nation_needs_weights life_needs] is
    [life_needs_weights], and so on.  [state_employment s t] is the
    demographics of the state under the employment key of the pop type
    [t], and [province_factory_location] and
    [state_instance_constructions] list the factories of a province and
    the factory projects of a state. *)
Record annex := {
  farmers : pop_type_id;
  artisans : pop_type_id;
  primary_factory_worker : pop_type_id;
  secondary_factory_worker : pop_type_id;
  alice_need_drift_speed : R;
  gold_to_cash_rate : R;
  all_province_size : nat;
  state_instance_size : nat;
  commodity_is_need : pop_type_commodity_float -> commodity_id -> bool;
  nation_budget_modifier : budget_modifier -> nation_id -> R;
  nation_tax : tax_setting -> nation_id -> Z;
  nation_subsidies_spending : nation_id -> R;
  nation_artisan_distribution : nation_id -> commodity_id -> R;
  nation_needs_weights :
    pop_type_commodity_float -> nation_id -> commodity_id -> R;
  province_state_membership : province_id -> state_instance_id;
  province_factory_location : province_id -> list factory_id;
  province_rgo_figures : rgo_figure -> province_id -> commodity_id -> R;
  province_rgo_full_profit : province_id -> R;
  state_instance_definition : state_instance_id -> nat;
  state_definition_provinces : nat -> list province_id;
  state_instance_owner : state_instance_id -> nation_id;
  state_instance_constructions :
    state_instance_id -> list state_building_construction;
  state_instance_provinces : state_instance_id -> list province_id;
  state_employment : state_instance_id -> pop_type_id -> R;
  factory_priority_low : factory_id -> bool;
  factory_priority_high : factory_id -> bool
}.

(** The generated setters of these tables. *)
Definition tax_set (fld : tax_setting) (n : nation_id) (v : Z)
  (x : annex) : annex :=
  {| farmers := farmers x;
     artisans := artisans x;
     primary_factory_worker := primary_factory_worker x;
     secondary_factory_worker := secondary_factory_worker x;
     alice_need_drift_speed := alice_need_drift_speed x;
     gold_to_cash_rate := gold_to_cash_rate x;
     all_province_size := all_province_size x;
     state_instance_size := state_instance_size x;
     commodity_is_need := commodity_is_need x;
     nation_budget_modifier := nation_budget_modifier x;
     nation_tax := fun g =>
       if tax_setting_beq g fld then upd (nation_tax x g) n v
       else nation_tax x g;
     nation_subsidies_spending := nation_subsidies_spending x;
     nation_artisan_distribution := nation_artisan_distribution x;
     nation_needs_weights := nation_needs_weights x;
     province_state_membership := province_state_membership x;
     province_factory_location := province_factory_location x;
     province_rgo_figures := province_rgo_figures x;
     province_rgo_full_profit := province_rgo_full_profit x;
     state_instance_definition := state_instance_definition x;
     state_definition_provinces := state_definition_provinces x;
     state_instance_owner := state_instance_owner x;
     state_instance_constructions := state_instance_constructions x;
     state_instance_provinces := state_instance_provinces x;
     state_employment := state_employment x;
     factory_priority_low := factory_priority_low x;
     factory_priority_high := factory_priority_high x |}.

Definition subsidies_spending_set (n : nation_id) (v : R) (x : annex) : annex :=
  {| farmers := farmers x;
     artisans := artisans x;
     primary_factory_worker := primary_factory_worker x;
     secondary_factory_worker := secondary_factory_worker x;
     alice_need_drift_speed := alice_need_drift_speed x;
     gold_to_cash_rate := gold_to_cash_rate x;
     all_province_size := all_province_size x;
     state_instance_size := state_instance_size x;
     commodity_is_need := commodity_is_need x;
     nation_budget_modifier := nation_budget_modifier x;
     nation_tax := nation_tax x;
     nation_subsidies_spending := upd (nation_subsidies_spending x) n v;
     nation_artisan_distribution := nation_artisan_distribution x;
     nation_needs_weights := nation_needs_weights x;
     province_state_membership := province_state_membership x;
     province_factory_location := province_factory_location x;
     province_rgo_figures := province_rgo_figures x;
     province_rgo_full_profit := province_rgo_full_profit x;
     state_instance_definition := state_instance_definition x;
     state_definition_provinces := state_definition_provinces x;
     state_instance_owner := state_instance_owner x;
     state_instance_constructions := state_instance_constructions x;
     state_instance_provinces := state_instance_provinces x;
     state_employment := state_employment x;
     factory_priority_low := factory_priority_low x;
     factory_priority_high := factory_priority_high x |}.

Definition needs_weights_set (cat : pop_type_commodity_float) (n : nation_id)
  (c : commodity_id) (v : R) (x : annex) : annex :=
  {| farmers := farmers x;
     artisans := artisans x;
     primary_factory_worker := primary_factory_worker x;
     secondary_factory_worker := secondary_factory_worker x;
     alice_need_drift_speed := alice_need_drift_speed x;
     gold_to_cash_rate := gold_to_cash_rate x;
     all_province_size := all_province_size x;
     state_instance_size := state_instance_size x;
     commodity_is_need := commodity_is_need x;
     nation_budget_modifier := nation_budget_modifier x;
     nation_tax := nation_tax x;
     nation_subsidies_spending := nation_subsidies_spending x;
     nation_artisan_distribution := nation_artisan_distribution x;
     nation_needs_weights := fun g =>
       if pop_type_commodity_float_beq g cat
       then upd2 (nation_needs_weights x g) n c v
       else nation_needs_weights x g;
     province_state_membership := province_state_membership x;
     province_factory_location := province_factory_location x;
     province_rgo_figures := province_rgo_figures x;
     province_rgo_full_profit := province_rgo_full_profit x;
     state_instance_definition := state_instance_definition x;
     state_definition_provinces := state_definition_provinces x;
     state_instance_owner := state_instance_owner x;
     state_instance_constructions := state_instance_constructions x;
     state_instance_provinces := state_instance_provinces x;
     state_employment := state_employment x;
     factory_priority_low := factory_priority_low x;
     factory_priority_high := factory_priority_high x |}.

Definition province_rgo_set (fld : rgo_figure) (p : province_id)
  (c : commodity_id) (v : R) (x : annex) : annex :=
  {| farmers := farmers x;
     artisans := artisans x;
     primary_factory_worker := primary_factory_worker x;
     secondary_factory_worker := secondary_factory_worker x;
     alice_need_drift_speed := alice_need_drift_speed x;
     gold_to_cash_rate := gold_to_cash_rate x;
     all_province_size := all_province_size x;
     state_instance_size := state_instance_size x;
     commodity_is_need := commodity_is_need x;
     nation_budget_modifier := nation_budget_modifier x;
     nation_tax := nation_tax x;
     nation_subsidies_spending := nation_subsidies_spending x;
     nation_artisan_distribution := nation_artisan_distribution x;
     nation_needs_weights := nation_needs_weights x;
     province_state_membership := province_state_membership x;
     province_factory_location := province_factory_location x;
     province_rgo_figures := fun g =>
       if rgo_figure_beq g fld then upd2 (province_rgo_figures x g) p c v
       else province_rgo_figures x g;
     province_rgo_full_profit := province_rgo_full_profit x;
     state_instance_definition := state_instance_definition x;
     state_definition_provinces := state_definition_provinces x;
     state_instance_owner := state_instance_owner x;
     state_instance_constructions := state_instance_constructions x;
     state_instance_provinces := state_instance_provinces x;
     state_employment := state_employment x;
     factory_priority_low := factory_priority_low x;
     factory_priority_high := factory_priority_high x |}.

Definition province_rgo_full_profit_set (p : province_id) (v : R)
  (x : annex) : annex :=
  {| farmers := farmers x;
     artisans := artisans x;
     primary_factory_worker := primary_factory_worker x;
     secondary_factory_worker := secondary_factory_worker x;
     alice_need_drift_speed := alice_need_drift_speed x;
     gold_to_cash_rate := gold_to_cash_rate x;
     all_province_size := all_province_size x;
     state_instance_size := state_instance_size x;
     commodity_is_need := commodity_is_need x;
     nation_budget_modifier := nation_budget_modifier x;
     nation_tax := nation_tax x;
     nation_subsidies_spending := nation_subsidies_spending x;
     nation_artisan_distribution := nation_artisan_distribution x;
     nation_needs_weights := nation_needs_weights x;
     province_state_membership := province_state_membership x;
     province_factory_location := province_factory_location x;
     province_rgo_figures := province_rgo_figures x;
     province_rgo_full_profit := upd (province_rgo_full_profit x) p v;
     state_instance_definition := state_instance_definition x;
     state_definition_provinces := state_definition_provinces x;
     state_instance_owner := state_instance_owner x;
     state_instance_constructions := state_instance_constructions x;
     state_instance_provinces := state_instance_provinces x;
     state_employment := state_employment x;
     factory_priority_low := factory_priority_low x;
     factory_priority_high := factory_priority_high x |}.

Definition factory_priority_low_set (f : factory_id) (v : bool)
  (x : annex) : annex :=
  {| farmers := farmers x;
     artisans := artisans x;
     primary_factory_worker := primary_factory_worker x;
     secondary_factory_worker := secondary_factory_worker x;
     alice_need_drift_speed := alice_need_drift_speed x;
     gold_to_cash_rate := gold_to_cash_rate x;
     all_province_size := all_province_size x;
     state_instance_size := state_instance_size x;
     commodity_is_need := commodity_is_need x;
     nation_budget_modifier := nation_budget_modifier x;
     nation_tax := nation_tax x;
     nation_subsidies_spending := nation_subsidies_spending x;
     nation_artisan_distribution := nation_artisan_distribution x;
     nation_needs_weights := nation_needs_weights x;
     province_state_membership := province_state_membership x;
     province_factory_location := province_factory_location x;
     province_rgo_figures := province_rgo_figures x;
     province_rgo_full_profit := province_rgo_full_profit x;
     state_instance_definition := state_instance_definition x;
     state_definition_provinces := state_definition_provinces x;
     state_instance_owner := state_instance_owner x;
     state_instance_constructions := state_instance_constructions x;
     state_instance_provinces := state_instance_provinces x;
     state_employment := state_employment x;
     factory_priority_low := upd (factory_priority_low x) f v;
     factory_priority_high := factory_priority_high x |}.

Definition factory_priority_high_set (f : factory_id) (v : bool)
  (x : annex) : annex :=
  {| farmers := farmers x;
     artisans := artisans x;
     primary_factory_worker := primary_factory_worker x;
     secondary_factory_worker := secondary_factory_worker x;
     alice_need_drift_speed := alice_need_drift_speed x;
     gold_to_cash_rate := gold_to_cash_rate x;
     all_province_size := all_province_size x;
     state_instance_size := state_instance_size x;
     commodity_is_need := commodity_is_need x;
     nation_budget_modifier := nation_budget_modifier x;
     nation_tax := nation_tax x;
     nation_subsidies_spending := nation_subsidies_spending x;
     nation_artisan_distribution := nation_artisan_distribution x;
     nation_needs_weights := nation_needs_weights x;
     province_state_membership := province_state_membership x;
     province_factory_location := province_factory_location x;
     province_rgo_figures := province_rgo_figures x;
     province_rgo_full_profit := province_rgo_full_profit x;
     state_instance_definition := state_instance_definition x;
     state_definition_provinces := state_definition_provinces x;
     state_instance_owner := state_instance_owner x;
     state_instance_constructions := state_instance_constructions x;
     state_instance_provinces := state_instance_provinces x;
     state_employment := state_employment x;
     factory_priority_low := factory_priority_low x;
     factory_priority_high := upd (factory_priority_high x) f v |}.

(** The budget settings of a nation are integers of the environment, which
    the blocks of the daily update only read; [bound_budget_settings] writes
    them. *)
Definition nation_iset (fld : nation_int) (n : nation_id) (v : Z)
  (w : world) : world :=
  {| env :=
       {| commodity_size := commodity_size (env w);
          nation_size := nation_size (env w);
          pop_type_size := pop_type_size (env w);
          province_size := province_size (env w);
          current_date := current_date (env w);
          defs := defs (env w);
          culture := culture (env w);
          commodity_b := commodity_b (env w);
          nation_active_key_factory := nation_active_key_factory (env w);
          nation_drawing_on_stockpiles := nation_drawing_on_stockpiles (env w);
          nation_i := fun g =>
            if nation_int_beq g fld then upd (nation_i (env w) g) n v
            else nation_i (env w) g;
          nation_in_sphere_of := nation_in_sphere_of (env w);
          nation_tariff_efficiency := nation_tariff_efficiency (env w);
          nation_ptf := nation_ptf (env w);
          pop_type_cf := pop_type_cf (env w);
          pop_type_life_needs_income_type :=
            pop_type_life_needs_income_type (env w);
          pop_type_everyday_needs_income_type :=
            pop_type_everyday_needs_income_type (env w);
          pop_type_luxury_needs_income_type :=
            pop_type_luxury_needs_income_type (env w);
          pop_type_has_unemployment := pop_type_has_unemployment (env w);
          pop_type_is_paid_rgo_worker := pop_type_is_paid_rgo_worker (env w);
          great_nations := great_nations (env w);
          province_owner := province_owner (env w);
          province_rgo := province_rgo (env w);
          province_demographics := province_demographics (env w);
          province_pop_location := province_pop_location (env w);
          pop_poptype := pop_poptype (env w);
          state_demographics_total := state_demographics_total (env w);
          state_demographics := state_demographics (env w);
          factory_building_type := factory_building_type (env w);
          factory_level := factory_level (env w);
          factory_type_output := factory_type_output (env w);
          factory_type_output_amount := factory_type_output_amount (env w);
          factory_type_inputs := factory_type_inputs (env w);
          factory_type_efficiency_inputs :=
            factory_type_efficiency_inputs (env w) |};
     commodity_f := commodity_f w;
     nation_cf := nation_cf w;
     nation_f := nation_f w;
     nation_b := nation_b w;
     nation_bankrupt_until := nation_bankrupt_until w;
     province_cf := province_cf w;
     province_f := province_f w;
     pop_raw_employment := pop_raw_employment w;
     factory_f := factory_f w;
     factory_b := factory_b w;
     effects := effects w |}.

(** ** Supply registration and the price records (lines 40-43, 82-87) *)

Definition register_domestic_supply (w : world) (n : nation_id)
  (commodity_type : commodity_id) (amount : R) (reason : economy_reason)
  : world :=
  let w := nation_cset domestic_market_pool n commodity_type
             (nation_cf w domestic_market_pool n commodity_type + amount) w in
  nation_set gdp n
    (nation_f w gdp n + amount * commodity_f w current_price commodity_type) w.

(** [price_history_length] is a constant of [economy.hpp]; the date is not
    negative, so that the conversion to [uint32_t] leaves it as it is. *)
Definition most_recent_price_record_index (w : world)
  (price_history_length : Z) : Z :=
  (Z.shiftr (current_date (env w)) 4 mod price_history_length)%Z.

Definition previous_price_record_index (w : world)
  (price_history_length : Z) : Z :=
  ((Z.shiftr (current_date (env w)) 4 + price_history_length - 1)
   mod price_history_length)%Z.

(** ** The weights of the needs (lines 166-281) *)

(** The test of the three blocks: the commodity is a need of the category
    and the nation can get it. *)
Definition weighted_need (w : world) (x : annex)
  (cat : pop_type_commodity_float) (n : nation_id) (c : commodity_id)
  : bool :=
  (commodity_is_need x cat c
   && (commodity_b (env w) is_available_from_start c
       || nation_active_key_factory (env w) n c))%bool.

(** One block of [initialize_needs_weights], and the function. *)
Definition initialize_needs_weights_of (w : world)
  (cat : pop_type_commodity_float) (n : nation_id) (x : annex) : annex :=
  fold_left (fun x c =>
      if weighted_need w x cat n c then needs_weights_set cat n c 1 x else x)
    (all_commodities w) x.

Definition initialize_needs_weights (w : world) (x : annex) (n : nation_id)
  : annex :=
  let x := initialize_needs_weights_of w life_needs n x in
  let x := initialize_needs_weights_of w everyday_needs n x in
  initialize_needs_weights_of w luxury_needs n x.

Definition need_weight (w : world) (n : nation_id) (c : commodity_id) : R :=
  1 / sqrt (fmax (commodity_f w current_price c) 0.001).

(** One block of [rebalance_needs_weights]: the first loop adds up the
    weights and counts the goods, the second moves every weight toward its
    ideal share. *)
Definition rebalance_needs_weights_of (w : world)
  (cat : pop_type_commodity_float) (n : nation_id) (x : annex) : annex :=
  let '(total_weights, count) :=
    fold_left (fun '(total_weights, count) c =>
        if weighted_need w x cat n c then
          let weight := need_weight w n c in
          (total_weights + weight, S count)
        else (total_weights, count))
      (all_commodities w) (0, O) in
  fold_left (fun x c =>
      if weighted_need w x cat n c then
        let weight := need_weight w n c in
        let ideal_weighting := weight / total_weights * INR count in
        needs_weights_set cat n c
          (ideal_weighting * alice_need_drift_speed x
           + nation_needs_weights x cat n c
             * (1 - alice_need_drift_speed x)) x
      else x)
    (all_commodities w) x.

Definition rebalance_needs_weights (w : world) (x : annex) (n : nation_id)
  : annex :=
  let x := rebalance_needs_weights_of w life_needs n x in
  let x := rebalance_needs_weights_of w everyday_needs n x in
  rebalance_needs_weights_of w luxury_needs n x.

(** ** The distribution of the artisans (lines 467-554) *)

(** "crude approximation of exp" *)
Definition pseudo_exp_for_negative (f : R) : R :=
  if Rlt_dec f (-128) then 0
  else
    let f := f / 128 in
    let f := 1 + f + f * f / 2 + f * f * f / 6 in
    let f := f * f in (* 2 *)
    let f := f * f in (* 4 *)
    let f := f * f in (* 8 *)
    let f := f * f in (* 16 *)
    let f := f * f in (* 32 *)
    let f := f * f in (* 64 *)
    let f := f * f in (* 128 *)
    f.

Definition get_artisans_multiplier (w : world) (x : annex) (n : nation_id)
  : R :=
  let multiplier :=
    0.000001 * nation_ptf (env w) everyday_needs_costs n (artisans x) in
  1 / (multiplier + 1).

Definition artisan_baseline_score : R := 5.

(** The running maximum starts at [std::numeric_limits<float>::lowest()],
    which no score is below: [None] stands for it. *)
Definition max_artisan_score (w : world) (x : annex) (n : nation_id)
  (multiplier : R) : R :=
  let baseline := artisan_baseline_score / multiplier in
  let max_score :=
    fold_left (fun max_score cid =>
        let score := nation_artisan_distribution x n cid in
        match max_score with
        | None => Some score
        | Some m => if Rgt_dec score m then Some score else Some m
        end)
      (traded_commodities w) None in
  match max_score with
  | None => baseline
  | Some m => if Rgt_dec baseline m then baseline else m
  end.

Definition total_artisan_exp_score (w : world) (x : annex) (n : nation_id)
  (multiplier max_score : R) : R :=
  let baseline := artisan_baseline_score / multiplier in
  let total :=
    fold_left (fun total cid =>
        let score := nation_artisan_distribution x n cid in
        let dist := pseudo_exp_for_negative ((score - max_score) * multiplier)
        in
        total + dist)
      (traded_commodities w) 0 in
  total + pseudo_exp_for_negative ((baseline - max_score) * multiplier).

Definition get_artisan_distribution_fast (x : annex) (n : nation_id)
  (c : commodity_id) (max_score total_score multiplier : R) : R :=
  let score := nation_artisan_distribution x n c in
  pseudo_exp_for_negative ((score - max_score) * multiplier)
  / (total_score + 0.001).

Definition get_artisan_distribution_slow (w : world) (x : annex)
  (n : nation_id) (c : commodity_id) : R :=
  let multiplier := get_artisans_multiplier w x n in
  let max_score := max_artisan_score w x n multiplier in
  let total_score := total_artisan_exp_score w x n multiplier max_score in
  get_artisan_distribution_fast x n c max_score total_score multiplier.

(** ** Land ownership (lines 986-1001) *)

(** The body of the loop over the provinces, and the loop. *)
Definition update_province_land_ownership (x : annex) (w : world)
  (ids : province_id) : world :=
  let e := env w in
  let local_states := province_state_membership x ids in
  let weight_aristocracy :=
    state_demographics e local_states (aristocrat (culture e)) * 200
    + state_demographics e local_states (slaves (culture e)) in
  let weight_capitalists :=
    state_demographics e local_states (capitalists (culture e)) * 200 in
  let weight_population :=
    state_demographics e local_states (farmers x)
    + state_demographics e local_states (laborers (culture e)) in
  let total :=
    weight_aristocracy + weight_capitalists + weight_population + 1 in
  let w := province_set landowners_share ids (weight_aristocracy / total) w in
  province_set capitalists_share ids (weight_capitalists / total) w.

Definition update_land_ownership (w : world) (x : annex) : world :=
  fold_left (update_province_land_ownership x) (seq 0 (all_province_size x)) w.

(** ** The priority of a factory (lines 1003-1009) *)

Definition factory_priority (x : annex) (f : factory_id) : Z :=
  ((if factory_priority_low x f then 1 else 0)
   + (if factory_priority_high x f then 2 else 0))%Z.

Definition set_factory_priority (x : annex) (f : factory_id) (priority : Z)
  : annex :=
  let x := factory_priority_high_set f (Z.leb 2 priority) x in
  factory_priority_low_set f (negb (Z.eqb (Z.land priority 1) 0)) x.

(** ** The production of the RGOs (lines 1341-1353, 1855-1874) *)

Definition rgo_full_production_quantity (w : world) (n : nation_id)
  (p : province_id) (c : commodity_id) : R :=
  let eff_size := rgo_effective_size w n p c in
  eff_size * rgo_efficiency w n p c.

(** The body of the loop of [update_province_rgo_production] over the
    commodities, and the function. *)
Definition record_rgo_production (p : province_id) (n : nation_id)
  (st : world * annex) (c : commodity_id) : world * annex :=
  let '(w, x) := st in
  let amount := province_rgo_figures x rgo_actual_production_per_good p c in
  let w := register_domestic_supply w n c amount reason_rgo in
  let profit_ := amount * commodity_f w current_price c in
  let x := province_rgo_set rgo_profit_per_good p c profit_ x in
  let x :=
    province_rgo_full_profit_set p (province_rgo_full_profit x p + profit_) x
  in
  if commodity_b (env w) money_rgo c then
    (nation_cset stockpiles n money
       (nation_cf w stockpiles n money + amount * gold_to_cash_rate x) w, x)
  else (w, x).

Definition update_province_rgo_production (w : world) (x : annex)
  (p : province_id) (n : nation_id) : world * annex :=
  let x := province_rgo_full_profit_set p 0 x in
  fold_left (record_rgo_production p n) (all_commodities w) (w, x).

(** ** The production of a factory (lines 1665-1724) *)

Definition update_single_factory_production (w : world) (x : annex)
  (f : factory_id) (n : nation_id) (expected_min_wage : R) : world * annex :=
  let e := env w in
  let production := factory_f w actual_production f in
  if Rgt_dec production 0 then
    let fac_type := factory_building_type e f in
    let amount := production in
    let money_made := factory_f w full_profit f in
    let w := factory_set actual_production f amount w in
    let w :=
      register_domestic_supply w n (factory_type_output e fac_type) amount
        reason_factory in
    if negb (factory_b w subsidized f) then
      (factory_set full_profit f money_made w, x)
    else
      let min_wages :=
        expected_min_wage
        * INR (factory_level e f)
        * factory_f w primary_employment f
        * (alice_factory_per_level_employment (defs e)
           / alice_needs_scaling_factor (defs e)) in
      if Rlt_dec money_made min_wages then
        let diff := min_wages - money_made in
        if (if Rgt_dec (nation_cf w stockpiles n money) diff then true
            else can_take_loans w n) then
          let w := factory_set full_profit f min_wages w in
          let w :=
            nation_cset stockpiles n money
              (nation_cf w stockpiles n money - diff) w in
          (w, subsidies_spending_set n (nation_subsidies_spending x n + diff)
                x)
        else
          let w := factory_set full_profit f (fmax money_made 0) w in
          (factory_bset subsidized f false w, x)
      else (factory_set full_profit f money_made w, x)
  else (w, x).

(** ** The time that a construction takes (lines 2031-2062) *)

Definition day_1_build_time_modifier_non_factory : R := 2.
Definition day_inf_build_time_modifier_non_factory : R := 0.5.
Definition day_1_derivative_non_factory : R := -0.2.

Definition diff_non_factory : R :=
  day_1_build_time_modifier_non_factory
  - day_inf_build_time_modifier_non_factory.
Definition shift_non_factory : R :=
  - diff_non_factory / day_1_derivative_non_factory.
Definition slope_non_factory : R := diff_non_factory * shift_non_factory.

Definition global_non_factory_construction_time_modifier (w : world) : R :=
  let t := sqrt (IZR (current_date (env w)) * 0.01 + 2) in
  day_inf_build_time_modifier_non_factory
  + slope_non_factory / (t + shift_non_factory).

Definition day_1_build_time_modifier_factory : R := 0.9.
Definition day_inf_build_time_modifier_factory : R := 0.75.
Definition day_1_derivative_factory : R := -0.01.

Definition diff_factory : R :=
  day_1_build_time_modifier_factory - day_inf_build_time_modifier_factory.
Definition shift_factory : R := - diff_factory / day_1_derivative_factory.
Definition slope_factory : R := diff_factory * shift_factory.

Definition global_factory_construction_time_modifier (w : world) : R :=
  let t := sqrt (IZR (current_date (env w)) * 0.01 + 2) in
  day_inf_build_time_modifier_factory + slope_factory / (t + shift_factory).

(** ** The profit of the factories of a state (lines 2898-2945) *)

Record profit_distribution := {
  per_primary_worker : R;
  per_secondary_worker : R;
  per_owner : R
}.

Definition distribute_factory_profit (w : world) (x : annex)
  (s : state_instance_id) (min_wage total_profit : R) : profit_distribution :=
  let e := env w in
  let total_min_to_pworkers :=
    min_wage * state_employment x s (primary_factory_worker x) in
  let total_min_to_sworkers :=
    min_wage * state_employment x s (secondary_factory_worker x) in
  let num_pworkers := state_demographics e s (primary_factory_worker x) in
  let num_sworkers := state_demographics e s (secondary_factory_worker x) in
  let num_owners := state_demographics e s (capitalists (culture e)) in
  if (if Rle_dec (total_min_to_pworkers + total_min_to_sworkers) total_profit
      then if Rgt_dec num_owners 0 then true else false else false) then
    let surplus :=
      total_profit - (total_min_to_pworkers + total_min_to_sworkers) in
    {| per_primary_worker :=
         if Rgt_dec num_pworkers 0
         then (total_min_to_pworkers + surplus * 0.1) / num_pworkers else 0;
       per_secondary_worker :=
         if Rgt_dec num_sworkers 0
         then (total_min_to_sworkers + surplus * 0.2) / num_sworkers else 0;
       per_owner := surplus * 0.7 / num_owners |}
  else if (if Rle_dec (total_min_to_pworkers + total_min_to_sworkers)
                total_profit
           then if Rgt_dec num_sworkers 0 then true else false else false) then
    let surplus :=
      total_profit - (total_min_to_pworkers + total_min_to_sworkers) in
    {| per_primary_worker :=
         if Rgt_dec num_pworkers 0
         then (total_min_to_pworkers + surplus * 0.5) / num_pworkers else 0;
       per_secondary_worker :=
         if Rgt_dec num_sworkers 0
         then (total_min_to_sworkers + surplus * 0.5) / num_sworkers else 0;
       per_owner := 0 |}
  else if Rle_dec (total_min_to_pworkers + total_min_to_sworkers) total_profit
  then
    {| per_primary_worker :=
         if Rgt_dec num_pworkers 0 then total_profit / num_pworkers else 0;
       per_secondary_worker := 0;
       per_owner := 0 |}
  else if Rgt_dec (num_pworkers + num_sworkers) 0 then
    {| per_primary_worker := total_profit / (num_pworkers + num_sworkers);
       per_secondary_worker := total_profit / (num_pworkers + num_sworkers);
       per_owner := 0 |}
  else
    {| per_primary_worker := 0; per_secondary_worker := 0; per_owner := 0 |}.

(** ** The factories of a state (lines 128-143, 384-396, 4879-4924) *)

(** [state_definition_get_abstract_state_membership] gives the provinces
    of a state definition; [get_factory_location] the factories of a
    province; [get_state_building_construction] the factory projects of a
    state instance. *)
Definition has_factory (w : world) (x : annex) (si : state_instance_id)
  : bool :=
  let sdef := state_instance_definition x si in
  let owner := state_instance_owner x si in
  let crng := state_instance_constructions x si in
  match crng with
  | _ :: _ => true
  | [] =>
      existsb (fun p =>
          if Nat.eqb (province_owner (env w) p) owner then
            match province_factory_location x p with
            | _ :: _ => true
            | [] => false
            end
          else false)
        (state_definition_provinces x sdef)
  end.

Definition has_building (w : world) (x : annex) (si : state_instance_id)
  (fac : factory_type_id) : bool :=
  let sdef := state_instance_definition x si in
  let owner := state_instance_owner x si in
  existsb (fun p =>
      if Nat.eqb (province_owner (env w) p) owner then
        existsb (fun b => Nat.eqb (factory_building_type (env w) b) fac)
          (province_factory_location x p)
      else false)
    (state_definition_provinces x sdef).

Definition state_contains_constructed_factory (w : world) (x : annex)
  (s : state_instance_id) (ft : factory_type_id) : bool :=
  let d := state_instance_definition x s in
  existsb (fun p =>
      if Nat.eqb (province_state_membership x p) s then
        existsb (fun f => Nat.eqb (factory_building_type (env w) f) ft)
          (province_factory_location x p)
      else false)
    (state_definition_provinces x d).

Definition state_contains_factory (w : world) (x : annex)
  (s : state_instance_id) (ft : factory_type_id) : bool :=
  let d := state_instance_definition x s in
  if existsb (fun p =>
         if Nat.eqb (province_state_membership x p) s then
           existsb (fun f => Nat.eqb (factory_building_type (env w) f) ft)
             (province_factory_location x p)
         else false)
       (state_definition_provinces x d)
  then true
  else existsb (fun sc => Nat.eqb (construction_type sc) ft)
         (state_instance_constructions x s).

(** [int32_t] addition: the sum, brought back into the range. *)
Definition add_int32 (a b : Z) : Z :=
  ((a + b + 2147483648) mod 4294967296 - 2147483648)%Z.

Definition state_factory_count (w : world) (x : annex)
  (sid : state_instance_id) (n : nation_id) : Z :=
  let num_factories := 0%Z in
  let d := state_instance_definition x sid in
  let num_factories :=
    fold_left (fun num_factories p =>
        if Nat.eqb (province_owner (env w) p) n then
          add_int32 num_factories
            (Z.of_nat (length (province_factory_location x p)))
        else num_factories)
      (state_definition_provinces x d) num_factories in
  fold_left (fun num_factories p =>
      if negb (is_upgrade p) then add_int32 num_factories 1
      else num_factories)
    (state_instance_constructions x sid) num_factories.

(** ** The limits of the budget (lines 5271-5338) *)

(** The five blocks after the tariffs share their limits: a maximum that
    is not positive stands for 100. *)
Definition spending_limits (x : annex) (n : nation_id)
  (min_mod max_mod : budget_modifier) : Z * Z :=
  let min_spend := to_int32 (100 * nation_budget_modifier x min_mod n) in
  let max_spend := to_int32 (100 * nation_budget_modifier x max_mod n) in
  let max_spend := if Z.leb max_spend 0 then 100%Z else max_spend in
  let max_spend := Z.max min_spend max_spend in
  (min_spend, max_spend).

Definition bound_spending (x : annex) (n : nation_id)
  (min_mod max_mod : budget_modifier) (fld : nation_int) (w : world)
  : world :=
  let '(min_spend, max_spend) := spending_limits x n min_mod max_mod in
  let v := nation_i (env w) fld n in
  nation_iset fld n
    (to_int8 (iclamp (iclamp v min_spend max_spend) 0 100)) w.

Definition bound_tax (n : nation_id) (min_tax_ max_tax_ : Z)
  (fld : tax_setting) (x : annex) : annex :=
  tax_set fld n
    (to_int8 (iclamp (iclamp (nation_tax x fld n) min_tax_ max_tax_) 0 100))
    x.

Definition bound_budget_settings (w : world) (x : annex) (n : nation_id)
  : world * annex :=
  let w :=
    let min_tariff_ :=
      to_int32 (100 * nation_budget_modifier x min_tariff n) in
    let max_tariff_ :=
      to_int32 (100 * nation_budget_modifier x max_tariff n) in
    let max_tariff_ := Z.max min_tariff_ max_tariff_ in
    let tariff := nation_i (env w) tariffs n in
    nation_iset tariffs n
      (to_int8 (iclamp (iclamp tariff min_tariff_ max_tariff_) (-100) 100))
      w in
  let x :=
    let '(min_tax_, max_tax_) := spending_limits x n min_tax max_tax in
    let x := bound_tax n min_tax_ max_tax_ poor_tax x in
    let x := bound_tax n min_tax_ max_tax_ middle_tax x in
    bound_tax n min_tax_ max_tax_ rich_tax x in
  let w :=
    bound_spending x n min_military_spending max_military_spending
      military_spending w in
  let w :=
    bound_spending x n min_social_spending max_social_spending
      social_spending w in
  let w :=
    bound_spending x n min_military_spending max_military_spending
      military_spending w in
  let w :=
    bound_spending x n min_domestic_investment max_domestic_investment
      domestic_investment_spending w in
  (w, x).

(** ** The employment of the factories (lines 1142-1245) *)

(** The comparator of the sort: profitable factories first, then the
    higher priority, then the lower index. *)
Definition factory_goes_first (w : world) (x : annex) (a b : factory_id)
  : bool :=
  if negb (Bool.eqb (factory_is_profitable w a) (factory_is_profitable w b))
  then factory_is_profitable w a
  else if negb (Z.eqb (factory_priority x a) (factory_priority x b))
  then Z.gtb (factory_priority x a) (factory_priority x b)
  else Nat.ltb a b.

(** The comparator orders distinct factories strictly, so [std::sort] has
    one outcome, which insertion gives. *)
Fixpoint insert_factory (w : world) (x : annex) (f : factory_id)
  (l : list factory_id) : list factory_id :=
  match l with
  | [] => [f]
  | g :: l' =>
      if factory_goes_first w x g f then g :: insert_factory w x f l'
      else f :: g :: l'
  end.

Definition sort_factories (w : world) (x : annex) (l : list factory_id)
  : list factory_id :=
  fold_right (insert_factory w x) [] l.

(** The test that ends a group: the factory at [next_index] differs from
    the one at [index] in profitability or in priority. *)
Definition ends_group (w : world) (x : annex) (first next : factory_id)
  : bool :=
  (negb (Bool.eqb (factory_is_profitable w first)
           (factory_is_profitable w next))
   || negb (Z.eqb (factory_priority x first) (factory_priority x next)))%bool.

(** The factories from [index] up to [next_index], and those from
    [next_index] on. *)
Fixpoint split_group (w : world) (x : annex) (first : factory_id)
  (l : list factory_id) : list factory_id * list factory_id :=
  match l with
  | [] => ([], [])
  | next :: l' =>
      if ends_group w x first next then ([], l)
      else let '(group, rest) := split_group w x first l' in
           (next :: group, rest)
  end.

Definition employment_shift_speed : R := 0.001.

(** The body of the two inner loops, which differ in the table that they
    write. *)
Definition shift_employment (fld : factory_float) (scale : R) (w : world)
  (f : factory_id) : world :=
  let old_employment := factory_f w fld f in
  let new_employment :=
    old_employment * (1 - employment_shift_speed)
    + scale * factory_f w production_scale f * employment_shift_speed in
  factory_set fld f new_employment w.

(** The loop over the groups.  Every round takes at least the factory at
    [index] off the list, so [fuel] rounds suffice for a list of that
    length. *)
Fixpoint employ_groups (fuel : nat) (x : annex)
  (ordered_factories : list factory_id) (w : world)
  (primary_pool_copy secondary_pool_copy : R) : world * (R * R) :=
  match fuel, ordered_factories with
  | S fuel, first :: _ =>
      let '(group, rest) := split_group w x first ordered_factories in
      let total_workforce :=
        accumulate group (fun f =>
          factory_max_employment w f * factory_f w production_scale f) in
      let craftsmen := craftsmen_fraction (defs (env w)) in
      let '(w, primary_pool_copy) :=
        let type_share := craftsmen * total_workforce in
        let scale :=
          if Rge_dec primary_pool_copy type_share then 1
          else primary_pool_copy / type_share in
        (fold_left (shift_employment primary_employment scale) group w,
         fmax 0 (primary_pool_copy - type_share)) in
      let '(w, secondary_pool_copy) :=
        let type_share := (1 - craftsmen) * total_workforce in
        let scale :=
          if Rge_dec secondary_pool_copy type_share then 1
          else secondary_pool_copy / type_share in
        (fold_left (shift_employment secondary_employment scale) group w,
         fmax 0 (secondary_pool_copy - type_share)) in
      employ_groups fuel x rest w primary_pool_copy secondary_pool_copy
  | _, _ => (w, (primary_pool_copy, secondary_pool_copy))
  end.

(** The body of the loop over the state instances, and the loop. *)
Definition update_state_factory_employment (x : annex) (w : world)
  (si : state_instance_id) : world :=
  let e := env w in
  let primary_pool := state_demographics e si (primary_factory_worker x) in
  let secondary_pool :=
    state_demographics e si (secondary_factory_worker x) in
  let ordered_factories :=
    flat_map (province_factory_location x) (state_instance_provinces x si) in
  let ordered_factories := sort_factories w x ordered_factories in
  let '(w, (primary_pool_copy, secondary_pool_copy)) :=
    employ_groups (length ordered_factories) x ordered_factories w
      primary_pool secondary_pool in
  let prim_employment :=
    1 - (if Rgt_dec primary_pool 0 then primary_pool_copy / primary_pool
         else 0) in
  let sec_employment :=
    1 - (if Rgt_dec secondary_pool 0
         then secondary_pool_copy / secondary_pool else 0) in
  fold_left (fun w p =>
      fold_left (fun w pop =>
          if Nat.eqb (pop_poptype e pop) (primary_factory_worker x)
          then set_raw_employment pop prim_employment w
          else if Nat.eqb (pop_poptype e pop) (secondary_factory_worker x)
          then set_raw_employment pop sec_employment w
          else w)
        (province_pop_location e p) w)
    (state_instance_provinces x si) w.

Definition update_factory_employment (w : world) (x : annex) : world :=
  fold_left (update_state_factory_employment x)
    (seq 0 (state_instance_size x)) w.

(** ** The start values of the nations ([initialize], lines 771-794) *)

(** The body of the loop over the nations at the end of [initialize], and
    the loop. *)
Definition initialize_nation (st : world * annex) (n : nation_id)
  : world * annex :=
  let '(w, x) := st in
  let x := initialize_needs_weights w x n in
  let w := nation_iset administrative_spending n 80 w in
  let w := nation_iset military_spending n 60 w in
  let w := nation_iset education_spending n 100 w in
  let w := nation_iset social_spending n 100 w in
  let w := nation_iset land_spending n 100 w in
  let w := nation_iset naval_spending n 100 w in
  let w := nation_iset construction_spending n 100 w in
  let w := nation_iset overseas_spending n 100 w in
  let x := tax_set poor_tax n 75 x in
  let x := tax_set middle_tax n 75 x in
  let x := tax_set rich_tax n 75 x in
  let w := nation_set spending_level n 1 w in
  let w :=
    fold_left (fun w c =>
        let w := nation_cset demand_satisfaction n c 1 w in
        nation_cset direct_demand_satisfaction n c 0 w)
      (all_commodities w) w in
  (w, x).

Definition initialize_nations (w : world) (x : annex) : world * annex :=
  fold_left initialize_nation (all_nations w) (w, x).

(** ** Vocabulary of the further properties *)

(** The goods that a block of [initialize_needs_weights] and
    [rebalance_needs_weights] weighs for a nation. *)
Definition weighted_needs (w : world) (x : annex)
  (cat : pop_type_commodity_float) (n : nation_id) : list commodity_id :=
  filter (weighted_need w x cat n) (all_commodities w).

(** The weights of a category are balanced when none of the weighed goods
    has a negative weight and their weights add up to their number. *)
Definition weights_balanced (w : world) (x : annex)
  (cat : pop_type_commodity_float) (n : nation_id) : Prop :=
  accumulate (weighted_needs w x cat n) (nation_needs_weights x cat n)
  = INR (length (weighted_needs w x cat n))
  /\ forall c, In c (weighted_needs w x cat n) ->
       0 <= nation_needs_weights x cat n c.

(** The production scale and the two employment levels of every factory
    are fractions, and so is the raw employment of every pop. *)
Definition factory_fractions (w : world) : Prop :=
  forall f,
    0 <= factory_f w production_scale f <= 1
    /\ 0 <= factory_f w primary_employment f <= 1
    /\ 0 <= factory_f w secondary_employment f <= 1.

Definition pop_fractions (w : world) : Prop :=
  forall pop, 0 <= pop_raw_employment w pop <= 1.

(** A world in which the markets of a nation can be cleared: the nation
    is not its own sphere leader, the delay factor is a fraction, and no
    pool of a traded commodity is negative. *)
Definition clearable (w : world) (n : nation_id) : Prop :=
  nation_in_sphere_of (env w) n <> Some n
  /\ 0 <= alice_sat_delay_factor (defs (env w)) <= 1
  /\ (forall a k, (1 <= k)%nat -> 0 <= nation_cf w domestic_market_pool a k)
  /\ (forall k, (1 <= k)%nat -> 0 <= nation_cf w stockpiles n k)
  /\ (forall k, (1 <= k)%nat -> 0 <= commodity_f w global_market_pool k).

(** The worlds that the game can be in, as far as the two tables of the
    satisfaction go: the loop at the end of [initialize] has run; since
    then the markets of nations were cleared, and the world was changed
    in other ways, by code that keeps the two tables, which only lines
    791-792 and 3303-3304 write, and the numbers of the nations and of the
    commodities. *)
Inductive satisfaction_history : world -> Prop :=
| history_start (w : world) (x : annex) :
    satisfaction_history (fst (initialize_nations w x))
| history_clear (w : world) (n : nation_id) :
    satisfaction_history w -> clearable w n ->
    satisfaction_history (clear_markets w n)
| history_other (w w' : world) :
    satisfaction_history w ->
    nation_size (env w') = nation_size (env w) ->
    commodity_size (env w') = commodity_size (env w) ->
    (forall n k,
        nation_cf w' demand_satisfaction n k
        = nation_cf w demand_satisfaction n k
        /\ nation_cf w' direct_demand_satisfaction n k
           = nation_cf w direct_demand_satisfaction n k) ->
    satisfaction_history w'.
(** ** Further worlds for examples *)

(** One province with one pop of slaves and a hundred farmers. *)
Definition slave_env : environment :=
  {| commodity_size := 2; nation_size := 1; pop_type_size := 0;
     province_size := 1; current_date := 1000; defs := zero_defines;
     culture := {| laborers := 0%nat; capitalists := 1%nat;
                   aristocrat := 2%nat; slaves := 3%nat;
                   rgo_workers := [4%nat] |};
     commodity_b := fun _ _ => false;
     nation_active_key_factory := fun _ _ => false;
     nation_drawing_on_stockpiles := fun _ _ => false;
     nation_i := fun _ _ => 0%Z;
     nation_in_sphere_of := fun _ => None;
     nation_tariff_efficiency := fun _ => 1;
     nation_ptf := fun _ _ _ => 0;
     pop_type_cf := fun _ _ _ => 0;
     pop_type_life_needs_income_type := fun _ => income_other;
     pop_type_everyday_needs_income_type := fun _ => income_other;
     pop_type_luxury_needs_income_type := fun _ => income_other;
     pop_type_has_unemployment := fun _ => false;
     pop_type_is_paid_rgo_worker := fun _ => false;
     great_nations := [];
     province_owner := fun _ => 0%nat;
     province_rgo := fun _ => 1%nat;
     province_demographics := fun _ pt =>
       if Nat.eqb pt 4 then 100 else 0;
     province_pop_location := fun _ => [0%nat];
     pop_poptype := fun _ => 3%nat;
     state_demographics_total := fun _ => 0;
     state_demographics := fun _ _ => 0;
     factory_building_type := fun _ => 0%nat;
     factory_level := fun _ => 1%nat;
     factory_type_output := fun _ => 1%nat;
     factory_type_output_amount := fun _ => 1;
     factory_type_inputs := fun _ => [];
     factory_type_efficiency_inputs := fun _ => [] |}.

(** A nation with one province and a spending scale of 1 whose stockpile
    of commodity 1 holds 4 units of a target of 10, with half of the
    demand met directly. *)
Definition refill_world : world :=
  nation_iset owned_province_count 0%nat 1
    (nation_cset stockpile_targets 0%nat 1%nat 10
       (nation_cset stockpiles 0%nat 1%nat 4
          (nation_cset direct_demand_satisfaction 0%nat 1%nat 0.5
             (nation_set spending_level 0%nat 1
                (blank_world (plain_env 2)))))).

(** An environment like [plain_env] on the day [date], in which every
    flag of the commodities is set, so that all of them are available from
    the start, and every pop type has [people] members in every state and
    nation, with needs that cost as much. *)
Definition open_env (nc : nat) (date : Z) (people : R) : environment :=
  {| commodity_size := nc; nation_size := 1; pop_type_size := 0;
     province_size := 1; current_date := date; defs := zero_defines;
     culture := {| laborers := 0%nat; capitalists := 1%nat;
                   aristocrat := 2%nat; slaves := 3%nat;
                   rgo_workers := [4%nat] |};
     commodity_b := fun _ _ => true;
     nation_active_key_factory := fun _ _ => false;
     nation_drawing_on_stockpiles := fun _ _ => false;
     nation_i := fun _ _ => 0%Z;
     nation_in_sphere_of := fun _ => None;
     nation_tariff_efficiency := fun _ => 1;
     nation_ptf := fun _ _ _ => people;
     pop_type_cf := fun _ _ _ => 0;
     pop_type_life_needs_income_type := fun _ => income_other;
     pop_type_everyday_needs_income_type := fun _ => income_other;
     pop_type_luxury_needs_income_type := fun _ => income_other;
     pop_type_has_unemployment := fun _ => false;
     pop_type_is_paid_rgo_worker := fun _ => false;
     great_nations := [];
     province_owner := fun _ => 0%nat;
     province_rgo := fun _ => 1%nat;
     province_demographics := fun _ _ => 0;
     province_pop_location := fun _ => [];
     pop_poptype := fun _ => 0%nat;
     state_demographics_total := fun _ => 0;
     state_demographics := fun _ _ => people;
     factory_building_type := fun _ => 0%nat;
     factory_level := fun _ => 1%nat;
     factory_type_output := fun _ => 1%nat;
     factory_type_output_amount := fun _ => 1;
     factory_type_inputs := fun _ => [];
     factory_type_efficiency_inputs := fun _ => [] |}.

(** An annex for examples: one state of one province, which holds the
    factories 0 and 1; every weight of a need is [1]. *)
Definition example_annex : annex :=
  {| farmers := 0%nat;
     artisans := 0%nat;
     primary_factory_worker := 0%nat;
     secondary_factory_worker := 1%nat;
     alice_need_drift_speed := 0.5;
     gold_to_cash_rate := 1;
     all_province_size := 1%nat;
     state_instance_size := 1%nat;
     commodity_is_need := fun _ _ => true;
     nation_budget_modifier := fun _ _ => 0;
     nation_tax := fun _ _ => 0%Z;
     nation_subsidies_spending := fun _ => 0;
     nation_artisan_distribution := fun _ _ => 0;
     nation_needs_weights := fun _ _ _ => 1;
     province_state_membership := fun _ => 0%nat;
     province_factory_location := fun _ => [0%nat; 1%nat];
     province_rgo_figures := fun _ _ _ => 0;
     province_rgo_full_profit := fun _ => 0;
     state_instance_definition := fun _ => 0%nat;
     state_definition_provinces := fun _ => [0%nat];
     state_instance_owner := fun _ => 0%nat;
     state_instance_constructions := fun _ => [];
     state_instance_provinces := fun _ => [0%nat];
     state_employment := fun _ _ => 0;
     factory_priority_low := fun _ => false;
     factory_priority_high := fun _ => false |}.

(** * Properties *)

(** ** The C++ helpers *)

Ltac unfold_cpp := unfold clamp, fmax, fmin in *.

(** Decides the comparisons met in the goal, innermost first, and closes
    what linear arithmetic closes. *)
Ltac no_comparison t :=
  lazymatch t with
  | context [Rlt_dec _ _] => fail
  | context [Rle_dec _ _] => fail
  | context [Rgt_dec _ _] => fail
  | context [Rge_dec _ _] => fail
  | _ => idtac
  end.

Ltac decide_comparison :=
  match goal with
  | |- context [Rlt_dec ?a ?b] =>
      no_comparison a; no_comparison b; destruct (Rlt_dec a b)
  | |- context [Rle_dec ?a ?b] =>
      no_comparison a; no_comparison b; destruct (Rle_dec a b)
  | |- context [Rgt_dec ?a ?b] =>
      no_comparison a; no_comparison b; destruct (Rgt_dec a b)
  | |- context [Rge_dec ?a ?b] =>
      no_comparison a; no_comparison b; destruct (Rge_dec a b)
  end.

Ltac cpp_cases :=
  unfold_cpp; repeat (decide_comparison; try lra); try lra.

Lemma clamp_bounds (v lo hi : R) : lo <= hi -> lo <= clamp v lo hi <= hi.
Proof. intros H. cpp_cases. Qed.

Lemma clamp_id (v lo hi : R) : lo <= v <= hi -> clamp v lo hi = v.
Proof. intros H. cpp_cases. Qed.

Lemma fmin_le_l (a b : R) : fmin a b <= a.
Proof. cpp_cases. Qed.

Lemma fmin_le_r (a b : R) : fmin a b <= b.
Proof. cpp_cases. Qed.

Lemma fmin_glb (a b x : R) : x <= a -> x <= b -> x <= fmin a b.
Proof. intros Ha Hb. cpp_cases. Qed.

Lemma fmax_ge_l (a b : R) : a <= fmax a b.
Proof. cpp_cases. Qed.

Lemma fmax_ge_r (a b : R) : b <= fmax a b.
Proof. cpp_cases. Qed.

(** ** Reading a table after a write *)

Lemma upd_same {A : Type} (f : nat -> A) (k : nat) (v : A) : upd f k v k = v.
Proof. unfold upd. now rewrite Nat.eqb_refl. Qed.

Lemma upd_other {A : Type} (f : nat -> A) (k j : nat) (v : A) :
  j <> k -> upd f k v j = f j.
Proof.
  intros H. unfold upd. destruct (Nat.eqb j k) eqn:E; [|reflexivity].
  apply Nat.eqb_eq in E. contradiction.
Qed.

Lemma upd2_same {A : Type} (f : nat -> nat -> A) (i k : nat) (v : A) :
  upd2 f i k v i k = v.
Proof. unfold upd2. now rewrite !Nat.eqb_refl. Qed.

Lemma upd2_other {A : Type} (f : nat -> nat -> A) (i k a b : nat) (v : A) :
  a <> i \/ b <> k -> upd2 f i k v a b = f a b.
Proof.
  intros H. unfold upd2.
  destruct (Nat.eqb a i) eqn:Ea; destruct (Nat.eqb b k) eqn:Eb;
    try reflexivity.
  apply Nat.eqb_eq in Ea, Eb. destruct H; contradiction.
Qed.

(** Splitting a loop over [0 .. n) or [1 .. n) at one of its indices. *)
Lemma seq_split (start len k : nat) :
  (start <= k < start + len)%nat ->
  seq start len = seq start (k - start) ++ k :: seq (S k) (start + len - S k).
Proof.
  intros H.
  replace len with ((k - start) + S (start + len - S k))%nat at 1 by lia.
  rewrite seq_app. simpl.
  replace (start + (k - start))%nat with k by lia. reflexivity.
Qed.

Lemma not_in_seq_before (start k : nat) : ~ In k (seq start (k - start)).
Proof. rewrite in_seq. lia. Qed.

Lemma not_in_seq_after (k len : nat) : ~ In k (seq (S k) len).
Proof. rewrite in_seq. lia. Qed.

(** A loop whose steps keep a property keeps it. *)
Lemma fold_left_preserves {A B : Type} (step : A -> B -> A) (P : A -> Prop)
  (l : list B) :
  (forall a j, In j l -> P a -> P (step a j)) ->
  forall a, P a -> P (fold_left step l a).
Proof.
  induction l as [|x l IH]; intros Hstep a Ha; simpl; [exact Ha|].
  apply IH.
  - intros b j Hj. apply Hstep. now right.
  - apply Hstep; [now left|exact Ha].
Qed.

(** ** Price adjustment *)

Lemma env_update_money_price (w : world) (c0 : commodity_id) :
  env (update_money_price w c0) = env w.
Proof. unfold update_money_price. now destruct (negb _). Qed.

Lemma env_update_commodity_price (w : world) (k : commodity_id) :
  env (update_commodity_price w k) = env w.
Proof. unfold update_commodity_price. now destruct (commodity_b _ _ _). Qed.

Lemma nation_cf_update_money_price (w : world) (c0 : commodity_id) :
  nation_cf (update_money_price w c0) = nation_cf w.
Proof. unfold update_money_price. now destruct (negb _). Qed.

Lemma nation_cf_update_commodity_price (w : world) (k : commodity_id) :
  nation_cf (update_commodity_price w k) = nation_cf w.
Proof. unfold update_commodity_price. now destruct (commodity_b _ _ _). Qed.

(** A step of either loop leaves the other commodities alone. *)
Lemma update_money_price_other (w : world) (j k : commodity_id)
  (fld : commodity_float) :
  j <> k ->
  commodity_f (update_money_price w j) fld k = commodity_f w fld k.
Proof.
  intros H. unfold update_money_price.
  destruct (negb _); [reflexivity|]. simpl.
  destruct (commodity_float_beq fld current_price); [|reflexivity].
  apply upd_other. congruence.
Qed.

Lemma update_commodity_price_other (w : world) (j k : commodity_id)
  (fld : commodity_float) :
  j <> k ->
  commodity_f (update_commodity_price w j) fld k = commodity_f w fld k.
Proof.
  intros H. unfold update_commodity_price.
  destruct (commodity_b _ _ _); [reflexivity|]. simpl.
  repeat match goal with
  | |- context [if ?b then _ else _] => destruct b
  end; rewrite ?upd_other by congruence; reflexivity.
Qed.

(** The money loop does not touch an ordinary commodity. *)
Lemma update_money_price_ordinary (w : world) (j k : commodity_id)
  (fld : commodity_float) :
  commodity_b (env w) money_rgo k = false ->
  commodity_f (update_money_price w j) fld k = commodity_f w fld k.
Proof.
  intros H. destruct (Nat.eq_dec j k) as [->|Hne].
  - unfold update_money_price. now rewrite H.
  - now apply update_money_price_other.
Qed.

(** The loop over ordinary commodities does not touch a money commodity. *)
Lemma update_commodity_price_money (w : world) (j k : commodity_id)
  (fld : commodity_float) :
  commodity_b (env w) money_rgo k = true ->
  commodity_f (update_commodity_price w j) fld k = commodity_f w fld k.
Proof.
  intros H. destruct (Nat.eq_dec j k) as [->|Hne].
  - unfold update_commodity_price. now rewrite H.
  - now apply update_commodity_price_other.
Qed.

Lemma update_commodity_price_at (w : world) (k : commodity_id) :
  commodity_b (env w) money_rgo k = false ->
  commodity_f (update_commodity_price w k) current_price k =
  adjusted_price
    (commodity_f w total_production k
     + commodity_f w global_market_pool k / 12)
    (accumulate (all_nations w) (fun n => nation_cf w real_demand n k))
    (commodity_f w current_price k).
Proof.
  intros H. unfold update_commodity_price. rewrite H. simpl.
  now rewrite upd_same.
Qed.

Lemma update_money_price_at (w : world) (k : commodity_id) :
  commodity_b (env w) money_rgo k = true ->
  commodity_f (update_money_price w k) current_price k =
  clamp (luxury_costs_laborer w * 0.3) 0.001 100000.
Proof.
  intros H. unfold update_money_price. rewrite H. simpl.
  now rewrite upd_same.
Qed.

Lemma adjusted_price_in_range (supply demand price : R) :
  0.001 <= adjusted_price supply demand price <= 100000.
Proof. unfold adjusted_price. apply clamp_bounds. lra. Qed.

Lemma update_commodity_price_keeps_range (w : world) (j k : commodity_id) :
  price_in_range w k -> price_in_range (update_commodity_price w j) k.
Proof.
  intros H. unfold price_in_range.
  destruct (Nat.eq_dec j k) as [->|Hne].
  - destruct (commodity_b (env w) money_rgo k) eqn:E.
    + now rewrite update_commodity_price_money.
    + rewrite update_commodity_price_at by exact E.
      apply adjusted_price_in_range.
  - now rewrite update_commodity_price_other.
Qed.

Lemma update_money_price_keeps_range (w : world) (j k : commodity_id) :
  price_in_range w k -> price_in_range (update_money_price w j) k.
Proof.
  intros H. unfold price_in_range.
  destruct (Nat.eq_dec j k) as [->|Hne].
  - destruct (commodity_b (env w) money_rgo k) eqn:E.
    + rewrite update_money_price_at by exact E. apply clamp_bounds. lra.
    + now rewrite update_money_price_ordinary.
  - now rewrite update_money_price_other.
Qed.

Lemma env_fold_update_money_price (l : list commodity_id) (w : world) :
  env (fold_left update_money_price l w) = env w.
Proof.
  apply (fold_left_preserves update_money_price (fun a => env a = env w)).
  - intros a j _ Ha. now rewrite env_update_money_price.
  - reflexivity.
Qed.

Lemma env_fold_update_commodity_price (l : list commodity_id) (w : world) :
  env (fold_left update_commodity_price l w) = env w.
Proof.
  apply (fold_left_preserves update_commodity_price
           (fun a => env a = env w)).
  - intros a j _ Ha. now rewrite env_update_commodity_price.
  - reflexivity.
Qed.

(** C2.  After the price adjustment of the day, the current price of every
    commodity lies in [0.001, 100000], whether the commodity is an ordinary
    one, priced from supply and demand, or a money commodity, priced from
    the laborers' needs basket. *)
Theorem price_stays_in_range (w : world) (k : commodity_id) :
  (k < commodity_size (env w))%nat ->
  0.001 <= commodity_f (adjust_prices w) current_price k <= 100000.
Proof.
  intros Hk. unfold adjust_prices.
  set (w1 := fold_left update_money_price (all_commodities w) w).
  assert (Hw1 : env w1 = env w) by apply env_fold_update_money_price.
  assert (Hsplit : all_commodities w =
            seq 0 (k - 0) ++ k :: seq (S k) (0 + commodity_size (env w) - S k))
    by (apply seq_split; lia).
  change (price_in_range
            (fold_left update_commodity_price (all_commodities w1) w1) k).
  destruct (commodity_b (env w) money_rgo k) eqn:E.
  - (* a money commodity: priced by the first loop, kept by the second *)
    apply fold_left_preserves.
    { intros a j _. apply update_commodity_price_keeps_range. }
    unfold w1. rewrite Hsplit, fold_left_app. simpl.
    apply fold_left_preserves.
    { intros a j _. apply update_money_price_keeps_range. }
    unfold price_in_range. rewrite update_money_price_at.
    + apply clamp_bounds. lra.
    + now rewrite env_fold_update_money_price.
  - (* an ordinary commodity: priced by the second loop *)
    unfold all_commodities. rewrite Hw1. fold (all_commodities w).
    rewrite Hsplit, fold_left_app. simpl.
    apply fold_left_preserves.
    { intros a j _. apply update_commodity_price_keeps_range. }
    unfold price_in_range. rewrite update_commodity_price_at.
    + apply adjusted_price_in_range.
    + now rewrite env_fold_update_commodity_price, Hw1.
Qed.

Lemma price_stays_in_range_witness :
  0.001 <= commodity_f (adjust_prices (blank_world (plain_env 2)))
             current_price 1%nat <= 100000.
Proof.
  apply (price_stays_in_range (blank_world (plain_env 2)) 1%nat).
  simpl. lia.
Defined.

Lemma same_market_money_loop (w : world) (k : commodity_id)
  (l : list commodity_id) :
  commodity_b (env w) money_rgo k = false ->
  same_market w (fold_left update_money_price l w) k.
Proof.
  intros H. apply fold_left_preserves.
  - intros a j _ (He & Hn & Hc). split; [|split].
    + now rewrite env_update_money_price.
    + now rewrite nation_cf_update_money_price.
    + intros fld. rewrite update_money_price_ordinary; [apply Hc|].
      now rewrite He.
  - now split; [|split].
Qed.

Lemma same_market_commodity_loop (w : world) (k : commodity_id)
  (l : list commodity_id) :
  ~ In k l -> same_market w (fold_left update_commodity_price l w) k.
Proof.
  intros H. apply fold_left_preserves.
  - intros a j Hj (He & Hn & Hc). split; [|split].
    + now rewrite env_update_commodity_price.
    + now rewrite nation_cf_update_commodity_price.
    + intros fld. rewrite update_commodity_price_other; [apply Hc|].
      intros ->. contradiction.
  - now split; [|split].
Qed.

Lemma adjust_prices_ordinary (w : world) (k : commodity_id) :
  (k < commodity_size (env w))%nat ->
  commodity_b (env w) money_rgo k = false ->
  commodity_f (adjust_prices w) current_price k =
  adjusted_price
    (commodity_f w total_production k
     + commodity_f w global_market_pool k / 12)
    (accumulate (all_nations w) (fun n => nation_cf w real_demand n k))
    (commodity_f w current_price k).
Proof.
  intros Hk Hm. unfold adjust_prices.
  set (w1 := fold_left update_money_price (all_commodities w) w).
  destruct (same_market_money_loop w k (all_commodities w) Hm)
    as (He1 & Hn1 & Hc1).
  fold w1 in He1, Hn1, Hc1.
  unfold all_commodities at 1. rewrite He1.
  rewrite (seq_split 0 (commodity_size (env w)) k) by lia.
  rewrite fold_left_app. simpl.
  set (w2 := fold_left update_commodity_price (seq 0 (k - 0)) w1).
  destruct (same_market_commodity_loop w1 k (seq 0 (k - 0))
              (not_in_seq_before 0 k)) as (He2 & Hn2 & Hc2).
  fold w2 in He2, Hn2, Hc2.
  assert (Hm2 : commodity_b (env w2) money_rgo k = false)
    by now rewrite He2, He1.
  set (w3 := update_commodity_price w2 k).
  destruct (same_market_commodity_loop w3 k
              (seq (S k) (0 + commodity_size (env w) - S k))
              (not_in_seq_after k _)) as (_ & _ & Hc3).
  rewrite Hc3. unfold w3. rewrite update_commodity_price_at by exact Hm2.
  unfold all_nations. rewrite He2, He1, Hn2, Hn1, !Hc2, !Hc1. reflexivity.
Qed.

Lemma max_slope_nonneg (x : R) : 0 <= sqrt (Rabs x) + 20.
Proof. pose proof (sqrt_pos (Rabs x)). lra. Qed.

(** C1 (as amended).  The price of an ordinary commodity [k] after the
    daily adjustment is clamp(price + speed, 0.001, 100000), where speed is
    0.05 x (overdemand - oversupply), times the price when it is below 1
    and times its square root otherwise; the two factors are
    clamp((supply + 0.001) / (demand + 0.001) - 1, 0, max_slope) and its
    symmetric counterpart, with max_slope = sqrt(|demand - supply|) + 20,
    demand the sum of the nations' real demand and supply the prior
    production plus a twelfth of the global pool.  With no demand and no
    supply the speed modifier is 0 and a price within [0.001, 100000] is
    unchanged. *)
Theorem price_update_rule (w : world) (k : commodity_id) :
  (k < commodity_size (env w))%nat ->
  commodity_b (env w) money_rgo k = false ->
  let demand :=
    accumulate (all_nations w) (fun n => nation_cf w real_demand n k) in
  let supply :=
    commodity_f w total_production k
    + commodity_f w global_market_pool k / 12 in
  let price := commodity_f w current_price k in
  let max_slope := sqrt (Rabs (demand - supply)) + 20 in
  let oversupply :=
    clamp ((supply + 0.001) / (demand + 0.001) - 1) 0 max_slope in
  let overdemand :=
    clamp ((demand + 0.001) / (supply + 0.001) - 1) 0 max_slope in
  let speed :=
    0.05 * (overdemand - oversupply)
    * (if Rlt_dec price 1 then price else sqrt price) in
  commodity_f (adjust_prices w) current_price k
  = clamp (price + speed) 0.001 100000
  /\ (demand = 0 -> supply = 0 ->
      overdemand - oversupply = 0
      /\ (0.001 <= price <= 100000 ->
          commodity_f (adjust_prices w) current_price k = price)).
Proof.
  intros Hk Hm demand supply price max_slope oversupply overdemand speed.
  assert (Hrule : commodity_f (adjust_prices w) current_price k
                  = clamp (price + speed) 0.001 100000).
  { rewrite adjust_prices_ordinary by assumption.
    unfold adjusted_price. fold demand supply price max_slope.
    fold oversupply overdemand. unfold speed.
    destruct (Rlt_dec price 1); reflexivity. }
  split; [exact Hrule|].
  intros Hd Hs.
  assert (Hzero : overdemand - oversupply = 0).
  { unfold overdemand, oversupply. rewrite Hd, Hs.
    replace ((0 + 0.001) / (0 + 0.001) - 1) with 0 by lra.
    pose proof (max_slope_nonneg (demand - supply)) as Hms.
    fold max_slope in Hms. rewrite !clamp_id by lra. lra. }
  split; [exact Hzero|].
  intros Hp. rewrite Hrule. unfold speed. rewrite Hzero.
  rewrite clamp_id; lra.
Qed.

Lemma price_update_rule_witness :
  commodity_f
    (adjust_prices
       (commodity_set current_price 1%nat 5 (blank_world (plain_env 2))))
    current_price 1%nat = 5.
Proof.
  pose (w := commodity_set current_price 1%nat 5 (blank_world (plain_env 2))).
  assert (Hk : (1 < commodity_size (env w))%nat) by (simpl; lia).
  assert (Hm : commodity_b (env w) money_rgo 1%nat = false) by reflexivity.
  pose proof (price_update_rule w 1%nat Hk Hm) as H. cbv zeta in H.
  destruct H as [_ H].
  assert (Hd : accumulate (all_nations w)
                 (fun n => nation_cf w real_demand n 1%nat) = 0)
    by (unfold accumulate; simpl; lra).
  assert (Hs : commodity_f w total_production 1%nat
               + commodity_f w global_market_pool 1%nat / 12 = 0)
    by (simpl; lra).
  destruct (H Hd Hs) as [_ Hp].
  assert (H5 : commodity_f w current_price 1%nat = 5) by reflexivity.
  fold w. rewrite Hp; [exact H5|]. rewrite H5. lra.
Defined.

(** C1, the claim as worded fails: with supply 2, demand 1 and price 1 the
    code moves the price to 1 - 0.05 x (2.001/1.001 - 1), where the
    worded formula, with supply/demand - 1, gives 0.95. *)
Lemma price_update_rule_counterexample :
  adjusted_price 2 1 1 = 1 - 0.05 * (2.001 / 1.001 - 1)
  /\ Spec.adjusted_price 2 1 1 = 0.95
  /\ adjusted_price 2 1 1 <> Spec.adjusted_price 2 1 1.
Proof.
  assert (Hs : sqrt (Rabs (1 - 2)) = 1).
  { replace (1 - 2) with (- (1)) by lra.
    now rewrite Rabs_Ropp, Rabs_R1, sqrt_1. }
  assert (Hcode : adjusted_price 2 1 1 = 1 - 0.05 * (2.001 / 1.001 - 1)).
  { unfold adjusted_price. rewrite Hs, sqrt_1.
    destruct (Rlt_dec 1 1) as [Hlt|_]; [lra|]. cpp_cases. }
  assert (Hspec : Spec.adjusted_price 2 1 1 = 0.95).
  { unfold Spec.adjusted_price. rewrite Hs, sqrt_1.
    destruct (Rlt_dec 1 1) as [Hlt|_]; [lra|]. cpp_cases. }
  split; [exact Hcode|]. split; [exact Hspec|].
  rewrite Hcode, Hspec. lra.
Qed.

(** ** The budget of the day *)

Lemma same_budget_refl (w : world) : same_budget w w.
Proof. repeat split. Qed.

Lemma register_demand_same_budget (w0 w : world) (n : nation_id)
  (cid : commodity_id) (amount : R) (reason : economy_reason) :
  same_budget w0 w -> same_budget w0 (register_demand w n cid amount reason).
Proof.
  intros (He & Hf & Hb & Hu & Hc). unfold register_demand.
  repeat split; simpl; try assumption.
  intros fld Hfld.
  destruct (nation_commodity_float_beq fld real_demand) eqn:E.
  - apply internal_nation_commodity_float_dec_bl in E. contradiction.
  - now apply Hc.
Qed.

Lemma update_national_consumption_same_budget (w : world) (n : nation_id)
  (spending_scale private_investment_scale : R) :
  same_budget w
    (update_national_consumption w n spending_scale private_investment_scale).
Proof.
  unfold update_national_consumption. cbv zeta.
  match goal with
  | |- same_budget _ (if ?b then _ else _) => destruct b
  end;
  repeat (apply (fold_left_preserves _ (same_budget w));
          [ intros a j _ Ha;
            try match goal with
                | |- same_budget _ (if ?b then _ else _) => destruct b
                end;
            auto using register_demand_same_budget | ]);
  apply same_budget_refl.
Qed.

Lemma nation_b_full_spending_cost (w : world) (n : nation_id) :
  nation_b (snd (full_spending_cost w n)) = nation_b w
  /\ nation_cf (snd (full_spending_cost w n)) = nation_cf w
  /\ env (snd (full_spending_cost w n)) = env w
  /\ nation_bankrupt_until (snd (full_spending_cost w n))
     = nation_bankrupt_until w
  /\ forall fld, fld <> maximum_military_costs ->
       nation_f (snd (full_spending_cost w n)) fld = nation_f w fld.
Proof.
  unfold full_spending_cost. cbv zeta. simpl. repeat split.
  intros fld Hfld.
  destruct (nation_float_beq fld maximum_military_costs) eqn:E;
    [|reflexivity].
  apply internal_nation_float_dec_bl in E. contradiction.
Qed.

(** The spending scale and the treasury that the budget block leaves. *)
Lemma update_national_spending_result (w : world) (n : nation_id) :
  let total := fst (full_spending_cost w n) in
  let treasury :=
    nation_cf w stockpiles n money
    - (if nation_b w is_player_controlled n then interest_payment w n
       else 0) in
  let budget := fmax 0 treasury in
  let scale :=
    if can_take_loans w n then 1
    else if Rlt_dec total 0.001 then 1
    else if Rle_dec total budget then 1 else budget / total in
  let w' := update_national_spending w n in
  nation_f w' spending_level n = scale
  /\ nation_cf w' stockpiles n money
     = treasury - (if can_take_loans w n then total
                   else fmin budget (total * scale)).
Proof.
  intros total treasury budget scale w'.
  unfold w', update_national_spending.
  destruct (full_spending_cost w n) as [t w1] eqn:Ef.
  destruct (nation_b_full_spending_cost w n)
    as (Hb1 & Hc1 & He1 & Hu1 & Hf1).
  rewrite Ef in Hb1, Hc1, He1, Hu1, Hf1. simpl in Hb1, Hc1, He1, Hu1, Hf1.
  assert (Ht : t = total) by (unfold total; rewrite ?Ef; reflexivity).
  assert (Hint : interest_payment w1 n = interest_payment w n).
  { unfold interest_payment.
    rewrite Hc1, He1, Hf1; [reflexivity|discriminate]. }
  set (w2 := if nation_b w1 is_player_controlled n
             then nation_cset stockpiles n money
                    (nation_cf w1 stockpiles n money - interest_payment w1 n)
                    w1
             else w1).
  assert (Hloans : can_take_loans w2 n = can_take_loans w n).
  { unfold can_take_loans, w2.
    destruct (nation_b w1 is_player_controlled n); simpl;
      now rewrite ?Hb1, ?Hu1, ?He1. }
  assert (Hplayer : nation_b w2 is_player_controlled n
                    = nation_b w is_player_controlled n).
  { unfold w2. destruct (nation_b w1 is_player_controlled n) eqn:E;
      simpl; now rewrite Hb1 in *. }
  assert (Htreasury : nation_cf w2 stockpiles n money = treasury).
  { unfold w2, treasury. rewrite Hb1.
    destruct (nation_b w is_player_controlled n); simpl.
    - now rewrite upd2_same, Hc1, Hint.
    - rewrite Hc1. lra. }
  assert (Hbs : budget_and_scale w2 n t
                = ((if can_take_loans w n then total else budget), scale)).
  { unfold budget_and_scale. rewrite Hplayer, Hloans, Htreasury, Ht.
    fold budget. unfold scale.
    destruct (nation_b w is_player_controlled n) eqn:Ep.
    - destruct (can_take_loans w n); reflexivity.
    - assert (Hno : can_take_loans w n = false)
        by (unfold can_take_loans; now rewrite Ep).
      now rewrite Hno. }
  rewrite Hbs.
  match goal with
  | |- context [update_national_consumption ?a n scale ?p] =>
      destruct (update_national_consumption_same_budget a n scale p)
        as (_ & Hf & _ & _ & Hc)
  end.
  rewrite Hf, Hc by discriminate. simpl. rewrite upd_same, upd2_same.
  split; [reflexivity|]. rewrite Htreasury, Ht.
  destruct (can_take_loans w n) eqn:El; [|reflexivity].
  unfold scale. cpp_cases.
Qed.

(** C3 (as amended).  After the budget block, the spending scale of a
    nation is 1 when it may borrow, when the full spending cost is below
    0.001, or when the cost does not exceed the budget, the budget being
    the treasury after the day's interest, or 0 when that is negative;
    otherwise the scale is budget / cost.  The treasury is reduced by the
    scaled cost.  With a treasury of 100, a cost of 50 and no borrowing
    the scale is 1 and the treasury becomes 50; with a treasury of 30 the
    scale is 0.6. *)
Theorem spending_scale_rule (w : world) (n : nation_id) :
  let total := fst (full_spending_cost w n) in
  let treasury :=
    nation_cf w stockpiles n money
    - (if nation_b w is_player_controlled n then interest_payment w n
       else 0) in
  let budget := fmax 0 treasury in
  let scale :=
    if can_take_loans w n then 1
    else if Rlt_dec total 0.001 then 1
    else if Rle_dec total budget then 1 else budget / total in
  let w' := update_national_spending w n in
  (nation_f w' spending_level n = scale
   /\ nation_cf w' stockpiles n money
      = treasury - (if can_take_loans w n then total
                    else fmin budget (total * scale)))
  /\ (can_take_loans w n = false -> total = 50 ->
      (nation_cf w stockpiles n money = 100 ->
       nation_f w' spending_level n = 1
       /\ nation_cf w' stockpiles n money = 50)
      /\ (nation_cf w stockpiles n money = 30 ->
          nation_f w' spending_level n = 0.6)).
Proof.
  intros total treasury budget scale w'.
  pose proof (update_national_spending_result w n) as H. cbv zeta in H.
  fold total treasury budget scale w' in H |- *.
  split; [exact H|]. destruct H as [Hs Hm].
  intros Hl Ht.
  assert (Hno_interest : 0 <= nation_cf w stockpiles n money ->
            treasury = nation_cf w stockpiles n money).
  { intros Hpos. unfold treasury, interest_payment.
    destruct (nation_b w is_player_controlled n); [|lra].
    destruct (Rge_dec (nation_cf w stockpiles n money) 0); lra. }
  split.
  - intros H100. assert (Htr : treasury = 100) by (rewrite Hno_interest; lra).
    assert (Hsc : scale = 1).
    { unfold scale, budget. rewrite Hl, Htr, Ht. cpp_cases. }
    split; [now rewrite Hs|].
    rewrite Hm, Hl, Hsc. unfold budget. rewrite Htr, Ht. cpp_cases.
  - intros H30. assert (Htr : treasury = 30) by (rewrite Hno_interest; lra).
    rewrite Hs. unfold scale, budget. rewrite Hl, Htr, Ht. cpp_cases.
Qed.

Lemma budget_world_cost (treasury : R) (player : bool) :
  fst (full_spending_cost (budget_world treasury player) 0%nat) = 50.
Proof.
  unfold full_spending_cost, overseas_factor_of, stockpile_refill_wanted.
  simpl. cpp_cases.
Qed.

Lemma budget_world_no_loans (treasury : R) (player : bool) :
  can_take_loans (budget_world treasury player) 0%nat = false.
Proof. unfold can_take_loans. simpl. now destruct player. Qed.

Lemma spending_scale_rule_witness :
  (nation_f (update_national_spending (budget_world 100 false) 0%nat)
     spending_level 0%nat = 1
   /\ nation_cf (update_national_spending (budget_world 100 false) 0%nat)
        stockpiles 0%nat money = 50)
  /\ nation_f (update_national_spending (budget_world 30 false) 0%nat)
       spending_level 0%nat = 0.6.
Proof.
  split.
  - apply (proj2 (spending_scale_rule (budget_world 100 false) 0%nat)
                 (budget_world_no_loans 100 false)
                 (budget_world_cost 100 false)).
    reflexivity.
  - apply (proj2 (spending_scale_rule (budget_world 30 false) 0%nat)
                 (budget_world_no_loans 30 false)
                 (budget_world_cost 30 false)).
    reflexivity.
Defined.

(** C3, the claim as worded fails: a player in debt by 30 who has switched
    debt spending off cannot borrow; with a cost of 50 the code scales its
    spending by 0, where treasury / cost is negative. *)
Lemma spending_scale_counterexample :
  can_take_loans (budget_world (-30) true) 0%nat = false
  /\ fst (full_spending_cost (budget_world (-30) true) 0%nat) = 50
  /\ nation_cf (budget_world (-30) true) stockpiles 0%nat money = -30
  /\ nation_f (update_national_spending (budget_world (-30) true) 0%nat)
       spending_level 0%nat = 0
  /\ Spec.spending_scale (-30) 50 false = -0.6
  /\ nation_f (update_national_spending (budget_world (-30) true) 0%nat)
       spending_level 0%nat
     <> Spec.spending_scale
          (nation_cf (budget_world (-30) true) stockpiles 0%nat money)
          (fst (full_spending_cost (budget_world (-30) true) 0%nat))
          (can_take_loans (budget_world (-30) true) 0%nat).
Proof.
  set (w := budget_world (-30) true).
  assert (Hl : can_take_loans w 0%nat = false)
    by apply budget_world_no_loans.
  assert (Ht : fst (full_spending_cost w 0%nat) = 50)
    by apply budget_world_cost.
  assert (Hm : nation_cf w stockpiles 0%nat money = -30) by reflexivity.
  assert (Hs : nation_f (update_national_spending w 0%nat) spending_level
                 0%nat = 0).
  { pose proof (update_national_spending_result w 0%nat) as H.
    cbv zeta in H. destruct H as [H _]. rewrite H, Hl, Ht, Hm.
    unfold interest_payment. simpl. cpp_cases. }
  assert (Hspec : Spec.spending_scale (-30) 50 false = -0.6)
    by (unfold Spec.spending_scale; cpp_cases).
  repeat split; try assumption.
  rewrite Hs, Hl, Ht, Hm, Hspec. lra.
Qed.

(** ** Market clearing *)

Ltac read_cell :=
  simpl;
  repeat first
    [ rewrite upd2_same
    | rewrite upd_same
    | rewrite upd2_other by (left; congruence)
    | rewrite upd2_other by (right; congruence)
    | rewrite upd_other by congruence ].

Lemma env_clear_commodity (n : nation_id) (sl : option nation_id) (m : R)
  (w : world) (j : commodity_id) :
  env (clear_commodity n sl m w j) = env w.
Proof.
  unfold clear_commodity. cbv zeta.
  destruct (Rge_dec m 1); destruct sl;
    destruct (nation_drawing_on_stockpiles (env w) n j); reflexivity.
Qed.

(** Clearing one commodity leaves the cells of the other commodities
    alone. *)
Lemma clear_commodity_other (n : nation_id) (sl : option nation_id) (m : R)
  (w : world) (j k : commodity_id) :
  j <> k ->
  (forall fld a, nation_cf (clear_commodity n sl m w j) fld a k
                 = nation_cf w fld a k)
  /\ (forall fld, commodity_f (clear_commodity n sl m w j) fld k
                  = commodity_f w fld k).
Proof.
  intros H. unfold clear_commodity. cbv zeta.
  destruct (Rge_dec m 1); destruct sl;
    destruct (nation_drawing_on_stockpiles (env w) n j);
    (split; intros; simpl;
     repeat match goal with
            | |- context [if ?b then _ else _] => destruct b
            end;
     rewrite ?upd2_other, ?upd_other by (try right; congruence);
     reflexivity).
Qed.

(** The cells of the cleared commodity after the step. *)
Lemma clear_commodity_result (w : world) (n : nation_id)
  (sl : option nation_id) (m : R) (k : commodity_id) :
  sl <> Some n ->
  let dom := nation_cf w domestic_market_pool n k in
  let slp :=
    match sl with
    | Some l => nation_cf w domestic_market_pool l k
    | None => 0
    end in
  let drawing := nation_drawing_on_stockpiles (env w) n k in
  let sp := if drawing then nation_cf w stockpiles n k else 0 in
  let wm := commodity_f w global_market_pool k in
  let rd := nation_cf w real_demand n k in
  let new_sat :=
    if Rgt_dec rd 0.0001 then (dom + slp + sp + wm) / rd
    else dom + slp + sp + wm in
  let delay := alice_sat_delay_factor (defs (env w)) in
  let w' := clear_commodity n sl m w k in
  let remaining :=
    if Rge_dec m 1 then Spec.drain [dom; slp; sp; wm] rd
    else
      match Spec.drain [wm; dom; slp; sp] rd with
      | [wm'; dom'; sl'; sp'] => [dom'; sl'; sp'; wm']
      | _ => []
      end in
  nation_cf w' domestic_market_pool n k = nth 0 remaining 0
  /\ (forall l, sl = Some l ->
      nation_cf w' domestic_market_pool l k = nth 1 remaining 0)
  /\ (drawing = true -> nation_cf w' stockpiles n k = nth 2 remaining 0)
  /\ commodity_f w' global_market_pool k = nth 3 remaining 0
  /\ nation_cf w' demand_satisfaction n k
     = fmin 1 (nation_cf w demand_satisfaction n k * delay
               + new_sat * (1 - delay))
  /\ nation_cf w' direct_demand_satisfaction n k = fmin 1 new_sat.
Proof.
  intros Hsl. cbv zeta. unfold clear_commodity. cbv zeta.
  destruct (Rge_dec m 1); destruct sl as [l|];
    destruct (nation_drawing_on_stockpiles (env w) n k);
    (assert (Hl : forall l', Some l' <> Some n -> l' <> n)
       by (intros l' Hl' ->; now apply Hl');
     try specialize (Hl _ Hsl);
     repeat split; try discriminate;
     try (intros l0 [= <-]);
     read_cell; try reflexivity; cpp_cases).
Qed.

Lemma clear_fold_other (n : nation_id) (sl : option nation_id) (m : R)
  (k : commodity_id) (l : list commodity_id) (w : world) :
  ~ In k l -> same_cells w (fold_left (clear_commodity n sl m) l w) k.
Proof.
  intros H. apply fold_left_preserves.
  - intros a j Hj (He & Hn & Hc).
    assert (Hjk : j <> k) by (intros ->; contradiction).
    destruct (clear_commodity_other n sl m a j k Hjk) as [Hn' Hc'].
    split; [|split].
    + now rewrite env_clear_commodity.
    + intros. now rewrite Hn'.
    + intros. now rewrite Hc'.
  - now split; [|split].
Qed.

(** What the clearing of nation [n] leaves in the pools of a traded
    commodity, and the satisfaction it records. *)
Lemma clear_markets_result (w : world) (n : nation_id) (k : commodity_id) :
  (1 <= k < commodity_size (env w))%nat ->
  nation_in_sphere_of (env w) n <> Some n ->
  let sl := nation_in_sphere_of (env w) n in
  let m := global_market_price_multiplier w n in
  let dom := nation_cf w domestic_market_pool n k in
  let slp :=
    match sl with
    | Some l => nation_cf w domestic_market_pool l k
    | None => 0
    end in
  let drawing := nation_drawing_on_stockpiles (env w) n k in
  let sp := if drawing then nation_cf w stockpiles n k else 0 in
  let wm := commodity_f w global_market_pool k in
  let rd := nation_cf w real_demand n k in
  let new_sat :=
    if Rgt_dec rd 0.0001 then (dom + slp + sp + wm) / rd
    else dom + slp + sp + wm in
  let delay := alice_sat_delay_factor (defs (env w)) in
  let w' := clear_markets w n in
  let remaining :=
    if Rge_dec m 1 then Spec.drain [dom; slp; sp; wm] rd
    else
      match Spec.drain [wm; dom; slp; sp] rd with
      | [wm'; dom'; sl'; sp'] => [dom'; sl'; sp'; wm']
      | _ => []
      end in
  nation_cf w' domestic_market_pool n k = nth 0 remaining 0
  /\ (forall l, sl = Some l ->
      nation_cf w' domestic_market_pool l k = nth 1 remaining 0)
  /\ (drawing = true -> nation_cf w' stockpiles n k = nth 2 remaining 0)
  /\ commodity_f w' global_market_pool k = nth 3 remaining 0
  /\ nation_cf w' demand_satisfaction n k
     = fmin 1 (nation_cf w demand_satisfaction n k * delay
               + new_sat * (1 - delay))
  /\ nation_cf w' direct_demand_satisfaction n k = fmin 1 new_sat.
Proof.
  intros Hk Hsl. cbv zeta. unfold clear_markets.
  remember (nation_in_sphere_of (env w) n) as sl eqn:Esl.
  set (m := global_market_price_multiplier w n).
  unfold traded_commodities.
  rewrite (seq_split 1 (commodity_size (env w) - 1) k) by lia.
  rewrite fold_left_app. simpl fold_left.
  set (w2 := fold_left (clear_commodity n sl m) (seq 1 (k - 1)) w).
  destruct (clear_fold_other n sl m k (seq 1 (k - 1)) w
              (not_in_seq_before 1 k)) as (He2 & Hn2 & Hc2).
  fold w2 in He2, Hn2, Hc2.
  set (w3 := clear_commodity n sl m w2 k).
  destruct (clear_fold_other n sl m k
              (seq (S k) (1 + (commodity_size (env w) - 1) - S k)) w3
              (not_in_seq_after k _)) as (_ & Hn3 & Hc3).
  rewrite !Hn3, Hc3.
  pose proof (clear_commodity_result w2 n sl m k Hsl) as H.
  cbv zeta in H. fold w3 in H.
  destruct sl as [l|]; rewrite ?Hn2, ?Hc2, ?He2 in H;
    destruct H as (H1 & H2 & H3 & H4 & H5 & H6);
    repeat split; try assumption;
    intros l' Hl'; rewrite Hn3; now apply H2.
Qed.

(** C4 (as amended).  For every nation and every traded commodity, market
    clearing takes the nation's demand from the domestic pool first, then
    from the sphere leader's pool, then from the stockpile, then from the
    global pool; when the tariff and blockade multiplier is below 1 it
    takes it from the global pool first and then from the domestic pool,
    the sphere leader's pool and the stockpile, in this order.  It records
    a satisfaction ratio for the commodity and the nation. *)
Theorem clearing_order (w : world) (n : nation_id) (k : commodity_id) :
  (1 <= k < commodity_size (env w))%nat ->
  nation_in_sphere_of (env w) n <> Some n ->
  let sl := nation_in_sphere_of (env w) n in
  let m := global_market_price_multiplier w n in
  let dom := nation_cf w domestic_market_pool n k in
  let slp :=
    match sl with
    | Some l => nation_cf w domestic_market_pool l k
    | None => 0
    end in
  let drawing := nation_drawing_on_stockpiles (env w) n k in
  let sp := if drawing then nation_cf w stockpiles n k else 0 in
  let wm := commodity_f w global_market_pool k in
  let rd := nation_cf w real_demand n k in
  let new_sat :=
    if Rgt_dec rd 0.0001 then (dom + slp + sp + wm) / rd
    else dom + slp + sp + wm in
  let delay := alice_sat_delay_factor (defs (env w)) in
  let w' := clear_markets w n in
  let remaining :=
    if Rge_dec m 1 then Spec.drain [dom; slp; sp; wm] rd
    else
      match Spec.drain [wm; dom; slp; sp] rd with
      | [wm'; dom'; sl'; sp'] => [dom'; sl'; sp'; wm']
      | _ => []
      end in
  nation_cf w' domestic_market_pool n k = nth 0 remaining 0
  /\ (forall l, sl = Some l ->
      nation_cf w' domestic_market_pool l k = nth 1 remaining 0)
  /\ (drawing = true -> nation_cf w' stockpiles n k = nth 2 remaining 0)
  /\ commodity_f w' global_market_pool k = nth 3 remaining 0
  /\ nation_cf w' demand_satisfaction n k
     = fmin 1 (nation_cf w demand_satisfaction n k * delay
               + new_sat * (1 - delay))
  /\ nation_cf w' direct_demand_satisfaction n k = fmin 1 new_sat.
Proof.
  intros Hk Hsl. exact (clear_markets_result w n k Hk Hsl).
Qed.

(** The two values that the clearing of a nation writes for a traded
    commodity lie in [0, 1], the pools and the previous satisfaction being
    non-negative and the delay factor a fraction. *)
Lemma cleared_satisfaction_range (w : world) (n : nation_id)
  (k : commodity_id) :
  (1 <= k < commodity_size (env w))%nat ->
  nation_in_sphere_of (env w) n <> Some n ->
  0 <= alice_sat_delay_factor (defs (env w)) <= 1 ->
  0 <= nation_cf w demand_satisfaction n k ->
  (forall a, 0 <= nation_cf w domestic_market_pool a k) ->
  0 <= nation_cf w stockpiles n k ->
  0 <= commodity_f w global_market_pool k ->
  0 <= nation_cf (clear_markets w n) demand_satisfaction n k <= 1
  /\ 0 <= nation_cf (clear_markets w n) direct_demand_satisfaction n k <= 1.
Proof.
  intros Hk Hsl Hdelay Hold Hdom Hsp Hwm.
  pose proof (clear_markets_result w n k Hk Hsl) as H. cbv zeta in H.
  destruct H as (_ & _ & _ & _ & H5 & H6). rewrite H5, H6.
  set (total := nation_cf w domestic_market_pool n k
                + match nation_in_sphere_of (env w) n with
                  | Some l => nation_cf w domestic_market_pool l k
                  | None => 0
                  end
                + (if nation_drawing_on_stockpiles (env w) n k
                   then nation_cf w stockpiles n k else 0)
                + commodity_f w global_market_pool k).
  assert (Htotal : 0 <= total).
  { unfold total. pose proof (Hdom n).
    assert (0 <= match nation_in_sphere_of (env w) n with
                 | Some l => nation_cf w domestic_market_pool l k
                 | None => 0
                 end)
      by (destruct (nation_in_sphere_of (env w) n); [apply Hdom|lra]).
    destruct (nation_drawing_on_stockpiles (env w) n k); lra. }
  set (new_sat := if Rgt_dec (nation_cf w real_demand n k) 0.0001
                  then total / nation_cf w real_demand n k else total).
  assert (Hnew : 0 <= new_sat).
  { unfold new_sat. destruct (Rgt_dec _ _) as [Hrd|_]; [|exact Htotal].
    unfold Rdiv. apply Rmult_le_pos; [exact Htotal|].
    left. apply Rinv_0_lt_compat. lra. }
  assert (Hadj : 0 <= nation_cf w demand_satisfaction n k
                      * alice_sat_delay_factor (defs (env w))
                      + new_sat * (1 - alice_sat_delay_factor (defs (env w))))
    by nra.
  split; cpp_cases.
Qed.

Lemma market_world_multiplier (dom sp wm rd price : R) :
  global_market_price_multiplier (market_world dom sp wm rd price) 0%nat
  = 0.5.
Proof.
  unfold global_market_price_multiplier, effective_tariff_rate. simpl. lra.
Qed.

Lemma market_world_cleared :
  nation_cf (clear_markets (market_world 5 5 0 5 1) 0%nat)
    domestic_market_pool 0%nat 1%nat = 0
  /\ nation_cf (clear_markets (market_world 5 5 0 5 1) 0%nat)
       stockpiles 0%nat 1%nat = 5.
Proof.
  assert (Hk : (1 <= 1 < commodity_size (env (market_world 5 5 0 5 1)))%nat)
    by (simpl; lia).
  assert (Hsl : nation_in_sphere_of (env (market_world 5 5 0 5 1)) 0%nat
                <> Some 0%nat) by discriminate.
  pose proof (clear_markets_result _ 0%nat 1%nat Hk Hsl) as H.
  cbv zeta in H. rewrite market_world_multiplier in H.
  destruct H as (H1 & _ & H3 & _).
  rewrite H1, (H3 eq_refl).
  destruct (Rge_dec 0.5 1); [lra|]. simpl. split; cpp_cases.
Qed.

Lemma clearing_order_witness :
  nation_cf (clear_markets (market_world 5 5 0 5 1) 0%nat)
    domestic_market_pool 0%nat 1%nat
  = nth 0
      (if Rge_dec 0.5 1 then Spec.drain [5; 0; 5; 0] 5
       else match Spec.drain [0; 5; 0; 5] 5 with
            | [wm'; dom'; sl'; sp'] => [dom'; sl'; sp'; wm']
            | _ => []
            end) 0.
Proof.
  assert (Hk : (1 <= 1 < commodity_size (env (market_world 5 5 0 5 1)))%nat)
    by (simpl; lia).
  assert (Hsl : nation_in_sphere_of (env (market_world 5 5 0 5 1)) 0%nat
                <> Some 0%nat) by discriminate.
  pose proof (clearing_order _ 0%nat 1%nat Hk Hsl) as H.
  cbv zeta in H. rewrite market_world_multiplier in H.
  exact (proj1 H).
Defined.

(** C4, the claim as worded fails: with a multiplier of 0.5, an empty
    global pool, 5 units in the domestic pool, 5 in the stockpile and a
    demand of 5, the code empties the domestic pool and keeps the
    stockpile; the reverse of the domestic-first order would empty the
    stockpile and keep the domestic pool. *)
Lemma clearing_order_counterexample :
  global_market_price_multiplier (market_world 5 5 0 5 1) 0%nat = 0.5
  /\ nation_cf (clear_markets (market_world 5 5 0 5 1) 0%nat)
       domestic_market_pool 0%nat 1%nat = 0
  /\ nation_cf (clear_markets (market_world 5 5 0 5 1) 0%nat)
       stockpiles 0%nat 1%nat = 5
  /\ Spec.clearing 0.5 5 0 5 0 5 = [5; 0; 0; 0]
  /\ nation_cf (clear_markets (market_world 5 5 0 5 1) 0%nat)
       stockpiles 0%nat 1%nat
     <> nth 2 (Spec.clearing
                (global_market_price_multiplier (market_world 5 5 0 5 1)
                   0%nat) 5 0 5 0 5) 0.
Proof.
  destruct market_world_cleared as [Hd Hs].
  assert (Hspec : Spec.clearing 0.5 5 0 5 0 5 = [5; 0; 0; 0]).
  { unfold Spec.clearing. destruct (Rge_dec 0.5 1); [lra|]. simpl.
    repeat f_equal; cpp_cases. }
  repeat split; try assumption.
  - apply market_world_multiplier.
  - rewrite Hs, market_world_multiplier, Hspec. simpl. lra.
Qed.

(** ** Effective prices *)

Lemma fraction_bounds (a b : R) : 0 <= a <= b -> 0 < b -> 0 <= a / b <= 1.
Proof.
  intros Ha Hb. unfold Rdiv.
  assert (Hinv : 0 < / b) by now apply Rinv_0_lt_compat.
  assert (Hone : b * / b = 1) by (apply Rinv_r; lra).
  split; nra.
Qed.

Lemma global_share_bounds (m ds gs ld : R) :
  0 <= ds -> 0 <= gs -> 0 <= Spec.global_share m ds gs ld <= 1.
Proof.
  intros Hds Hgs. unfold Spec.global_share.
  destruct (Rge_dec m 1).
  - destruct (Rle_dec ld ds); [lra|].
    destruct (Rle_dec ld (ds + gs)).
    + pose proof (fraction_bounds ds ld). lra.
    + destruct (Rgt_dec (ds + gs) 0); [|lra].
      pose proof (fraction_bounds ds (ds + gs)). lra.
  - destruct (Rle_dec ld gs); [lra|].
    destruct (Rle_dec ld (ds + gs)).
    + pose proof (fraction_bounds gs ld). lra.
    + destruct (Rgt_dec (ds + gs) 0); [|lra].
      pose proof (fraction_bounds gs (ds + gs)). lra.
Qed.

Lemma effective_price_blend (w : world) (n : nation_id) (k : commodity_id) :
  let m := global_market_price_multiplier w n in
  let g :=
    Spec.global_share m (domestic_supply_of w n k)
      (commodity_f w global_market_pool k) (nation_cf w real_demand n k) in
  let base := commodity_f w current_price k in
  effective_price_of w n k = base * (1 - g) + base * m * g.
Proof.
  cbv zeta. unfold effective_price_of, Spec.global_share.
  repeat match goal with
  | |- context [if ?b then _ else _] => destruct b
  end; unfold Rdiv; ring.
Qed.

(** C5 (as amended).  The price multiplier of a nation is its tariff rate
    plus its blockaded fraction plus 1.  The preferred pool is the domestic
    one (own pool, sphere leader's pool and, if drawn on, stockpile) when
    the multiplier is at least 1 and the global one otherwise.  If the last
    demand fits within the preferred pool the effective price is the base
    price; otherwise it blends the base price and the price inflated by the
    multiplier in proportion of the share that the global pool provides:
    of the demand when the two pools cover it, of the whole supply when
    they do not.  With non-negative pools and base price it lies between
    the base price and the inflated price. *)
Theorem effective_price_rule (w : world) (n : nation_id) (k : commodity_id) :
  let m := global_market_price_multiplier w n in
  let ds := domestic_supply_of w n k in
  let gs := commodity_f w global_market_pool k in
  let ld := nation_cf w real_demand n k in
  let base := commodity_f w current_price k in
  let g := Spec.global_share m ds gs ld in
  m = effective_tariff_rate w n
      + (if Z.ltb 0 (nation_i (env w) central_ports n)
         then IZR (nation_i (env w) central_blockaded n)
              / IZR (nation_i (env w) central_ports n)
         else 0)
      + 1
  /\ (ld <= (if Rge_dec m 1 then ds else gs) -> effective_price_of w n k = base)
  /\ effective_price_of w n k = base * (1 - g) + base * m * g
  /\ (0 <= ds -> 0 <= gs -> 0 <= base ->
      0 <= g <= 1
      /\ Rmin base (base * m) <= effective_price_of w n k
         <= Rmax base (base * m)).
Proof.
  cbv zeta. split; [|split; [|split]].
  - unfold global_market_price_multiplier.
    destruct (Z.ltb 0 (nation_i (env w) central_ports n)); lra.
  - unfold effective_price_of.
    destruct (Rge_dec (global_market_price_multiplier w n) 1); intros H;
      match goal with
      | |- context [Rle_dec ?a ?b] => destruct (Rle_dec a b)
      end; try reflexivity; contradiction.
  - apply effective_price_blend.
  - intros Hds Hgs Hbase.
    pose proof (global_share_bounds (global_market_price_multiplier w n)
                  _ _ (nation_cf w real_demand n k) Hds Hgs) as Hg.
    split; [exact Hg|].
    pose proof (effective_price_blend w n k) as Hb. cbv zeta in Hb.
    rewrite Hb.
    set (g := Spec.global_share _ _ _ _) in *.
    set (m := global_market_price_multiplier w n) in *.
    set (base := commodity_f w current_price k) in *.
    unfold Rmin, Rmax.
    destruct (Rle_dec base (base * m)); split; nra.
Qed.

Lemma effective_price_rule_witness :
  effective_price_of (market_world 7.5 0 2.5 2 1) 0%nat 1%nat = 1
  /\ 0 <= Spec.global_share 0.5 7.5 2.5 10 <= 1.
Proof.
  pose proof (effective_price_rule (market_world 7.5 0 2.5 2 1) 0%nat 1%nat)
    as H.
  cbv zeta in H. destruct H as (_ & H & _).
  pose proof (effective_price_rule (market_world 7.5 0 2.5 10 1) 0%nat 1%nat)
    as H'.
  cbv zeta in H'. destruct H' as (_ & _ & _ & H').
  split.
  - apply H. rewrite market_world_multiplier.
    destruct (Rge_dec 0.5 1); [lra|]. simpl. lra.
  - rewrite market_world_multiplier in H'.
    unfold domestic_supply_of in H'. simpl in H'.
    replace (7.5 + 0 + 0) with 7.5 in H' by lra.
    apply H'; lra.
Defined.

(** C5, the claim as worded fails: with a multiplier of 0.5 the global pool
    is preferred; with 2.5 units in it, 7.5 in the domestic pool and a
    demand of 10 at base price 1 the code charges the multiplier on the
    quarter bought from the global pool, 0.875, where the multiplier on the
    part that the preferred pool cannot meet gives 0.625. *)
Lemma effective_price_counterexample :
  global_market_price_multiplier (market_world 7.5 0 2.5 10 1) 0%nat = 0.5
  /\ domestic_supply_of (market_world 7.5 0 2.5 10 1) 0%nat 1%nat = 7.5
  /\ effective_price_of (market_world 7.5 0 2.5 10 1) 0%nat 1%nat = 0.875
  /\ Spec.effective_price 0.5 7.5 2.5 10 1 = 0.625
  /\ effective_price_of (market_world 7.5 0 2.5 10 1) 0%nat 1%nat
     <> Spec.effective_price
          (global_market_price_multiplier (market_world 7.5 0 2.5 10 1)
             0%nat)
          (domestic_supply_of (market_world 7.5 0 2.5 10 1) 0%nat 1%nat)
          2.5 10 1.
Proof.
  assert (Hm : global_market_price_multiplier (market_world 7.5 0 2.5 10 1)
                 0%nat = 0.5) by apply market_world_multiplier.
  assert (Hds : domestic_supply_of (market_world 7.5 0 2.5 10 1) 0%nat 1%nat
                = 7.5) by (unfold domestic_supply_of; simpl; lra).
  assert (Hcode : effective_price_of (market_world 7.5 0 2.5 10 1) 0%nat
                    1%nat = 0.875).
  { unfold effective_price_of. rewrite Hm, Hds. simpl. cpp_cases. }
  assert (Hspec : Spec.effective_price 0.5 7.5 2.5 10 1 = 0.625)
    by (unfold Spec.effective_price; cpp_cases).
  repeat split; try assumption.
  rewrite Hcode, Hm, Hds, Hspec. lra.
Qed.

(** ** Bankruptcy *)

Lemma fire_to_great_nations_tables (ev : default_event) (n : nation_id)
  (w : world) :
  let w' := fire_to_great_nations ev n w in
  env w' = env w /\ nation_f w' = nation_f w /\ nation_cf w' = nation_cf w
  /\ nation_b w' = nation_b w
  /\ nation_bankrupt_until w' = nation_bankrupt_until w
  /\ forall a, bankruptcy_posted w' a <-> bankruptcy_posted w a.
Proof.
  cbv zeta. unfold fire_to_great_nations.
  apply (fold_left_preserves _ (fun w' =>
    env w' = env w /\ nation_f w' = nation_f w /\ nation_cf w' = nation_cf w
    /\ nation_b w' = nation_b w
    /\ nation_bankrupt_until w' = nation_bankrupt_until w
    /\ forall a, bankruptcy_posted w' a <-> bankruptcy_posted w a)).
  - intros a [g|] _ H; [|exact H].
    destruct (Nat.eqb g n); [exact H|].
    destruct H as (He & Hf & Hc & Hb & Hu & Hp).
    repeat split; try assumption.
    + unfold bankruptcy_posted. simpl. rewrite in_app_iff.
      intros [Hin|[Heq|[]]]; [now apply Hp|discriminate].
    + intros Hin. unfold bankruptcy_posted. simpl. rewrite in_app_iff.
      left. now apply Hp.
  - repeat split; auto.
Qed.

Lemma go_bankrupt_result (w : world) (j : nation_id) :
  let w' := go_bankrupt w j in
  same_finances w w' j
  /\ nation_cf w' stockpiles j money = 0
  /\ nation_b w' is_debt_spending j = false
  /\ nation_bankrupt_until w' j
     = (current_date (env w)
        + to_int32 (bankrupcy_duration (defs (env w)) * 365))%Z
  /\ bankruptcy_posted w' j.
Proof.
  cbv zeta. unfold go_bankrupt. cbv zeta.
  set (w1 := if (negb (Z.eqb (nation_bankrupt_until w j) 0)
                 && Z.ltb (current_date (env w)) (nation_bankrupt_until w j))%bool
             then fire_to_great_nations on_debtor_default_second j w
             else if Rge_dec (nation_cf w stockpiles j money)
                       (- small_debt_limit (defs (env w)))
                  then fire_to_great_nations on_debtor_default_small j w
                  else fire_to_great_nations on_debtor_default j w).
  assert (H1 : env w1 = env w /\ nation_f w1 = nation_f w
               /\ nation_cf w1 = nation_cf w /\ nation_b w1 = nation_b w
               /\ nation_bankrupt_until w1 = nation_bankrupt_until w
               /\ forall a, bankruptcy_posted w1 a <-> bankruptcy_posted w a).
  { unfold w1. destruct (_ && _)%bool; [|destruct (Rge_dec _ _)];
      apply fire_to_great_nations_tables. }
  destruct H1 as (He & Hf & Hc & Hb & Hu & Hp).
  unfold same_finances, bankruptcy_posted in *. simpl.
  rewrite He, Hf, Hc, Hb, Hu.
  split; [|split; [|split; [|split]]].
  - split; [reflexivity|]. split; [reflexivity|].
    split; [|split; [|split]].
    + intros fld a k Ha.
      destruct (nation_commodity_float_beq fld stockpiles); [|reflexivity].
      apply upd2_other. now left.
    + intros fld a Ha.
      destruct (nation_flag_beq fld is_debt_spending); [|reflexivity].
      now apply upd_other.
    + intros a Ha. now apply upd_other.
    + intros a Ha. rewrite !in_app_iff. simpl. split.
      * intros [[[Hin|[Heq|[]]]|[Heq|[]]]|[Heq|[]]]; try discriminate;
          [now apply Hp|].
        injection Heq as ->. contradiction.
      * intros Hin. left. left. left. now apply Hp.
  - apply upd2_same.
  - apply upd_same.
  - apply upd_same.
  - rewrite !in_app_iff. right. now left.
Qed.

Lemma check_bankruptcy_other (w : world) (j : nation_id) :
  same_finances w (check_bankruptcy w j) j.
Proof.
  assert (Hrefl : same_finances w w j) by (repeat split; auto).
  unfold check_bankruptcy.
  destruct (Rlt_dec _ 0); [destruct (Rlt_dec _ _)|]; try exact Hrefl.
  apply go_bankrupt_result.
Qed.

Lemma bankruptcy_fold_other (n : nation_id) (l : list nation_id) (w : world) :
  ~ In n l -> same_nation w (fold_left check_bankruptcy l w) n.
Proof.
  intros H. apply fold_left_preserves.
  - intros a j Hj (He & Hf & Hc & Hb & Hu & Hp).
    assert (Hnj : n <> j) by (intros ->; contradiction).
    destruct (check_bankruptcy_other a j) as (He' & Hf' & Hc' & Hb' & Hu' & Hp').
    repeat split.
    + now rewrite He'.
    + now rewrite Hf'.
    + intros. now rewrite Hc'.
    + intros. now rewrite Hb'.
    + now rewrite Hu'.
    + intros Hin. apply Hp. now apply Hp'.
    + intros Hin. apply Hp'; [exact Hnj|]. now apply Hp.
  - repeat split; auto.
Qed.

Lemma max_loan_nonneg (w : world) (n : nation_id) : 0 <= max_loan w n.
Proof. unfold max_loan. apply fmax_ge_l. Qed.

(** C6.  In the daily bankruptcy check a nation goes bankrupt exactly when
    its debt, the negated treasury, exceeds its max_loan: then its treasury
    is reset to 0, borrowing is switched off and bankrupt_until is set to
    the current date plus the bankruptcy duration in days; while the debt
    stays within max_loan nothing of this happens.  A treasury of -20 with
    max_loan = 10 triggers it. *)
Theorem bankruptcy_rule (w : world) (n : nation_id) :
  (n < nation_size (env w))%nat ->
  ~ bankruptcy_posted w n ->
  let w' := bankruptcy_pass w in
  (- nation_cf w stockpiles n money > max_loan w n ->
   bankruptcy_posted w' n
   /\ nation_cf w' stockpiles n money = 0
   /\ nation_b w' is_debt_spending n = false
   /\ nation_bankrupt_until w' n
      = (current_date (env w)
         + to_int32 (bankrupcy_duration (defs (env w)) * 365))%Z)
  /\ (- nation_cf w stockpiles n money <= max_loan w n ->
      ~ bankruptcy_posted w' n
      /\ nation_cf w' stockpiles n money = nation_cf w stockpiles n money
      /\ nation_bankrupt_until w' n = nation_bankrupt_until w n)
  /\ (nation_cf w stockpiles n money = -20 -> max_loan w n = 10 ->
      bankruptcy_posted w' n /\ nation_cf w' stockpiles n money = 0).
Proof.
  intros Hn Hfresh w'.
  unfold w', bankruptcy_pass, all_nations.
  rewrite (seq_split 0 (nation_size (env w)) n) by lia.
  rewrite fold_left_app. cbn [fold_left].
  set (w2 := fold_left check_bankruptcy (seq 0 (n - 0)) w).
  destruct (bankruptcy_fold_other n (seq 0 (n - 0)) w (not_in_seq_before 0 n))
    as (He2 & Hf2 & Hc2 & Hb2 & Hu2 & Hp2).
  fold w2 in He2, Hf2, Hc2, Hb2, Hu2, Hp2.
  set (w3 := check_bankruptcy w2 n).
  destruct (bankruptcy_fold_other n
              (seq (S n) (0 + nation_size (env w) - S n)) w3
              (not_in_seq_after n _)) as (_ & _ & Hc3 & Hb3 & Hu3 & Hp3).
  assert (Hloan : max_loan w2 n = max_loan w n)
    by (unfold max_loan; now rewrite Hf2).
  pose proof (max_loan_nonneg w n) as Hpos.
  assert (Hyes : - nation_cf w stockpiles n money > max_loan w n ->
            bankruptcy_posted w3 n
            /\ nation_cf w3 stockpiles n money = 0
            /\ nation_b w3 is_debt_spending n = false
            /\ nation_bankrupt_until w3 n
               = (current_date (env w)
                  + to_int32 (bankrupcy_duration (defs (env w)) * 365))%Z).
  { intros Hdebt. unfold w3, check_bankruptcy. rewrite Hc2, Hloan.
    destruct (Rlt_dec _ 0); [|lra]. destruct (Rlt_dec _ _); [|lra].
    destruct (go_bankrupt_result w2 n) as (_ & H1 & H2 & H3 & H4).
    rewrite He2 in H3. auto. }
  assert (Hno : - nation_cf w stockpiles n money <= max_loan w n -> w3 = w2).
  { intros Hdebt. unfold w3, check_bankruptcy. rewrite Hc2, Hloan.
    destruct (Rlt_dec _ 0); [|reflexivity].
    destruct (Rlt_dec _ _); [lra|reflexivity]. }
  rewrite Hc3, Hb3, Hu3, Hp3.
  split; [exact Hyes|]. split.
  - intros Hdebt. rewrite (Hno Hdebt), Hp2, Hc2, Hu2. auto.
  - intros H20 H10. destruct Hyes as (H1 & H2 & _); [lra|]. auto.
Qed.

Lemma bankruptcy_rule_witness :
  bankruptcy_posted (bankruptcy_pass indebted_world) 0%nat
  /\ nation_cf (bankruptcy_pass indebted_world) stockpiles 0%nat money = 0.
Proof.
  assert (Hn : (0 < nation_size (env indebted_world))%nat) by (simpl; lia).
  assert (Hfresh : ~ bankruptcy_posted indebted_world 0%nat)
    by (intros []).
  pose proof (bankruptcy_rule indebted_world 0%nat Hn Hfresh) as H.
  cbv zeta in H. destruct H as (_ & _ & H). apply H.
  - reflexivity.
  - unfold max_loan. simpl. rewrite upd_same. cpp_cases.
Defined.

(** ** Refunds *)

Lemma accumulate_from (l : list nat) (term : nat -> R) (r0 : R) :
  fold_left (fun acc i => acc + term i) l r0 = r0 + accumulate l term.
Proof.
  unfold accumulate. revert r0.
  induction l as [|x l IH]; intros r0; simpl; [lra|].
  rewrite (IH (r0 + term x)), (IH (0 + term x)). lra.
Qed.

Lemma accumulate_cons (x : nat) (l : list nat) (term : nat -> R) :
  accumulate (x :: l) term = term x + accumulate l term.
Proof.
  unfold accumulate at 1. simpl. rewrite accumulate_from. lra.
Qed.

Lemma accumulate_ext (l : list nat) (f g : nat -> R) :
  (forall i, In i l -> f i = g i) -> accumulate l f = accumulate l g.
Proof.
  induction l as [|x l IH]; intros H; [reflexivity|].
  rewrite !accumulate_cons, IH, (H x); auto using in_eq, in_cons.
Qed.

Lemma military_refund_fst (w : world) (n : nation_id)
  (demand_fld : nation_commodity_float) (lvl r0 : R) :
  fst (military_refund w n demand_fld lvl r0)
  = r0 + accumulate (traded_commodities w) (fun cid =>
           nation_cf w demand_fld n cid
           * (1 - nation_cf w demand_satisfaction n cid)
           * nation_f w spending_level n * lvl
           * commodity_f w current_price cid).
Proof.
  unfold military_refund. cbv zeta.
  generalize (traded_commodities w) as l.
  assert (H : forall l (r t m : R),
            fst (fst (fold_left
              (fun '(refund, total, max_sp) cid =>
                 (refund
                  + nation_cf w demand_fld n cid
                    * (1 - nation_cf w demand_satisfaction n cid)
                    * nation_f w spending_level n * lvl
                    * commodity_f w current_price cid,
                  total + nation_cf w demand_fld n cid,
                  max_sp + nation_cf w demand_fld n cid
                           * nation_cf w demand_satisfaction n cid))
              l (r, t, m)))
            = r + accumulate l (fun cid =>
                    nation_cf w demand_fld n cid
                    * (1 - nation_cf w demand_satisfaction n cid)
                    * nation_f w spending_level n * lvl
                    * commodity_f w current_price cid)).
  { induction l as [|x l IH]; intros r t m.
    - unfold accumulate. simpl. lra.
    - simpl fold_left. rewrite IH, accumulate_cons. lra. }
  intros l. specialize (H l r0 0 0).
  destruct (fold_left _ l (r0, 0, 0)) as [[r t] m]. exact H.
Qed.

Lemma untouched_refl (written : nation_commodity_float -> bool) (w : world)
  (n : nation_id) (todo : list commodity_id) : untouched written w w n todo.
Proof. repeat split; auto. Qed.

Lemma fill_stockpiles_fold (w0 : world) (n : nation_id) (s : R)
  (l : list commodity_id) :
  NoDup l -> ~ In money l ->
  forall (w : world) (r : R),
  untouched stockpile_written w0 w n l ->
  let res := fold_left (fill_stockpile n s) l (w, r) in
  snd res
  = r + accumulate l (fun cid =>
          if stockpile_refill_wanted w0 n cid then
            (nation_cf w0 stockpile_targets n cid
             - nation_cf w0 stockpiles n cid)
            * (1 - nation_cf w0 direct_demand_satisfaction n cid) * s
            * commodity_f w0 current_price cid
          else 0)
    /\ nation_cf (fst res) stockpiles n money
       = nation_cf w0 stockpiles n money
    /\ env (fst res) = env w0.
Proof.
  induction l as [|x l IH]; intros Hnd Hmoney w r Hw; cbv zeta.
  - simpl. unfold accumulate. simpl. destruct Hw as (He & _ & _ & _ & _ & H).
    split; [lra|]. split; [apply H|exact He].
  - inversion Hnd as [|? ? Hx Hnd']; subst.
    destruct Hw as (He & Hf & Hc & Hother & Htodo & Hm).
    assert (Hxm : x <> money) by (intros ->; apply Hmoney; now left).
    assert (Hwant : stockpile_refill_wanted w n x
                    = stockpile_refill_wanted w0 n x).
    { unfold stockpile_refill_wanted.
      rewrite !Htodo, He by now left. reflexivity. }
    simpl fold_left. rewrite accumulate_cons.
    unfold fill_stockpile at 2. rewrite Hwant.
    destruct (stockpile_refill_wanted w0 n x).
    + match goal with
      | |- context [fold_left _ l (?w1, ?r1)] =>
          destruct (IH Hnd' (fun H => Hmoney (or_intror H)) w1 r1) as [H1 H2]
      end.
      { repeat split; simpl; try assumption.
        - intros fld Hfld. unfold stockpile_written in Hfld.
          rewrite Hfld. now apply Hother.
        - intros fld c0 Hc0.
          destruct (nation_commodity_float_beq fld stockpiles).
          + rewrite upd2_other; [apply Htodo; now right|].
            right. intros ->. contradiction.
          + apply Htodo. now right.
        - intros fld.
          destruct (nation_commodity_float_beq fld stockpiles);
            [|apply Hm].
          rewrite upd2_other; [apply Hm|]. right. congruence. }
      split; [|exact H2]. rewrite H1. simpl.
      rewrite !Htodo, Hc by now left. lra.
    + destruct (IH Hnd' (fun H => Hmoney (or_intror H)) w r) as [H1 H2].
      { repeat split; try assumption. intros. apply Htodo. now right. }
      split; [|exact H2]. rewrite H1. lra.
Qed.

Lemma scale_construction_fold (w0 : world) (n : nation_id) (cs ps : R)
  (l : list commodity_id) :
  NoDup l -> ~ In money l ->
  forall (w : world) (r : R),
  untouched construction_written w0 w n l ->
  let res := fold_left (scale_construction_demand n cs ps) l (w, r) in
  snd res
  = r + accumulate l (fun cid =>
          nation_cf w0 construction_demand n cid * cs
          * (1 - nation_cf w0 demand_satisfaction n cid)
          * commodity_f w0 current_price cid)
    /\ nation_cf (fst res) stockpiles n money
       = nation_cf w0 stockpiles n money.
Proof.
  induction l as [|x l IH]; intros Hnd Hmoney w r Hw; cbv zeta.
  - simpl. unfold accumulate. simpl. destruct Hw as (_ & _ & _ & _ & _ & H).
    split; [lra|apply H].
  - inversion Hnd as [|? ? Hx Hnd']; subst.
    destruct Hw as (He & Hf & Hc & Hother & Htodo & Hm).
    assert (Hxm : x <> money) by (intros ->; apply Hmoney; now left).
    simpl fold_left. rewrite accumulate_cons.
    unfold scale_construction_demand at 2. cbv zeta.
    match goal with
    | |- context [fold_left _ l (?w1, ?r1)] =>
        destruct (IH Hnd' (fun H => Hmoney (or_intror H)) w1 r1) as [H1 H2]
    end.
    { repeat split; simpl; try assumption.
      - intros fld Hfld. pose proof (Hother fld Hfld) as Ho.
        unfold construction_written in Hfld.
        apply orb_false_iff in Hfld. destruct Hfld as [Hf1 Hf2].
        rewrite Hf1, Hf2. exact Ho.
      - intros fld c0 Hc0.
        assert (Hne : n <> n \/ c0 <> x)
          by (right; intros ->; contradiction).
        destruct (nation_commodity_float_beq fld
                    private_construction_demand);
          destruct (nation_commodity_float_beq fld construction_demand);
          rewrite ?upd2_other by exact Hne; apply Htodo; now right.
      - intros fld.
        assert (Hne : n <> n \/ money <> x) by (right; congruence).
        destruct (nation_commodity_float_beq fld
                    private_construction_demand);
          destruct (nation_commodity_float_beq fld construction_demand);
          rewrite ?upd2_other by exact Hne; apply Hm. }
    split; [|exact H2]. rewrite H1.
    rewrite !Htodo, Hc by now left. lra.
Qed.

Lemma traded_commodities_fresh (w : world) :
  NoDup (traded_commodities w) /\ ~ In money (traded_commodities w).
Proof.
  unfold traded_commodities, money. split; [apply seq_NoDup|].
  rewrite in_seq. lia.
Qed.

(** The refunds of the four categories of goods, from the tables at the
    start of the block. *)
Lemma refund_by_category (w : world) (n : nation_id) :
  (forall cid, In cid (traded_commodities w) ->
     nation_cf w effective_prices n cid = commodity_f w current_price cid) ->
  (forall fld lvl r0,
     fst (military_refund w n fld lvl r0) = r0 + Spec.unspent w n fld lvl)
  /\ (forall r0, snd (fill_stockpiles w n r0) = r0 + Spec.unspent_refill w n)
  /\ nation_cf (advance_construction_refund w n) stockpiles n money
     = nation_cf w stockpiles n money
       + Spec.unspent w n construction_demand
           (IZR (nation_i (env w) construction_spending n) / 100).
Proof.
  intros Hprice.
  destruct (traded_commodities_fresh w) as [Hnd Hmoney].
  split; [|split].
  - intros fld lvl r0. rewrite military_refund_fst. f_equal.
    apply accumulate_ext. intros cid Hcid.
    unfold Spec.deducted. rewrite (Hprice cid Hcid). ring.
  - intros r0. unfold fill_stockpiles. cbv zeta.
    destruct (fill_stockpiles_fold w n (nation_f w spending_level n)
                (traded_commodities w) Hnd Hmoney w r0
                (untouched_refl _ w n _)) as (H & _).
    rewrite H. f_equal. apply accumulate_ext. intros cid Hcid.
    destruct (stockpile_refill_wanted w n cid); [|reflexivity].
    rewrite (Hprice cid Hcid). ring.
  - unfold advance_construction_refund. cbv zeta.
    match goal with
    | |- context [fold_left (scale_construction_demand n ?cs ?ps) _ _] =>
        destruct (scale_construction_fold w n cs ps
                    (traded_commodities w) Hnd Hmoney w 0
                    (untouched_refl _ w n _)) as (H1 & H2);
        destruct (fold_left (scale_construction_demand n cs ps) _ _)
          as [w1 r1]
    end.
    simpl in H1, H2. simpl. rewrite upd2_same, H2, H1.
    rewrite Rplus_0_l. f_equal. apply accumulate_ext. intros cid Hcid.
    unfold Spec.deducted. rewrite (Hprice cid Hcid).
    unfold Rdiv. ring.
Qed.


(** A nation without provinces is skipped. *)
Lemma refund_skips_landless (w : world) (n : nation_id) :
  nation_i (env w) owned_province_count n = 0%Z ->
  refund_unsatisfied_spending w n = w.
Proof. intros H. unfold refund_unsatisfied_spending. now rewrite H. Qed.

(** The treasury after the refund block, for a nation with provinces that
    pays no overseas penalty: every refund is valued at the current
    price. *)
Lemma refund_block_treasury (w : world) (n : nation_id) :
  nation_i (env w) owned_province_count n <> 0%Z ->
  ~ overseas_factor_of w n > 0 ->
  nation_cf (refund_unsatisfied_spending w n) stockpiles n money
  = nation_cf w stockpiles n money
    + accumulate (traded_commodities w) (fun cid =>
        nation_cf w navy_demand n cid
        * (1 - nation_cf w demand_satisfaction n cid)
        * nation_f w spending_level n
        * (IZR (nation_i (env w) naval_spending n) / 100)
        * commodity_f w current_price cid)
    + accumulate (traded_commodities w) (fun cid =>
        nation_cf w army_demand n cid
        * (1 - nation_cf w demand_satisfaction n cid)
        * nation_f w spending_level n
        * (IZR (nation_i (env w) land_spending n) / 100)
        * commodity_f w current_price cid)
    + accumulate (traded_commodities w) (fun cid =>
        if stockpile_refill_wanted w n cid then
          (nation_cf w stockpile_targets n cid - nation_cf w stockpiles n cid)
          * (1 - nation_cf w direct_demand_satisfaction n cid)
          * nation_f w spending_level n
          * commodity_f w current_price cid
        else 0).
Proof.
  intros Hown Hover. unfold refund_unsatisfied_spending.
  destruct (Z.eqb_spec (nation_i (env w) owned_province_count n) 0)
    as [E|_]; [contradiction|].
  cbv zeta.
  pose proof (military_refund_fst w n navy_demand
                (IZR (nation_i (env w) naval_spending n) / 100) 0) as H1.
  destruct (military_refund w n navy_demand _ 0) as [r1 e1].
  simpl in H1.
  set (w1 := nation_set effective_naval_spending n e1 w).
  pose proof (military_refund_fst w1 n army_demand
                (IZR (nation_i (env w) land_spending n) / 100) r1) as H2.
  change (env w1) with (env w).
  destruct (military_refund w1 n army_demand _ r1) as [r2 e2].
  simpl in H2.
  set (w2 := nation_set effective_land_spending n e2 w1).
  set (w3 := nation_set effective_construction_spending n
               (construction_effective_spending w2 n) w2).
  destruct (traded_commodities_fresh w3) as [Hnd Hmoney].
  destruct (fill_stockpiles_fold w3 n (nation_f w3 spending_level n)
              (traded_commodities w3) Hnd Hmoney w3 r2
              (untouched_refl _ w3 n _)) as (H3 & H4 & H5).
  fold (fill_stockpiles w3 n r2) in H3, H4, H5.
  destruct (fill_stockpiles w3 n r2) as [w4 r3].
  simpl in H3, H4, H5.
  unfold overseas_refund.
  assert (Hsame : overseas_factor_of w4 n = overseas_factor_of w n)
    by (unfold overseas_factor_of; now rewrite H5).
  rewrite Hsame. destruct (Rgt_dec (overseas_factor_of w n) 0);
    [contradiction|].
  simpl. rewrite upd2_same, H4, H3, H2, H1.
  change (traded_commodities w3) with (traded_commodities w).
  change (traded_commodities w1) with (traded_commodities w).
  rewrite Rplus_0_l. simpl.
  change (stockpile_refill_wanted w3 n) with (stockpile_refill_wanted w n).
  lra.
Qed.

(** C7.  The refund falls short of what was deducted.  [navy_world 100 2]
    is a nation with one province, tariffs of 100 percent, naval spending
    at 100 percent and a spending scale of 1 that wants one unit of
    commodity 1 for its navy; the current price is 1 and nothing is on
    offer, so the effective price is 2.  [full_spending_cost] charges 2
    for the unit, none of it is delivered, so all of the 2 is the unspent
    part of the amount deducted for the navy, and the refund block
    credits 1 to the treasury. *)
Theorem refund_short_of_deduction :
  effective_price_of (navy_world 100 2) 0%nat 1%nat = 2
  /\ nation_cf (navy_world 100 2) effective_prices 0%nat 1%nat = 2
  /\ fst (full_spending_cost (navy_world 100 2) 0%nat) = 2
  /\ nation_cf (navy_world 100 2) demand_satisfaction 0%nat 1%nat = 0
  /\ Spec.unspent (navy_world 100 2) 0%nat navy_demand
       (IZR (nation_i (env (navy_world 100 2)) naval_spending 0%nat) / 100)
     = 2
  /\ nation_cf (refund_unsatisfied_spending (navy_world 100 2) 0%nat)
       stockpiles 0%nat money
     = nation_cf (navy_world 100 2) stockpiles 0%nat money + 1.
Proof.
  split; [|split; [reflexivity|split; [|split; [reflexivity|split]]]].
  - unfold effective_price_of, global_market_price_multiplier,
      effective_tariff_rate, domestic_supply_of. simpl. cpp_cases.
  - unfold full_spending_cost, overseas_factor_of, stockpile_refill_wanted.
    simpl. cpp_cases.
  - unfold Spec.unspent, Spec.deducted, accumulate. simpl. lra.
  - rewrite refund_block_treasury.
    + unfold accumulate, stockpile_refill_wanted. simpl. cpp_cases.
    + simpl. lia.
    + unfold overseas_factor_of. simpl. lra.
Qed.

(** ** Factories *)

Lemma register_intermediate_demand_fold_factory (n : nation_id) (scale : R)
  (l : recipe) (w : world) :
  let w' :=
    fold_left (fun w '(commodity_type, amount) =>
        register_intermediate_demand w n commodity_type (scale * amount)
          reason_factory) l w in
  factory_f w' = factory_f w /\ factory_b w' = factory_b w.
Proof.
  cbv zeta.
  apply (fold_left_preserves _ (fun a =>
           factory_f a = factory_f w /\ factory_b a = factory_b w)).
  - intros a [ct amt] _ Ha. exact Ha.
  - now split.
Qed.

Lemma register_e_demand_fold_factory (n : nation_id) (mfactor scale e : R)
  (l : recipe) (w : world) :
  let w' :=
    fold_left (fun w '(commodity_type, amount) =>
        register_intermediate_demand w n commodity_type
          (mfactor * scale * amount * e) reason_factory) l w in
  factory_f w' = factory_f w /\ factory_b w' = factory_b w.
Proof.
  cbv zeta.
  apply (fold_left_preserves _ (fun a =>
           factory_f a = factory_f w /\ factory_b a = factory_b w)).
  - intros a [ct amt] _ Ha. exact Ha.
  - now split.
Qed.

Lemma update_factory_scale_tables (w : world) (fac : factory_id)
  (mps rp drp : R) :
  factory_b (snd (update_factory_scale w fac mps rp drp)) = factory_b w.
Proof.
  unfold update_factory_scale. cbv zeta.
  now destruct (factory_b w subsidized fac).
Qed.

(** A factory that is allowed no production gets an effective production
    scale of 0. *)
Lemma update_factory_scale_idle (w : world) (fac : factory_id) (rp drp : R) :
  0 <= factory_f w production_scale fac ->
  0 < alice_factory_per_level_employment (defs (env w)) ->
  fst (update_factory_scale w fac 0 rp drp) = 0.
Proof.
  intros Hscale Hple. unfold update_factory_scale. cbv zeta.
  pose proof (pos_INR (factory_level (env w) fac)) as Hlevel.
  destruct (factory_b w subsidized fac); simpl.
  - set (boost := 10 / factory_max_employment w fac
                  * INR (factory_level (env w) fac) * 10).
    assert (Hboost : 0 <= boost).
    { unfold boost, factory_max_employment.
      destruct Hlevel as [Hpos|Hzero].
      - assert (0 < 10 / (alice_factory_per_level_employment (defs (env w))
                          * INR (factory_level (env w) fac))).
        { apply Rdiv_pos_pos; [lra|]. now apply Rmult_lt_0_compat. }
        nra.
      - rewrite <- Hzero. lra. }
    assert (Hnew : 0 <= fmin 1 (factory_f w production_scale fac + boost))
      by (apply fmin_glb; lra).
    assert (0 <= fmin 1 (factory_f w production_scale fac + boost)
                 * INR (factory_level (env w) fac))
      by now apply Rmult_le_pos.
    unfold fmin at 1. destruct (Rlt_dec _ _); lra.
  - match goal with
    | |- fmin (clamp ?v 0 1 * _) 0 = 0 =>
        pose proof (clamp_bounds v 0 1 ltac:(lra)) as Hnew
    end.
    match goal with
    | |- fmin (?a * ?b) 0 = 0 =>
        assert (0 <= a * b) by (apply Rmult_le_pos; lra)
    end.
    unfold fmin at 1. destruct (Rlt_dec _ _); lra.
Qed.

(** The tables of the factory after the consumption update. *)
Lemma update_single_factory_consumption_result (w : world) (f : factory_id)
  (n : nation_id) (p : province_id) (s : state_instance_id)
  (mobilization_impact expected_min_wage : R) (occupied : bool) :
  let w' :=
    update_single_factory_consumption w f n p s mobilization_impact
      expected_min_wage occupied in
  let max_production_scale :=
    factory_max_production_scale w f mobilization_impact occupied in
  let profit_ := factory_level_profit w f n p s in
  let spendings := factory_level_spendings w f n p s expected_min_wage in
  let w1 :=
    factory_bset unprofitable f
      (if Rgt_dec (profit_ - spendings) 0 then false else true) w in
  let scale :=
    fst (update_factory_scale w1 f max_production_scale profit_
           (factory_desired_raw_profit w f spendings)) in
  factory_f w' actual_production f
  = factory_level_production w f n p s * scale
  /\ factory_f w' full_profit f = (profit_ - spendings) * scale
  /\ factory_b w' unprofitable f
     = (if Rgt_dec (profit_ - spendings) 0 then false else true)
  /\ factory_b w' subsidized f = factory_b w subsidized f.
Proof.
  cbv zeta. unfold update_single_factory_consumption. cbv zeta.
  set (w1 := factory_bset unprofitable f _ w).
  change (factory_desired_raw_profit w1 f) with (factory_desired_raw_profit w f).
  pose proof (update_factory_scale_tables w1 f
                (factory_max_production_scale w f mobilization_impact occupied)
                (factory_level_profit w f n p s)
                (factory_desired_raw_profit w f
                   (factory_level_spendings w f n p s expected_min_wage)))
    as Hb.
  destruct (update_factory_scale w1 f _ _ _) as [eps w2]. simpl in Hb.
  repeat split; simpl; rewrite ?upd_same; try reflexivity.
  - match goal with
    | |- context [fold_left ?g ?l2 (fold_left ?h ?l1 w2)] =>
        destruct (register_e_demand_fold_factory n
                    (nation_f w (modifier_values
                       national_mod_offsets.factory_maintenance) n + 1)
                    (factory_input_multiplier w f n p s
                     * factory_throughput_multiplier w
                         (factory_building_type (env w) f) n p s
                     * eps
                     * (0.1 + factory_min_input_available w n
                                (factory_building_type (env w) f) * 0.9))
                    (0.1 + factory_min_e_input_available w n
                             (factory_building_type (env w) f) * 0.9)
                    l2 (fold_left h l1 w2)) as [_ Hb2];
        destruct (register_intermediate_demand_fold_factory n
                    (factory_input_multiplier w f n p s
                     * factory_throughput_multiplier w
                         (factory_building_type (env w) f) n p s
                     * eps
                     * (0.1 + factory_min_input_available w n
                                (factory_building_type (env w) f) * 0.9))
                    l1 w2) as [_ Hb1]
    end.
    cbv zeta in Hb1, Hb2. rewrite Hb2, Hb1, Hb. simpl. now rewrite upd_same.
  - match goal with
    | |- context [fold_left ?g ?l2 (fold_left ?h ?l1 w2)] =>
        destruct (register_e_demand_fold_factory n
                    (nation_f w (modifier_values
                       national_mod_offsets.factory_maintenance) n + 1)
                    (factory_input_multiplier w f n p s
                     * factory_throughput_multiplier w
                         (factory_building_type (env w) f) n p s
                     * eps
                     * (0.1 + factory_min_input_available w n
                                (factory_building_type (env w) f) * 0.9))
                    (0.1 + factory_min_e_input_available w n
                             (factory_building_type (env w) f) * 0.9)
                    l2 (fold_left h l1 w2)) as [_ Hb2];
        destruct (register_intermediate_demand_fold_factory n
                    (factory_input_multiplier w f n p s
                     * factory_throughput_multiplier w
                         (factory_building_type (env w) f) n p s
                     * eps
                     * (0.1 + factory_min_input_available w n
                                (factory_building_type (env w) f) * 0.9))
                    l1 w2) as [_ Hb1]
    end.
    cbv zeta in Hb1, Hb2. rewrite Hb2, Hb1, Hb. reflexivity.
Qed.

(** C10 (as amended).  For any factory with primary_employment = 0, a
    production scale that is not negative and a positive employment per
    level, the consumption update yields actual_production = 0 and a full
    profit of 0.  For any factory, the update sets the unprofitable flag
    exactly when the raw profit of one filled level does not exceed the
    spendings of one filled level, whatever the employment and whether or
    not the factory is subsidized, and it leaves the subsidy as it is; the
    factory counts as profitable afterwards when the profit exceeds the
    spendings or the factory is subsidized. *)
Theorem idle_factory_rule (w : world) (f : factory_id) (n : nation_id)
  (p : province_id) (s : state_instance_id)
  (mobilization_impact expected_min_wage : R) (occupied : bool) :
  let w' :=
    update_single_factory_consumption w f n p s mobilization_impact
      expected_min_wage occupied in
  (factory_f w primary_employment f = 0 ->
   0 <= factory_f w production_scale f ->
   0 < alice_factory_per_level_employment (defs (env w)) ->
   factory_f w' actual_production f = 0 /\ factory_f w' full_profit f = 0)
  /\ (factory_b w' unprofitable f = true <->
      factory_level_profit w f n p s
      <= factory_level_spendings w f n p s expected_min_wage)
  /\ factory_b w' subsidized f = factory_b w subsidized f
  /\ (factory_is_profitable w' f = true <->
      factory_level_spendings w f n p s expected_min_wage
      < factory_level_profit w f n p s
      \/ factory_b w subsidized f = true).
Proof.
  pose proof (update_single_factory_consumption_result w f n p s
                mobilization_impact expected_min_wage occupied) as H.
  cbv zeta in H |- *. destruct H as (Hprod & Hprofit & Hflag & Hsub).
  split; [|split; [|split; [exact Hsub|]]];
    [| |unfold factory_is_profitable; rewrite Hflag, Hsub;
        destruct (Rgt_dec _ 0); destruct (factory_b w subsidized f); simpl;
        split; intros; try reflexivity; try discriminate;
        try (left; lra); try (now right);
        match goal with H : _ \/ _ |- _ => destruct H end;
        try lra; discriminate].
  - intros Hidle Hscale Hple.
    assert (Hmax : factory_max_production_scale w f mobilization_impact
                     occupied = 0).
    { unfold factory_max_production_scale. rewrite Hidle. ring. }
    rewrite Hprod, Hprofit, Hmax, update_factory_scale_idle by assumption.
    split; ring.
  - rewrite Hflag. destruct (Rgt_dec _ 0); split; intros; try lra;
      try discriminate; reflexivity.
Qed.

Lemma idle_factory_rule_witness :
  factory_f
    (update_single_factory_consumption idle_factory_world 0%nat 0%nat 0%nat
       0%nat 1 0 false) actual_production 0%nat = 0
  /\ factory_f
       (update_single_factory_consumption idle_factory_world 0%nat 0%nat
          0%nat 0%nat 1 0 false) full_profit 0%nat = 0.
Proof.
  apply (proj1 (idle_factory_rule idle_factory_world 0%nat 0%nat 0%nat 0%nat
                  1 0 false)).
  - reflexivity.
  - simpl. lra.
  - simpl. lra.
Defined.

Lemma idle_factory_world_margin :
  factory_level_profit idle_factory_world 0%nat 0%nat 0%nat 0%nat = 1
  /\ factory_level_spendings idle_factory_world 0%nat 0%nat 0%nat 0%nat 0 = 0.
Proof.
  unfold factory_level_profit, factory_level_spendings,
    factory_level_production, factory_min_input_available,
    factory_min_e_input_available, factory_input_total_cost,
    factory_e_input_total_cost, factory_throughput_multiplier,
    factory_output_multiplier, factory_input_multiplier.
  simpl. rewrite upd_same. split; lra.
Qed.

(** C10, the claim as worded fails: a factory without workers and without
    subsidy, whose filled level would earn 1 and spend 0, is not flagged
    unprofitable by the update. *)
Lemma idle_factory_counterexample :
  factory_f idle_factory_world primary_employment 0%nat = 0
  /\ factory_b
       (update_single_factory_consumption idle_factory_world 0%nat 0%nat
          0%nat 0%nat 1 0 false) subsidized 0%nat = false
  /\ factory_b
       (update_single_factory_consumption idle_factory_world 0%nat 0%nat
          0%nat 0%nat 1 0 false) unprofitable 0%nat = false
  /\ ~ (factory_f idle_factory_world primary_employment 0%nat = 0 ->
        factory_b
          (update_single_factory_consumption idle_factory_world 0%nat 0%nat
             0%nat 0%nat 1 0 false) subsidized 0%nat = false ->
        factory_b
          (update_single_factory_consumption idle_factory_world 0%nat 0%nat
             0%nat 0%nat 1 0 false) unprofitable 0%nat = true).
Proof.
  pose proof (update_single_factory_consumption_result idle_factory_world
                0%nat 0%nat 0%nat 0%nat 1 0 false) as H.
  cbv zeta in H. destruct H as (_ & _ & Hflag & Hsub).
  destruct idle_factory_world_margin as [Hp Hs].
  rewrite Hp, Hs in Hflag.
  destruct (Rgt_dec (1 - 0) 0) as [_|Hn]; [|lra].
  assert (Hidle : factory_f idle_factory_world primary_employment 0%nat = 0)
    by reflexivity.
  assert (Hsub' : factory_b
            (update_single_factory_consumption idle_factory_world 0%nat 0%nat
               0%nat 0%nat 1 0 false) subsidized 0%nat = false)
    by (rewrite Hsub; reflexivity).
  repeat split; try assumption.
  intros Hclaim. specialize (Hclaim Hidle Hsub').
  rewrite Hflag in Hclaim. discriminate.
Qed.

(** ** The RGO employment allocator *)

Lemma only_employment_refl (w : world) (p : province_id) :
  only_employment_of w w p.
Proof. repeat split. Qed.

Lemma only_employment_set (w w' : world) (p : province_id) (k : commodity_id)
  (v : R) :
  only_employment_of w w' p ->
  only_employment_of w (province_cset rgo_employment_per_good p k v w') p.
Proof.
  intros (He & Hc & Hn & Hf & Hp & Hcf). repeat split; simpl; try assumption.
  intros fld q j Hor.
  destruct (province_commodity_float_beq fld rgo_employment_per_good) eqn:E.
  - apply internal_province_commodity_float_dec_bl in E.
    rewrite upd2_other; [now apply Hcf|].
    left. destruct Hor; congruence.
  - now apply Hcf.
Qed.

Lemma rgo_max_employment_only (w w' : world) (n : nation_id)
  (p : province_id) (k : commodity_id) :
  only_employment_of w w' p ->
  rgo_max_employment w' n p k = rgo_max_employment w n p k.
Proof.
  intros (He & Hc & Hn & Hf & Hp & Hcf).
  unfold rgo_max_employment, rgo_effective_size.
  rewrite He, Hn, Hf, Hp, Hcf; [reflexivity|]. left. discriminate.
Qed.

Lemma collect_rgo_goods_fold (w : world) (owner : nation_id)
  (p : province_id) (l : list commodity_id) :
  forall (w1 : world) (acc : list commodity_profit_holder),
  only_employment_of w w1 p ->
  let res := fold_left (collect_rgo_good owner p) l (w1, acc) in
  only_employment_of w (fst res) p
  /\ map c (snd res) = map c acc ++ filter (rgo_candidate w owner p) l
  /\ forall k,
       province_cf (fst res) rgo_employment_per_good p k
       = if (existsb (Nat.eqb k) l && negb (rgo_candidate w owner p k))%bool
         then 0 else province_cf w1 rgo_employment_per_good p k.
Proof.
  induction l as [|x l IH]; intros w1 acc Hw1; cbv zeta.
  - simpl. rewrite app_nil_r. auto.
  - cbn [fold_left].
    assert (Hstep : collect_rgo_good owner p (w1, acc) x
              = if rgo_candidate w owner p x
                then (w1, acc ++ [ {| profit :=
                        rgo_expected_worker_norm_profit w1 p owner x;
                        c := x |} ])
                else (province_cset rgo_employment_per_good p x 0 w1, acc)).
    { unfold collect_rgo_good, rgo_candidate.
      rewrite (rgo_max_employment_only w w1) by exact Hw1.
      now destruct (Rgt_dec _ _). }
    rewrite Hstep. cbn [filter existsb].
    destruct (rgo_candidate w owner p x) eqn:Ex.
    + destruct (IH w1 (acc ++ [ {| profit :=
                  rgo_expected_worker_norm_profit w1 p owner x; c := x |} ])
                  Hw1) as (H1 & H2 & H3).
      split; [exact H1|]. split.
      * rewrite H2, map_app. simpl. now rewrite <- app_assoc.
      * intros k. rewrite H3.
        destruct (Nat.eqb k x) eqn:E; [|reflexivity].
        apply Nat.eqb_eq in E. subst k. rewrite Ex. simpl.
        now rewrite andb_false_r.
    + destruct (IH (province_cset rgo_employment_per_good p x 0 w1) acc
                  (only_employment_set w w1 p x 0 Hw1)) as (H1 & H2 & H3).
      split; [exact H1|]. split; [exact H2|].
      intros k. rewrite H3.
      destruct (Nat.eqb k x) eqn:E.
      * apply Nat.eqb_eq in E. subst k. simpl. rewrite upd2_same, Ex.
        simpl. now destruct (existsb _ l).
      * simpl. rewrite upd2_other; [reflexivity|].
        right. intros ->. now rewrite Nat.eqb_refl in E.
Qed.

Lemma insert_by_profit_perm (x : commodity_profit_holder)
  (l : list commodity_profit_holder) :
  Permutation (insert_by_profit x l) (x :: l).
Proof.
  induction l as [|y l IH]; simpl; [reflexivity|].
  destruct (Rgt_dec (profit y) (profit x)); [|reflexivity].
  rewrite IH. apply perm_swap.
Qed.

Lemma sort_by_profit_perm (l : list commodity_profit_holder) :
  Permutation (sort_by_profit l) l.
Proof.
  induction l as [|x l IH]; simpl; [reflexivity|].
  rewrite insert_by_profit_perm. now constructor.
Qed.

Lemma existsb_eqb_in (k : nat) (l : list nat) :
  existsb (Nat.eqb k) l = true <-> In k l.
Proof.
  rewrite existsb_exists. split.
  - intros (x & Hx & E). apply Nat.eqb_eq in E. now subst.
  - intros H. exists k. split; [exact H|apply Nat.eqb_refl].
Qed.

Lemma existsb_eqb_not_in (k : nat) (l : list nat) :
  ~ In k l -> existsb (Nat.eqb k) l = false.
Proof.
  intros H. destruct (existsb (Nat.eqb k) l) eqn:E; [|reflexivity].
  apply existsb_eqb_in in E. contradiction.
Qed.

(** A sum over distinct indices whose term changes at one index. *)
Lemma accumulate_bump (l : list nat) (f g : nat -> R) (k : nat) (d : R) :
  NoDup l ->
  (forall i, i <> k -> g i = f i) -> g k = f k + d ->
  accumulate l g
  = accumulate l f + (if existsb (Nat.eqb k) l then d else 0).
Proof.
  intros Hnd Hother Hk. induction Hnd as [|x l Hx Hnd IH].
  - unfold accumulate. simpl. lra.
  - rewrite !accumulate_cons. simpl existsb.
    destruct (Nat.eqb k x) eqn:E.
    + apply Nat.eqb_eq in E. subst x. simpl.
      rewrite IH, existsb_eqb_not_in by exact Hx. lra.
    + simpl. rewrite IH, Hother; [lra|].
      intros ->. now rewrite Nat.eqb_refl in E.
Qed.

Lemma assign_rgo_workers_frame (w0 : world) (owner : nation_id)
  (p : province_id) (rest : list commodity_profit_holder) :
  forall st,
  only_employment_of w0 (fst (fst (fst st))) p ->
  only_employment_of w0
    (fst (fst (fst (fold_left (assign_rgo_workers owner p) rest st)))) p.
Proof.
  induction rest as [|h rest IH]; intros [[[w tw] met] te] Hw;
    [exact Hw|].
  cbn [fold_left]. apply IH. simpl. now apply only_employment_set.
Qed.

(** The distribution loop never hands out more than the labor pool. *)
Lemma assign_rgo_workers_bound (w0 : world) (owner : nation_id)
  (p : province_id) (ids : list commodity_id) (pool : R)
  (rest : list commodity_profit_holder) :
  NoDup ids ->
  (forall k, 0 <= province_cf w0 rgo_target_employment_per_good p k) ->
  forall (w : world) (tw met te : R),
  NoDup (map c rest) ->
  only_employment_of w0 w p ->
  0 <= tw ->
  (forall h, In h rest -> 0 <= province_cf w rgo_employment_per_good p (c h)) ->
  assigned_employment w p rest ids <= pool - tw ->
  let res := fold_left (assign_rgo_workers owner p) rest (w, tw, met, te) in
  0 <= snd (fst (fst res))
  /\ accumulate ids (fun k =>
       province_cf (fst (fst (fst res))) rgo_employment_per_good p k)
     <= pool - snd (fst (fst res)).
Proof.
  intros Hids Htarget.
  induction rest as [|h rest IH]; intros w tw met te Hnd Hw Htw Hcur Hsum;
    cbv zeta.
  - simpl. split; [exact Htw|]. exact Hsum.
  - cbn [fold_left]. unfold assign_rgo_workers at 2. cbv zeta.
    inversion Hnd as [|? ? Hh Hnd']; subst.
    set (target := province_cf w rgo_target_employment_per_good p (c h)).
    set (cur := province_cf w rgo_employment_per_good p (c h)).
    set (new_pre := fmin (cur * (1 - 0.20) + fmin target tw * 0.20) tw).
    set (new := clamp new_pre 0 (rgo_max_employment w owner p (c h))).
    assert (Htgt : 0 <= target).
    { unfold target. destruct Hw as (_ & _ & _ & _ & _ & Hcf).
      rewrite Hcf; [apply Htarget|]. left. discriminate. }
    assert (Hcur0 : 0 <= cur) by (apply Hcur; now left).
    assert (Hpre : 0 <= new_pre <= tw).
    { unfold new_pre. split; [|apply fmin_le_r].
      apply fmin_glb; [|exact Htw].
      assert (0 <= fmin target tw) by now apply fmin_glb.
      nra. }
    assert (Hnew : new <= new_pre) by (unfold new; cpp_cases).
    apply IH; try assumption.
    + now apply only_employment_set.
    + lra.
    + intros h' Hh'. simpl. rewrite upd2_other; [apply Hcur; now right|].
      right. intros E. apply Hh. rewrite <- E. now apply in_map.
    + unfold assigned_employment in *.
      rewrite (accumulate_bump ids
                 (fun k => if existsb (Nat.eqb k) (map c (h :: rest)) then 0
                           else province_cf w rgo_employment_per_good p k)
                 _ (c h) new Hids).
      * destruct (existsb (Nat.eqb (c h)) ids); lra.
      * intros i Hi. simpl map. simpl existsb.
        assert (E : Nat.eqb i (c h) = false)
          by (apply Nat.eqb_neq; exact Hi).
        rewrite E. simpl. rewrite upd2_other; [reflexivity|now right].
      * simpl map. simpl existsb. rewrite Nat.eqb_refl. simpl.
        rewrite (existsb_eqb_not_in _ _ Hh), upd2_same. lra.
Qed.

Lemma accumulate_zero (l : list nat) (f : nat -> R) :
  (forall i, In i l -> f i = 0) -> accumulate l f = 0.
Proof.
  induction l as [|x l IH]; intros H; [reflexivity|].
  rewrite accumulate_cons, IH, (H x); auto using in_eq, in_cons. lra.
Qed.

(** A loop whose steps touch no province table, as the loop that records
    the employment of the pops. *)
Lemma province_tables_fold {B : Type} (step : world -> B -> world)
  (l : list B) (w : world) :
  (forall a j, env (step a j) = env a
               /\ province_cf (step a j) = province_cf a
               /\ province_f (step a j) = province_f a) ->
  env (fold_left step l w) = env w
  /\ province_cf (fold_left step l w) = province_cf w
  /\ province_f (fold_left step l w) = province_f w.
Proof.
  intros Hstep.
  apply (fold_left_preserves _ (fun a =>
           env a = env w /\ province_cf a = province_cf w
           /\ province_f a = province_f w)).
  - intros a j _ (He & Hcf & Hf).
    destruct (Hstep a j) as (He' & Hcf' & Hf').
    now rewrite He', Hcf', Hf'.
  - repeat split.
Qed.

Ltac raw_employment_frame He Hcf Hf :=
  match goal with
  | |- context [fold_left ?g ?l ?a] =>
      destruct (province_tables_fold g l a) as (He & Hcf & Hf);
      [ intros ? ?; cbv zeta;
        repeat match goal with
               | |- context [if ?b then _ else _] => destruct b
               end;
        repeat split
      | generalize dependent (fold_left g l a); intros ? He Hcf Hf ]
  end.

(** The allocation in one province leaves the other provinces alone. *)
Lemma update_province_rgo_employment_other (w : world) (q p : province_id) :
  q <> p -> same_province w (update_province_rgo_employment w q) p.
Proof.
  intros Hqp. unfold update_province_rgo_employment. cbv zeta.
  unfold collect_rgo_goods.
  destruct (collect_rgo_goods_fold w (province_owner (env w) q) q
              (all_commodities w) w [] (only_employment_refl w q))
    as (H1 & _ & _).
  destruct (fold_left (collect_rgo_good _ q) _ _) as [w1 l1]. simpl in H1.
  pose proof (assign_rgo_workers_frame w (province_owner (env w) q) q
                (sort_by_profit l1)
                (w1, worker_pool_of w q + slave_pool_of w q, 0, 0) H1) as H2.
  destruct (fold_left (assign_rgo_workers _ q) _ _) as [[[w2 tw] met] te].
  simpl in H2.
  raw_employment_frame He Hcf Hf.
  destruct H2 as (He2 & _ & _ & _ & Hf2 & Hcf2).
  split; [|split].
  - rewrite He. simpl. exact He2.
  - intros fld k. rewrite Hcf. simpl. apply Hcf2. right. congruence.
  - intros fld. rewrite Hf. simpl.
    destruct (province_float_beq fld rgo_employment);
      destruct (province_float_beq fld subsistence_employment);
      rewrite ?upd_other by congruence; now rewrite Hf2.
Qed.

(** In the province itself the allocation stays within the labor pool. *)
Lemma update_province_rgo_employment_bound (w : world) (p : province_id) :
  (forall k, 0 <= province_cf w rgo_employment_per_good p k) ->
  (forall k, 0 <= province_cf w rgo_target_employment_per_good p k) ->
  0 <= labor_pool_of w p ->
  let w' := update_province_rgo_employment w p in
  env w' = env w
  /\ rgo_total_employment w' (province_owner (env w') p) p
     + province_f w' subsistence_employment p
     <= labor_pool_of w p.
Proof.
  intros Hemp Htarget Hpool. unfold update_province_rgo_employment.
  cbv zeta. unfold collect_rgo_goods.
  set (owner := province_owner (env w) p).
  destruct (collect_rgo_goods_fold w owner p (all_commodities w) w []
              (only_employment_refl w p)) as (H1 & H2 & H3).
  destruct (fold_left (collect_rgo_good owner p) _ _) as [w1 l1].
  simpl in H1, H2, H3.
  assert (Hperm : Permutation (map c (sort_by_profit l1)) (map c l1))
    by (apply Permutation_map, sort_by_profit_perm).
  assert (Hids : NoDup (all_commodities w)) by apply seq_NoDup.
  assert (Hnd : NoDup (map c (sort_by_profit l1))).
  { apply (Permutation_NoDup (Permutation_sym Hperm)).
    rewrite H2. now apply NoDup_filter. }
  assert (Hemp1 : forall k, 0 <= province_cf w1 rgo_employment_per_good p k).
  { intros k. rewrite H3. destruct (_ && _)%bool; [lra|apply Hemp]. }
  assert (Hstart : assigned_employment w1 p (sort_by_profit l1)
                     (all_commodities w)
                   <= labor_pool_of w p - labor_pool_of w p).
  { unfold assigned_employment. rewrite accumulate_zero; [lra|].
    intros k Hk.
    destruct (existsb (Nat.eqb k) (map c (sort_by_profit l1))) eqn:E;
      [reflexivity|].
    rewrite H3.
    assert (Hin : existsb (Nat.eqb k) (all_commodities w) = true)
      by now apply existsb_eqb_in.
    rewrite Hin.
    destruct (rgo_candidate w owner p k) eqn:Ek; [|reflexivity].
    exfalso.
    assert (In k (map c (sort_by_profit l1))).
    { apply (Permutation_in _ (Permutation_sym Hperm)).
      rewrite H2. apply filter_In. now split. }
    apply existsb_eqb_in in H. congruence. }
  destruct (assign_rgo_workers_bound w owner p (all_commodities w)
              (labor_pool_of w p) (sort_by_profit l1) Hids Htarget
              w1 (labor_pool_of w p) 0 0 Hnd H1 Hpool
              (fun h _ => Hemp1 (c h)) Hstart) as (Htw & Hsum).
  pose proof (assign_rgo_workers_frame w owner p (sort_by_profit l1)
                (w1, labor_pool_of w p, 0, 0) H1) as Hframe.
  change (worker_pool_of w p + slave_pool_of w p) with (labor_pool_of w p).
  destruct (fold_left (assign_rgo_workers owner p) _ _)
    as [[[w2 tw] met] te].
  simpl in Htw, Hsum, Hframe.
  raw_employment_frame He Hcf Hf.
  destruct Hframe as (He2 & _).
  split.
  - rewrite He. simpl. exact He2.
  - unfold rgo_total_employment, all_commodities.
    rewrite Hcf, Hf, He. simpl. rewrite upd_same, He2.
    fold (all_commodities w).
    pose proof (fmin_le_r (subsistence_max_pseudoemployment w2 owner p) tw).
    lra.
Qed.

(** C9.  For every land province, after the RGO employment allocator has
    run, the sum over the commodities of rgo_employment_per_good plus the
    subsistence employment does not exceed the eligible labor pool, the RGO
    workers and the slaves, plus any non-negative epsilon; the employment
    and the target employment before the run are not negative. *)
Theorem rgo_employment_within_labor_pool (w : world) (p : province_id)
  (eps : R) :
  (p < province_size (env w))%nat ->
  (forall k, 0 <= province_cf w rgo_employment_per_good p k) ->
  (forall k, 0 <= province_cf w rgo_target_employment_per_good p k) ->
  0 <= labor_pool_of w p ->
  0 <= eps ->
  let w' := update_rgo_employment w in
  rgo_total_employment w' (province_owner (env w') p) p
  + province_f w' subsistence_employment p
  <= labor_pool_of w p + eps.
Proof.
  intros Hp Hemp Htarget Hpool Heps. cbv zeta. unfold update_rgo_employment.
  rewrite (seq_split 0 (province_size (env w)) p) by lia.
  rewrite fold_left_app. cbn [fold_left].
  assert (Hfold : forall l a, ~ In p l ->
            same_province a (fold_left update_province_rgo_employment l a) p).
  { intros l a Hl. apply fold_left_preserves.
    - intros b j Hj (He & Hcf & Hf).
      destruct (update_province_rgo_employment_other b j p)
        as (He' & Hcf' & Hf').
      { intros ->. contradiction. }
      split; [|split].
      + now rewrite He'.
      + intros. now rewrite Hcf'.
      + intros. now rewrite Hf'.
    - repeat split. }
  set (w2 := fold_left update_province_rgo_employment (seq 0 (p - 0)) w).
  destruct (Hfold (seq 0 (p - 0)) w (not_in_seq_before 0 p))
    as (He2 & Hcf2 & Hf2).
  fold w2 in He2, Hcf2, Hf2.
  assert (Hpool2 : labor_pool_of w2 p = labor_pool_of w p).
  { unfold labor_pool_of, worker_pool_of, slave_pool_of. now rewrite He2. }
  destruct (update_province_rgo_employment_bound w2 p) as (He3 & Hbound).
  { intros k. rewrite Hcf2. apply Hemp. }
  { intros k. rewrite Hcf2. apply Htarget. }
  { now rewrite Hpool2. }
  set (w3 := update_province_rgo_employment w2 p) in *.
  destruct (Hfold (seq (S p) (0 + province_size (env w) - S p)) w3
              (not_in_seq_after p _)) as (He4 & Hcf4 & Hf4).
  unfold rgo_total_employment, all_commodities in *.
  rewrite He4, Hf4.
  rewrite (accumulate_ext _ _
             (fun c0 => province_cf w3 rgo_employment_per_good p c0))
    by (intros; apply Hcf4).
  rewrite Hpool2 in Hbound. lra.
Qed.

(** The allocator on [rgo_world]: commodity 0 has no room and gets no
    workers; commodity 1 would take 110 of the 150 workers, which the
    clamp cuts to its room for 100; subsistence takes 11 of the 40 that
    are left. *)
Lemma rgo_world_capacity (v : R) :
  let w := province_cset rgo_employment_per_good 0%nat 0%nat v rgo_world in
  rgo_max_employment rgo_world 0%nat 0%nat 0%nat = 0
  /\ rgo_max_employment w 0%nat 0%nat 1%nat = 100
  /\ (forall w',
        env w' = env w -> province_f w' = province_f w ->
        subsistence_max_pseudoemployment w' 0%nat 0%nat = 11)
  /\ province_cf w rgo_employment_per_good 0%nat 1%nat = 100
  /\ province_cf w rgo_target_employment_per_good 0%nat 1%nat = 500
  /\ labor_pool_of rgo_world 0%nat = 150.
Proof.
  cbv zeta.
  unfold rgo_max_employment, rgo_effective_size,
    subsistence_max_pseudoemployment, subsistence_size, labor_pool_of,
    worker_pool_of, slave_pool_of.
  split; [|split; [|split; [|split; [|split]]]].
  - simpl. unfold upd, upd2. simpl. cpp_cases.
  - simpl. unfold upd, upd2. simpl. cpp_cases.
  - intros w' He Hf. rewrite He, Hf. simpl. unfold upd. simpl. lra.
  - reflexivity.
  - reflexivity.
  - simpl. lra.
Qed.

Lemma rgo_world_allocation :
  update_rgo_employment rgo_world
  = province_set rgo_employment 0%nat ((0 + 100 + 11) / (0 + 100 + 1))
      (province_set subsistence_employment 0%nat 11
         (province_cset rgo_employment_per_good 0%nat 1%nat 100
            (province_cset rgo_employment_per_good 0%nat 0%nat 0
               rgo_world))).
Proof.
  destruct (rgo_world_capacity 0) as (H0 & H1 & Hsub & Hcur & Htarget & Hpool).
  cbv zeta in *.
  unfold update_rgo_employment. simpl.
  unfold update_province_rgo_employment, collect_rgo_goods, all_commodities.
  simpl. unfold collect_rgo_good. rewrite H0.
  destruct (Rgt_dec 0 0) as [?|_]; [lra|].
  set (w1 := province_cset rgo_employment_per_good 0%nat 0%nat 0 rgo_world)
    in *.
  rewrite H1. destruct (Rgt_dec 100 0) as [_|?]; [|lra].
  cbn [app sort_by_profit fold_right insert_by_profit fold_left].
  unfold assign_rgo_workers. cbn [c]. cbv zeta.
  fold (labor_pool_of rgo_world 0%nat).
  rewrite H1, Hcur, Htarget, Hpool.
  assert (E1 : fmin 500 150 = 150) by cpp_cases.
  rewrite E1.
  assert (E2 : fmin (100 * (1 - 0.20) + 150 * 0.20) 150 = 110) by cpp_cases.
  rewrite E2.
  assert (E3 : clamp 110 0 100 = 100) by cpp_cases.
  rewrite E3.
  rewrite (Hsub (province_cset rgo_employment_per_good 0%nat 1%nat 100 w1))
    by reflexivity.
  assert (E4 : fmin 11 (150 - 110) = 11) by cpp_cases.
  rewrite E4.
  destruct (Rgt_dec (0 + 100) 1) as [_|?]; [reflexivity|lra].
Qed.

Lemma rgo_world_employment :
  province_cf (update_rgo_employment rgo_world) rgo_employment_per_good
    0%nat 1%nat = 100
  /\ rgo_max_employment (update_rgo_employment rgo_world) 0%nat 0%nat 1%nat
     = 100
  /\ province_f (update_rgo_employment rgo_world) subsistence_employment
       0%nat = 11.
Proof.
  rewrite rgo_world_allocation. split; [|split].
  - simpl. now rewrite upd2_same.
  - unfold rgo_max_employment, rgo_effective_size.
    simpl. unfold upd, upd2. simpl. cpp_cases.
  - simpl. now rewrite upd_same.
Qed.

Lemma rgo_employment_within_labor_pool_witness :
  rgo_total_employment (update_rgo_employment rgo_world)
    (province_owner (env (update_rgo_employment rgo_world)) 0%nat) 0%nat
  + province_f (update_rgo_employment rgo_world) subsistence_employment 0%nat
  <= labor_pool_of rgo_world 0%nat + 1.
Proof.
  apply (rgo_employment_within_labor_pool rgo_world 0%nat 1).
  - simpl. lia.
  - intros k. simpl. unfold upd2. simpl.
    destruct (k =? 1)%nat; lra.
  - intros k. simpl. unfold upd2. simpl.
    destruct (k =? 1)%nat; lra.
  - unfold labor_pool_of, worker_pool_of, slave_pool_of. simpl. lra.
  - lra.
Defined.


(** ** Satisfaction, from the start values on *)

(** The loop that gives a nation its start values of the satisfaction
    writes the cells of the nation for the listed commodities. *)
Lemma start_satisfaction_fold (n : nation_id) (l : list commodity_id) :
  forall w : world,
  let w' :=
    fold_left (fun w c =>
        let w := nation_cset demand_satisfaction n c 1 w in
        nation_cset direct_demand_satisfaction n c 0 w) l w in
  env w' = env w
  /\ (forall k, In k l ->
        nation_cf w' demand_satisfaction n k = 1
        /\ nation_cf w' direct_demand_satisfaction n k = 0)
  /\ (forall fld a k, a <> n \/ ~ In k l ->
        nation_cf w' fld a k = nation_cf w fld a k).
Proof.
  induction l as [|c l IH]; intros w; cbv zeta.
  - cbn. split; [reflexivity|]. split; [contradiction|reflexivity].
  - cbn [fold_left].
    set (w1 := nation_cset direct_demand_satisfaction n c 0
                 (nation_cset demand_satisfaction n c 1 w)).
    destruct (IH w1) as (He & Hin & Hout). cbv zeta in He, Hin, Hout.
    assert (Hc : nation_cf w1 demand_satisfaction n c = 1
                 /\ nation_cf w1 direct_demand_satisfaction n c = 0).
    { subst w1. simpl. now rewrite !upd2_same. }
    assert (Hother : forall fld a k, a <> n \/ k <> c ->
              nation_cf w1 fld a k = nation_cf w fld a k).
    { intros fld a k H. subst w1. simpl.
      destruct (nation_commodity_float_beq fld direct_demand_satisfaction);
        destruct (nation_commodity_float_beq fld demand_satisfaction);
        rewrite ?upd2_other by exact H; reflexivity. }
    split; [rewrite He; reflexivity|]. split.
    + intros k Hk.
      destruct (in_dec Nat.eq_dec k l) as [Hl|Hl]; [now apply Hin|].
      destruct Hk as [<-|Hk]; [|contradiction].
      rewrite !Hout by (now right). exact Hc.
    + intros fld a k H. rewrite Hout.
      * apply Hother. destruct H as [H|H]; [now left|right].
        intros ->. apply H. now left.
      * destruct H as [H|H]; [now left|right].
        intros Hk. apply H. now right.
Qed.

(** The start values of one nation. *)
Lemma initialize_nation_satisfaction (w : world) (x : annex)
  (n : nation_id) :
  let w' := fst (initialize_nation (w, x) n) in
  nation_size (env w') = nation_size (env w)
  /\ commodity_size (env w') = commodity_size (env w)
  /\ (forall k, (k < commodity_size (env w))%nat ->
        nation_cf w' demand_satisfaction n k = 1
        /\ nation_cf w' direct_demand_satisfaction n k = 0)
  /\ (forall fld a k, a <> n -> nation_cf w' fld a k = nation_cf w fld a k).
Proof.
  cbv zeta. unfold initialize_nation. cbv zeta. cbn [fst].
  match goal with
  | |- context [fold_left ?step (all_commodities ?v) ?v] =>
      pose proof (start_satisfaction_fold n (all_commodities v) v) as H;
      cbv zeta in H; destruct H as (He & Hin & Hout);
      assert (Hsize : nation_size (env v) = nation_size (env w)
                      /\ commodity_size (env v) = commodity_size (env w))
        by (split; reflexivity);
      assert (Hcf : nation_cf v = nation_cf w) by reflexivity;
      revert He Hin Hout Hsize Hcf;
      generalize (fold_left step (all_commodities v) v);
      generalize v
  end.
  intros v w' He Hin Hout [Hn Hc] Hcf.
  split; [now rewrite He|]. split; [now rewrite He|]. split.
  - intros k Hk. apply Hin. unfold all_commodities. rewrite Hc.
    apply in_seq. lia.
  - intros fld a k Ha. rewrite Hout by (now left). now rewrite Hcf.
Qed.

(** The start values of all nations. *)
Lemma initialize_nations_fold (l : list nation_id) :
  forall (w : world) (x : annex),
  let w' := fst (fold_left initialize_nation l (w, x)) in
  nation_size (env w') = nation_size (env w)
  /\ commodity_size (env w') = commodity_size (env w)
  /\ (forall n k, In n l -> (k < commodity_size (env w))%nat ->
        nation_cf w' demand_satisfaction n k = 1
        /\ nation_cf w' direct_demand_satisfaction n k = 0)
  /\ (forall fld a k, ~ In a l -> nation_cf w' fld a k = nation_cf w fld a k).
Proof.
  induction l as [|m l IH]; intros w x; cbv zeta.
  - cbn. repeat split; try reflexivity; contradiction.
  - cbn [fold_left].
    destruct (initialize_nation_satisfaction w x m) as (Hn & Hc & Hin & Hout).
    cbv zeta in Hn, Hc, Hin, Hout.
    destruct (initialize_nation (w, x) m) as [w1 x1]. cbn [fst] in *.
    destruct (IH w1 x1) as (Hn' & Hc' & Hin' & Hout').
    cbv zeta in Hn', Hc', Hin', Hout'.
    split; [congruence|]. split; [congruence|]. split.
    + intros n k Hnl Hk.
      destruct (in_dec Nat.eq_dec n l) as [Hl|Hl].
      * apply Hin'; [exact Hl|]. now rewrite Hc.
      * destruct Hnl as [<-|Hnl]; [|contradiction].
        rewrite !Hout' by exact Hl. now apply Hin.
    + intros fld a k Ha. rewrite Hout'.
      * apply Hout. intros ->. apply Ha. now left.
      * intros Hl. apply Ha. now right.
Qed.

(** The clearing of a nation writes the satisfaction of that nation
    only. *)
Lemma clear_commodity_satisfaction_other (n : nation_id)
  (sl : option nation_id) (m : R) (w : world) (c : commodity_id)
  (a : nation_id) (k : commodity_id) :
  a <> n ->
  nation_cf (clear_commodity n sl m w c) demand_satisfaction a k
  = nation_cf w demand_satisfaction a k
  /\ nation_cf (clear_commodity n sl m w c) direct_demand_satisfaction a k
     = nation_cf w direct_demand_satisfaction a k.
Proof.
  intros Ha. unfold clear_commodity. cbv zeta.
  destruct (Rge_dec m 1); destruct sl as [l|];
    destruct (nation_drawing_on_stockpiles (env w) n c);
    simpl; rewrite ?upd2_other by (now left); split; reflexivity.
Qed.

Lemma clear_markets_satisfaction_other (w : world) (n a : nation_id)
  (k : commodity_id) :
  a <> n \/ ~ (1 <= k < commodity_size (env w))%nat ->
  nation_cf (clear_markets w n) demand_satisfaction a k
  = nation_cf w demand_satisfaction a k
  /\ nation_cf (clear_markets w n) direct_demand_satisfaction a k
     = nation_cf w direct_demand_satisfaction a k.
Proof.
  intros [Ha|Hk]; unfold clear_markets.
  - apply (fold_left_preserves _
             (fun v => nation_cf v demand_satisfaction a k
                       = nation_cf w demand_satisfaction a k
                       /\ nation_cf v direct_demand_satisfaction a k
                          = nation_cf w direct_demand_satisfaction a k));
      [|now split].
    intros v c _ [H1 H2].
    destruct (clear_commodity_satisfaction_other n
                (nation_in_sphere_of (env w) n)
                (global_market_price_multiplier w n) v c a k Ha) as [-> ->].
    now split.
  - destruct (clear_fold_other n (nation_in_sphere_of (env w) n)
                (global_market_price_multiplier w n) k
                (traded_commodities w) w) as (_ & Hcf & _).
    + unfold traded_commodities. rewrite in_seq. lia.
    + now rewrite !Hcf.
Qed.

Lemma env_clear_markets (w : world) (n : nation_id) :
  env (clear_markets w n) = env w.
Proof.
  unfold clear_markets.
  apply (fold_left_preserves _ (fun v => env v = env w)); [|reflexivity].
  intros v c _ Hv. now rewrite env_clear_commodity.
Qed.

(** The range of the two tables is kept from the start values on. *)
Lemma satisfaction_history_range (w : world) :
  satisfaction_history w ->
  forall n k,
  (n < nation_size (env w))%nat -> (k < commodity_size (env w))%nat ->
  0 <= nation_cf w demand_satisfaction n k <= 1
  /\ 0 <= nation_cf w direct_demand_satisfaction n k <= 1.
Proof.
  induction 1 as [w x|w m Hw IH Hclear|w w' Hw IH Hn Hc Hsame];
    intros n k Hnn Hk.
  - unfold initialize_nations in *.
    destruct (initialize_nations_fold (all_nations w) w x)
      as (Hn & Hc & Hin & _).
    cbv zeta in Hn, Hc, Hin. rewrite Hn in Hnn. rewrite Hc in Hk.
    destruct (Hin n k) as [-> ->]; [|exact Hk|lra].
    unfold all_nations. apply in_seq. lia.
  - rewrite env_clear_markets in Hnn, Hk.
    destruct (IH n k Hnn Hk) as [Hds Hdds].
    destruct Hclear as (Hsl & Hdelay & Hdom & Hsp & Hwm).
    destruct (Nat.eq_dec n m) as [->|Hne].
    + destruct (Nat.eq_dec k 0) as [->|Hk0].
      * destruct (clear_markets_satisfaction_other w m m 0%nat) as [-> ->];
          [right; lia|now split].
      * apply cleared_satisfaction_range; try assumption; try lia;
          try lra.
        -- intros a. apply Hdom. lia.
        -- apply Hsp. lia.
        -- apply Hwm. lia.
    + destruct (clear_markets_satisfaction_other w m n k) as [-> ->];
        [now left|now split].
  - rewrite Hn in Hnn. rewrite Hc in Hk.
    destruct (Hsame n k) as [-> ->]. now apply IH.
Qed.

(** C8.  For every nation and every commodity, money included, after a
    clearing of the markets both demand_satisfaction and
    direct_demand_satisfaction lie in [0, 1].  The clearing is one of any
    nation, in a world that the game can be in: the two tables have their
    start values of [initialize] or what earlier clearings made of them,
    and no pool of a traded commodity is negative. *)
Theorem satisfaction_in_unit_interval (w : world) (m n : nation_id)
  (k : commodity_id) :
  satisfaction_history w -> clearable w m ->
  (n < nation_size (env w))%nat -> (k < commodity_size (env w))%nat ->
  0 <= nation_cf (clear_markets w m) demand_satisfaction n k <= 1
  /\ 0 <= nation_cf (clear_markets w m) direct_demand_satisfaction n k <= 1.
Proof.
  intros Hw Hclear Hn Hk.
  apply (satisfaction_history_range (clear_markets w m)).
  - now apply history_clear.
  - now rewrite env_clear_markets.
  - now rewrite env_clear_markets.
Qed.

Lemma satisfaction_in_unit_interval_witness :
  let w := fst (initialize_nations (market_world 5 5 0 5 1) example_annex) in
  clearable w 0%nat
  /\ (0 < nation_size (env w))%nat
  /\ (0 < commodity_size (env w))%nat
  /\ 0 <= nation_cf (clear_markets w 0%nat) demand_satisfaction 0%nat 0%nat <= 1
  /\ 0 <= nation_cf (clear_markets w 0%nat) direct_demand_satisfaction
            0%nat 0%nat <= 1.
Proof.
  cbv zeta.
  assert (Hclear :
    clearable (fst (initialize_nations (market_world 5 5 0 5 1)
                      example_annex)) 0%nat).
  { unfold clearable, initialize_nations, initialize_nation. cbn.
    split; [discriminate|]. split; [lra|].
    repeat split; intros; repeat (destruct k as [|k]; try lra). }
  split; [exact Hclear|].
  split; [cbn; lia|]. split; [cbn; lia|].
  apply (satisfaction_in_unit_interval
           (fst (initialize_nations (market_world 5 5 0 5 1) example_annex))
           0%nat 0%nat 0%nat).
  - apply history_start.
  - exact Hclear.
  - cbn; lia.
  - cbn; lia.
Defined.
(** * Further properties of the code *)

(** ** Prices *)

Lemma ratio_excess (a b : R) :
  0 <= b -> b < a -> 0 < (a + 0.001) / (b + 0.001) - 1.
Proof.
  intros Hb Hab.
  assert (Hpos : 0 < b + 0.001) by lra.
  assert (H1 : 1 < (a + 0.001) / (b + 0.001)).
  { apply (Rmult_lt_reg_r (b + 0.001)); [exact Hpos|].
    unfold Rdiv. rewrite Rmult_assoc, Rinv_l by lra. lra. }
  lra.
Qed.

Lemma ratio_shortfall (a b : R) :
  0 <= a -> a < b -> (a + 0.001) / (b + 0.001) - 1 < 0.
Proof.
  intros Ha Hab.
  assert (Hpos : 0 < b + 0.001) by lra.
  assert (H1 : (a + 0.001) / (b + 0.001) < 1).
  { apply (Rmult_lt_reg_r (b + 0.001)); [exact Hpos|].
    unfold Rdiv. rewrite Rmult_assoc, Rinv_l by lra. lra. }
  lra.
Qed.

(** The factor that scales the speed of a price is positive. *)
Lemma price_scale_pos (price : R) :
  0 < price -> 0 < (if Rlt_dec price 1 then price else sqrt price).
Proof.
  intros Hp. destruct (Rlt_dec price 1); [exact Hp|]. apply sqrt_lt_R0. lra.
Qed.

(** X1.  The price of an ordinary commodity never moves against the
    excess demand: with non-negative supply and demand and a price within
    the allowed range, the daily update does not lower the price when the
    demand exceeds the supply, does not raise it when the supply exceeds
    the demand, and keeps it when they are equal. *)
Theorem price_follows_excess_demand (supply demand price : R) :
  0 <= supply -> 0 <= demand -> 0.001 <= price <= 100000 ->
  (supply < demand -> price <= adjusted_price supply demand price)
  /\ (demand < supply -> adjusted_price supply demand price <= price)
  /\ (supply = demand -> adjusted_price supply demand price = price).
Proof.
  intros Hs Hd Hp.
  assert (Hslope : 20 <= sqrt (Rabs (demand - supply)) + 20)
    by (pose proof (sqrt_pos (Rabs (demand - supply))); lra).
  assert (Hscale : 0 < (if Rlt_dec price 1 then price else sqrt price))
    by (apply price_scale_pos; lra).
  unfold adjusted_price.
  set (max_slope := sqrt (Rabs (demand - supply)) + 20) in *.
  set (over := (demand + 0.001) / (supply + 0.001) - 1).
  set (under := (supply + 0.001) / (demand + 0.001) - 1).
  assert (Hspeed :
    (if Rlt_dec price 1
     then 0.05 * (clamp over 0 max_slope - clamp under 0 max_slope) * price
     else 0.05 * (clamp over 0 max_slope - clamp under 0 max_slope)
          * sqrt price)
    = 0.05 * (clamp over 0 max_slope - clamp under 0 max_slope)
      * (if Rlt_dec price 1 then price else sqrt price))
    by (destruct (Rlt_dec price 1); reflexivity).
  cbv zeta. fold over under. rewrite Hspeed. clear Hspeed.
  set (scale := if Rlt_dec price 1 then price else sqrt price) in *.
  split; [|split].
  - intros Hlt.
    assert (Ho : 0 < over) by (apply ratio_excess; lra).
    assert (Hu : under < 0) by (apply ratio_shortfall; lra).
    assert (Hc : 0 < clamp over 0 max_slope - clamp under 0 max_slope)
      by (unfold clamp; repeat (decide_comparison; try lra); lra).
    assert (Hrise : 0 < 0.05 * (clamp over 0 max_slope
                                - clamp under 0 max_slope) * scale)
      by (apply Rmult_lt_0_compat; [lra | exact Hscale]).
    revert Hrise. generalize (0.05 * (clamp over 0 max_slope
                                      - clamp under 0 max_slope) * scale).
    intros speed Hrise. cpp_cases.
  - intros Hlt.
    assert (Ho : over < 0) by (apply ratio_shortfall; lra).
    assert (Hu : 0 < under) by (apply ratio_excess; lra).
    assert (Hc : 0 < clamp under 0 max_slope - clamp over 0 max_slope)
      by (unfold clamp; repeat (decide_comparison; try lra); lra).
    assert (Hfall : 0.05 * (clamp over 0 max_slope - clamp under 0 max_slope)
                    * scale < 0).
    { replace (0.05 * (clamp over 0 max_slope - clamp under 0 max_slope)
               * scale)
        with (- (0.05 * (clamp under 0 max_slope - clamp over 0 max_slope)
                 * scale)) by ring.
      assert (0 < 0.05 * (clamp under 0 max_slope - clamp over 0 max_slope)
                  * scale)
        by (apply Rmult_lt_0_compat; [lra | exact Hscale]).
      lra. }
    revert Hfall. generalize (0.05 * (clamp over 0 max_slope
                                      - clamp under 0 max_slope) * scale).
    intros speed Hfall. cpp_cases.
  - intros Heq. subst over under. rewrite Heq.
    replace ((demand + 0.001) / (demand + 0.001) - 1) with 0
      by (field; lra).
    replace (clamp 0 0 max_slope - clamp 0 0 max_slope) with 0 by ring.
    rewrite Rmult_0_r, Rmult_0_l, Rplus_0_r. apply clamp_id. lra.
Qed.

Lemma price_follows_excess_demand_witness :
  1 <= adjusted_price 1 2 1 /\ adjusted_price 2 1 1 <= 1.
Proof.
  split.
  - apply (proj1 (price_follows_excess_demand 1 2 1 ltac:(lra) ltac:(lra)
                    ltac:(lra))); lra.
  - apply (proj1 (proj2 (price_follows_excess_demand 2 1 1 ltac:(lra)
                           ltac:(lra) ltac:(lra)))); lra.
Defined.

(** ** Loans and the budget *)

(** X2.  The daily interest is never negative: a nation without debt pays
    none, and a nation in debt pays at least one percent of the debt per
    thirty days, whatever its loan interest modifier. *)
Theorem interest_payment_floor (w : world) (n : nation_id) :
  0 <= interest_payment w n
  /\ (0 <= nation_cf w stockpiles n money -> interest_payment w n = 0)
  /\ (nation_cf w stockpiles n money < 0 ->
      - nation_cf w stockpiles n money * 0.01 / 30 <= interest_payment w n).
Proof.
  unfold interest_payment.
  set (debt := nation_cf w stockpiles n money).
  set (rate := (nation_f w (modifier_values national_mod_offsets.loan_interest) n
                + 1) * loan_base_interest (defs (env w))).
  pose proof (fmax_ge_l 0.01 rate) as Hrate.
  assert (Hdebt : debt < 0 -> - debt * 0.01 / 30 <= - debt * fmax 0.01 rate / 30).
  { intros Hd. unfold Rdiv. apply Rmult_le_compat_r; [lra|].
    apply Rmult_le_compat_l; lra. }
  cbv zeta. destruct (Rge_dec debt 0) as [Hge | Hlt].
  - repeat split; try lra.
  - assert (Hd : debt < 0) by lra. specialize (Hdebt Hd).
    repeat split; lra.
Qed.

(** X3.  A nation that cannot borrow spends within its means: its spending
    scale lies between 0 and 1 and the day's spending takes only what the
    treasury holds after interest, so a treasury that is not negative stays
    so, and a treasury in debt is left as it is. *)
Theorem spending_within_budget (w : world) (n : nation_id) :
  can_take_loans w n = false ->
  0 <= fst (full_spending_cost w n) ->
  let treasury :=
    nation_cf w stockpiles n money
    - (if nation_b w is_player_controlled n then interest_payment w n
       else 0) in
  let w' := update_national_spending w n in
  0 <= nation_f w' spending_level n <= 1
  /\ fmin treasury 0 <= nation_cf w' stockpiles n money <= treasury
  /\ (treasury <= 0 -> nation_cf w' stockpiles n money = treasury).
Proof.
  intros Hloans Hcost.
  pose proof (update_national_spending_result w n) as H.
  cbv zeta in H |- *. destruct H as [Hscale Hmoney].
  rewrite Hscale, Hmoney, Hloans. clear Hscale Hmoney.
  set (total := fst (full_spending_cost w n)) in *.
  set (treasury :=
         nation_cf w stockpiles n money
         - (if nation_b w is_player_controlled n then interest_payment w n
            else 0)).
  destruct (Rlt_dec total 0.001) as [Hsmall | Hbig].
  - cpp_cases.
  - destruct (Rle_dec total (fmax 0 treasury)) as [Hcan | Hcannot].
    + revert Hcan. cpp_cases.
    + assert (Htotal : 0 < total) by lra.
      assert (Hbudget : 0 <= fmax 0 treasury < total)
        by (pose proof (fmax_ge_l 0 treasury); lra).
      assert (Hfrac : 0 <= fmax 0 treasury / total <= 1)
        by (apply fraction_bounds; lra).
      replace (total * (fmax 0 treasury / total)) with (fmax 0 treasury)
        by (field; lra).
      revert Hfrac Hbudget. generalize (fmax 0 treasury / total). intros q.
      cpp_cases.
Qed.

Lemma spending_within_budget_witness :
  0 <= nation_f (update_national_spending (budget_world 30 false) 0%nat)
         spending_level 0%nat <= 1.
Proof.
  refine (proj1 (spending_within_budget (budget_world 30 false) 0%nat _ _)).
  - apply budget_world_no_loans.
  - rewrite budget_world_cost. lra.
Defined.

(** ** Market clearing: what leaves the pools *)

(** One clearing step: no pool is overdrawn, and what leaves the pools is
    the demand, as far as the supply goes. *)
Lemma clear_commodity_conserves (w : world) (n : nation_id)
  (sl : option nation_id) (m : R) (k : commodity_id) :
  sl <> Some n ->
  let dom := nation_cf w domestic_market_pool n k in
  let slp :=
    match sl with
    | Some l => nation_cf w domestic_market_pool l k
    | None => 0
    end in
  let drawing := nation_drawing_on_stockpiles (env w) n k in
  let sp := if drawing then nation_cf w stockpiles n k else 0 in
  let wm := commodity_f w global_market_pool k in
  let rd := nation_cf w real_demand n k in
  0 <= dom -> 0 <= slp -> 0 <= sp -> 0 <= wm -> 0 <= rd ->
  let w' := clear_commodity n sl m w k in
  let dom' := nation_cf w' domestic_market_pool n k in
  let slp' :=
    match sl with
    | Some l => nation_cf w' domestic_market_pool l k
    | None => 0
    end in
  let sp' := if drawing then nation_cf w' stockpiles n k else 0 in
  let wm' := commodity_f w' global_market_pool k in
  (0 <= dom' <= dom /\ 0 <= slp' <= slp /\ 0 <= sp' <= sp /\ 0 <= wm' <= wm)
  /\ (dom - dom') + (slp - slp') + (sp - sp') + (wm - wm')
     = fmin rd (dom + slp + sp + wm)
  /\ nation_cf w' imports n k = wm - wm'
  /\ (drawing = false ->
      nation_cf w' stockpiles n k = nation_cf w stockpiles n k).
Proof.
  intros Hsl. cbv zeta. unfold clear_commodity. cbv zeta.
  destruct (Rge_dec m 1); destruct sl as [l|];
    destruct (nation_drawing_on_stockpiles (env w) n k);
    (assert (Hl : forall l', Some l' <> Some n -> l' <> n)
       by (intros l' Hl' ->; now apply Hl');
     try specialize (Hl _ Hsl);
     intros Hdom Hslp Hsp Hwm Hrd;
     repeat split; try discriminate; intros;
     read_cell; try reflexivity; cpp_cases).
Qed.

(** The cells of a traded commodity after the clearing of nation [n] are
    those of its own step, taken in a world whose cells for the commodity
    are still those of the start. *)
Lemma clear_markets_cells (w : world) (n : nation_id) (k : commodity_id) :
  (1 <= k < commodity_size (env w))%nat ->
  exists w2,
    same_cells w w2 k
    /\ same_cells
         (clear_commodity n (nation_in_sphere_of (env w) n)
            (global_market_price_multiplier w n) w2 k)
         (clear_markets w n) k.
Proof.
  intros Hk. unfold clear_markets.
  set (sl := nation_in_sphere_of (env w) n).
  set (m := global_market_price_multiplier w n).
  unfold traded_commodities.
  rewrite (seq_split 1 (commodity_size (env w) - 1) k) by lia.
  rewrite fold_left_app. cbn [fold_left].
  exists (fold_left (clear_commodity n sl m) (seq 1 (k - 1)) w). split.
  - apply clear_fold_other, not_in_seq_before.
  - apply clear_fold_other, not_in_seq_after.
Qed.

(** X4.  Market clearing conserves goods: for a traded commodity with
    non-negative pools and demand, the clearing of a nation overdraws none
    of the four pools (its domestic pool, its sphere leader's pool, its
    stockpile when it draws on it, the global pool); what leaves them adds
    up to the demand, or to the whole supply when the demand exceeds it;
    the imports recorded are what left the global pool; and a stockpile
    that the nation does not draw on is left alone. *)
Theorem clearing_conserves_goods (w : world) (n : nation_id)
  (k : commodity_id) :
  (1 <= k < commodity_size (env w))%nat ->
  nation_in_sphere_of (env w) n <> Some n ->
  let sl := nation_in_sphere_of (env w) n in
  let dom := nation_cf w domestic_market_pool n k in
  let slp :=
    match sl with
    | Some l => nation_cf w domestic_market_pool l k
    | None => 0
    end in
  let drawing := nation_drawing_on_stockpiles (env w) n k in
  let sp := if drawing then nation_cf w stockpiles n k else 0 in
  let wm := commodity_f w global_market_pool k in
  let rd := nation_cf w real_demand n k in
  0 <= dom -> 0 <= slp -> 0 <= sp -> 0 <= wm -> 0 <= rd ->
  let w' := clear_markets w n in
  let dom' := nation_cf w' domestic_market_pool n k in
  let slp' :=
    match sl with
    | Some l => nation_cf w' domestic_market_pool l k
    | None => 0
    end in
  let sp' := if drawing then nation_cf w' stockpiles n k else 0 in
  let wm' := commodity_f w' global_market_pool k in
  (0 <= dom' <= dom /\ 0 <= slp' <= slp /\ 0 <= sp' <= sp /\ 0 <= wm' <= wm)
  /\ (dom - dom') + (slp - slp') + (sp - sp') + (wm - wm')
     = fmin rd (dom + slp + sp + wm)
  /\ nation_cf w' imports n k = wm - wm'
  /\ (drawing = false ->
      nation_cf w' stockpiles n k = nation_cf w stockpiles n k).
Proof.
  intros Hk Hsl. cbv zeta.
  destruct (clear_markets_cells w n k Hk)
    as (w2 & (He2 & Hn2 & Hc2) & (_ & Hn3 & Hc3)).
  pose proof (clear_commodity_conserves w2 n (nation_in_sphere_of (env w) n)
                (global_market_price_multiplier w n) k Hsl) as H.
  cbv zeta in H. rewrite He2 in H.
  destruct (nation_in_sphere_of (env w) n) as [l|];
    rewrite ?Hn2, ?Hc2 in H; rewrite !Hn3, !Hc3; exact H.
Qed.

Lemma clearing_conserves_goods_witness :
  nation_cf (clear_markets (market_world 5 5 0 5 1) 0%nat) imports 0%nat 1%nat
  = commodity_f (market_world 5 5 0 5 1) global_market_pool 1%nat
    - commodity_f (clear_markets (market_world 5 5 0 5 1) 0%nat)
        global_market_pool 1%nat.
Proof.
  refine (proj1 (proj2 (proj2
    (clearing_conserves_goods (market_world 5 5 0 5 1) 0%nat 1%nat
       _ _ _ _ _ _ _)))); simpl; try lia; try lra; discriminate.
Defined.

(** ** The production scale of a factory *)

(** X5.  The production scale that [update_factory_scale] stores stays
    between 0 and 1 (for a factory with workplaces whose scale was not
    negative), a subsidized factory never scales down, and the effective
    scale it returns exceeds neither the maximal production scale nor the
    level of the factory. *)
Theorem production_scale_stays_in_unit_interval (w : world)
  (fac : factory_id) (max_production_scale raw_profit desired_raw_profit : R) :
  0 < alice_factory_per_level_employment (defs (env w)) ->
  (0 < factory_level (env w) fac)%nat ->
  0 <= factory_f w production_scale fac ->
  let res :=
    update_factory_scale w fac max_production_scale raw_profit
      desired_raw_profit in
  0 <= factory_f (snd res) production_scale fac <= 1
  /\ (factory_b w subsidized fac = true ->
      factory_f w production_scale fac <= 1 ->
      factory_f w production_scale fac
      <= factory_f (snd res) production_scale fac)
  /\ fst res <= max_production_scale
  /\ fst res <= INR (factory_level (env w) fac).
Proof.
  intros Hple Hlevel Hscale. cbv zeta. unfold update_factory_scale.
  cbv zeta. unfold factory_max_employment.
  assert (Hl : 1 <= INR (factory_level (env w) fac)).
  { change 1 with (INR 1). apply le_INR. lia. }
  set (level := INR (factory_level (env w) fac)) in *.
  set (ple := alice_factory_per_level_employment (defs (env w))) in *.
  assert (Hstep : 0 < 10 / (ple * level) * level * 10).
  { replace (10 / (ple * level) * level * 10) with (100 / ple)
      by (field; lra).
    apply Rdiv_lt_0_compat; lra. }
  destruct (factory_b w subsidized fac).
  - cbn [fst snd]. simpl. rewrite upd_same.
    revert Hstep. generalize (10 / (ple * level) * level * 10). intros d Hd.
    assert (Hmin : 0 <= fmin 1 (factory_f w production_scale fac + d) <= 1)
      by cpp_cases.
    assert (Hup : factory_f w production_scale fac <= 1 ->
                  factory_f w production_scale fac
                  <= fmin 1 (factory_f w production_scale fac + d))
      by (intros; cpp_cases).
    repeat split; try tauto; try apply fmin_le_r.
    apply Rle_trans
      with (fmin 1 (factory_f w production_scale fac + d) * level);
      [apply fmin_le_l|]. nra.
  - cbn [fst snd]. simpl. rewrite upd_same.
    match goal with
    | |- context [clamp (factory_f w production_scale fac + ?s) 0 1] =>
        generalize s
    end.
    intros s.
    assert (Hc : 0 <= clamp (factory_f w production_scale fac + s) 0 1 <= 1)
      by (apply clamp_bounds; lra).
    repeat split; try tauto; try discriminate; try apply fmin_le_r.
    apply Rle_trans
      with (clamp (factory_f w production_scale fac + s) 0 1 * level);
      [apply fmin_le_l|]. nra.
Qed.

Lemma production_scale_stays_in_unit_interval_witness :
  0 <= factory_f
         (snd (update_factory_scale idle_factory_world 0%nat 0 1 0))
         production_scale 0%nat <= 1.
Proof.
  refine (proj1 (production_scale_stays_in_unit_interval idle_factory_world
                   0%nat 0 1 0 _ _ _)); simpl; try lia; lra.
Defined.

(** ** The RGO employment allocator: capacities and fractions *)

(** The distribution loop leaves every good it has handled within its
    capacity. *)
Lemma assign_rgo_workers_capacity (w0 : world) (owner : nation_id)
  (p : province_id) (ids : list commodity_id)
  (rest : list commodity_profit_holder) :
  (forall h, In h rest -> 0 <= rgo_max_employment w0 owner p (c h)) ->
  forall st,
  only_employment_of w0 (fst (fst (fst st))) p ->
  (forall k, In k ids ->
     0 <= province_cf (fst (fst (fst st))) rgo_employment_per_good p k
       <= rgo_max_employment w0 owner p k
     \/ In k (map c rest)) ->
  forall k, In k ids ->
  0 <= province_cf
         (fst (fst (fst (fold_left (assign_rgo_workers owner p) rest st))))
         rgo_employment_per_good p k
    <= rgo_max_employment w0 owner p k.
Proof.
  induction rest as [|h rest IH]; intros Hcap [[[w tw] met] te] Hw Hinv k Hk.
  - simpl in *. destruct (Hinv k Hk) as [H | []]. exact H.
  - cbn [fold_left]. apply IH; try assumption.
    + intros h' Hh'. apply Hcap. now right.
    + simpl. now apply only_employment_set.
    + intros j Hj. simpl.
      destruct (Nat.eq_dec j (c h)) as [-> | Hne].
      * left. rewrite upd2_same.
        rewrite (rgo_max_employment_only w0 w) by exact Hw.
        apply clamp_bounds, Hcap. now left.
      * rewrite upd2_other by now right.
        simpl in Hinv. destruct (Hinv j Hj) as [H | [H | H]].
        -- now left.
        -- congruence.
        -- now right.
Qed.

(** The capacity of a good does not depend on what the allocator
    writes. *)
Lemma rgo_max_employment_frame (w w' : world) (n : nation_id)
  (p : province_id) (k : commodity_id) :
  env w' = env w -> nation_f w' = nation_f w -> nation_cf w' = nation_cf w ->
  (forall fld, fld <> rgo_employment_per_good ->
     province_cf w' fld p k = province_cf w fld p k) ->
  (forall fld, fld <> subsistence_employment -> fld <> rgo_employment ->
     province_f w' fld p = province_f w fld p) ->
  rgo_max_employment w' n p k = rgo_max_employment w n p k.
Proof.
  intros He Hf Hcf Hpc Hpf. unfold rgo_max_employment, rgo_effective_size.
  rewrite He, Hf, Hcf, Hpc by discriminate.
  rewrite !(Hpf landowners_share), !(Hpf capitalists_share) by discriminate.
  now destruct (commodity_b (env w) is_mine k); rewrite Hpf by discriminate.
Qed.

(** The loop that records the employment of the pops of a province writes
    the fraction of the slaves to the slave pops, the fraction of the free
    workers to the paid RGO workers, and nothing else. *)
Lemma record_rgo_employment_fold (e : environment)
  (slave_fraction free_fraction : R) (l : list pop_id) :
  forall w : world,
  let w' :=
    fold_left (fun (w : world) (pop : pop_id) =>
        if Nat.eqb (pop_poptype e pop) (slaves (culture e)) then
          set_raw_employment pop slave_fraction w
        else if pop_type_is_paid_rgo_worker e (pop_poptype e pop) then
          set_raw_employment pop free_fraction w
        else w) l w in
  (env w' = env w /\ commodity_f w' = commodity_f w
   /\ nation_cf w' = nation_cf w /\ nation_f w' = nation_f w
   /\ province_cf w' = province_cf w /\ province_f w' = province_f w)
  /\ forall pop,
       pop_raw_employment w' pop
       = if existsb (Nat.eqb pop) l then
           if Nat.eqb (pop_poptype e pop) (slaves (culture e))
           then slave_fraction
           else if pop_type_is_paid_rgo_worker e (pop_poptype e pop)
                then free_fraction else pop_raw_employment w pop
         else pop_raw_employment w pop.
Proof.
  induction l as [|x l IH]; intros w; cbv zeta.
  - simpl. repeat split.
  - cbn [fold_left existsb].
    match goal with
    | |- context [fold_left ?g l ?a] =>
        destruct (IH a) as ((He & Hc & Hn & Hf & Hpc & Hpf) & Hraw)
    end.
    split.
    + rewrite He, Hc, Hn, Hf, Hpc, Hpf.
      destruct (Nat.eqb (pop_poptype e x) (slaves (culture e)));
        [|destruct (pop_type_is_paid_rgo_worker e (pop_poptype e x))];
        repeat split.
    + intros pop. rewrite Hraw.
      destruct (Nat.eqb pop x) eqn:E.
      * apply Nat.eqb_eq in E. subst x. simpl.
        destruct (Nat.eqb (pop_poptype e pop) (slaves (culture e)));
          [|destruct (pop_type_is_paid_rgo_worker e (pop_poptype e pop))];
          simpl; rewrite ?upd_same; now destruct (existsb _ l).
      * apply Nat.eqb_neq in E. simpl.
        destruct (Nat.eqb (pop_poptype e x) (slaves (culture e)));
          [|destruct (pop_type_is_paid_rgo_worker e (pop_poptype e x))];
          simpl; rewrite ?upd_other by exact E; reflexivity.
Qed.

(** The two loops over the goods do not touch the employment of the
    pops. *)
Lemma collect_rgo_goods_raw (owner : nation_id) (p : province_id)
  (l : list commodity_id) (st : world * list commodity_profit_holder) :
  pop_raw_employment (fst (fold_left (collect_rgo_good owner p) l st))
  = pop_raw_employment (fst st).
Proof.
  apply (fold_left_preserves _ (fun a =>
           pop_raw_employment (fst a) = pop_raw_employment (fst st)));
    [|reflexivity].
  intros [a acc] j _ Ha. unfold collect_rgo_good.
  destruct (Rgt_dec _ _); exact Ha.
Qed.

Lemma assign_rgo_workers_raw (owner : nation_id) (p : province_id)
  (l : list commodity_profit_holder) (st : world * R * R * R) :
  pop_raw_employment
    (fst (fst (fst (fold_left (assign_rgo_workers owner p) l st))))
  = pop_raw_employment (fst (fst (fst st))).
Proof.
  apply (fold_left_preserves _ (fun a =>
           pop_raw_employment (fst (fst (fst a)))
           = pop_raw_employment (fst (fst (fst st)))));
    [|reflexivity].
  intros [[[a tw] met] te] j _ Ha. exact Ha.
Qed.

(** What the allocation in province [q] writes. *)
Lemma update_province_rgo_employment_result (w : world) (q : province_id) :
  let e := env w in
  let owner := province_owner e q in
  let current_employment :=
    accumulate (all_commodities w) (fun c =>
      province_cf w rgo_employment_per_good q c)
    + province_f w subsistence_employment q in
  let slave_fraction :=
    if Rgt_dec (slave_pool_of w q) current_employment
    then current_employment / slave_pool_of w q else 1 in
  let free_fraction :=
    fmax 0
      (if Rgt_dec (worker_pool_of w q) (current_employment - slave_pool_of w q)
       then (current_employment - slave_pool_of w q)
            / fmax (worker_pool_of w q) 0.01
       else 1) in
  let w' := update_province_rgo_employment w q in
  (env w' = env w /\ commodity_f w' = commodity_f w
   /\ nation_cf w' = nation_cf w /\ nation_f w' = nation_f w)
  /\ (forall fld p k, fld <> rgo_employment_per_good \/ p <> q ->
        province_cf w' fld p k = province_cf w fld p k)
  /\ (forall fld p,
        (fld <> subsistence_employment /\ fld <> rgo_employment) \/ p <> q ->
        province_f w' fld p = province_f w fld p)
  /\ (forall pop,
        pop_raw_employment w' pop
        = if existsb (Nat.eqb pop) (province_pop_location e q) then
            if Nat.eqb (pop_poptype e pop) (slaves (culture e))
            then slave_fraction
            else if pop_type_is_paid_rgo_worker e (pop_poptype e pop)
                 then free_fraction else pop_raw_employment w pop
          else pop_raw_employment w pop)
  /\ (0 <= alice_rgo_per_size_employment (defs e) ->
      forall k, In k (all_commodities w) ->
      0 <= province_cf w' rgo_employment_per_good q k
        <= rgo_max_employment w owner q k)
  /\ province_f w' subsistence_employment q
     <= subsistence_max_pseudoemployment w owner q.
Proof.
  cbv zeta. unfold update_province_rgo_employment. cbv zeta.
  unfold collect_rgo_goods.
  set (owner := province_owner (env w) q).
  destruct (collect_rgo_goods_fold w owner q (all_commodities w) w []
              (only_employment_refl w q)) as (H1 & H2 & H3).
  pose proof (collect_rgo_goods_raw owner q (all_commodities w) (w, []))
    as Hraw1.
  destruct (fold_left (collect_rgo_good owner q) _ _) as [w1 l1].
  simpl in H1, H2, H3, Hraw1.
  assert (Hperm : Permutation (map c (sort_by_profit l1)) (map c l1))
    by (apply Permutation_map, sort_by_profit_perm).
  pose proof (assign_rgo_workers_frame w owner q (sort_by_profit l1)
                (w1, worker_pool_of w q + slave_pool_of w q, 0, 0) H1)
    as Hframe.
  pose proof (assign_rgo_workers_raw owner q (sort_by_profit l1)
                (w1, worker_pool_of w q + slave_pool_of w q, 0, 0))
    as Hraw2.
  pose proof (fun Hcap Hinv =>
                assign_rgo_workers_capacity w owner q (all_commodities w)
                  (sort_by_profit l1) Hcap
                  (w1, worker_pool_of w q + slave_pool_of w q, 0, 0) H1 Hinv)
    as Hcapacity.
  destruct (fold_left (assign_rgo_workers owner q) _ _)
    as [[[w2 tw] met] te].
  simpl in Hframe, Hcapacity, Hraw2.
  match goal with
  | |- context [fold_left
                  (fun w pop =>
                     if _ then set_raw_employment pop ?sf w
                     else if _ then set_raw_employment pop ?ff w else w)
                  ?l ?a] =>
      pose proof (record_rgo_employment_fold (env w) sf ff l a) as Hrec;
      cbv zeta in Hrec;
      destruct Hrec as ((He & Hc & Hn & Hf & Hpc & Hpf) & Hraw)
  end.
  match goal with
  | |- context [fold_left ?g ?l ?a] =>
      match a with
      | province_set _ _ _ _ => generalize dependent (fold_left g l a)
      end
  end.
  intros w3 He Hc Hn Hf Hpc Hpf Hraw.
  destruct Hframe as (He2 & Hc2 & Hn2 & Hf2 & Hpf2 & Hpc2).
  simpl in He, Hc, Hn, Hf, Hpc, Hpf, Hraw.
  split; [repeat split; congruence|].
  split; [|split; [|split; [|split]]].
  - intros fld p k Hor. rewrite Hpc. now apply Hpc2.
  - intros fld p Hor. rewrite Hpf.
    destruct (province_float_beq fld rgo_employment) eqn:E1;
      destruct (province_float_beq fld subsistence_employment) eqn:E2;
      try apply internal_province_float_dec_bl in E1;
      try apply internal_province_float_dec_bl in E2;
      rewrite ?upd_other by (destruct Hor as [[? ?] | ?]; congruence);
      now rewrite Hpf2.
  - intros pop. rewrite Hraw, Hraw2, Hraw1. reflexivity.
  - intros Hsize k Hk. rewrite Hpc. apply Hcapacity; [| |exact Hk].
    + intros h Hh.
      assert (Hin : In (c h) (map c l1)).
      { apply (Permutation_in _ Hperm). now apply in_map. }
      rewrite H2 in Hin. apply filter_In in Hin. destruct Hin as [_ Hcand].
      unfold rgo_candidate in Hcand.
      destruct (Rgt_dec (rgo_max_employment w owner q (c h)) 0);
        [lra|discriminate].
    + intros j Hj.
      destruct (rgo_candidate w owner q j) eqn:Ej.
      * right. apply (Permutation_in _ (Permutation_sym Hperm)).
        rewrite H2. apply filter_In. now split.
      * left. rewrite H3.
        assert (Hin : existsb (Nat.eqb j) (all_commodities w) = true)
          by now apply existsb_eqb_in.
        rewrite Hin, Ej. simpl. split; [lra|].
        unfold rgo_max_employment, rgo_effective_size.
        apply Rmult_le_pos; [exact Hsize|apply fmax_ge_r].
  - rewrite Hpf. simpl. rewrite upd_same.
    eapply Rle_trans; [apply fmin_le_l|].
    unfold subsistence_max_pseudoemployment, subsistence_size.
    rewrite He2, Hpf2. lra.
Qed.

(** The allocations in the provinces of [l] leave a province outside [l],
    and what its capacities are computed from, alone. *)
Lemma update_rgo_employment_fold_frame (l : list province_id)
  (p : province_id) :
  ~ In p l ->
  forall a : world,
  let a' := fold_left update_province_rgo_employment l a in
  (env a' = env a /\ commodity_f a' = commodity_f a
   /\ nation_cf a' = nation_cf a /\ nation_f a' = nation_f a)
  /\ (forall fld k, province_cf a' fld p k = province_cf a fld p k)
  /\ (forall fld, province_f a' fld p = province_f a fld p).
Proof.
  intros Hp a.
  apply (fold_left_preserves _ (fun b =>
    (env b = env a /\ commodity_f b = commodity_f a
     /\ nation_cf b = nation_cf a /\ nation_f b = nation_f a)
    /\ (forall fld k, province_cf b fld p k = province_cf a fld p k)
    /\ (forall fld, province_f b fld p = province_f a fld p))).
  - intros b q Hq ((He & Hc & Hn & Hf) & Hpc & Hpf).
    assert (Hqp : p <> q) by (intros ->; contradiction).
    destruct (update_province_rgo_employment_result b q)
      as ((He' & Hc' & Hn' & Hf') & Hpc' & Hpf' & _).
    split; [repeat split; congruence|]. split.
    + intros fld k. rewrite Hpc' by now right. apply Hpc.
    + intros fld. rewrite Hpf' by now right. apply Hpf.
  - repeat split.
Qed.

(** X6.  After the RGO employment allocator has run, the employment of
    every good in every land province lies between 0 and the number of
    workers that the good can employ there, and the subsistence employment
    does not exceed the subsistence capacity. *)
Theorem rgo_employment_within_capacity (w : world) (p : province_id)
  (k : commodity_id) :
  (p < province_size (env w))%nat ->
  (k < commodity_size (env w))%nat ->
  0 <= alice_rgo_per_size_employment (defs (env w)) ->
  let w' := update_rgo_employment w in
  let owner := province_owner (env w') p in
  0 <= province_cf w' rgo_employment_per_good p k
    <= rgo_max_employment w' owner p k
  /\ province_f w' subsistence_employment p
     <= subsistence_max_pseudoemployment w' owner p.
Proof.
  intros Hp Hk Hsize. cbv zeta. unfold update_rgo_employment.
  rewrite (seq_split 0 (province_size (env w)) p) by lia.
  rewrite fold_left_app. cbn [fold_left].
  set (w2 := fold_left update_province_rgo_employment (seq 0 (p - 0)) w).
  destruct (update_rgo_employment_fold_frame (seq 0 (p - 0)) p
              (not_in_seq_before 0 p) w)
    as ((He2 & _) & _).
  fold w2 in He2.
  destruct (update_province_rgo_employment_result w2 p)
    as ((He3 & Hc3 & Hn3 & Hf3) & Hpc3 & Hpf3 & _ & Hcap & Hsub).
  cbv zeta in Hcap, Hsub.
  set (w3 := update_province_rgo_employment w2 p) in *.
  destruct (update_rgo_employment_fold_frame
              (seq (S p) (0 + province_size (env w) - S p)) p
              (not_in_seq_after p _) w3)
    as ((He4 & Hc4 & Hn4 & Hf4) & Hpc4 & Hpf4).
  cbv zeta in He4, Hc4, Hn4, Hf4, Hpc4, Hpf4.
  set (w4 := fold_left update_province_rgo_employment
               (seq (S p) (0 + province_size (env w) - S p)) w3) in *.
  assert (Hmax : forall n j,
            rgo_max_employment w4 n p j = rgo_max_employment w2 n p j).
  { intros n j. apply rgo_max_employment_frame; try congruence.
    - intros fld Hfld. rewrite Hpc4. apply Hpc3. now left.
    - intros fld H1 H2. rewrite Hpf4. apply Hpf3. now left. }
  rewrite Hmax, Hpc4, Hpf4, He4, He3. split.
  - apply Hcap; [now rewrite He2|].
    unfold all_commodities. rewrite He2. apply in_seq. lia.
  - eapply Rle_trans; [exact Hsub|].
    unfold subsistence_max_pseudoemployment, subsistence_size.
    rewrite He4, He3, !Hpf4.
    rewrite !(Hpf3 landowners_share), !(Hpf3 capitalists_share),
      !(Hpf3 rgo_size) by (left; split; discriminate).
    lra.
Qed.

Lemma rgo_employment_within_capacity_witness :
  0 <= province_cf (update_rgo_employment rgo_world) rgo_employment_per_good
         0%nat 1%nat
    <= rgo_max_employment (update_rgo_employment rgo_world)
         (province_owner (env (update_rgo_employment rgo_world)) 0%nat)
         0%nat 1%nat.
Proof.
  refine (proj1 (rgo_employment_within_capacity rgo_world 0%nat 1%nat
                   _ _ _)); simpl; try lia; lra.
Defined.

Lemma accumulate_nonneg (l : list nat) (f : nat -> R) :
  (forall i, In i l -> 0 <= f i) -> 0 <= accumulate l f.
Proof.
  induction l as [|x l IH]; intros H.
  - unfold accumulate. simpl. lra.
  - rewrite accumulate_cons.
    pose proof (H x (in_eq x l)). pose proof (IH (fun i Hi => H i (in_cons x i l Hi))).
    lra.
Qed.

(** The two employment fractions of a province are fractions. *)
Lemma rgo_fractions_bounds (slave_pool worker_pool current_employment : R) :
  0 <= current_employment ->
  0 <= (if Rgt_dec slave_pool current_employment
        then current_employment / slave_pool else 1) <= 1
  /\ 0 <= fmax 0
            (if Rgt_dec worker_pool (current_employment - slave_pool)
             then (current_employment - slave_pool) / fmax worker_pool 0.01
             else 1) <= 1.
Proof.
  intros Hcur. split.
  - destruct (Rgt_dec slave_pool current_employment); [|lra].
    apply fraction_bounds; lra.
  - destruct (Rgt_dec worker_pool (current_employment - slave_pool));
      [|cpp_cases].
    assert (Hd : 0.01 <= fmax worker_pool 0.01) by apply fmax_ge_r.
    assert (Hw : worker_pool <= fmax worker_pool 0.01) by apply fmax_ge_l.
    destruct (Rle_dec (current_employment - slave_pool) 0) as [Hneg | Hpos].
    + assert ((current_employment - slave_pool) / fmax worker_pool 0.01 <= 0).
      { unfold Rdiv. rewrite <- (Rmult_0_l (/ fmax worker_pool 0.01)).
        apply Rmult_le_compat_r; [|exact Hneg].
        left. apply Rinv_0_lt_compat. lra. }
      revert H. generalize ((current_employment - slave_pool)
                            / fmax worker_pool 0.01).
      intros x Hx. cpp_cases.
    + assert (0 <= (current_employment - slave_pool) / fmax worker_pool 0.01
              <= 1) by (apply fraction_bounds; lra).
      revert H. generalize ((current_employment - slave_pool)
                            / fmax worker_pool 0.01).
      intros x Hx. cpp_cases.
Qed.

(** The employment of a province before its allocation. *)
Lemma rgo_fraction_fold (e : environment) (pop : pop_id)
  (l : list province_id) :
  NoDup l ->
  forall a : world,
  env a = e ->
  (forall q, In q l ->
     0 <= accumulate (all_commodities a) (fun c =>
            province_cf a rgo_employment_per_good q c)
          + province_f a subsistence_employment q) ->
  (0 <= pop_raw_employment a pop <= 1
   \/ exists p, In p l /\ In pop (province_pop_location e p)
                /\ (Nat.eqb (pop_poptype e pop) (slaves (culture e))
                    || pop_type_is_paid_rgo_worker e (pop_poptype e pop))%bool
                   = true) ->
  0 <= pop_raw_employment
         (fold_left update_province_rgo_employment l a) pop <= 1.
Proof.
  intros Hnd. induction Hnd as [|q l Hq Hnd IH]; intros a He Hcur Hpop.
  - simpl. destruct Hpop as [H | (p & [] & _)]. exact H.
  - cbn [fold_left].
    destruct (update_province_rgo_employment_result a q)
      as ((He' & _) & Hpc & Hpf & Hraw & _).
    cbv zeta in Hraw.
    destruct (rgo_fractions_bounds (slave_pool_of a q) (worker_pool_of a q) _
                (Hcur q (in_eq q l))) as [Hsf Hff].
    apply IH.
    + congruence.
    + intros q' Hq'.
      assert (Hne : q' <> q) by (intros ->; contradiction).
      unfold all_commodities. rewrite He', Hpf by now right.
      rewrite (accumulate_ext _ _
                 (fun c => province_cf a rgo_employment_per_good q' c))
        by (intros; apply Hpc; now right).
      apply Hcur. now right.
    + rewrite Hraw, He.
      destruct Hpop as [H | (p & [<- | Hp] & Hloc & Hrel)].
      * left.
        destruct (existsb _ _); [|exact H].
        destruct (Nat.eqb _ _); [exact Hsf|].
        destruct (pop_type_is_paid_rgo_worker _ _); [exact Hff|exact H].
      * left.
        assert (Hin : existsb (Nat.eqb pop) (province_pop_location e q) = true)
          by now apply existsb_eqb_in.
        rewrite Hin.
        destruct (Nat.eqb _ _); [exact Hsf|].
        simpl in Hrel. rewrite Hrel. exact Hff.
      * right. exists p. auto.
Qed.

(** X7.  The employment that the allocator records for the pops is a
    fraction: after the run, every slave pop and every paid RGO worker pop
    of a land province has a raw employment between 0 and 1, provided that
    the employment figures of the provinces were not negative before. *)
Theorem rgo_raw_employment_is_fraction (w : world) (p : province_id)
  (pop : pop_id) :
  (p < province_size (env w))%nat ->
  In pop (province_pop_location (env w) p) ->
  pop_poptype (env w) pop = slaves (culture (env w))
  \/ pop_type_is_paid_rgo_worker (env w) (pop_poptype (env w) pop) = true ->
  (forall q k, 0 <= province_cf w rgo_employment_per_good q k) ->
  (forall q, 0 <= province_f w subsistence_employment q) ->
  0 <= pop_raw_employment (update_rgo_employment w) pop <= 1.
Proof.
  intros Hp Hloc Htype Hemp Hsub. unfold update_rgo_employment.
  apply (rgo_fraction_fold (env w)); [apply seq_NoDup|reflexivity| |].
  - intros q _. pose proof (Hsub q).
    pose proof (accumulate_nonneg (all_commodities w)
                  (fun c => province_cf w rgo_employment_per_good q c)
                  (fun i _ => Hemp q i)).
    lra.
  - right. exists p. split; [apply in_seq; lia|]. split; [exact Hloc|].
    destruct Htype as [-> | ->]; [rewrite Nat.eqb_refl|]; simpl;
      auto using orb_true_r.
Qed.

Lemma rgo_raw_employment_is_fraction_witness :
  0 <= pop_raw_employment (update_rgo_employment (blank_world slave_env))
         0%nat <= 1.
Proof.
  refine (rgo_raw_employment_is_fraction (blank_world slave_env) 0%nat 0%nat
            _ _ _ _ _); simpl; try lia; try lra; auto; intros; lra.
Defined.

(** ** Bankruptcy: who is told, and what follows *)

(** The great powers that hear of the default of [n]: all of them but [n]
    itself, in the order of the list. *)
Lemma fire_to_great_nations_effects (ev : default_event) (n : nation_id)
  (w : world) :
  effects (fire_to_great_nations ev n w)
  = effects w
    ++ map (fun g => fire_fixed_event ev g n)
         (flat_map (fun gn =>
              match gn with
              | Some g => if Nat.eqb g n then [] else [g]
              | None => []
              end) (great_nations (env w))).
Proof.
  unfold fire_to_great_nations.
  generalize (great_nations (env w)). intros l. revert w.
  induction l as [|gn l IH]; intros w.
  - simpl. now rewrite app_nil_r.
  - cbn [fold_left flat_map]. rewrite IH, map_app.
    destruct gn as [g|]; [destruct (Nat.eqb g n)|]; simpl;
      rewrite <- ?app_assoc; reflexivity.
Qed.

(** X9.  [go_bankrupt] tells every great power except the bankrupt nation
    itself, once for each of its entries in the list of great powers and in
    the order of the list, with the event of a second default while an
    earlier bankruptcy still runs, of a small default when the debt is
    within the small debt limit, and of an ordinary default otherwise; then
    it adds the two modifiers and posts the message.  Nothing else is
    appended to the log, and the bankrupt nation is not among those
    told. *)
Theorem go_bankrupt_notifies_great_powers (w : world) (n : nation_id) :
  let today := current_date (env w) in
  let ev :=
    if (negb (Z.eqb (nation_bankrupt_until w n) 0)
        && Z.ltb today (nation_bankrupt_until w n))%bool
    then on_debtor_default_second
    else if Rge_dec (nation_cf w stockpiles n money)
              (- small_debt_limit (defs (env w)))
         then on_debtor_default_small else on_debtor_default in
  let others :=
    flat_map (fun gn =>
        match gn with
        | Some g => if Nat.eqb g n then [] else [g]
        | None => []
        end) (great_nations (env w)) in
  effects (go_bankrupt w n)
  = effects w
    ++ map (fun g => fire_fixed_event ev g n) others
    ++ [ add_modifier_to_nation n in_bankrupcy
           (today + to_int32 (bankrupcy_duration (defs (env w)) * 365))%Z;
         add_modifier_to_nation n bad_debter
           (today
            + to_int32 (bankruptcy_external_loan_years (defs (env w)) * 365))%Z;
         post_bankruptcy_message n ]
  /\ ~ In n others
  /\ forall g, In g others <-> In (Some g) (great_nations (env w)) /\ g <> n.
Proof.
  cbv zeta. split; [|split].
  - unfold go_bankrupt. cbv zeta.
    destruct (negb (Z.eqb (nation_bankrupt_until w n) 0)
              && Z.ltb (current_date (env w)) (nation_bankrupt_until w n))%bool;
      [|destruct (Rge_dec _ _)];
      simpl;
      rewrite fire_to_great_nations_effects;
      destruct (fire_to_great_nations_tables
                  on_debtor_default_second n w) as (He2 & _);
      destruct (fire_to_great_nations_tables
                  on_debtor_default_small n w) as (He3 & _);
      destruct (fire_to_great_nations_tables
                  on_debtor_default n w) as (He4 & _);
      rewrite ?He2, ?He3, ?He4, <- !app_assoc; reflexivity.
  - intros Hin. apply in_flat_map in Hin. destruct Hin as (gn & _ & Hg).
    destruct gn as [g|]; [|contradiction].
    destruct (Nat.eqb g n) eqn:E; [contradiction|].
    destruct Hg as [-> | []]. now rewrite Nat.eqb_refl in E.
  - intros g. rewrite in_flat_map. split.
    + intros (gn & Hgn & Hg). destruct gn as [g'|]; [|contradiction].
      destruct (Nat.eqb g' n) eqn:E; [contradiction|].
      destruct Hg as [-> | []]. split; [exact Hgn|].
      intros ->. now rewrite Nat.eqb_refl in E.
    + intros [Hg Hne]. exists (Some g). split; [exact Hg|].
      apply Nat.eqb_neq in Hne. rewrite Hne. now left.
Qed.

(** X8.  A nation that has just gone bankrupt cannot borrow, whoever
    controls it, and with its debt cancelled it owes no interest. *)
Theorem bankrupt_nation_cannot_borrow (w : world) (n : nation_id) :
  can_take_loans (go_bankrupt w n) n = false
  /\ interest_payment (go_bankrupt w n) n = 0.
Proof.
  destruct (go_bankrupt_result w n) as (_ & Hmoney & Hdebt & _).
  cbv zeta in Hmoney, Hdebt. split.
  - unfold can_take_loans. rewrite Hdebt. simpl. now rewrite orb_true_r.
  - unfold interest_payment. rewrite Hmoney.
    destruct (Rge_dec 0 0); [reflexivity|lra].
Qed.

(** ** The cost of the full spending *)

(** A loop whose steps never lower the running total. *)
Lemma fold_left_grows {B : Type} (step : R -> B -> R) (l : list B) :
  (forall t j, In j l -> t <= step t j) ->
  forall t0, t0 <= fold_left step l t0.
Proof.
  induction l as [|x l IH]; intros H t0; [simpl; lra|].
  cbn [fold_left]. apply Rle_trans with (step t0 x).
  - apply H. now left.
  - apply IH. intros t j Hj. apply H. now right.
Qed.

Lemma square_percent_nonneg (z : Z) : 0 <= IZR z * IZR z / 100 / 100.
Proof. pose proof (Rle_0_sqr (IZR z)) as H. unfold Rsqr in H. lra. Qed.

(** One pop type never lowers the total, when what it is paid for is not
    negative. *)
Lemma pop_type_spending_grows (w : world) (n : nation_id)
  (a_spending s_spending e_spending m_spending p_level unemp_level total : R)
  (pt : pop_type_id) :
  0 < alice_needs_scaling_factor (defs (env w)) ->
  0 <= a_spending -> 0 <= s_spending -> 0 <= e_spending -> 0 <= m_spending ->
  0 <= p_level -> 0 <= unemp_level ->
  0 <= nation_ptf (env w) life_needs_costs n pt ->
  0 <= nation_ptf (env w) everyday_needs_costs n pt ->
  0 <= nation_ptf (env w) luxury_needs_costs n pt ->
  nation_ptf (env w) demographics_employment_key n pt
  <= nation_ptf (env w) demographics_key n pt ->
  total <= pop_type_spending w n a_spending s_spending e_spending m_spending
             p_level unemp_level total pt.
Proof.
  intros Hscale Ha Hs He Hm Hp Hu Hln Hen Hlx Hemp.
  unfold pop_type_spending. cbv zeta.
  set (scaling := alice_needs_scaling_factor (defs (env w))) in *.
  set (pop := nation_ptf (env w) demographics_key n pt) in *.
  set (emp := nation_ptf (env w) demographics_employment_key n pt) in *.
  destruct (Rle_dec (pop / scaling) 0) as [|Hpop]; [lra|].
  assert (Hadj : 0 <= pop / scaling) by lra.
  assert (Hun : 0 <= pop / scaling - emp / scaling).
  { replace (pop / scaling - emp / scaling) with ((pop - emp) / scaling)
      by (field; lra).
    apply Rmult_le_pos; [lra|]. left. now apply Rinv_0_lt_compat. }
  revert Hadj Hun. generalize (pop / scaling) (emp / scaling).
  intros adj e Hadj Hun.
  assert (Hpay : forall x y, 0 <= x -> 0 <= y -> 0 <= x * adj * y).
  { intros x y Hx Hy. apply Rmult_le_pos; [apply Rmult_le_pos|]; lra. }
  pose proof (Hpay a_spending _ Ha Hln). pose proof (Hpay a_spending _ Ha Hen).
  pose proof (Hpay a_spending _ Ha Hlx). pose proof (Hpay e_spending _ He Hln).
  pose proof (Hpay e_spending _ He Hen). pose proof (Hpay e_spending _ He Hlx).
  pose proof (Hpay m_spending _ Hm Hln). pose proof (Hpay m_spending _ Hm Hen).
  pose proof (Hpay m_spending _ Hm Hlx).
  assert (0 <= s_spending * adj * p_level
               * nation_ptf (env w) life_needs_costs n pt)
    by (repeat apply Rmult_le_pos; lra).
  assert (0 <= s_spending * (adj - e) * unemp_level
               * nation_ptf (env w) life_needs_costs n pt)
    by (repeat apply Rmult_le_pos; lra).
  destruct (pop_type_life_needs_income_type (env w) pt);
    destruct (pop_type_everyday_needs_income_type (env w) pt);
    destruct (pop_type_luxury_needs_income_type (env w) pt);
    try destruct (pop_type_has_unemployment (env w) pt); lra.
Qed.

(** X10.  With demands, prices, budget settings, pop numbers and needs
    costs that are not negative, and no pop type with more employed than
    members, the cost of the full spending is not negative, and its
    military part, stored as the maximum military costs, lies between 0
    and the total: the assertions of [full_spending_cost] hold. *)
Theorem full_spending_cost_nonneg (w : world) (n : nation_id) :
  (forall c, 0 <= nation_cf w army_demand n c) ->
  (forall c, 0 <= nation_cf w navy_demand n c) ->
  (forall c, 0 <= nation_cf w construction_demand n c) ->
  (forall c, 0 <= nation_cf w effective_prices n c) ->
  (0 <= nation_i (env w) land_spending n)%Z ->
  (0 <= nation_i (env w) naval_spending n)%Z ->
  (0 <= nation_i (env w) construction_spending n)%Z ->
  (0 <= nation_i (env w) overseas_spending n)%Z ->
  (0 <= nation_i (env w) social_spending n)%Z ->
  0 <= nation_f w administrative_efficiency n ->
  0 <= nation_f w (modifier_values national_mod_offsets.pension_level) n ->
  0 <= nation_f w (modifier_values national_mod_offsets.unemployment_benefit)
         n ->
  0 < alice_needs_scaling_factor (defs (env w)) ->
  0 <= alice_domestic_investment_multiplier (defs (env w)) ->
  (forall fld pt, 0 <= nation_ptf (env w) fld n pt) ->
  (forall pt, nation_ptf (env w) demographics_employment_key n pt
              <= nation_ptf (env w) demographics_key n pt) ->
  let res := full_spending_cost w n in
  0 <= nation_f (snd res) maximum_military_costs n <= fst res.
Proof.
  intros Harmy Hnavy Hcons Hprice Hland Hnaval Hconstr Hover Hsocial Hadmin
    Hpension Hunemp Hscale Hdi Hptf Hemp.
  assert (Hpct : forall z, (0 <= z)%Z -> 0 <= IZR z / 100).
  { intros z Hz. pose proof (IZR_le _ _ Hz). lra. }
  apply Hpct in Hland, Hnaval, Hconstr, Hover, Hsocial.
  cbv zeta. unfold full_spending_cost. cbv zeta. cbn [fst snd].
  simpl nation_f. rewrite upd_same.
  set (army :=
         fold_left (fun total cid =>
             total + nation_cf w army_demand n cid
                     * (IZR (nation_i (env w) land_spending n) / 100)
                     * nation_cf w effective_prices n cid)
           (traded_commodities w) 0).
  set (military :=
         fold_left (fun total cid =>
             total + nation_cf w navy_demand n cid
                     * (IZR (nation_i (env w) naval_spending n) / 100)
                     * nation_cf w effective_prices n cid)
           (traded_commodities w) army).
  assert (Hterm : forall d s pr, 0 <= d -> 0 <= s -> 0 <= pr -> 0 <= d * s * pr)
    by (intros; repeat apply Rmult_le_pos; lra).
  assert (Harmy0 : 0 <= army).
  { apply fold_left_grows. intros t j _. pose proof (Hterm _ _ _ (Harmy j)
      Hland (Hprice j)). lra. }
  assert (Hmil : army <= military).
  { apply fold_left_grows. intros t j _. pose proof (Hterm _ _ _ (Hnavy j)
      Hnaval (Hprice j)). lra. }
  split; [lra|].
  match goal with
  | |- _ <= fold_left ?step ?l ?t0 =>
      apply Rle_trans with t0; [|apply fold_left_grows]
  end.
  - match goal with
    | |- _ <= ?t + ?x => assert (Hinv : 0 <= x); [|
        apply Rle_trans with t; [|lra]]
    end.
    { apply Rmult_le_pos; [|left; now apply Rinv_0_lt_compat].
      apply Rmult_le_pos.
      - apply Rmult_le_pos; [exact Hdi|apply square_percent_nonneg].
      - pose proof (Hptf demographics_key (capitalists (culture (env w)))).
        pose proof (Hptf luxury_needs_costs (capitalists (culture (env w)))).
        pose proof (Hptf demographics_key (aristocrat (culture (env w)))).
        pose proof (Hptf luxury_needs_costs (aristocrat (culture (env w)))).
        nra. }
    assert (Hcon : military <=
              fold_left (fun total cid =>
                  total + nation_cf w construction_demand n cid
                          * (IZR (nation_i (env w) construction_spending n)
                             / 100)
                          * nation_cf w effective_prices n cid)
                (traded_commodities w) military).
    { apply fold_left_grows. intros t j _. pose proof (Hterm _ _ _ (Hcons j)
        Hconstr (Hprice j)). lra. }
    eapply Rle_trans; [exact Hcon|].
    match goal with
    | |- ?a <= (if Rgt_dec ?o 0 then fold_left ?step ?l ?t else ?t) =>
        apply Rle_trans with t;
        [|destruct (Rgt_dec o 0) as [Ho|]; [apply fold_left_grows|lra]]
    end.
    + apply fold_left_grows. intros t j _.
      unfold stockpile_refill_wanted.
      destruct (Rgt_dec _ 0); [|lra].
      destruct (negb _); [|lra].
      pose proof (Hprice j).
      assert (0 <= (nation_cf w stockpile_targets n j
                    - nation_cf w stockpiles n j)
                   * nation_cf w effective_prices n j)
        by (apply Rmult_le_pos; lra).
      lra.
    + intros t j _. destruct (pays_overseas_penalty w n j); [|lra].
      assert (0 <= overseas_factor_of w n * nation_cf w effective_prices n j
                   * (IZR (nation_i (env w) overseas_spending n) / 100)).
      { apply Rmult_le_pos; [apply Rmult_le_pos|];
          [lra|apply Hprice|exact Hover]. }
      lra.
  - intros t pt _. apply pop_type_spending_grows; auto.
    + replace (IZR (nation_i (env w) administrative_spending n) / 100
               * IZR (nation_i (env w) administrative_spending n) / 100)
        with (IZR (nation_i (env w) administrative_spending n)
              * IZR (nation_i (env w) administrative_spending n) / 100 / 100)
        by field.
      apply square_percent_nonneg.
    + replace (nation_f w administrative_efficiency n
               * IZR (nation_i (env w) social_spending n) / 100)
        with (nation_f w administrative_efficiency n
              * (IZR (nation_i (env w) social_spending n) / 100)) by field.
      apply Rmult_le_pos; lra.
    + apply square_percent_nonneg.
    + apply square_percent_nonneg.
Qed.

Lemma full_spending_cost_nonneg_witness :
  0 <= nation_f (snd (full_spending_cost (budget_world 0 false) 0%nat))
         maximum_military_costs 0%nat
    <= fst (full_spending_cost (budget_world 0 false) 0%nat).
Proof.
  refine (full_spending_cost_nonneg (budget_world 0 false) 0%nat
            _ _ _ _ _ _ _ _ _ _ _ _ _ _ _ _);
    try (intros [|[|c]]); intros; simpl; try lia; lra.
Defined.

(** ** Refunds and the stockpiles *)

(** The stockpiles after the loop that fills them. *)
Lemma fill_stockpiles_cells (w0 : world) (n : nation_id) (s : R)
  (l : list commodity_id) :
  NoDup l -> ~ In money l ->
  forall (w : world) (r : R),
  untouched stockpile_written w0 w n l ->
  let res := fold_left (fill_stockpile n s) l (w, r) in
  (forall fld, fld <> stockpiles -> nation_cf (fst res) fld = nation_cf w0 fld)
  /\ nation_f (fst res) = nation_f w0
  /\ commodity_f (fst res) = commodity_f w0
  /\ forall c,
       nation_cf (fst res) stockpiles n c
       = if (existsb (Nat.eqb c) l && stockpile_refill_wanted w0 n c)%bool
         then nation_cf w0 stockpiles n c
              + (nation_cf w0 stockpile_targets n c
                 - nation_cf w0 stockpiles n c)
                * s * nation_cf w0 direct_demand_satisfaction n c
         else nation_cf w stockpiles n c.
Proof.
  induction l as [|x l IH]; intros Hnd Hmoney w r Hw; cbv zeta.
  - simpl. destruct Hw as (He & Hf & Hc & Hother & _ & _).
    repeat split; try assumption.
    intros fld Hfld. apply Hother. unfold stockpile_written.
    destruct (nation_commodity_float_beq fld stockpiles) eqn:E;
      [|reflexivity].
    apply internal_nation_commodity_float_dec_bl in E. contradiction.
  - inversion Hnd as [|? ? Hx Hnd']; subst.
    destruct Hw as (He & Hf & Hc & Hother & Htodo & Hm).
    assert (Hxm : x <> money) by (intros ->; apply Hmoney; now left).
    assert (Hwant : stockpile_refill_wanted w n x
                    = stockpile_refill_wanted w0 n x).
    { unfold stockpile_refill_wanted.
      rewrite !Htodo, He by now left. reflexivity. }
    cbn [fold_left existsb].
    assert (Hstep : fill_stockpile n s (w, r) x
              = if stockpile_refill_wanted w0 n x then
                  (nation_cset stockpiles n x
                     (nation_cf w stockpiles n x
                      + (nation_cf w stockpile_targets n x
                         - nation_cf w stockpiles n x)
                        * s * nation_cf w direct_demand_satisfaction n x) w,
                   r + (nation_cf w stockpile_targets n x
                        - nation_cf w stockpiles n x)
                       * (1 - nation_cf w direct_demand_satisfaction n x) * s
                       * commodity_f w current_price x)
                else (w, r)).
    { unfold fill_stockpile. rewrite Hwant.
      now destruct (stockpile_refill_wanted w0 n x). }
    rewrite Hstep. clear Hstep.
    destruct (stockpile_refill_wanted w0 n x) eqn:Ewant.
    + match goal with
      | |- context [fold_left _ l (?w1, ?r1)] =>
          destruct (IH Hnd' (fun H => Hmoney (or_intror H)) w1 r1)
            as (H1 & H2 & H3 & H4)
      end.
      { repeat split; simpl; try assumption.
        - intros fld Hfld. unfold stockpile_written in Hfld.
          rewrite Hfld. now apply Hother.
        - intros fld c0 Hc0.
          destruct (nation_commodity_float_beq fld stockpiles).
          + rewrite upd2_other; [apply Htodo; now right|].
            right. intros ->. contradiction.
          + apply Htodo. now right.
        - intros fld.
          destruct (nation_commodity_float_beq fld stockpiles);
            [|apply Hm].
          rewrite upd2_other; [apply Hm|]. right. congruence. }
      split; [exact H1|]. split; [exact H2|]. split; [exact H3|].
      intros c0. rewrite H4.
      destruct (Nat.eqb c0 x) eqn:E.
      * apply Nat.eqb_eq in E. subst c0.
        rewrite (existsb_eqb_not_in _ _ Hx), Ewant. simpl.
        rewrite upd2_same, !Htodo by now left. reflexivity.
      * simpl. destruct (existsb _ l && _)%bool; [reflexivity|].
        rewrite upd2_other; [reflexivity|].
        right. intros ->. now rewrite Nat.eqb_refl in E.
    + destruct (IH Hnd' (fun H => Hmoney (or_intror H)) w r)
        as (H1 & H2 & H3 & H4).
      { repeat split; try assumption. intros. apply Htodo. now right. }
      split; [exact H1|]. split; [exact H2|]. split; [exact H3|].
      intros c0. rewrite H4.
      destruct (Nat.eqb c0 x) eqn:E; [|reflexivity].
      apply Nat.eqb_eq in E. subst c0.
      rewrite (existsb_eqb_not_in _ _ Hx), Ewant. reflexivity.
Qed.

(** The refund for the overseas penalty is not negative, and its block
    writes no table of the nation's goods. *)
Lemma overseas_refund_tables (w : world) (n : nation_id) (r : R) :
  nation_cf (fst (overseas_refund w n r)) = nation_cf w.
Proof.
  unfold overseas_refund. cbv zeta.
  destruct (Rgt_dec (overseas_factor_of w n) 0); [|reflexivity].
  now destruct (fold_left _ _ _).
Qed.

Lemma overseas_refund_grows (w : world) (n : nation_id) (r : R) :
  (forall c, nation_cf w demand_satisfaction n c <= 1) ->
  (forall c, 0 <= commodity_f w current_price c) ->
  0 <= nation_f w spending_level n ->
  r <= snd (overseas_refund w n r).
Proof.
  intros Hsat Hprice Hlevel. unfold overseas_refund. cbv zeta.
  destruct (Rgt_dec (overseas_factor_of w n) 0) as [Ho|]; [|simpl; lra].
  match goal with
  | |- context [fold_left ?step ?l (r, 1)] =>
      assert (H : r <= fst (fold_left step l (r, 1)));
      [|destruct (fold_left step l (r, 1)) as [r' s']; exact H]
  end.
  apply (fold_left_preserves _ (fun st => r <= fst st)); [|simpl; lra].
  intros [r0 s0] c0 _ Hr. simpl in Hr.
  destruct (pays_overseas_penalty w n c0); [|exact Hr]. simpl.
  pose proof (Hsat c0). pose proof (Hprice c0).
  assert (0 <= overseas_factor_of w n
               * (1 - nation_cf w demand_satisfaction n c0)
               * nation_f w spending_level n
               * commodity_f w current_price c0)
    by (apply Rmult_le_pos; [apply Rmult_le_pos; [apply Rmult_le_pos|]|];
        lra).
  lra.
Qed.

(** The treasury and the stockpiles after the refund block. *)
Lemma refund_unsatisfied_spending_cells (w : world) (n : nation_id) :
  nation_i (env w) owned_province_count n <> 0%Z ->
  let w' := refund_unsatisfied_spending w n in
  let s := nation_f w spending_level n in
  let military fld lvl :=
    accumulate (traded_commodities w) (fun cid =>
      nation_cf w fld n cid * (1 - nation_cf w demand_satisfaction n cid)
      * s * lvl * commodity_f w current_price cid) in
  let refill :=
    accumulate (traded_commodities w) (fun cid =>
      if stockpile_refill_wanted w n cid then
        (nation_cf w stockpile_targets n cid - nation_cf w stockpiles n cid)
        * (1 - nation_cf w direct_demand_satisfaction n cid) * s
        * commodity_f w current_price cid
      else 0) in
  (exists overseas,
     nation_cf w' stockpiles n money
     = nation_cf w stockpiles n money
       + military navy_demand (IZR (nation_i (env w) naval_spending n) / 100)
       + military army_demand (IZR (nation_i (env w) land_spending n) / 100)
       + refill + overseas
     /\ ((forall c, nation_cf w demand_satisfaction n c <= 1) ->
         (forall c, 0 <= commodity_f w current_price c) ->
         0 <= s -> 0 <= overseas))
  /\ forall c, c <> money ->
       nation_cf w' stockpiles n c
       = if (existsb (Nat.eqb c) (traded_commodities w)
             && stockpile_refill_wanted w n c)%bool
         then nation_cf w stockpiles n c
              + (nation_cf w stockpile_targets n c
                 - nation_cf w stockpiles n c)
                * s * nation_cf w direct_demand_satisfaction n c
         else nation_cf w stockpiles n c.
Proof.
  intros Hown. cbv zeta. unfold refund_unsatisfied_spending.
  destruct (Z.eqb_spec (nation_i (env w) owned_province_count n) 0)
    as [E|_]; [contradiction|].
  cbv zeta.
  pose proof (military_refund_fst w n navy_demand
                (IZR (nation_i (env w) naval_spending n) / 100) 0) as H1.
  destruct (military_refund w n navy_demand _ 0) as [r1 e1].
  simpl in H1.
  set (w1 := nation_set effective_naval_spending n e1 w).
  pose proof (military_refund_fst w1 n army_demand
                (IZR (nation_i (env w) land_spending n) / 100) r1) as H2.
  change (env w1) with (env w).
  destruct (military_refund w1 n army_demand _ r1) as [r2 e2].
  simpl in H2.
  set (w2 := nation_set effective_land_spending n e2 w1).
  set (w3 := nation_set effective_construction_spending n
               (construction_effective_spending w2 n) w2).
  destruct (traded_commodities_fresh w3) as [Hnd Hmoney].
  destruct (fill_stockpiles_fold w3 n (nation_f w3 spending_level n)
              (traded_commodities w3) Hnd Hmoney w3 r2
              (untouched_refl _ w3 n _)) as (H3 & H4 & H5).
  destruct (fill_stockpiles_cells w3 n (nation_f w3 spending_level n)
              (traded_commodities w3) Hnd Hmoney w3 r2
              (untouched_refl _ w3 n _)) as (H6 & H7 & H8 & H9).
  fold (fill_stockpiles w3 n r2) in H3, H4, H5, H6, H7, H8, H9.
  destruct (fill_stockpiles w3 n r2) as [w4 r3].
  simpl in H3, H4, H5, H6, H7, H8, H9.
  pose proof (overseas_refund_grows w4 n r3) as H10.
  pose proof (overseas_refund_tables w4 n r3) as H11.
  destruct (overseas_refund w4 n r3) as [w5 r4].
  simpl in H10, H11 |- *. split.
  - exists (r4 - r3). split.
    + rewrite upd2_same, H11, H4, H3, H2, H1. simpl.
      change (traded_commodities w1) with (traded_commodities w).
      change (traded_commodities w3) with (traded_commodities w).
      change (stockpile_refill_wanted w3 n)
        with (stockpile_refill_wanted w n).
      lra.
    + intros Hsat Hprice Hs.
      assert (r3 <= r4); [|lra].
      apply H10.
      * intros c0. rewrite H6 by discriminate. apply Hsat.
      * intros c0. rewrite H8. apply Hprice.
      * rewrite H7. exact Hs.
  - intros c0 Hc0. rewrite upd2_other by now right.
    rewrite H11, H9. reflexivity.
Qed.

(** X11.  The refunds never take money: with demands, prices and spending
    settings that are not negative, a spending scale that is not negative
    and satisfactions of at most 1, the refund block of the daily update
    and the refund at the start of [advance_construction] leave the
    treasury at least as full as it was, as their assertions demand. *)
Theorem refunds_never_take_money (w : world) (n : nation_id) :
  (forall c, 0 <= nation_cf w navy_demand n c) ->
  (forall c, 0 <= nation_cf w army_demand n c) ->
  (forall c, 0 <= nation_cf w construction_demand n c) ->
  (forall c, nation_cf w demand_satisfaction n c <= 1) ->
  (forall c, nation_cf w direct_demand_satisfaction n c <= 1) ->
  (forall c, 0 <= commodity_f w current_price c) ->
  0 <= nation_f w spending_level n ->
  (0 <= nation_i (env w) naval_spending n)%Z ->
  (0 <= nation_i (env w) land_spending n)%Z ->
  (0 <= nation_i (env w) construction_spending n)%Z ->
  nation_cf w stockpiles n money
  <= nation_cf (refund_unsatisfied_spending w n) stockpiles n money
  /\ nation_cf w stockpiles n money
     <= nation_cf (advance_construction_refund w n) stockpiles n money.
Proof.
  intros Hnavy Harmy Hcons Hsat Hdsat Hprice Hs Hnaval Hland Hconstr.
  assert (Hpct : forall z, (0 <= z)%Z -> 0 <= IZR z / 100).
  { intros z Hz. pose proof (IZR_le _ _ Hz). lra. }
  apply Hpct in Hnaval, Hland, Hconstr.
  assert (Hterm : forall fld lvl cid,
            0 <= nation_cf w fld n cid -> 0 <= lvl ->
            0 <= nation_cf w fld n cid
                 * (1 - nation_cf w demand_satisfaction n cid)
                 * nation_f w spending_level n * lvl
                 * commodity_f w current_price cid).
  { intros fld lvl cid Hd Hl. pose proof (Hsat cid). pose proof (Hprice cid).
    apply Rmult_le_pos;
      [apply Rmult_le_pos; [apply Rmult_le_pos; [apply Rmult_le_pos|]|]|];
      lra. }
  split.
  - destruct (Z.eq_dec (nation_i (env w) owned_province_count n) 0)
      as [Hnone|Hown];
      [rewrite (refund_skips_landless w n Hnone); lra|].
    destruct (refund_unsatisfied_spending_cells w n Hown)
      as [(overseas & Hmoney & Hover) _].
    cbv zeta in Hmoney, Hover. rewrite Hmoney.
    specialize (Hover Hsat Hprice Hs).
    pose proof (accumulate_nonneg (traded_commodities w) _
                  (fun cid _ => Hterm navy_demand _ cid (Hnavy cid) Hnaval)).
    pose proof (accumulate_nonneg (traded_commodities w) _
                  (fun cid _ => Hterm army_demand _ cid (Harmy cid) Hland)).
    assert (0 <= accumulate (traded_commodities w) (fun cid =>
              if stockpile_refill_wanted w n cid then
                (nation_cf w stockpile_targets n cid
                 - nation_cf w stockpiles n cid)
                * (1 - nation_cf w direct_demand_satisfaction n cid)
                * nation_f w spending_level n
                * commodity_f w current_price cid
              else 0)).
    { apply accumulate_nonneg. intros cid _.
      unfold stockpile_refill_wanted.
      destruct (Rgt_dec _ 0); [|lra]. destruct (negb _); [|lra].
      pose proof (Hdsat cid). pose proof (Hprice cid).
      apply Rmult_le_pos; [apply Rmult_le_pos; [apply Rmult_le_pos|]|]; lra. }
    lra.
  - unfold advance_construction_refund. cbv zeta.
    destruct (traded_commodities_fresh w) as [Hnd Hmoney].
    match goal with
    | |- context [fold_left (scale_construction_demand n ?cs ?ps) _ _] =>
        destruct (scale_construction_fold w n cs ps
                    (traded_commodities w) Hnd Hmoney w 0
                    (untouched_refl _ w n _)) as (H1 & H2);
        destruct (fold_left (scale_construction_demand n cs ps) _ _)
          as [w1 r1]
    end.
    simpl in H1, H2. simpl. rewrite upd2_same, H2, H1.
    match goal with
    | |- _ <= _ + (0 + accumulate ?l ?f) =>
        assert (0 <= accumulate l f); [apply accumulate_nonneg|lra]
    end.
    intros cid _. pose proof (Hsat cid). pose proof (Hprice cid).
    pose proof (Hcons cid).
    apply Rmult_le_pos; [apply Rmult_le_pos; [apply Rmult_le_pos|]|];
      try lra.
    unfold Rdiv in *. rewrite Rmult_assoc. apply Rmult_le_pos; lra.
Qed.

Lemma refunds_never_take_money_witness :
  nation_cf (navy_world 0 1) stockpiles 0%nat money
  <= nation_cf (refund_unsatisfied_spending (navy_world 0 1) 0%nat)
       stockpiles 0%nat money.
Proof.
  refine (proj1 (refunds_never_take_money (navy_world 0 1) 0%nat
                   _ _ _ _ _ _ _ _ _ _));
    try (intros [|[|c]]); intros; simpl; try lia; lra.
Defined.

(** X12.  Filling the stockpiles moves them toward their targets and never
    past them: in the refund block of the daily update, for a nation that
    owns a province, the stockpile of a traded commodity that is below its
    target and not drawn on rises by the missing amount times the spending
    scale and the direct satisfaction, which keeps it at or below the
    target while that product is between 0 and 1.  The stockpile of a
    commodity that is drawn on or has reached its target is left as it
    is, and so is every stockpile of a nation without provinces. *)
Theorem stockpile_fill_stays_below_target (w : world) (n : nation_id)
  (c : commodity_id) :
  (1 <= c < commodity_size (env w))%nat ->
  let sp := nation_cf w stockpiles n c in
  let target := nation_cf w stockpile_targets n c in
  let share :=
    nation_f w spending_level n * nation_cf w direct_demand_satisfaction n c in
  let sp' := nation_cf (refund_unsatisfied_spending w n) stockpiles n c in
  (nation_i (env w) owned_province_count n <> 0%Z ->
   nation_drawing_on_stockpiles (env w) n c = false -> sp < target ->
   sp' = sp + (target - sp) * share
   /\ (0 <= share <= 1 -> sp <= sp' <= target))
  /\ (nation_i (env w) owned_province_count n = 0%Z
      \/ nation_drawing_on_stockpiles (env w) n c = true \/ target <= sp ->
      sp' = sp).
Proof.
  intros Hc. cbv zeta.
  destruct (Z.eq_dec (nation_i (env w) owned_province_count n) 0)
    as [Hnone|Hown].
  { rewrite (refund_skips_landless w n Hnone).
    split; [intros H; contradiction|reflexivity]. }
  destruct (refund_unsatisfied_spending_cells w n Hown) as [_ Hcells].
  cbv zeta in Hcells. rewrite Hcells by (unfold money; lia).
  assert (Hin : existsb (Nat.eqb c) (traded_commodities w) = true).
  { apply existsb_eqb_in. unfold traded_commodities. apply in_seq. lia. }
  rewrite Hin. unfold stockpile_refill_wanted. simpl. split.
  - intros _ Hdraw Hlow. rewrite Hdraw.
    destruct (Rgt_dec _ 0); [|lra]. simpl. split; [ring|].
    intros Hshare. rewrite Rmult_assoc. nra.
  - intros [Hnone | [Hdraw | Hfull]].
    + contradiction.
    + rewrite Hdraw. now destruct (Rgt_dec _ 0).
    + destruct (Rgt_dec _ 0); [lra|reflexivity].
Qed.

Lemma stockpile_fill_stays_below_target_witness :
  nation_cf (refund_unsatisfied_spending refill_world 0%nat) stockpiles
    0%nat 1%nat = 7.
Proof.
  pose proof (stockpile_fill_stays_below_target refill_world 0%nat 1%nat)
    as H.
  cbv zeta in H. destruct H as [H _]; [simpl; lia|].
  destruct H as [H _];
    [simpl; discriminate|reflexivity|simpl; unfold upd2; simpl; lra|].
  rewrite H. simpl. unfold upd2, upd. simpl. lra.
Defined.

(** ** The distribution of the artisans *)

(** The cubic that [pseudo_exp_for_negative] raises to the power 128 grows
    with its argument and is at least a third from [-1] on. *)
Lemma exp_cubic_monotone (t u : R) :
  -1 <= t -> t <= u ->
  1 / 3 <= 1 + t + t * t / 2 + t * t * t / 6
  /\ 1 + t + t * t / 2 + t * t * t / 6 <= 1 + u + u * u / 2 + u * u * u / 6.
Proof.
  intros Ht Htu. split.
  - assert (H : 0 <= (t + 1) * (t * t + 2 * t + 4)).
    { apply Rmult_le_pos; nra. }
    nra.
  - assert (H : 0 <= (u - t) * (6 + 3 * (u + t) + u * u + u * t + t * t)).
    { apply Rmult_le_pos; [lra|]. nra. }
    nra.
Qed.

(** From [-128] on the function is the 128th power of the cubic. *)
Lemma pseudo_exp_power (f : R) :
  -128 <= f ->
  pseudo_exp_for_negative f
  = (1 + f / 128 + f / 128 * (f / 128) / 2
     + f / 128 * (f / 128) * (f / 128) / 6) ^ 128.
Proof.
  intros Hf. unfold pseudo_exp_for_negative.
  destruct (Rlt_dec f (-128)) as [?|_]; [exfalso; lra|].
  cbv zeta.
  set (p := 1 + f / 128 + f / 128 * (f / 128) / 2
            + f / 128 * (f / 128) * (f / 128) / 6).
  clearbody p. ring.
Qed.

Lemma pseudo_exp_low (f : R) : f < -128 -> pseudo_exp_for_negative f = 0.
Proof.
  intros Hf. unfold pseudo_exp_for_negative.
  destruct (Rlt_dec f (-128)); [reflexivity|exfalso; lra].
Qed.

Lemma pseudo_exp_increasing (a b : R) :
  -128 <= a -> a <= b ->
  0 < pseudo_exp_for_negative a <= pseudo_exp_for_negative b.
Proof.
  intros Ha Hab.
  rewrite (pseudo_exp_power a), (pseudo_exp_power b) by lra.
  destruct (exp_cubic_monotone (a / 128) (b / 128)) as [H0 H1]; [lra|lra|].
  split.
  - apply pow_lt. lra.
  - apply pow_incr. split; lra.
Qed.

Lemma pseudo_exp_nonneg (f : R) : 0 <= pseudo_exp_for_negative f.
Proof.
  destruct (Rlt_dec f (-128)) as [Hf|Hf].
  - rewrite (pseudo_exp_low f Hf). lra.
  - left. apply (pseudo_exp_increasing f f); lra.
Qed.




Lemma accumulate_scale (l : list nat) (f : nat -> R) (k : R) :
  accumulate l (fun i => f i / k) = accumulate l f / k.
Proof.
  induction l as [|a l IH].
  - unfold accumulate. simpl. unfold Rdiv. now rewrite Rmult_0_l.
  - rewrite !accumulate_cons, IH. unfold Rdiv. lra.
Qed.

(** X14. The shares that [get_artisan_distribution_slow] gives to the
    goods are never negative, and the shares of the traded goods add up to
    less than [1] (the rest belongs to the baseline), when the everyday
    needs of the artisans do not cost a negative amount. *)
Theorem artisan_shares_below_one (w : world) (x : annex) (n : nation_id) :
  0 <= nation_ptf (env w) everyday_needs_costs n (artisans x) ->
  (forall c, 0 <= get_artisan_distribution_slow w x n c)
  /\ (forall c, In c (traded_commodities w) ->
        get_artisan_distribution_slow w x n c < 1)
  /\ accumulate (traded_commodities w)
       (get_artisan_distribution_slow w x n) < 1.
Proof.
  intros _.
  set (multiplier := get_artisans_multiplier w x n).
  set (max_score := max_artisan_score w x n multiplier).
  set (dist := fun cid =>
         pseudo_exp_for_negative
           ((nation_artisan_distribution x n cid - max_score) * multiplier)).
  set (rest := pseudo_exp_for_negative
         ((artisan_baseline_score / multiplier - max_score) * multiplier)).
  assert (Htotal : total_artisan_exp_score w x n multiplier max_score
                   = accumulate (traded_commodities w) dist + rest)
    by reflexivity.
  assert (Hslow : forall c, get_artisan_distribution_slow w x n c
            = dist c / (accumulate (traded_commodities w) dist + rest + 0.001)).
  { intros c. unfold get_artisan_distribution_slow. cbv zeta.
    fold multiplier. fold max_score. rewrite Htotal. reflexivity. }
  assert (Hdist : forall c, 0 <= dist c)
    by (intros c; apply pseudo_exp_nonneg).
  assert (Hrest : 0 <= rest) by apply pseudo_exp_nonneg.
  assert (Hsum : 0 <= accumulate (traded_commodities w) dist)
    by (apply accumulate_nonneg; intros; apply Hdist).
  set (total := accumulate (traded_commodities w) dist) in *.
  assert (Hden : 0 < total + rest + 0.001) by lra.
  assert (Hall : accumulate (traded_commodities w)
                   (get_artisan_distribution_slow w x n) < 1).
  { rewrite (accumulate_ext _ _ (fun c => dist c / (total + rest + 0.001)))
      by (intros; apply Hslow).
    rewrite accumulate_scale. fold total.
    apply Rmult_lt_reg_r with (total + rest + 0.001); [exact Hden|].
    unfold Rdiv. rewrite Rmult_assoc, Rinv_l by lra. lra. }
  assert (Hpos : forall c, 0 <= get_artisan_distribution_slow w x n c).
  { intros c. rewrite Hslow. unfold Rdiv. apply Rmult_le_pos; [apply Hdist|].
    left. now apply Rinv_0_lt_compat. }
  split; [exact Hpos|]. split; [|exact Hall].
  intros c Hc.
  assert (Hle : forall l, In c l ->
            get_artisan_distribution_slow w x n c
            <= accumulate l (get_artisan_distribution_slow w x n)).
  { induction l as [|a l IH]; intros Hin; [contradiction|].
    rewrite accumulate_cons. destruct Hin as [->|Hin].
    - pose proof (accumulate_nonneg l (get_artisan_distribution_slow w x n)
                    (fun i _ => Hpos i)). lra.
    - pose proof (IH Hin). pose proof (Hpos a). lra. }
  pose proof (Hle _ Hc). lra.
Qed.

Lemma artisan_shares_below_one_witness :
  (forall c,
      0 <= get_artisan_distribution_slow (blank_world (plain_env 3))
             example_annex 0%nat c)
  /\ (forall c, In c (traded_commodities (blank_world (plain_env 3))) ->
        get_artisan_distribution_slow (blank_world (plain_env 3))
          example_annex 0%nat c < 1)
  /\ accumulate (traded_commodities (blank_world (plain_env 3)))
       (get_artisan_distribution_slow (blank_world (plain_env 3))
          example_annex 0%nat) < 1.
Proof.
  apply (artisan_shares_below_one (blank_world (plain_env 3)) example_annex 0%nat).
  simpl. lra.
Defined.

(** ** The weights of the needs *)

Lemma accumulate_linear (l : list nat) (f g : nat -> R) (a b : R) :
  accumulate l (fun i => a * f i + b * g i)
  = a * accumulate l f + b * accumulate l g.
Proof.
  induction l as [|y l IH].
  - unfold accumulate. simpl. lra.
  - rewrite !accumulate_cons, IH. lra.
Qed.

Lemma accumulate_member_le (l : list nat) (f : nat -> R) (c : nat) :
  (forall i, In i l -> 0 <= f i) -> In c l -> f c <= accumulate l f.
Proof.
  induction l as [|a l IH]; intros Hpos Hin; [contradiction|].
  rewrite accumulate_cons.
  assert (Hl : forall i, In i l -> 0 <= f i)
    by (intros i Hi; apply Hpos; now right).
  destruct Hin as [->|Hin].
  - pose proof (accumulate_nonneg l f Hl). lra.
  - pose proof (IH Hl Hin). pose proof (Hpos a (in_eq a l)). lra.
Qed.

Lemma accumulate_ones (l : list nat) (f : nat -> R) :
  (forall i, In i l -> f i = 1) -> accumulate l f = INR (length l).
Proof.
  induction l as [|a l IH]; intros H; [reflexivity|].
  cbn [length]. rewrite accumulate_cons, IH, (H a (in_eq a l)), S_INR;
    [lra|intros i Hi; apply H; now right].
Qed.

Lemma need_weight_pos (w : world) (n : nation_id) (c : commodity_id) :
  0 < need_weight w n c.
Proof.
  unfold need_weight.
  assert (H : 0 < fmax (commodity_f w current_price c) 0.001).
  { pose proof (fmax_ge_r (commodity_f w current_price c) 0.001). lra. }
  apply sqrt_lt_R0 in H. unfold Rdiv. rewrite Rmult_1_l.
  now apply Rinv_0_lt_compat.
Qed.

(** The first loop of a block: the sum of the ideal weights and the number
    of the weighed goods. *)
Lemma weigh_fold (w : world) (x : annex) (cat : pop_type_commodity_float)
  (n : nation_id) (l : list commodity_id) (t : R) (k : nat) :
  fold_left (fun '(total_weights, count) c =>
      if weighted_need w x cat n c then
        let weight := need_weight w n c in
        (total_weights + weight, S count)
      else (total_weights, count)) l (t, k)
  = (t + accumulate (filter (weighted_need w x cat n) l) (need_weight w n),
     (k + length (filter (weighted_need w x cat n) l))%nat).
Proof.
  revert t k. induction l as [|c l IH]; intros t k; simpl.
  - unfold accumulate. simpl. f_equal; [lra|lia].
  - destruct (weighted_need w x cat n c).
    + rewrite IH, accumulate_cons. simpl. f_equal; [lra|lia].
    + apply IH.
Qed.

(** A loop that writes the cell of every weighed good, from the drift
    speed and the old cell, writes each of them once and no other cell. *)
Lemma weights_fold (w : world) (cat : pop_type_commodity_float)
  (n : nation_id) (value : R -> R -> commodity_id -> R)
  (l : list commodity_id) :
  NoDup l ->
  forall x,
  let x' :=
    fold_left (fun x c =>
        if weighted_need w x cat n c then
          needs_weights_set cat n c
            (value (alice_need_drift_speed x)
               (nation_needs_weights x cat n c) c) x
        else x) l x in
  commodity_is_need x' = commodity_is_need x
  /\ alice_need_drift_speed x' = alice_need_drift_speed x
  /\ (forall c, In c l -> weighted_need w x cat n c = true ->
        nation_needs_weights x' cat n c
        = value (alice_need_drift_speed x) (nation_needs_weights x cat n c) c)
  /\ (forall cat' n' c,
        cat' <> cat \/ n' <> n \/ ~ In c l
        \/ weighted_need w x cat n c = false ->
        nation_needs_weights x' cat' n' c = nation_needs_weights x cat' n' c).
Proof.
  intros Hnd. induction Hnd as [|a l Ha Hnd IH]; intros x; cbn zeta.
  - simpl. repeat split; intros; try reflexivity. contradiction.
  - cbn [fold_left].
    set (x1 := if weighted_need w x cat n a then _ else x).
    assert (Hneed : commodity_is_need x1 = commodity_is_need x)
      by (subst x1; destruct (weighted_need w x cat n a); reflexivity).
    assert (Hspeed : alice_need_drift_speed x1 = alice_need_drift_speed x)
      by (subst x1; destruct (weighted_need w x cat n a); reflexivity).
    assert (Hvalid : forall c,
              weighted_need w x1 cat n c = weighted_need w x cat n c)
      by (intros c; unfold weighted_need; now rewrite Hneed).
    assert (Hother : forall cat' n' c,
              cat' <> cat \/ n' <> n \/ c <> a
              \/ weighted_need w x cat n a = false ->
              nation_needs_weights x1 cat' n' c
              = nation_needs_weights x cat' n' c).
    { intros cat' n' c H. subst x1.
      destruct (weighted_need w x cat n a) eqn:E; [|reflexivity].
      unfold needs_weights_set. cbn [nation_needs_weights].
      destruct (pop_type_commodity_float_beq cat' cat) eqn:Ec;
        [|reflexivity].
      apply internal_pop_type_commodity_float_dec_bl in Ec.
      apply upd2_other.
      destruct H as [H|[H|[H|H]]]; [contradiction|now left|now right|
                                    discriminate]. }
    destruct (IH x1) as (H1 & H2 & H3 & H4).
    split; [now rewrite H1|]. split; [now rewrite H2|]. split.
    + intros c [<-|Hc] Hv.
      * rewrite H4 by (right; right; now left).
        subst x1. rewrite Hv. unfold needs_weights_set.
        cbn [nation_needs_weights].
        replace (pop_type_commodity_float_beq cat cat) with true
          by (symmetry; apply internal_pop_type_commodity_float_dec_lb;
              reflexivity).
        apply upd2_same.
      * rewrite H3 by (try assumption; now rewrite Hvalid).
        rewrite Hspeed, Hother; [reflexivity|].
        right; right; left. intros ->. contradiction.
    + intros cat' n' c H. rewrite H4.
      * apply Hother.
        destruct H as [H|[H|[H|H]]];
          [now left|right; now left| |].
        -- right; right; left. intros ->. apply H. now left.
        -- destruct (Nat.eq_dec c a) as [->|Hca];
             [right; right; now right|right; right; now left].
      * destruct H as [H|[H|[H|H]]];
          [now left|right; now left| |].
        -- right; right; left. intros Hc. apply H. now right.
        -- right; right; right. now rewrite Hvalid.
Qed.

(** One block of [rebalance_needs_weights], on the table of its own
    category and on the others. *)
Lemma rebalance_block (w : world) (cat : pop_type_commodity_float)
  (n : nation_id) (x : annex) :
  let x' := rebalance_needs_weights_of w cat n x in
  let valid := weighted_needs w x cat n in
  let total := accumulate valid (need_weight w n) in
  let d := alice_need_drift_speed x in
  commodity_is_need x' = commodity_is_need x
  /\ alice_need_drift_speed x' = d
  /\ (forall c, In c valid ->
        nation_needs_weights x' cat n c
        = need_weight w n c / total * INR (length valid) * d
          + nation_needs_weights x cat n c * (1 - d))
  /\ (forall cat' n' c,
        cat' <> cat \/ n' <> n \/ ~ In c valid ->
        nation_needs_weights x' cat' n' c = nation_needs_weights x cat' n' c).
Proof.
  cbn zeta. unfold rebalance_needs_weights_of.
  rewrite weigh_fold. cbn iota. rewrite Rplus_0_l, Nat.add_0_l.
  fold (weighted_needs w x cat n).
  destruct (weights_fold w cat n
              (fun d old c =>
                 need_weight w n c
                 / accumulate (weighted_needs w x cat n) (need_weight w n)
                 * INR (length (weighted_needs w x cat n)) * d
                 + old * (1 - d))
              (all_commodities w) (seq_NoDup _ _) x) as (H1 & H2 & H3 & H4).
  split; [exact H1|]. split; [exact H2|]. split.
  - intros c Hc. unfold weighted_needs in Hc. apply filter_In in Hc.
    destruct Hc as [Hc Hv]. now apply H3.
  - intros cat' n' c H. apply H4.
    destruct H as [H|[H|H]]; [now left|right; now left|].
    destruct (in_dec Nat.eq_dec c (all_commodities w)) as [Hc|Hc];
      [|right; right; now left].
    right; right; right.
    destruct (weighted_need w x cat n c) eqn:E; [|reflexivity].
    exfalso. apply H. unfold weighted_needs. apply filter_In. now split.
Qed.

Lemma weighted_needs_ext (w : world) (x x' : annex)
  (cat : pop_type_commodity_float) (n : nation_id) :
  commodity_is_need x' = commodity_is_need x ->
  weighted_needs w x' cat n = weighted_needs w x cat n.
Proof.
  intros H. unfold weighted_needs. apply filter_ext. intros c.
  unfold weighted_need. now rewrite H.
Qed.

(** A block keeps the total of the weights of its category. *)
Lemma rebalance_block_total (w : world) (cat : pop_type_commodity_float)
  (n : nation_id) (x : annex) :
  let valid := weighted_needs w x cat n in
  0 <= alice_need_drift_speed x <= 1 ->
  accumulate valid (nation_needs_weights x cat n) = INR (length valid) ->
  (forall c, In c valid -> 0 <= nation_needs_weights x cat n c) ->
  let x' := rebalance_needs_weights_of w cat n x in
  accumulate valid (nation_needs_weights x' cat n) = INR (length valid)
  /\ (forall c, In c valid -> 0 <= nation_needs_weights x' cat n c).
Proof.
  cbn zeta. intros Hd Hsum Hpos.
  destruct (rebalance_block w cat n x) as (_ & _ & Hnew & _).
  set (valid := weighted_needs w x cat n) in *.
  set (total := accumulate valid (need_weight w n)) in *.
  set (d := alice_need_drift_speed x) in *.
  assert (Htotal : valid <> [] -> 0 < total).
  { subst total. destruct valid as [|a l]; [congruence|]. intros _.
    rewrite accumulate_cons.
    pose proof (need_weight_pos w n a).
    pose proof (accumulate_nonneg l (need_weight w n)
                  (fun i _ => Rlt_le _ _ (need_weight_pos w n i))). lra. }
  split.
  - rewrite (accumulate_ext _ _
               (fun c => (INR (length valid) * d / total) * need_weight w n c
                         + (1 - d) * nation_needs_weights x cat n c)).
    + rewrite accumulate_linear, Hsum. fold total.
      destruct valid as [|a l] eqn:E.
      * simpl. lra.
      * assert (0 < total) by (apply Htotal; congruence).
        field. lra.
    + intros c Hc. rewrite (Hnew c Hc).
      destruct valid as [|a l] eqn:E; [contradiction|].
      assert (0 < total) by (apply Htotal; congruence).
      field. lra.
  - intros c Hc. rewrite (Hnew c Hc).
    assert (0 < total).
    { apply Htotal. intros E. rewrite E in Hc. contradiction. }
    pose proof (need_weight_pos w n c). pose proof (Hpos c Hc).
    pose proof (pos_INR (length valid)).
    assert (0 <= need_weight w n c / total * INR (length valid) * d).
    { apply Rmult_le_pos; [apply Rmult_le_pos|]; try lra.
      unfold Rdiv. apply Rmult_le_pos; [lra|].
      left. now apply Rinv_0_lt_compat. }
    assert (0 <= nation_needs_weights x cat n c * (1 - d))
      by (apply Rmult_le_pos; lra).
    lra.
Qed.

(** A block leaves the tables of the other categories alone. *)
Lemma rebalance_block_other (w : world) (cat0 cat : pop_type_commodity_float)
  (n n' : nation_id) (c : commodity_id) (x : annex) :
  cat0 <> cat ->
  nation_needs_weights (rebalance_needs_weights_of w cat0 n x) cat n' c
  = nation_needs_weights x cat n' c.
Proof.
  intros H.
  destruct (rebalance_block w cat0 n x) as (_ & _ & _ & Hother).
  apply Hother. left. congruence.
Qed.

(** One block of [initialize_needs_weights]. *)
Lemma initialize_block (w : world) (cat0 : pop_type_commodity_float)
  (n : nation_id) (x : annex) :
  let x' := initialize_needs_weights_of w cat0 n x in
  commodity_is_need x' = commodity_is_need x
  /\ alice_need_drift_speed x' = alice_need_drift_speed x
  /\ (forall c, In c (weighted_needs w x cat0 n) ->
        nation_needs_weights x' cat0 n c = 1)
  /\ (forall cat' n' c,
        cat' <> cat0 \/ n' <> n \/ ~ In c (weighted_needs w x cat0 n) ->
        nation_needs_weights x' cat' n' c = nation_needs_weights x cat' n' c).
Proof.
  cbn zeta. unfold initialize_needs_weights_of.
  destruct (weights_fold w cat0 n (fun _ _ _ => 1)
              (all_commodities w) (seq_NoDup _ _) x) as (H1 & H2 & H3 & H4).
  split; [exact H1|]. split; [exact H2|]. split.
  - intros c Hc. unfold weighted_needs in Hc. apply filter_In in Hc.
    destruct Hc as [Hc Hv]. now apply H3.
  - intros cat' n' c H. apply H4.
    destruct H as [H|[H|H]]; [now left|right; now left|].
    destruct (in_dec Nat.eq_dec c (all_commodities w)) as [Hc|Hc];
      [|right; right; now left].
    right; right; right.
    destruct (weighted_need w x cat0 n c) eqn:E; [|reflexivity].
    exfalso. apply H. unfold weighted_needs. apply filter_In. now split.
Qed.

(** What a category's table is after a block that writes the weights of
    [cat0], in terms of what it was before: the goods to weigh are the
    same, and for another category the cells are too. *)
Lemma balanced_transfer (w : world) (x x' : annex)
  (cat : pop_type_commodity_float) (n : nation_id) :
  commodity_is_need x' = commodity_is_need x ->
  (forall c, nation_needs_weights x' cat n c = nation_needs_weights x cat n c)
  -> weights_balanced w x cat n -> weights_balanced w x' cat n.
Proof.
  intros Hneed Hcells [Hsum Hpos]. unfold weights_balanced.
  rewrite (weighted_needs_ext w x x' cat n Hneed). split.
  - rewrite <- Hsum. apply accumulate_ext. intros c _. apply Hcells.
  - intros c Hc. rewrite Hcells. now apply Hpos.
Qed.

Lemma rebalance_block_balanced (w : world)
  (cat0 cat : pop_type_commodity_float) (n : nation_id) (x : annex) :
  0 <= alice_need_drift_speed x <= 1 ->
  weights_balanced w x cat n ->
  weights_balanced w (rebalance_needs_weights_of w cat0 n x) cat n.
Proof.
  intros Hd Hbal.
  destruct (rebalance_block w cat0 n x) as (Hneed & _ & _ & Hother).
  destruct (pop_type_commodity_float_eq_dec cat0 cat) as [->|Hne].
  - destruct Hbal as [Hsum Hpos].
    destruct (rebalance_block_total w cat n x Hd Hsum Hpos) as [Hsum' Hpos'].
    unfold weights_balanced.
    rewrite (weighted_needs_ext w x _ cat n Hneed). now split.
  - apply (balanced_transfer w x); [exact Hneed| |exact Hbal].
    intros c. apply Hother. left. congruence.
Qed.

Lemma initialize_block_balanced (w : world)
  (cat0 cat : pop_type_commodity_float) (n : nation_id) (x : annex) :
  cat0 = cat \/ weights_balanced w x cat n ->
  weights_balanced w (initialize_needs_weights_of w cat0 n x) cat n.
Proof.
  intros Hbal.
  destruct (initialize_block w cat0 n x) as (Hneed & _ & Hone & Hother).
  destruct (pop_type_commodity_float_eq_dec cat0 cat) as [->|Hne].
  - unfold weights_balanced.
    rewrite (weighted_needs_ext w x _ cat n Hneed). split.
    + apply accumulate_ones. exact Hone.
    + intros c Hc. rewrite (Hone c Hc). lra.
  - destruct Hbal as [E|Hbal]; [contradiction|].
    apply (balanced_transfer w x); [exact Hneed| |exact Hbal].
    intros c. apply Hother. left. congruence.
Qed.

Lemma rebalance_balanced (w : world) (x : annex) (n : nation_id)
  (cat : pop_type_commodity_float) :
  0 <= alice_need_drift_speed x <= 1 ->
  weights_balanced w x cat n ->
  weights_balanced w (rebalance_needs_weights w x n) cat n.
Proof.
  intros Hd Hbal. unfold rebalance_needs_weights. cbv zeta.
  assert (Hd1 : 0 <= alice_need_drift_speed
                       (rebalance_needs_weights_of w life_needs n x) <= 1).
  { destruct (rebalance_block w life_needs n x) as (_ & -> & _). exact Hd. }
  assert (Hd2 : 0 <= alice_need_drift_speed
                       (rebalance_needs_weights_of w everyday_needs n
                          (rebalance_needs_weights_of w life_needs n x))
                <= 1).
  { destruct (rebalance_block w everyday_needs n
                (rebalance_needs_weights_of w life_needs n x))
      as (_ & -> & _). exact Hd1. }
  apply rebalance_block_balanced; [exact Hd2|].
  apply rebalance_block_balanced; [exact Hd1|].
  apply rebalance_block_balanced; [exact Hd|exact Hbal].
Qed.

Lemma initialize_balanced (w : world) (x : annex) (n : nation_id)
  (cat : pop_type_commodity_float) :
  weights_balanced w (initialize_needs_weights w x n) cat n.
Proof.
  unfold initialize_needs_weights. cbv zeta.
  destruct cat.
  - apply initialize_block_balanced. right.
    apply initialize_block_balanced. right.
    apply initialize_block_balanced. now left.
  - apply initialize_block_balanced. right.
    apply initialize_block_balanced. now left.
  - apply initialize_block_balanced. now left.
Qed.

Lemma balanced_bound (w : world) (x : annex) (n : nation_id)
  (cat : pop_type_commodity_float) (c : commodity_id) :
  weights_balanced w x cat n -> In c (weighted_needs w x cat n) ->
  0 <= nation_needs_weights x cat n c
    <= INR (length (weighted_needs w x cat n)).
Proof.
  intros [Hsum Hpos] Hc. split; [now apply Hpos|].
  rewrite <- Hsum. now apply accumulate_member_le.
Qed.

(** X15. [rebalance_needs_weights] keeps the weights of every category
    balanced when the drift speed is in [0, 1]: if the weights of the goods
    that the nation weighs were not negative and added up to the number of
    those goods, they still do afterwards, so that every weight is at most
    that number (the assertion of the source), and the goods to weigh are
    the same. *)
Theorem rebalance_keeps_weights_balanced (w : world) (x : annex)
  (n : nation_id) (cat : pop_type_commodity_float) :
  0 <= alice_need_drift_speed x <= 1 ->
  weights_balanced w x cat n ->
  let x' := rebalance_needs_weights w x n in
  weights_balanced w x' cat n
  /\ weighted_needs w x' cat n = weighted_needs w x cat n
  /\ forall c, In c (weighted_needs w x cat n) ->
       0 <= nation_needs_weights x' cat n c
         <= INR (length (weighted_needs w x cat n)).
Proof.
  intros Hd Hbal x'.
  pose proof (rebalance_balanced w x n cat Hd Hbal) as Hbal'. fold x' in Hbal'.
  assert (Hvalid : weighted_needs w x' cat n = weighted_needs w x cat n).
  { subst x'. unfold rebalance_needs_weights. cbv zeta.
    apply weighted_needs_ext.
    destruct (rebalance_block w luxury_needs n
                (rebalance_needs_weights_of w everyday_needs n
                   (rebalance_needs_weights_of w life_needs n x)))
      as (-> & _).
    destruct (rebalance_block w everyday_needs n
                (rebalance_needs_weights_of w life_needs n x)) as (-> & _).
    destruct (rebalance_block w life_needs n x) as (-> & _). reflexivity. }
  split; [exact Hbal'|]. split; [exact Hvalid|].
  intros c Hc. rewrite <- Hvalid in *. now apply balanced_bound.
Qed.

Lemma rebalance_keeps_weights_balanced_witness :
  weights_balanced (blank_world (open_env 3 0 0))
    (rebalance_needs_weights (blank_world (open_env 3 0 0)) example_annex 0%nat)
    life_needs 0%nat.
Proof.
  apply (rebalance_keeps_weights_balanced (blank_world (open_env 3 0 0))
           example_annex 0%nat life_needs).
  - simpl. lra.
  - unfold weights_balanced, accumulate. simpl. split; [lra|].
    intros c _. lra.
Defined.

(** X16. [initialize_needs_weights] leaves the weights of every category
    balanced, whatever they were, and they stay balanced when
    [rebalance_needs_weights] then runs at any prices, as long as the same
    goods are available and the drift speed is in [0, 1]. *)
Theorem initialized_weights_stay_balanced (w w' : world) (x : annex)
  (n : nation_id) (cat : pop_type_commodity_float) :
  env w' = env w ->
  0 <= alice_need_drift_speed x <= 1 ->
  let x0 := initialize_needs_weights w x n in
  weights_balanced w x0 cat n
  /\ weights_balanced w' (rebalance_needs_weights w' x0 n) cat n.
Proof.
  intros Henv Hd x0.
  assert (Hbal : weights_balanced w x0 cat n)
    by apply initialize_balanced.
  split; [exact Hbal|].
  assert (Hd0 : 0 <= alice_need_drift_speed x0 <= 1).
  { subst x0. unfold initialize_needs_weights. cbv zeta.
    destruct (initialize_block w luxury_needs n
                (initialize_needs_weights_of w everyday_needs n
                   (initialize_needs_weights_of w life_needs n x)))
      as (_ & -> & _).
    destruct (initialize_block w everyday_needs n
                (initialize_needs_weights_of w life_needs n x))
      as (_ & -> & _).
    destruct (initialize_block w life_needs n x) as (_ & -> & _). exact Hd. }
  apply rebalance_balanced; [exact Hd0|].
  unfold weights_balanced, weighted_needs, weighted_need, all_commodities
    in *.
  rewrite Henv. exact Hbal.
Qed.

Lemma initialized_weights_stay_balanced_witness :
  weights_balanced
    (commodity_set current_price 1%nat 4 (blank_world (open_env 3 0 0)))
    (rebalance_needs_weights
       (commodity_set current_price 1%nat 4 (blank_world (open_env 3 0 0)))
       (initialize_needs_weights (blank_world (open_env 3 0 0)) example_annex
          0%nat) 0%nat)
    luxury_needs 0%nat.
Proof.
  apply (initialized_weights_stay_balanced (blank_world (open_env 3 0 0))
           (commodity_set current_price 1%nat 4
              (blank_world (open_env 3 0 0)))
           example_annex 0%nat luxury_needs).
  - reflexivity.
  - simpl. lra.
Defined.

(** ** The limits of the budget *)

Lemma iclamp_bounds (v lo hi : Z) :
  (lo <= hi)%Z -> (lo <= iclamp v lo hi <= hi)%Z.
Proof.
  intros H. unfold iclamp.
  destruct (Z.ltb_spec v lo); [lia|]. destruct (Z.ltb_spec hi v); lia.
Qed.

Lemma iclamp_id (v lo hi : Z) : (lo <= v <= hi)%Z -> iclamp v lo hi = v.
Proof.
  intros H. unfold iclamp.
  destruct (Z.ltb_spec v lo); [lia|]. destruct (Z.ltb_spec hi v); lia.
Qed.

Lemma iclamp_cases (v lo hi : Z) :
  (v < lo /\ iclamp v lo hi = lo)%Z
  \/ (lo <= v /\ hi < v /\ iclamp v lo hi = hi)%Z
  \/ (lo <= v <= hi /\ iclamp v lo hi = v)%Z.
Proof.
  unfold iclamp.
  destruct (Z.ltb_spec v lo); [lia|]. destruct (Z.ltb_spec hi v); lia.
Qed.

Lemma to_int8_id (v : Z) : (-128 <= v <= 127)%Z -> to_int8 v = v.
Proof. intros H. unfold to_int8. rewrite Z.mod_small; lia. Qed.

(** The value that a block stores: a double clamp, which fits a byte. *)
Lemma bounded_setting (v lo hi a : Z) :
  (-100 <= a <= 0)%Z ->
  to_int8 (iclamp (iclamp v lo hi) a 100)
  = iclamp (iclamp v lo hi) a 100
  /\ (a <= iclamp (iclamp v lo hi) a 100 <= 100)%Z.
Proof.
  intros Ha.
  pose proof (iclamp_bounds (iclamp v lo hi) a 100 ltac:(lia)) as H.
  split; [apply to_int8_id; lia|exact H].
Qed.

(** Clamping twice into the same two ranges changes nothing more. *)
Lemma bounded_setting_again (v lo hi a b : Z) :
  (lo <= hi)%Z -> (a <= b)%Z ->
  iclamp (iclamp (iclamp (iclamp v lo hi) a b) lo hi) a b
  = iclamp (iclamp v lo hi) a b.
Proof.
  intros H1 H2.
  pose proof (iclamp_cases v lo hi) as C1.
  set (c1 := iclamp v lo hi) in *.
  pose proof (iclamp_cases c1 a b) as C2.
  set (c2 := iclamp c1 a b) in *.
  pose proof (iclamp_cases c2 lo hi) as C3.
  set (c3 := iclamp c2 lo hi) in *.
  pose proof (iclamp_cases c3 a b) as C4.
  lia.
Qed.

Lemma spending_limits_ordered (x : annex) (n : nation_id)
  (min_mod max_mod : budget_modifier) :
  (fst (spending_limits x n min_mod max_mod)
   <= snd (spending_limits x n min_mod max_mod))%Z.
Proof. unfold spending_limits. cbv zeta. cbn [fst snd]. apply Z.le_max_l. Qed.

Lemma nation_iset_same (fld : nation_int) (n : nation_id) (v : Z)
  (w : world) :
  nation_i (env (nation_iset fld n v w)) fld n = v.
Proof.
  unfold nation_iset. cbn [env nation_i].
  replace (nation_int_beq fld fld) with true
    by (symmetry; apply internal_nation_int_dec_lb; reflexivity).
  apply upd_same.
Qed.

Lemma nation_iset_other (fld g : nation_int) (n j : nation_id) (v : Z)
  (w : world) :
  g <> fld \/ j <> n ->
  nation_i (env (nation_iset fld n v w)) g j = nation_i (env w) g j.
Proof.
  intros H. unfold nation_iset. cbn [env nation_i].
  destruct (nation_int_beq g fld) eqn:E; [|reflexivity].
  apply internal_nation_int_dec_bl in E.
  apply upd_other. destruct H; [contradiction|assumption].
Qed.

Lemma tax_set_same (fld : tax_setting) (n : nation_id) (v : Z) (x : annex) :
  nation_tax (tax_set fld n v x) fld n = v.
Proof.
  unfold tax_set. cbn [nation_tax].
  replace (tax_setting_beq fld fld) with true
    by (symmetry; apply internal_tax_setting_dec_lb; reflexivity).
  apply upd_same.
Qed.

Lemma tax_set_other (fld g : tax_setting) (n j : nation_id) (v : Z)
  (x : annex) :
  g <> fld \/ j <> n ->
  nation_tax (tax_set fld n v x) g j = nation_tax x g j.
Proof.
  intros H. unfold tax_set. cbn [nation_tax].
  destruct (tax_setting_beq g fld) eqn:E; [|reflexivity].
  apply internal_tax_setting_dec_bl in E.
  apply upd_other. destruct H; [contradiction|assumption].
Qed.

(** One spending block, cell by cell. *)
Lemma bound_spending_cells (x : annex) (n : nation_id)
  (min_mod max_mod : budget_modifier) (fld : nation_int) (w : world) :
  let w' := bound_spending x n min_mod max_mod fld w in
  let lo := fst (spending_limits x n min_mod max_mod) in
  let hi := snd (spending_limits x n min_mod max_mod) in
  nation_i (env w') fld n
  = iclamp (iclamp (nation_i (env w) fld n) lo hi) 0 100
  /\ forall g j, g <> fld \/ j <> n ->
       nation_i (env w') g j = nation_i (env w) g j.
Proof.
  cbn zeta. unfold bound_spending.
  destruct (spending_limits x n min_mod max_mod) as [lo hi]. cbn [fst snd].
  split.
  - rewrite nation_iset_same. apply bounded_setting. lia.
  - intros g j H. now apply nation_iset_other.
Qed.

Lemma bound_tax_cells (n : nation_id) (lo hi : Z) (fld : tax_setting)
  (x : annex) :
  let x' := bound_tax n lo hi fld x in
  nation_budget_modifier x' = nation_budget_modifier x
  /\ nation_tax x' fld n = iclamp (iclamp (nation_tax x fld n) lo hi) 0 100
  /\ forall g j, g <> fld \/ j <> n -> nation_tax x' g j = nation_tax x g j.
Proof.
  cbn zeta. unfold bound_tax. split; [reflexivity|]. split.
  - rewrite tax_set_same. apply bounded_setting. lia.
  - intros g j H. now apply tax_set_other.
Qed.

(** The whole function, cell by cell. *)
Lemma bound_budget_settings_cells (w : world) (x : annex) (n : nation_id) :
  let w' := fst (bound_budget_settings w x n) in
  let x' := snd (bound_budget_settings w x n) in
  let limits := spending_limits x n in
  let bounded v lim := iclamp (iclamp v (fst lim) (snd lim)) 0 100 in
  nation_budget_modifier x' = nation_budget_modifier x
  /\ nation_i (env w') tariffs n
     = iclamp
         (iclamp (nation_i (env w) tariffs n)
            (to_int32 (100 * nation_budget_modifier x min_tariff n))
            (Z.max (to_int32 (100 * nation_budget_modifier x min_tariff n))
               (to_int32 (100 * nation_budget_modifier x max_tariff n))))
         (-100) 100
  /\ (forall t, nation_tax x' t n
                = bounded (nation_tax x t n) (limits min_tax max_tax))
  /\ nation_i (env w') military_spending n
     = bounded (nation_i (env w) military_spending n)
         (limits min_military_spending max_military_spending)
  /\ nation_i (env w') social_spending n
     = bounded (nation_i (env w) social_spending n)
         (limits min_social_spending max_social_spending)
  /\ nation_i (env w') domestic_investment_spending n
     = bounded (nation_i (env w) domestic_investment_spending n)
         (limits min_domestic_investment max_domestic_investment)
  /\ (forall g j,
        j <> n
        \/ (g <> tariffs /\ g <> military_spending /\ g <> social_spending
            /\ g <> domestic_investment_spending) ->
        nation_i (env w') g j = nation_i (env w) g j)
  /\ (forall t j, j <> n -> nation_tax x' t j = nation_tax x t j).
Proof.
  cbn zeta. unfold bound_budget_settings. cbn zeta.
  set (lo_t := to_int32 (100 * nation_budget_modifier x min_tariff n)).
  set (hi_t := Z.max lo_t
                 (to_int32 (100 * nation_budget_modifier x max_tariff n))).
  set (w1 := nation_iset tariffs n _ w).
  pose proof (spending_limits_ordered x n min_tax max_tax) as Hord.
  destruct (spending_limits x n min_tax max_tax) as [lo hi] eqn:Etax.
  cbn [fst snd] in *.
  set (x1 := bound_tax n lo hi poor_tax x).
  set (x2 := bound_tax n lo hi middle_tax x1).
  set (x3 := bound_tax n lo hi rich_tax x2).
  destruct (bound_tax_cells n lo hi poor_tax x) as (Hm1 & Hp1 & Ho1).
  destruct (bound_tax_cells n lo hi middle_tax x1) as (Hm2 & Hp2 & Ho2).
  destruct (bound_tax_cells n lo hi rich_tax x2) as (Hm3 & Hp3 & Ho3).
  fold x1 in Hm1, Hp1, Ho1. fold x2 in Hm2, Hp2, Ho2.
  fold x3 in Hm3, Hp3, Ho3.
  assert (Hmod : nation_budget_modifier x3 = nation_budget_modifier x)
    by (now rewrite Hm3, Hm2, Hm1).
  assert (Hlim : forall a b, spending_limits x3 n a b = spending_limits x n a b)
    by (intros a b; unfold spending_limits; now rewrite Hmod).
  set (w2 := bound_spending x3 n min_military_spending max_military_spending
               military_spending w1).
  set (w3 := bound_spending x3 n min_social_spending max_social_spending
               social_spending w2).
  set (w4 := bound_spending x3 n min_military_spending max_military_spending
               military_spending w3).
  set (w5 := bound_spending x3 n min_domestic_investment
               max_domestic_investment domestic_investment_spending w4).
  destruct (bound_spending_cells x3 n min_military_spending
              max_military_spending military_spending w1) as (Hv2 & Hf2).
  destruct (bound_spending_cells x3 n min_social_spending
              max_social_spending social_spending w2) as (Hv3 & Hf3).
  destruct (bound_spending_cells x3 n min_military_spending
              max_military_spending military_spending w3) as (Hv4 & Hf4).
  destruct (bound_spending_cells x3 n min_domestic_investment
              max_domestic_investment domestic_investment_spending w4)
    as (Hv5 & Hf5).
  fold w2 in Hv2, Hf2. fold w3 in Hv3, Hf3. fold w4 in Hv4, Hf4.
  fold w5 in Hv5, Hf5. rewrite !Hlim in *.
  cbn [fst snd].
  assert (Hw1 : forall g j, g <> tariffs \/ j <> n ->
            nation_i (env w1) g j = nation_i (env w) g j)
    by (intros g j H; subst w1; now apply nation_iset_other).
  split; [exact Hmod|]. split.
  { rewrite Hf5, Hf4, Hf3, Hf2 by (left; discriminate).
    subst w1. rewrite nation_iset_same. apply bounded_setting. lia. }
  split.
  { intros t. destruct t.
    - rewrite Ho3, Ho2 by (left; discriminate). exact Hp1.
    - rewrite Ho3 by (left; discriminate). rewrite Hp2.
      now rewrite Ho1 by (left; discriminate).
    - rewrite Hp3. rewrite Ho2, Ho1 by (left; discriminate). reflexivity. }
  split.
  { rewrite Hf5 by (left; discriminate). rewrite Hv4.
    rewrite Hf3 by (left; discriminate). rewrite Hv2.
    rewrite Hw1 by (left; discriminate).
    apply bounded_setting_again;
      [apply spending_limits_ordered|lia]. }
  split.
  { rewrite Hf5, Hf4 by (left; discriminate). rewrite Hv3.
    rewrite Hf2, Hw1 by (left; discriminate). reflexivity. }
  split.
  { rewrite Hv5. rewrite Hf4, Hf3, Hf2, Hw1 by (left; discriminate).
    reflexivity. }
  split.
  { intros g j H.
    assert (Hgj : forall fld,
              fld = tariffs \/ fld = military_spending
              \/ fld = social_spending
              \/ fld = domestic_investment_spending ->
              g <> fld \/ j <> n).
    { intros fld Hfld. destruct H as [H|(H1 & H2 & H3 & H4)];
        [now right|left].
      destruct Hfld as [->|[->|[->| ->]]]; assumption. }
    rewrite Hf5, Hf4, Hf3, Hf2, Hw1; try reflexivity; apply Hgj; tauto. }
  intros t j H. rewrite Ho3, Ho2, Ho1; try reflexivity; now right.
Qed.

(** X17. After [bound_budget_settings] the tariff setting of the nation is
    within [-100, 100], and its three tax settings and its military, social
    and domestic investment spending settings are within [0, 100], whatever
    the settings and the modifiers were. *)
Theorem bound_budget_settings_ranges (w : world) (x : annex) (n : nation_id) :
  let w' := fst (bound_budget_settings w x n) in
  let x' := snd (bound_budget_settings w x n) in
  (-100 <= nation_i (env w') tariffs n <= 100)%Z
  /\ (forall t, 0 <= nation_tax x' t n <= 100)%Z
  /\ (0 <= nation_i (env w') military_spending n <= 100)%Z
  /\ (0 <= nation_i (env w') social_spending n <= 100)%Z
  /\ (0 <= nation_i (env w') domestic_investment_spending n <= 100)%Z.
Proof.
  cbn zeta.
  destruct (bound_budget_settings_cells w x n)
    as (_ & Ht & Htax & Hm & Hs & Hd & _).
  cbn zeta in *.
  split; [rewrite Ht; apply iclamp_bounds; lia|].
  split; [intros t; rewrite Htax; apply iclamp_bounds; lia|].
  split; [rewrite Hm; apply iclamp_bounds; lia|].
  split; [rewrite Hs; apply iclamp_bounds; lia|].
  rewrite Hd; apply iclamp_bounds; lia.
Qed.

(** X18. [bound_budget_settings] is idempotent: running it again on its
    own result changes no budget setting and no tax setting of any
    nation. *)
Theorem bound_budget_settings_idempotent (w : world) (x : annex)
  (n : nation_id) :
  let w1 := fst (bound_budget_settings w x n) in
  let x1 := snd (bound_budget_settings w x n) in
  let w2 := fst (bound_budget_settings w1 x1 n) in
  let x2 := snd (bound_budget_settings w1 x1 n) in
  (forall g j, nation_i (env w2) g j = nation_i (env w1) g j)
  /\ (forall t j, nation_tax x2 t j = nation_tax x1 t j).
Proof.
  cbn zeta.
  destruct (bound_budget_settings_cells w x n)
    as (Hmod & Ht & Htax & Hm & Hs & Hd & _ & _).
  set (w1 := fst (bound_budget_settings w x n)) in *.
  set (x1 := snd (bound_budget_settings w x n)) in *.
  destruct (bound_budget_settings_cells w1 x1 n)
    as (_ & Ht' & Htax' & Hm' & Hs' & Hd' & Hf' & Hg').
  set (w2 := fst (bound_budget_settings w1 x1 n)) in *.
  set (x2 := snd (bound_budget_settings w1 x1 n)) in *.
  cbn zeta in *.
  assert (Hlim : forall a b, spending_limits x1 n a b = spending_limits x n a b)
    by (intros a b; unfold spending_limits; now rewrite Hmod).
  rewrite !Hlim, ?Hmod in *.
  split.
  - intros g j. destruct (Nat.eq_dec j n) as [->|Hj];
      [|apply Hf'; now left].
    destruct g; try (apply Hf'; right; repeat split; discriminate).
    + rewrite Hs', Hs.
      apply bounded_setting_again; [apply spending_limits_ordered|lia].
    + rewrite Hm', Hm.
      apply bounded_setting_again; [apply spending_limits_ordered|lia].
    + rewrite Hd', Hd.
      apply bounded_setting_again; [apply spending_limits_ordered|lia].
    + rewrite Ht', Ht. apply bounded_setting_again; lia.
  - intros t j. destruct (Nat.eq_dec j n) as [->|Hj]; [|now apply Hg'].
    rewrite Htax', Htax.
    apply bounded_setting_again; [apply spending_limits_ordered|lia].
Qed.

(** X19. [bound_budget_settings] changes no setting of another nation and,
    for the nation itself, none of the land, naval, construction, overseas,
    administrative and education spending settings: those are not
    bounded. *)
Theorem bound_budget_settings_frame (w : world) (x : annex) (n : nation_id) :
  let w' := fst (bound_budget_settings w x n) in
  let x' := snd (bound_budget_settings w x n) in
  (forall g j, j <> n -> nation_i (env w') g j = nation_i (env w) g j)
  /\ (forall t j, j <> n -> nation_tax x' t j = nation_tax x t j)
  /\ (forall j,
        nation_i (env w') land_spending j = nation_i (env w) land_spending j
        /\ nation_i (env w') naval_spending j
           = nation_i (env w) naval_spending j
        /\ nation_i (env w') construction_spending j
           = nation_i (env w) construction_spending j
        /\ nation_i (env w') overseas_spending j
           = nation_i (env w) overseas_spending j
        /\ nation_i (env w') administrative_spending j
           = nation_i (env w) administrative_spending j
        /\ nation_i (env w') education_spending j
           = nation_i (env w) education_spending j).
Proof.
  cbn zeta.
  destruct (bound_budget_settings_cells w x n)
    as (_ & _ & _ & _ & _ & _ & Hf & Hg).
  cbn zeta in *.
  split; [intros g j Hj; apply Hf; now left|].
  split; [exact Hg|].
  intros j.
  repeat split; apply Hf; right; repeat split; discriminate.
Qed.

(** ** The priority of a factory, the price records and the build times *)

(** X20. The priority of a factory is always one of 0, 1, 2, 3, and
    [set_factory_priority] followed by [factory_priority] gives back every
    priority from 0 to 3; the priority of another factory is not
    changed. *)
Theorem factory_priority_round_trip (x : annex) (f : factory_id)
  (priority : Z) :
  (0 <= priority <= 3)%Z ->
  factory_priority (set_factory_priority x f priority) f = priority
  /\ (0 <= factory_priority x f <= 3)%Z
  /\ forall g, g <> f ->
       factory_priority (set_factory_priority x f priority) g
       = factory_priority x g.
Proof.
  intros Hp. unfold factory_priority, set_factory_priority. cbv zeta.
  unfold factory_priority_low_set, factory_priority_high_set.
  cbn [factory_priority_low factory_priority_high].
  split; [|split].
  - rewrite !upd_same.
    assert (H : priority = 0%Z \/ priority = 1%Z \/ priority = 2%Z
                \/ priority = 3%Z) by lia.
    destruct H as [->|[->|[->| ->]]]; reflexivity.
  - destruct (factory_priority_low x f), (factory_priority_high x f); lia.
  - intros g Hg. now rewrite !upd_other by exact Hg.
Qed.

Lemma factory_priority_round_trip_witness :
  factory_priority (set_factory_priority example_annex 5%nat 2) 5%nat = 2%Z
  /\ (0 <= factory_priority example_annex 5%nat <= 3)%Z
  /\ forall g, g <> 5%nat ->
       factory_priority (set_factory_priority example_annex 5%nat 2) g
       = factory_priority example_annex g.
Proof. apply (factory_priority_round_trip example_annex 5%nat 2). lia. Defined.

(** X21. On a day that is not negative and with a positive history
    length, both price record indices are valid positions of the history,
    the previous index is the one just before the most recent index
    (cyclically), and sixteen days later the previous index is the index
    that is the most recent one now. *)
Theorem price_record_indices (w w' : world) (price_history_length : Z) :
  (0 <= current_date (env w))%Z ->
  (0 < price_history_length)%Z ->
  current_date (env w') = (current_date (env w) + 16)%Z ->
  (0 <= most_recent_price_record_index w price_history_length
      < price_history_length)%Z
  /\ (0 <= previous_price_record_index w price_history_length
        < price_history_length)%Z
  /\ ((previous_price_record_index w price_history_length + 1)
      mod price_history_length
      = most_recent_price_record_index w price_history_length)%Z
  /\ previous_price_record_index w' price_history_length
     = most_recent_price_record_index w price_history_length
  /\ (most_recent_price_record_index w' price_history_length
      = (most_recent_price_record_index w price_history_length + 1)
        mod price_history_length)%Z.
Proof.
  intros Hd Hl Hnext.
  unfold most_recent_price_record_index, previous_price_record_index.
  rewrite Hnext, !Z.shiftr_div_pow2 by lia.
  change (2 ^ 4)%Z with 16%Z.
  replace ((current_date (env w) + 16) / 16)%Z
    with (current_date (env w) / 16 + 1)%Z
    by (rewrite <- (Z.div_add _ 1 16) by lia; f_equal; lia).
  set (k := (current_date (env w) / 16)%Z).
  split; [apply Z.mod_pos_bound; lia|].
  split; [apply Z.mod_pos_bound; lia|].
  split; [|split].
  - rewrite Zplus_mod_idemp_l.
    replace (k + price_history_length - 1 + 1)%Z
      with (k + 1 * price_history_length)%Z by lia.
    now rewrite Z.mod_add by lia.
  - replace (k + 1 + price_history_length - 1)%Z
      with (k + 1 * price_history_length)%Z by lia.
    now rewrite Z.mod_add by lia.
  - now rewrite Zplus_mod_idemp_l.
Qed.

Lemma price_record_indices_witness :
  previous_price_record_index (blank_world (open_env 2 4016 0)) 256
  = most_recent_price_record_index (blank_world (open_env 2 4000 0)) 256.
Proof.
  apply (price_record_indices (blank_world (open_env 2 4000 0))
           (blank_world (open_env 2 4016 0)) 256); simpl; lia.
Defined.

Lemma build_time_constants :
  shift_non_factory = 7.5 /\ slope_non_factory = 11.25
  /\ shift_factory = 15 /\ slope_factory = 2.25.
Proof.
  unfold slope_non_factory, shift_non_factory, diff_non_factory,
    slope_factory, shift_factory, diff_factory,
    day_1_build_time_modifier_non_factory,
    day_inf_build_time_modifier_non_factory, day_1_derivative_non_factory,
    day_1_build_time_modifier_factory, day_inf_build_time_modifier_factory,
    day_1_derivative_factory.
  repeat split; lra.
Qed.

(** A term [slope / (t + shift)] falls when [t] grows. *)
Lemma build_time_term (slope shift t u : R) :
  0 < slope -> 0 < shift -> 0 <= t -> t <= u ->
  0 < slope / (u + shift) <= slope / (t + shift)
  /\ (0 < t -> slope / (t + shift) < slope / shift).
Proof.
  intros Hs Hsh Ht Htu.
  assert (H1 : 0 < / (u + shift)) by (apply Rinv_0_lt_compat; lra).
  assert (H2 : / (u + shift) <= / (t + shift))
    by (apply Rinv_le_contravar; lra).
  unfold Rdiv. split; [split|].
  - now apply Rmult_lt_0_compat.
  - apply Rmult_le_compat_l; lra.
  - intros Ht'. apply Rmult_lt_compat_l; [exact Hs|].
    apply Rinv_lt_contravar; [apply Rmult_lt_0_compat|]; lra.
Qed.

Lemma build_time_clock (d d' : Z) :
  (0 <= d <= d')%Z ->
  0 < sqrt (IZR d * 0.01 + 2) <= sqrt (IZR d' * 0.01 + 2).
Proof.
  intros [H0 H1]. apply IZR_le in H0, H1. split.
  - apply sqrt_lt_R0. lra.
  - apply sqrt_le_1_alt. lra.
Qed.

(** X22. From day 0 on, the build time modifier of the constructions
    other than factories lies strictly between its limit value 0.5 and
    its nominal first-day value 2, the one of the factories strictly
    between 0.75 and 0.9, and neither rises from one day to a later one. *)
Theorem construction_time_modifiers_fall (w w' : world) :
  (0 <= current_date (env w) <= current_date (env w'))%Z ->
  day_inf_build_time_modifier_non_factory
    < global_non_factory_construction_time_modifier w'
    <= global_non_factory_construction_time_modifier w
  /\ global_non_factory_construction_time_modifier w
     < day_1_build_time_modifier_non_factory
  /\ day_inf_build_time_modifier_factory
       < global_factory_construction_time_modifier w'
       <= global_factory_construction_time_modifier w
  /\ global_factory_construction_time_modifier w
     < day_1_build_time_modifier_factory.
Proof.
  intros Hd.
  destruct (build_time_clock _ _ Hd) as [Ht Htu].
  destruct build_time_constants as (E1 & E2 & E3 & E4).
  unfold global_non_factory_construction_time_modifier,
    global_factory_construction_time_modifier. cbv zeta.
  rewrite E1, E2, E3, E4.
  set (t := sqrt (IZR (current_date (env w)) * 0.01 + 2)) in *.
  set (u := sqrt (IZR (current_date (env w')) * 0.01 + 2)) in *.
  destruct (build_time_term 11.25 7.5 t u) as [[A1 A2] A3]; try lra.
  destruct (build_time_term 2.25 15 t u) as [[B1 B2] B3]; try lra.
  specialize (A3 Ht). specialize (B3 Ht).
  unfold day_inf_build_time_modifier_non_factory,
    day_1_build_time_modifier_non_factory,
    day_inf_build_time_modifier_factory, day_1_build_time_modifier_factory.
  replace (11.25 / 7.5) with 1.5 in A3 by lra.
  replace (2.25 / 15) with 0.15 in B3 by lra.
  repeat split; lra.
Qed.

Lemma construction_time_modifiers_fall_witness :
  global_factory_construction_time_modifier (blank_world (open_env 2 365 0))
  <= global_factory_construction_time_modifier (blank_world (open_env 2 0 0)).
Proof.
  apply (construction_time_modifiers_fall (blank_world (open_env 2 0 0))
           (blank_world (open_env 2 365 0))).
  simpl. lia.
Defined.

(** ** The profit of the factories of a state *)

Lemma div_mul (a b : R) : b <> 0 -> a / b * b = a.
Proof. intros H. field. exact H. Qed.

Lemma div_nonneg (a b : R) : 0 <= a -> 0 < b -> 0 <= a / b.
Proof.
  intros Ha Hb. unfold Rdiv. apply Rmult_le_pos; [exact Ha|].
  left. now apply Rinv_0_lt_compat.
Qed.

(** X23. [distribute_factory_profit] hands out no more than the profit:
    with a non-negative minimum wage and profit, no more employed workers
    than workers and no negative number of owners, the three payments per
    head are not negative and, multiplied by the heads, add up to at most
    the total profit, and to exactly the total profit when the state has
    both primary and secondary workers.  When the profit covers the
    minimum wages of the employed, each kind of worker receives at least
    its minimum wages in total. *)
Theorem factory_profit_is_not_exceeded (w : world) (x : annex)
  (s : state_instance_id) (min_wage total_profit : R) :
  let employed_p := state_employment x s (primary_factory_worker x) in
  let employed_s := state_employment x s (secondary_factory_worker x) in
  let num_p := state_demographics (env w) s (primary_factory_worker x) in
  let num_s := state_demographics (env w) s (secondary_factory_worker x) in
  let num_o := state_demographics (env w) s (capitalists (culture (env w))) in
  0 <= min_wage -> 0 <= total_profit ->
  0 <= employed_p <= num_p -> 0 <= employed_s <= num_s -> 0 <= num_o ->
  let d := distribute_factory_profit w x s min_wage total_profit in
  let paid :=
    per_primary_worker d * num_p + per_secondary_worker d * num_s
    + per_owner d * num_o in
  0 <= per_primary_worker d /\ 0 <= per_secondary_worker d
  /\ 0 <= per_owner d
  /\ paid <= total_profit
  /\ (0 < num_p -> 0 < num_s -> paid = total_profit)
  /\ (min_wage * employed_p + min_wage * employed_s <= total_profit ->
      min_wage * employed_p <= per_primary_worker d * num_p
      /\ min_wage * employed_s <= per_secondary_worker d * num_s).
Proof.
  cbv zeta. unfold distribute_factory_profit. cbv zeta.
  generalize (state_employment x s (primary_factory_worker x)).
  generalize (state_employment x s (secondary_factory_worker x)).
  generalize (state_demographics (env w) s (primary_factory_worker x)).
  generalize (state_demographics (env w) s (secondary_factory_worker x)).
  generalize (state_demographics (env w) s (capitalists (culture (env w)))).
  intros num_o num_s num_p employed_s employed_p Hw Hprofit Hp Hs Ho.
  assert (Hminp : 0 <= min_wage * employed_p)
    by (apply Rmult_le_pos; lra).
  assert (Hmins : 0 <= min_wage * employed_s)
    by (apply Rmult_le_pos; lra).
  set (min_p := min_wage * employed_p) in *.
  set (min_s := min_wage * employed_s) in *.
  destruct (Rle_dec (min_p + min_s) total_profit) as [Hcov|Hcov].
  - (* the minimum wages are covered *)
    assert (Hzero_p : ~ num_p > 0 -> min_p = 0).
    { intros H. subst min_p. replace employed_p with 0 by lra. lra. }
    assert (Hzero_s : ~ num_s > 0 -> min_s = 0).
    { intros H. subst min_s. replace employed_s with 0 by lra. lra. }
    destruct (Rgt_dec num_o 0) as [Hown|Hown];
      [|destruct (Rgt_dec num_s 0) as [Hsec|Hsec]];
      cbn [per_primary_worker per_secondary_worker per_owner];
      destruct (Rgt_dec num_p 0) as [Hpri|Hpri];
      try destruct (Rgt_dec num_s 0) as [Hsec'|Hsec'];
      try (specialize (Hzero_p Hpri)); try (specialize (Hzero_s Hsec'));
      try (specialize (Hzero_s Hsec));
      rewrite ?div_mul by lra; rewrite ?Rmult_0_l;
      repeat match goal with
             | |- _ /\ _ => split
             | |- 0 <= _ / _ => apply div_nonneg
             | |- _ -> _ => intro
             end; lra.
  - (* they are not: the profit is shared by the head *)
    cbn [per_primary_worker per_secondary_worker per_owner].
    destruct (Rgt_dec (num_p + num_s) 0) as [Hany|Hany];
      cbn [per_primary_worker per_secondary_worker per_owner].
    + assert (E : total_profit / (num_p + num_s) * num_p
                  + total_profit / (num_p + num_s) * num_s + 0 * num_o
                  = total_profit) by (field; lra).
      rewrite E.
      repeat match goal with
             | |- _ /\ _ => split
             | |- 0 <= _ / _ => apply div_nonneg
             | |- _ -> _ => intro
             end; lra.
    + exfalso. apply Hcov. subst min_p min_s.
      replace employed_p with 0 by lra. replace employed_s with 0 by lra.
      lra.
Qed.

Lemma factory_profit_is_not_exceeded_witness :
  let d :=
    distribute_factory_profit (blank_world (open_env 2 0 10)) example_annex
      0%nat 1 30 in
  per_primary_worker d * 10 + per_secondary_worker d * 10 + per_owner d * 10
  = 30.
Proof.
  cbv zeta.
  apply (factory_profit_is_not_exceeded (blank_world (open_env 2 0 10))
           example_annex 0%nat 1 30); simpl; lra.
Defined.

(** ** Land ownership *)

(** What the body of the loop writes depends on the environment only, and
    it writes the two shares of its province only. *)
Lemma land_ownership_step (x : annex) (w : world) (p : province_id) :
  let w' := update_province_land_ownership x w p in
  env w' = env w
  /\ (forall fld q,
        q <> p \/ (fld <> landowners_share /\ fld <> capitalists_share) ->
        province_f w' fld q = province_f w fld q)
  /\ (forall v, env v = env w ->
        province_f (update_province_land_ownership x v p) landowners_share p
        = province_f w' landowners_share p
        /\ province_f (update_province_land_ownership x v p)
             capitalists_share p
           = province_f w' capitalists_share p).
Proof.
  cbn zeta. unfold update_province_land_ownership. cbv zeta.
  split; [reflexivity|]. split.
  - intros fld q H. unfold province_set. cbn [province_f].
    destruct H as [H|[H1 H2]].
    + destruct (province_float_beq fld capitalists_share);
        destruct (province_float_beq fld landowners_share);
        rewrite ?upd_other by exact H; reflexivity.
    + destruct (province_float_beq fld capitalists_share) eqn:E1;
        [apply internal_province_float_dec_bl in E1; contradiction|].
      destruct (province_float_beq fld landowners_share) eqn:E2;
        [apply internal_province_float_dec_bl in E2; contradiction|].
      reflexivity.
  - intros v Hv. unfold province_set. cbn [province_f env].
    cbn [province_float_beq]. rewrite !upd_same, Hv. split; reflexivity.
Qed.

Lemma land_ownership_fold (x : annex) (l : list province_id) :
  NoDup l ->
  forall w,
  let w' := fold_left (update_province_land_ownership x) l w in
  env w' = env w
  /\ (forall fld q,
        ~ In q l \/ (fld <> landowners_share /\ fld <> capitalists_share) ->
        province_f w' fld q = province_f w fld q)
  /\ (forall p, In p l ->
        province_f w' landowners_share p
        = province_f (update_province_land_ownership x w p)
            landowners_share p
        /\ province_f w' capitalists_share p
           = province_f (update_province_land_ownership x w p)
               capitalists_share p).
Proof.
  intros Hnd. induction Hnd as [|a l Ha Hnd IH]; intros w; cbn zeta.
  - simpl. repeat split; intros; try reflexivity; contradiction.
  - cbn [fold_left].
    destruct (land_ownership_step x w a) as (Henv & Hother & Hsame).
    destruct (IH (update_province_land_ownership x w a))
      as (Henv' & Hother' & Hcells').
    split; [now rewrite Henv'|]. split.
    + intros fld q H. rewrite Hother'.
      * apply Hother. destruct H as [H|H]; [left|now right].
        intros ->. apply H. now left.
      * destruct H as [H|H]; [left|now right].
        intros Hq. apply H. now right.
    + intros p [<-|Hp].
      * rewrite !Hother' by (now left). split; reflexivity.
      * destruct (Hcells' p Hp) as [-> ->].
        destruct (land_ownership_step x w p) as (_ & _ & Hp').
        apply Hp'. exact Henv.
Qed.

(** X24. After [update_land_ownership], in every province of the loop
    whose state has no negative pop numbers, the share of the landowners
    and the share of the capitalists are not negative and together stay
    below [1], so that [subsistence_size] is not negative when the RGO
    size is not; no other table of the provinces is changed. *)
Theorem land_shares_leave_room (w : world) (x : annex) (p : province_id) :
  (p < all_province_size x)%nat ->
  (forall pt,
      0 <= state_demographics (env w) (province_state_membership x p) pt) ->
  let w' := update_land_ownership w x in
  0 <= province_f w' landowners_share p
  /\ 0 <= province_f w' capitalists_share p
  /\ province_f w' landowners_share p + province_f w' capitalists_share p < 1
  /\ (0 <= province_f w rgo_size p -> 0 <= subsistence_size w' p)
  /\ (forall fld q,
        fld <> landowners_share -> fld <> capitalists_share ->
        province_f w' fld q = province_f w fld q).
Proof.
  intros Hp Hpop w'.
  destruct (land_ownership_fold x (seq 0 (all_province_size x))
              (seq_NoDup _ _) w) as (Henv & Hother & Hcells).
  fold (update_land_ownership w x) in Henv, Hother, Hcells.
  fold w' in Henv, Hother, Hcells.
  assert (Hin : In p (seq 0 (all_province_size x)))
    by (apply in_seq; lia).
  destruct (Hcells p Hin) as [Hl Hc].
  unfold update_province_land_ownership in Hl, Hc. cbv zeta in Hl, Hc.
  unfold province_set in Hl, Hc. cbn [province_f env] in Hl, Hc.
  cbn [province_float_beq] in Hl, Hc. rewrite !upd_same in Hl, Hc.
  set (e := env w) in *.
  set (st := province_state_membership x p) in *.
  pose proof (Hpop (aristocrat (culture e))) as H1.
  pose proof (Hpop (slaves (culture e))) as H2.
  pose proof (Hpop (capitalists (culture e))) as H3.
  pose proof (Hpop (farmers x)) as H4.
  pose proof (Hpop (laborers (culture e))) as H5.
  set (wa := state_demographics e st (aristocrat (culture e)) * 200
             + state_demographics e st (slaves (culture e))) in *.
  set (wc := state_demographics e st (capitalists (culture e)) * 200) in *.
  set (wp := state_demographics e st (farmers x)
             + state_demographics e st (laborers (culture e))) in *.
  assert (Hwa : 0 <= wa) by (subst wa; lra).
  assert (Hwc : 0 <= wc) by (subst wc; lra).
  assert (Hwp : 0 <= wp) by (subst wp; lra).
  assert (Htotal : 0 < wa + wc + wp + 1) by lra.
  assert (Hsum : wa / (wa + wc + wp + 1) + wc / (wa + wc + wp + 1) < 1).
  { apply Rmult_lt_reg_r with (wa + wc + wp + 1); [exact Htotal|].
    rewrite Rmult_plus_distr_r, !div_mul by lra. lra. }
  assert (Hla : 0 <= wa / (wa + wc + wp + 1)) by (apply div_nonneg; lra).
  assert (Hca : 0 <= wc / (wa + wc + wp + 1)) by (apply div_nonneg; lra).
  rewrite Hl, Hc.
  split; [exact Hla|]. split; [exact Hca|]. split; [exact Hsum|]. split.
  - intros Hsize. unfold subsistence_size. cbv zeta.
    rewrite Hl, Hc.
    rewrite (Hother rgo_size p) by (right; split; discriminate).
    apply Rmult_le_pos; [apply Rmult_le_pos|]; lra.
  - intros fld q H1' H2'. apply Hother. right. now split.
Qed.

Lemma land_shares_leave_room_witness :
  province_f
    (update_land_ownership (blank_world (open_env 2 0 10)) example_annex)
    landowners_share 0%nat
  + province_f
      (update_land_ownership (blank_world (open_env 2 0 10)) example_annex)
      capitalists_share 0%nat < 1.
Proof.
  apply (land_shares_leave_room (blank_world (open_env 2 0 10)) example_annex
           0%nat).
  - simpl. lia.
  - intros pt. simpl. lra.
Defined.

(** ** The production of the RGOs *)

Lemma rgo_effective_size_nonneg (w : world) (n : nation_id)
  (p : province_id) (c : commodity_id) : 0 <= rgo_effective_size w n p c.
Proof. unfold rgo_effective_size. cbv zeta. apply fmax_ge_r. Qed.

(** X25. The assertion of [rgo_full_production_quantity] holds: the
    efficiency of the RGO and the quantity are not negative when the base
    amount of the good, the efficiency bonus of the main RGO, the RGO
    boost and the employment per size are not negative and the employment
    of the good is between 0 and [rgo_max_employment]. *)
Theorem rgo_production_quantity_nonneg (w : world) (n : nation_id)
  (p : province_id) (c : commodity_id) :
  0 <= commodity_f w rgo_amount c ->
  0 <= alice_base_rgo_efficiency_bonus (defs (env w)) ->
  0 <= alice_rgo_boost (defs (env w)) ->
  0 <= alice_rgo_per_size_employment (defs (env w)) ->
  0 <= province_cf w rgo_employment_per_good p c
    <= rgo_max_employment w n p c ->
  0 <= rgo_efficiency w n p c
  /\ 0 <= rgo_full_production_quantity w n p c.
Proof.
  intros Hamount Hbonus Hboost Hsize Hemp.
  pose proof (rgo_effective_size_nonneg w n p c) as Heff.
  assert (Hmax : 0 <= rgo_max_employment w n p c).
  { unfold rgo_max_employment. now apply Rmult_le_pos. }
  assert (Heffic : 0 <= rgo_efficiency w n p c).
  { unfold rgo_efficiency. cbv zeta.
    set (emp := province_cf w rgo_employment_per_good p c) in *.
    set (cap := rgo_max_employment w n p c) in *.
    assert (Hsat : 0 <= emp / (cap + 1) < 1).
    { split; [apply div_nonneg; lra|].
      apply Rmult_lt_reg_r with (cap + 1); [lra|].
      rewrite div_mul by lra. lra. }
    repeat apply Rmult_le_pos; try exact Hamount; try exact Hboost.
    - destruct (Nat.eqb (province_rgo (env w) p) c); lra.
    - lra.
    - eapply Rle_trans; [|apply fmax_ge_l]. lra.
    - eapply Rle_trans; [|apply fmax_ge_l]. lra. }
  split; [exact Heffic|].
  unfold rgo_full_production_quantity. cbv zeta. now apply Rmult_le_pos.
Qed.

Lemma rgo_production_quantity_nonneg_witness :
  0 <= rgo_full_production_quantity
         (commodity_set rgo_amount 1%nat 3 (blank_world (plain_env 2)))
         0%nat 0%nat 1%nat.
Proof.
  apply (rgo_production_quantity_nonneg
           (commodity_set rgo_amount 1%nat 3 (blank_world (plain_env 2)))
           0%nat 0%nat 1%nat).
  - simpl. unfold upd. simpl. lra.
  - simpl. lra.
  - simpl. lra.
  - simpl. lra.
  - unfold rgo_max_employment, rgo_effective_size. simpl.
    unfold fmax. destruct (Rlt_dec _ _); lra.
Defined.

(** ** The production of a factory *)

Lemma can_take_loans_supply (w : world) (n j : nation_id) (c : commodity_id)
  (amount : R) (reason : economy_reason) :
  can_take_loans (register_domestic_supply w n c amount reason) j
  = can_take_loans w j.
Proof. reflexivity. Qed.

(** X26. [update_single_factory_production] pays a subsidy out of the
    treasury only: the treasury of the nation never rises, what it loses
    is exactly what the recorded subsidy spending of the nation gains, and
    a nation that cannot take loans and is not in debt is not put in debt.
    The recorded profit of the factory never falls.  The function never
    makes a factory subsidized, and it ends a subsidy only for a nation
    that cannot take loans. *)
Theorem factory_subsidy_is_paid_by_treasury (w : world) (x : annex)
  (f : factory_id) (n : nation_id) (expected_min_wage : R) :
  let w' := fst (update_single_factory_production w x f n expected_min_wage) in
  let x' := snd (update_single_factory_production w x f n expected_min_wage) in
  nation_cf w' stockpiles n money <= nation_cf w stockpiles n money
  /\ nation_cf w stockpiles n money - nation_cf w' stockpiles n money
     = nation_subsidies_spending x' n - nation_subsidies_spending x n
  /\ (can_take_loans w n = false -> 0 <= nation_cf w stockpiles n money ->
      0 <= nation_cf w' stockpiles n money)
  /\ factory_f w full_profit f <= factory_f w' full_profit f
  /\ (factory_b w' subsidized f = true -> factory_b w subsidized f = true)
  /\ (can_take_loans w n = true ->
      factory_b w' subsidized f = factory_b w subsidized f).
Proof.
  cbv zeta. unfold update_single_factory_production. cbv zeta.
  destruct (Rgt_dec (factory_f w actual_production f) 0) as [Hprod|Hprod];
    [|cbn [fst snd]; repeat split; intros; lra || assumption || reflexivity].
  set (w1 := register_domestic_supply _ _ _ _ _).
  assert (Ht : nation_cf w1 stockpiles n money = nation_cf w stockpiles n money)
    by reflexivity.
  assert (Hb : factory_b w1 subsidized f = factory_b w subsidized f)
    by reflexivity.
  assert (Hloans : can_take_loans w1 n = can_take_loans w n) by reflexivity.
  assert (Hp : factory_f w1 primary_employment f
               = factory_f w primary_employment f) by reflexivity.
  assert (Hfp : factory_f w1 full_profit f = factory_f w full_profit f)
    by reflexivity.
  assert (He : env w1 = env w) by reflexivity.
  rewrite Hb, Hloans, Ht, Hp.
  destruct (factory_b w subsidized f) eqn:Hsub; cbn [negb].
  - set (min_wages := expected_min_wage * INR (factory_level (env w) f)
                      * factory_f w primary_employment f
                      * (alice_factory_per_level_employment (defs (env w))
                         / alice_needs_scaling_factor (defs (env w)))).
    destruct (Rlt_dec (factory_f w full_profit f) min_wages) as [Hlow|Hlow].
    + destruct (Rgt_dec (nation_cf w stockpiles n money)
                  (min_wages - factory_f w full_profit f)) as [Hrich|Hpoor].
      * cbn [fst snd]. unfold subsidies_spending_set.
        cbn [nation_subsidies_spending]. simpl.
        rewrite ?upd2_same, ?upd_same, ?Ht, ?Hsub, ?Hfp.
        repeat split; intros; try lra; reflexivity.
      * destruct (can_take_loans w n) eqn:Hcan.
        -- cbn [fst snd]. unfold subsidies_spending_set.
           cbn [nation_subsidies_spending]. simpl.
           rewrite ?upd2_same, ?upd_same, ?Ht, ?Hsub, ?Hfp.
           repeat split; intros; try lra; try reflexivity; discriminate.
        -- cbn [fst snd]. simpl. rewrite ?upd_same, ?Ht, ?Hfp.
           pose proof (fmax_ge_l (factory_f w full_profit f) 0).
           repeat split; intros; try lra; try discriminate; reflexivity.
    + cbn [fst snd]. simpl. rewrite ?upd_same, ?Ht, ?Hsub, ?Hfp.
      repeat split; intros; try lra; reflexivity.
  - cbn [fst snd]. simpl. rewrite ?upd_same, ?Ht, ?Hsub, ?Hfp.
    repeat split; intros; try lra; try discriminate; reflexivity.
Qed.

(** ** The sale of the RGO production *)

(** One step of the loop of [update_province_rgo_production]. *)
Lemma record_rgo_production_step (p : province_id) (n : nation_id)
  (w : world) (x : annex) (c : commodity_id) :
  let amount := province_rgo_figures x rgo_actual_production_per_good p c in
  let profit := amount * commodity_f w current_price c in
  let w' := fst (record_rgo_production p n (w, x) c) in
  let x' := snd (record_rgo_production p n (w, x) c) in
  (env w' = env w /\ commodity_f w' = commodity_f w
   /\ gold_to_cash_rate x' = gold_to_cash_rate x
   /\ province_rgo_figures x' rgo_actual_production_per_good
      = province_rgo_figures x rgo_actual_production_per_good)
  /\ province_rgo_full_profit x' p = province_rgo_full_profit x p + profit
  /\ nation_f w' gdp n = nation_f w gdp n + profit
  /\ nation_cf w' stockpiles n money
     = nation_cf w stockpiles n money
       + (if commodity_b (env w) money_rgo c
          then amount * gold_to_cash_rate x else 0)
  /\ province_rgo_figures x' rgo_profit_per_good p c = profit
  /\ (forall k, k <> c ->
        province_rgo_figures x' rgo_profit_per_good p k
        = province_rgo_figures x rgo_profit_per_good p k)
  /\ nation_cf w' domestic_market_pool n c
     = nation_cf w domestic_market_pool n c + amount
  /\ (forall k, k <> c ->
        nation_cf w' domestic_market_pool n k
        = nation_cf w domestic_market_pool n k).
Proof.
  cbv zeta. unfold record_rgo_production. cbv zeta.
  set (w1 := register_domestic_supply _ _ _ _ _).
  assert (He : env w1 = env w) by reflexivity.
  assert (Hc : commodity_f w1 = commodity_f w) by reflexivity.
  rewrite He, Hc.
  assert (Hgdp : nation_f w1 gdp n
                 = nation_f w gdp n
                   + province_rgo_figures x rgo_actual_production_per_good p c
                     * commodity_f w current_price c).
  { subst w1. unfold register_domestic_supply. cbv zeta. simpl.
    now rewrite upd_same. }
  assert (Hpool : nation_cf w1 domestic_market_pool n c
                  = nation_cf w domestic_market_pool n c
                    + province_rgo_figures x rgo_actual_production_per_good
                        p c).
  { subst w1. unfold register_domestic_supply. cbv zeta. simpl.
    now rewrite upd2_same. }
  assert (Hpool' : forall k, k <> c ->
            nation_cf w1 domestic_market_pool n k
            = nation_cf w domestic_market_pool n k).
  { intros k Hk. subst w1. unfold register_domestic_supply. cbv zeta. simpl.
    rewrite upd2_other by (now right). reflexivity. }
  assert (Hstock : nation_cf w1 stockpiles n money
                   = nation_cf w stockpiles n money) by reflexivity.
  destruct (commodity_b (env w) money_rgo c); cbn [fst snd];
    unfold province_rgo_full_profit_set, province_rgo_set;
    cbn [province_rgo_full_profit province_rgo_figures gold_to_cash_rate];
    cbn [rgo_figure_beq]; rewrite ?upd_same, ?upd2_same.
  - simpl. rewrite ?upd2_same, ?Hstock.
    repeat split; try reflexivity; try assumption; try lra;
      intros k Hk;
      first [apply upd2_other; now right|rewrite <- Hpool' by exact Hk].
  - repeat split; try reflexivity; try assumption; try lra.
    intros k Hk. apply upd2_other. now right.
Qed.

(** The loop, over any list of distinct goods. *)
Lemma record_rgo_production_fold (p : province_id) (n : nation_id)
  (l : list commodity_id) :
  NoDup l ->
  forall (w : world) (x : annex),
  let amount := province_rgo_figures x rgo_actual_production_per_good p in
  let profit c := amount c * commodity_f w current_price c in
  let w' := fst (fold_left (record_rgo_production p n) l (w, x)) in
  let x' := snd (fold_left (record_rgo_production p n) l (w, x)) in
  province_rgo_full_profit x' p
  = province_rgo_full_profit x p + accumulate l profit
  /\ nation_f w' gdp n = nation_f w gdp n + accumulate l profit
  /\ nation_cf w' stockpiles n money
     = nation_cf w stockpiles n money
       + accumulate l (fun c =>
           if commodity_b (env w) money_rgo c
           then amount c * gold_to_cash_rate x else 0)
  /\ (forall c, In c l ->
        province_rgo_figures x' rgo_profit_per_good p c = profit c
        /\ nation_cf w' domestic_market_pool n c
           = nation_cf w domestic_market_pool n c + amount c)
  /\ (forall c, ~ In c l ->
        province_rgo_figures x' rgo_profit_per_good p c
        = province_rgo_figures x rgo_profit_per_good p c
        /\ nation_cf w' domestic_market_pool n c
           = nation_cf w domestic_market_pool n c).
Proof.
  intros Hnd. induction Hnd as [|a l Ha Hnd IH]; intros w x; cbv zeta.
  - cbn [fold_left fst snd]. unfold accumulate. cbn [fold_left].
    repeat split; try lra; contradiction.
  - cbn [fold_left].
    destruct (record_rgo_production_step p n w x a)
      as ((He & Hc & Hr & Ham) & Hfull & Hgdp & Hstock & Hprof & Hprof'
          & Hpool & Hpool').
    cbv zeta in *.
    destruct (record_rgo_production p n (w, x) a) as [w1 x1].
    cbn [fst snd] in *.
    destruct (IH w1 x1) as (Ifull & Igdp & Istock & Iin & Iout).
    cbv zeta in *. rewrite He, Hc, Hr, Ham in *.
    rewrite !accumulate_cons.
    split; [rewrite Ifull, Hfull; lra|].
    split; [rewrite Igdp, Hgdp; lra|].
    split; [rewrite Istock, Hstock; lra|].
    split.
    + intros c [<-|Hin].
      * destruct (Iout a Ha) as [-> ->]. now split.
      * destruct (Iin c Hin) as [-> ->]. split; [reflexivity|].
        rewrite Hpool'; [reflexivity|]. intros ->. contradiction.
    + intros c Hc'.
      assert (c <> a) by (intros ->; apply Hc'; now left).
      assert (~ In c l) by (intros Hin; apply Hc'; now right).
      destruct (Iout c) as [-> ->]; [assumption|].
      split; [now apply Hprof'|now apply Hpool'].
Qed.

(** X27. [update_province_rgo_production] books the sale of the day's
    production of a province: the recorded full profit of the province is
    the sum of the recorded profits of the goods, each the amount times
    the price, and the GDP of the nation rises by exactly that profit; the
    domestic market pool of every good rises by the amount produced; the
    treasury rises by the produced amount of the money goods times
    [gold_to_cash_rate].  With non-negative amounts, prices and rate no
    profit is negative (the assertion of the source) and the treasury
    does not fall. *)
Theorem rgo_production_is_booked (w : world) (x : annex) (p : province_id)
  (n : nation_id) :
  let amount := province_rgo_figures x rgo_actual_production_per_good p in
  let goods := all_commodities w in
  (forall c, 0 <= amount c) ->
  (forall c, 0 <= commodity_f w current_price c) ->
  0 <= gold_to_cash_rate x ->
  let w' := fst (update_province_rgo_production w x p n) in
  let x' := snd (update_province_rgo_production w x p n) in
  let profit := province_rgo_figures x' rgo_profit_per_good p in
  (forall c, In c goods ->
     profit c = amount c * commodity_f w current_price c /\ 0 <= profit c)
  /\ province_rgo_full_profit x' p = accumulate goods profit
  /\ 0 <= province_rgo_full_profit x' p
  /\ nation_f w' gdp n = nation_f w gdp n + province_rgo_full_profit x' p
  /\ (forall c, In c goods ->
        nation_cf w' domestic_market_pool n c
        = nation_cf w domestic_market_pool n c + amount c)
  /\ nation_cf w' stockpiles n money
     = nation_cf w stockpiles n money
       + gold_to_cash_rate x
         * accumulate goods (fun c =>
             if commodity_b (env w) money_rgo c then amount c else 0)
  /\ nation_cf w stockpiles n money <= nation_cf w' stockpiles n money.
Proof.
  cbv zeta. intros Hamount Hprice Hrate.
  unfold update_province_rgo_production. cbv zeta.
  destruct (record_rgo_production_fold p n (all_commodities w)
              (seq_NoDup _ _) w (province_rgo_full_profit_set p 0 x))
    as (Hfull & Hgdp & Hstock & Hin & _).
  cbv zeta in *.
  set (st := fold_left (record_rgo_production p n) (all_commodities w)
               (w, province_rgo_full_profit_set p 0 x)) in *.
  change (province_rgo_figures (province_rgo_full_profit_set p 0 x))
    with (province_rgo_figures x) in *.
  change (gold_to_cash_rate (province_rgo_full_profit_set p 0 x))
    with (gold_to_cash_rate x) in *.
  assert (Hzero : province_rgo_full_profit (province_rgo_full_profit_set p 0 x)
                    p = 0)
    by (unfold province_rgo_full_profit_set;
        cbn [province_rgo_full_profit]; apply upd_same).
  rewrite Hzero, Rplus_0_l in Hfull.
  set (amount := province_rgo_figures x rgo_actual_production_per_good p)
    in *.
  assert (Hprofit : forall c, 0 <= amount c * commodity_f w current_price c)
    by (intros c; apply Rmult_le_pos; [apply Hamount|apply Hprice]).
  assert (Hsum : accumulate (all_commodities w)
                   (province_rgo_figures (snd st) rgo_profit_per_good p)
                 = accumulate (all_commodities w)
                     (fun c => amount c * commodity_f w current_price c)).
  { apply accumulate_ext. intros c Hc. now destruct (Hin c Hc). }
  split.
  { intros c Hc. destruct (Hin c Hc) as [-> _]. split; [reflexivity|].
    apply Hprofit. }
  split; [now rewrite Hsum|].
  split; [rewrite Hfull; apply accumulate_nonneg; intros; apply Hprofit|].
  split; [now rewrite Hgdp, Hfull|].
  split; [intros c Hc; now destruct (Hin c Hc)|].
  assert (Hgold : accumulate (all_commodities w)
                    (fun c => if commodity_b (env w) money_rgo c
                              then amount c * gold_to_cash_rate x else 0)
                  = gold_to_cash_rate x
                    * accumulate (all_commodities w)
                        (fun c => if commodity_b (env w) money_rgo c
                                  then amount c else 0)).
  { rewrite <- (Rplus_0_r (gold_to_cash_rate x * _)).
    rewrite <- (Rmult_0_l (accumulate (all_commodities w) (fun _ => 0))).
    rewrite <- accumulate_linear. apply accumulate_ext. intros c _.
    destruct (commodity_b (env w) money_rgo c); lra. }
  split; [now rewrite Hstock, Hgold|].
  rewrite Hstock.
  assert (0 <= accumulate (all_commodities w)
                 (fun c => if commodity_b (env w) money_rgo c
                           then amount c * gold_to_cash_rate x else 0)).
  { apply accumulate_nonneg. intros c _.
    destruct (commodity_b (env w) money_rgo c); [|lra].
    apply Rmult_le_pos; [apply Hamount|exact Hrate]. }
  lra.
Qed.

Lemma rgo_production_is_booked_witness :
  0 <= province_rgo_full_profit
         (snd (update_province_rgo_production
                 (commodity_set current_price 1%nat 2
                    (blank_world (open_env 2 0 0)))
                 (province_rgo_set rgo_actual_production_per_good 0%nat 1%nat
                    5 example_annex)
                 0%nat 0%nat)) 0%nat.
Proof.
  apply (rgo_production_is_booked
           (commodity_set current_price 1%nat 2
              (blank_world (open_env 2 0 0)))
           (province_rgo_set rgo_actual_production_per_good 0%nat 1%nat 5
              example_annex)
           0%nat 0%nat).
  - intros c. simpl. unfold upd2.
    destruct (0 =? 0)%nat; destruct (c =? 1)%nat; simpl; lra.
  - intros c. simpl. unfold upd. destruct (c =? 1)%nat; lra.
  - simpl. lra.
Defined.

(** ** The factories of a state *)

Lemma add_int32_zero : add_int32 0 0 = 0%Z.
Proof. reflexivity. Qed.

(** A state without projects whose provinces of the owner hold no factory
    counts none. *)
Lemma no_factory_counts_zero (w : world) (x : annex)
  (si : state_instance_id) :
  has_factory w x si = false ->
  state_factory_count w x si (state_instance_owner x si) = 0%Z.
Proof.
  unfold has_factory, state_factory_count. cbv zeta.
  destruct (state_instance_constructions x si) as [|sc l]; [|discriminate].
  cbn [fold_left].
  induction (state_definition_provinces x (state_instance_definition x si))
    as [|p ps IH]; [reflexivity|].
  cbn [existsb fold_left]. intros H. apply orb_false_iff in H.
  destruct H as [Hp Hps].
  destruct (Nat.eqb (province_owner (env w) p) (state_instance_owner x si)).
  - destruct (province_factory_location x p); [|discriminate].
    cbn [length Z.of_nat]. rewrite add_int32_zero. now apply IH.
  - now apply IH.
Qed.

(** X28. The queries on the factories of a state agree with one another:
    a state that [has_building] of some type [has_factory]; a state whose
    [state_factory_count] for its owner is not zero [has_factory]; and a
    state that contains a constructed factory of a type contains a factory
    of that type, for [state_contains_factory] adds the projects only. *)
Theorem state_factory_queries_agree (w : world) (x : annex)
  (si : state_instance_id) (fac : factory_type_id) :
  (has_building w x si fac = true -> has_factory w x si = true)
  /\ (state_factory_count w x si (state_instance_owner x si) <> 0%Z ->
      has_factory w x si = true)
  /\ (state_contains_constructed_factory w x si fac = true ->
      state_contains_factory w x si fac = true)
  /\ (state_contains_factory w x si fac = true ->
      state_contains_constructed_factory w x si fac = true
      \/ exists sc, In sc (state_instance_constructions x si)
                    /\ construction_type sc = fac).
Proof.
  split; [|split; [|split]].
  - unfold has_building, has_factory. cbv zeta. intros H.
    destruct (state_instance_constructions x si); [|reflexivity].
    apply existsb_exists in H. destruct H as (p & Hp & H).
    apply existsb_exists. exists p. split; [exact Hp|].
    destruct (Nat.eqb (province_owner (env w) p) (state_instance_owner x si));
      [|discriminate].
    destruct (province_factory_location x p); [discriminate|reflexivity].
  - intros H. destruct (has_factory w x si) eqn:E; [reflexivity|].
    exfalso. apply H. now apply no_factory_counts_zero.
  - unfold state_contains_constructed_factory, state_contains_factory.
    cbv zeta. intros ->. reflexivity.
  - unfold state_contains_constructed_factory, state_contains_factory.
    cbv zeta.
    destruct (existsb _ (state_definition_provinces x
                           (state_instance_definition x si)));
      [now left|].
    intros H. right. apply existsb_exists in H.
    destruct H as (sc & Hsc & E). exists sc. split; [exact Hsc|].
    now apply Nat.eqb_eq.
Qed.

(** ** The employment of the factories *)

Lemma shift_employment_keeps (fld : factory_float) (scale : R) (w : world)
  (f : factory_id) :
  fld = primary_employment \/ fld = secondary_employment ->
  0 <= scale <= 1 ->
  factory_fractions w ->
  let w' := shift_employment fld scale w f in
  env w' = env w /\ pop_raw_employment w' = pop_raw_employment w
  /\ factory_b w' = factory_b w
  /\ (forall g, factory_f w' production_scale g
                = factory_f w production_scale g)
  /\ factory_fractions w'.
Proof.
  intros Hfld Hscale Hw. cbv zeta. unfold shift_employment. cbv zeta.
  split; [reflexivity|]. split; [reflexivity|]. split; [reflexivity|].
  assert (Hnew : 0 <= factory_f w fld f * (1 - employment_shift_speed)
                      + scale * factory_f w production_scale f
                        * employment_shift_speed <= 1).
  { destruct (Hw f) as (Hps & Hpe & Hse). unfold employment_shift_speed.
    assert (Hold : 0 <= factory_f w fld f <= 1)
      by (destruct Hfld as [-> | ->]; assumption).
    assert (0 <= scale * factory_f w production_scale f <= 1)
      by (split; nra).
    lra. }
  split.
  - intros g. destruct Hfld as [-> | ->]; reflexivity.
  - intros g. destruct (Hw g) as (Hps & Hpe & Hse).
    unfold factory_set. cbn [factory_f].
    destruct Hfld as [-> | ->]; cbn [factory_float_beq];
      (destruct (Nat.eq_dec g f) as [->|Hg];
       [rewrite upd_same|rewrite upd_other by exact Hg]);
      repeat split; lra.
Qed.

Lemma shift_group_keeps (fld : factory_float) (scale : R)
  (group : list factory_id) :
  fld = primary_employment \/ fld = secondary_employment ->
  0 <= scale <= 1 ->
  forall w, factory_fractions w ->
  let w' := fold_left (shift_employment fld scale) group w in
  env w' = env w /\ pop_raw_employment w' = pop_raw_employment w
  /\ factory_b w' = factory_b w
  /\ (forall g, factory_f w' production_scale g
                = factory_f w production_scale g)
  /\ factory_fractions w'.
Proof.
  intros Hfld Hscale. induction group as [|f group IH]; intros w Hw.
  - cbn. repeat split; try reflexivity; apply Hw.
  - cbn [fold_left]. cbv zeta.
    destruct (shift_employment_keeps fld scale w f Hfld Hscale Hw)
      as (He & Hp & Hb & Hs & Hf).
    destruct (IH _ Hf) as (He' & Hp' & Hb' & Hs' & Hf').
    split; [congruence|]. split; [congruence|]. split; [congruence|].
    split; [|exact Hf']. intros g. now rewrite Hs'.
Qed.

(** The share of the pool that a group of factories gets. *)
Lemma pool_scale (pool share : R) :
  0 <= pool -> 0 <= share ->
  0 <= (if Rge_dec pool share then 1 else pool / share) <= 1
  /\ 0 <= fmax 0 (pool - share) <= pool.
Proof.
  intros Hpool Hshare. split.
  - destruct (Rge_dec pool share) as [H|H]; [lra|].
    split; [apply div_nonneg; lra|].
    apply Rmult_le_reg_r with share; [lra|]. rewrite div_mul by lra. lra.
  - unfold fmax. destruct (Rlt_dec 0 (pool - share)); lra.
Qed.

Lemma workforce_nonneg (w : world) (group : list factory_id) :
  0 <= alice_factory_per_level_employment (defs (env w)) ->
  factory_fractions w ->
  0 <= accumulate group (fun f =>
         factory_max_employment w f * factory_f w production_scale f).
Proof.
  intros Hlevel Hw. apply accumulate_nonneg. intros f _.
  destruct (Hw f) as (Hps & _).
  apply Rmult_le_pos; [|lra].
  unfold factory_max_employment. apply Rmult_le_pos; [exact Hlevel|].
  apply pos_INR.
Qed.

(** The loop over the groups keeps the fractions and only lowers the two
    pools, never below zero. *)
Lemma employ_groups_keeps (x : annex) (fuel : nat) :
  forall (ordered : list factory_id) (w : world) (pool_p pool_s : R),
  0 <= craftsmen_fraction (defs (env w)) <= 1 ->
  0 <= alice_factory_per_level_employment (defs (env w)) ->
  factory_fractions w -> 0 <= pool_p -> 0 <= pool_s ->
  let w' := fst (employ_groups fuel x ordered w pool_p pool_s) in
  let left_p := fst (snd (employ_groups fuel x ordered w pool_p pool_s)) in
  let left_s := snd (snd (employ_groups fuel x ordered w pool_p pool_s)) in
  env w' = env w /\ pop_raw_employment w' = pop_raw_employment w
  /\ factory_b w' = factory_b w
  /\ (forall g, factory_f w' production_scale g
                = factory_f w production_scale g)
  /\ factory_fractions w'
  /\ 0 <= left_p <= pool_p /\ 0 <= left_s <= pool_s.
Proof.
  induction fuel as [|fuel IH];
    intros ordered w pool_p pool_s Hc Hlevel Hw Hp Hs; cbv zeta.
  - cbn. repeat split; try reflexivity; try lra; apply Hw.
  - destruct ordered as [|first tl].
    { cbn. repeat split; try reflexivity; try lra; apply Hw. }
    cbn [employ_groups].
    destruct (split_group w x first (first :: tl)) as [group rest].
    cbv zeta.
    pose proof (workforce_nonneg w group Hlevel Hw) as Hwork.
    set (total := accumulate group _) in *.
    set (cf := craftsmen_fraction (defs (env w))) in *.
    assert (Hshare_p : 0 <= cf * total) by (apply Rmult_le_pos; lra).
    assert (Hshare_s : 0 <= (1 - cf) * total) by (apply Rmult_le_pos; lra).
    destruct (pool_scale pool_p (cf * total) Hp Hshare_p) as [Hsc_p Hleft_p].
    destruct (pool_scale pool_s ((1 - cf) * total) Hs Hshare_s)
      as [Hsc_s Hleft_s].
    destruct (shift_group_keeps primary_employment _ group
                (or_introl eq_refl) Hsc_p w Hw)
      as (He1 & Hr1 & Hb1 & Hs1 & Hf1).
    set (w1 := fold_left (shift_employment primary_employment _) group w)
      in *.
    destruct (shift_group_keeps secondary_employment _ group
                (or_intror eq_refl) Hsc_s w1 Hf1)
      as (He2 & Hr2 & Hb2 & Hs2 & Hf2).
    set (w2 := fold_left (shift_employment secondary_employment _) group w1)
      in *.
    destruct (IH rest w2 (fmax 0 (pool_p - cf * total))
                (fmax 0 (pool_s - (1 - cf) * total)))
      as (He3 & Hr3 & Hb3 & Hs3 & Hf3 & Hp3 & Hs3');
      try (rewrite He2, He1; assumption); try assumption; try lra.
    cbv zeta in *.
    split; [congruence|]. split; [congruence|]. split; [congruence|].
    split; [intros g; now rewrite Hs3, Hs2, Hs1|].
    split; [exact Hf3|]. split; lra.
Qed.

(** The rounds suffice: the loop over the groups ends with the list
    used up whenever the fuel is at least the length of the list. *)
Lemma split_group_length (w : world) (x : annex) (first : factory_id)
  (l : list factory_id) :
  (length (snd (split_group w x first l)) <= length l)%nat.
Proof.
  induction l as [|a l IH]; [cbn; lia|].
  cbn [split_group]. destruct (ends_group w x first a); [cbn; lia|].
  destruct (split_group w x first l) as [group rest]. cbn in *. lia.
Qed.

Lemma ends_group_self (w : world) (x : annex) (f : factory_id) :
  ends_group w x f f = false.
Proof.
  unfold ends_group. now rewrite Bool.eqb_reflx, Z.eqb_refl.
Qed.

Lemma employ_groups_fuel (x : annex) (fuel : nat) :
  forall (ordered : list factory_id) (w : world) (pool_p pool_s : R)
         (more : nat),
  (length ordered <= fuel)%nat ->
  employ_groups (fuel + more) x ordered w pool_p pool_s
  = employ_groups fuel x ordered w pool_p pool_s.
Proof.
  induction fuel as [|fuel IH]; intros ordered w pool_p pool_s more Hlen.
  - destruct ordered; [|cbn in Hlen; lia]. destruct more; reflexivity.
  - destruct ordered as [|first tl]; [reflexivity|].
    cbn [employ_groups Nat.add].
    pose proof (split_group_length w x first tl) as Hrest.
    cbn [split_group]. rewrite ends_group_self.
    destruct (split_group w x first tl) as [group rest]. cbn [snd] in Hrest.
    cbv zeta. apply IH. cbn in Hlen. lia.
Qed.

(** The loops that write the raw employment of the factory workers. *)
Lemma factory_workers_employment (e : environment) (x : annex)
  (prim sec : R) (provinces : list province_id) :
  0 <= prim <= 1 -> 0 <= sec <= 1 ->
  forall w, pop_fractions w ->
  let w' :=
    fold_left (fun w p =>
        fold_left (fun w pop =>
            if Nat.eqb (pop_poptype e pop) (primary_factory_worker x)
            then set_raw_employment pop prim w
            else if Nat.eqb (pop_poptype e pop) (secondary_factory_worker x)
            then set_raw_employment pop sec w
            else w)
          (province_pop_location e p) w)
      provinces w in
  env w' = env w /\ factory_f w' = factory_f w /\ factory_b w' = factory_b w
  /\ pop_fractions w'.
Proof.
  intros Hprim Hsec w Hw. cbv zeta.
  apply (fold_left_preserves _
           (fun v => env v = env w /\ factory_f v = factory_f w
                     /\ factory_b v = factory_b w /\ pop_fractions v));
    [|repeat split; try reflexivity; apply Hw].
  intros v p _ Hv.
  apply (fold_left_preserves _
           (fun v => env v = env w /\ factory_f v = factory_f w
                     /\ factory_b v = factory_b w /\ pop_fractions v));
    [|exact Hv].
  intros u pop _ (He & Hf & Hb & Hu).
  assert (Hset : forall r, 0 <= r <= 1 ->
            pop_fractions (set_raw_employment pop r u)).
  { intros r Hr q. unfold set_raw_employment. cbn [pop_raw_employment].
    destruct (Nat.eq_dec q pop) as [->|Hq];
      [rewrite upd_same; exact Hr|rewrite upd_other by exact Hq; apply Hu]. }
  destruct (Nat.eqb (pop_poptype e pop) (primary_factory_worker x));
    [|destruct (Nat.eqb (pop_poptype e pop) (secondary_factory_worker x))];
    (split; [exact He|split; [exact Hf|split; [exact Hb|]]]);
    first [exact Hu|apply Hset; assumption].
Qed.

(** What is left of a pool, as the employed part of the pool. *)
Lemma employed_part (pool left : R) :
  0 <= left <= pool ->
  0 <= 1 - (if Rgt_dec pool 0 then left / pool else 0) <= 1.
Proof.
  intros H. destruct (Rgt_dec pool 0) as [Hp|Hp]; [|lra].
  assert (0 <= left / pool) by (apply div_nonneg; lra).
  assert (left / pool <= 1).
  { apply Rmult_le_reg_r with pool; [lra|]. rewrite div_mul by lra. lra. }
  lra.
Qed.

Lemma update_state_factory_employment_keeps (x : annex) (w : world)
  (si : state_instance_id) :
  0 <= craftsmen_fraction (defs (env w)) <= 1 ->
  0 <= alice_factory_per_level_employment (defs (env w)) ->
  0 <= state_demographics (env w) si (primary_factory_worker x) ->
  0 <= state_demographics (env w) si (secondary_factory_worker x) ->
  factory_fractions w -> pop_fractions w ->
  let w' := update_state_factory_employment x w si in
  env w' = env w /\ factory_b w' = factory_b w
  /\ (forall g, factory_f w' production_scale g
                = factory_f w production_scale g)
  /\ factory_fractions w' /\ pop_fractions w'.
Proof.
  intros Hc Hlevel Hp Hs Hw Hpop. cbv zeta.
  unfold update_state_factory_employment. cbv zeta.
  set (ordered := sort_factories w x _).
  destruct (employ_groups_keeps x (length ordered) ordered w _ _
              Hc Hlevel Hw Hp Hs)
    as (He & Hr & Hb & Hsc & Hf & Hleft_p & Hleft_s).
  cbv zeta in *.
  destruct (employ_groups (length ordered) x ordered w
              (state_demographics (env w) si (primary_factory_worker x))
              (state_demographics (env w) si (secondary_factory_worker x)))
    as [w1 [left_p left_s]].
  cbn [fst snd] in *.
  assert (Hpop1 : pop_fractions w1)
    by (intros q; unfold pop_fractions in Hpop; rewrite Hr; apply Hpop).
  destruct (factory_workers_employment (env w) x _ _
              (state_instance_provinces x si)
              (employed_part _ _ Hleft_p) (employed_part _ _ Hleft_s)
              w1 Hpop1) as (He2 & Hf2 & Hb2 & Hpop2).
  cbv zeta in *.
  split; [congruence|]. split; [congruence|].
  split; [intros g; rewrite Hf2; apply Hsc|].
  split; [|exact Hpop2].
  intros g. rewrite Hf2. apply Hf.
Qed.

(** X29. [update_factory_employment] keeps the employment of the
    factories and of their workers within bounds: when the craftsmen
    fraction is in [0, 1], the employment per factory level and the worker
    pools of the states are not negative, and the production scale and the
    two employment levels of every factory and the raw employment of every
    pop are fractions, they are still fractions afterwards; the production
    scales and the flags of the factories are not changed. *)
Theorem factory_employment_stays_fraction (w : world) (x : annex) :
  0 <= craftsmen_fraction (defs (env w)) <= 1 ->
  0 <= alice_factory_per_level_employment (defs (env w)) ->
  (forall si,
      0 <= state_demographics (env w) si (primary_factory_worker x)
      /\ 0 <= state_demographics (env w) si (secondary_factory_worker x)) ->
  factory_fractions w -> pop_fractions w ->
  let w' := update_factory_employment w x in
  factory_fractions w' /\ pop_fractions w'
  /\ (forall f, factory_f w' production_scale f
                = factory_f w production_scale f)
  /\ factory_b w' = factory_b w.
Proof.
  intros Hc Hlevel Hpools Hw Hpop. cbv zeta. unfold update_factory_employment.
  assert (H : let w' := fold_left (update_state_factory_employment x)
                          (seq 0 (state_instance_size x)) w in
              env w' = env w /\ factory_b w' = factory_b w
              /\ (forall g, factory_f w' production_scale g
                            = factory_f w production_scale g)
              /\ factory_fractions w' /\ pop_fractions w').
  { cbv zeta.
    apply (fold_left_preserves _
             (fun v => env v = env w /\ factory_b v = factory_b w
                       /\ (forall g, factory_f v production_scale g
                                     = factory_f w production_scale g)
                       /\ factory_fractions v /\ pop_fractions v));
      [|repeat split; try reflexivity; try apply Hw; apply Hpop].
    intros v si _ (He & Hb & Hs & Hf & Hp).
    destruct (Hpools si) as [Hp1 Hp2].
    destruct (update_state_factory_employment_keeps x v si)
      as (He' & Hb' & Hs' & Hf' & Hp'); try (rewrite He; assumption);
      try assumption.
    cbv zeta in *.
    split; [congruence|]. split; [congruence|].
    split; [intros g; now rewrite Hs'|]. now split. }
  cbv zeta in H. destruct H as (_ & Hb & Hs & Hf & Hp).
  repeat split; try assumption; apply Hf || apply Hp.
Qed.

Lemma factory_employment_stays_fraction_witness :
  factory_fractions
    (update_factory_employment
       (factory_set production_scale 0%nat 1 (blank_world (open_env 2 0 10)))
       example_annex).
Proof.
  apply (factory_employment_stays_fraction
           (factory_set production_scale 0%nat 1
              (blank_world (open_env 2 0 10))) example_annex).
  - simpl. lra.
  - simpl. lra.
  - intros si. simpl. lra.
  - intros f. simpl. unfold upd. destruct (f =? 0)%nat; lra.
  - intros pop. simpl. lra.
Defined.

(** ** The sign of the profit of a factory *)

(** The effective production scale is between 0 and the level of the
    factory. *)
Lemma update_factory_scale_range (w : world) (fac : factory_id)
  (max_production_scale raw_profit desired_raw_profit : R) :
  0 < alice_factory_per_level_employment (defs (env w)) ->
  (0 < factory_level (env w) fac)%nat ->
  0 <= factory_f w production_scale fac ->
  0 <= max_production_scale ->
  0 <= fst (update_factory_scale w fac max_production_scale raw_profit
              desired_raw_profit)
    <= INR (factory_level (env w) fac).
Proof.
  intros Hple Hlevel Hscale Hmax. unfold update_factory_scale.
  cbv zeta. unfold factory_max_employment.
  assert (Hl : 1 <= INR (factory_level (env w) fac)).
  { change 1 with (INR 1). apply le_INR. lia. }
  set (level := INR (factory_level (env w) fac)) in *.
  set (ple := alice_factory_per_level_employment (defs (env w))) in *.
  assert (Hstep : 0 < 10 / (ple * level) * level * 10).
  { replace (10 / (ple * level) * level * 10) with (100 / ple)
      by (field; lra).
    apply Rdiv_lt_0_compat; lra. }
  assert (Hbound : forall r, 0 <= r <= 1 ->
            0 <= fmin (r * level) max_production_scale <= level).
  { intros r Hr. split.
    - apply fmin_glb; [nra|exact Hmax].
    - apply Rle_trans with (r * level); [apply fmin_le_l|nra]. }
  destruct (factory_b w subsidized fac); cbn [fst].
  - apply Hbound. revert Hstep.
    generalize (10 / (ple * level) * level * 10). intros d Hd.
    cpp_cases.
  - apply Hbound. apply clamp_bounds. lra.
Qed.

(** X30. After [update_single_factory_consumption] the recorded profit of
    the factory has the sign that its flag tells: it is not negative and at
    most the margin of one level times the level when the factory is not
    flagged unprofitable, and not positive and at least that product when
    it is.  This holds for a factory of level 1 or more whose production
    scale and primary employment were not negative, with a positive
    employment per level. *)
Theorem factory_profit_sign_follows_flag (w : world) (f : factory_id)
  (n : nation_id) (p : province_id) (s : state_instance_id)
  (mobilization_impact expected_min_wage : R) (occupied : bool) :
  0 < alice_factory_per_level_employment (defs (env w)) ->
  (0 < factory_level (env w) f)%nat ->
  0 <= factory_f w production_scale f ->
  0 <= factory_f w primary_employment f ->
  let w' :=
    update_single_factory_consumption w f n p s mobilization_impact
      expected_min_wage occupied in
  let margin :=
    factory_level_profit w f n p s
    - factory_level_spendings w f n p s expected_min_wage in
  let level := INR (factory_level (env w) f) in
  (factory_b w' unprofitable f = false ->
   0 <= factory_f w' full_profit f <= margin * level)
  /\ (factory_b w' unprofitable f = true ->
      margin * level <= factory_f w' full_profit f <= 0).
Proof.
  intros Hple Hlevel Hscale Hemp. cbv zeta.
  destruct (update_single_factory_consumption_result w f n p s
              mobilization_impact expected_min_wage occupied)
    as (_ & Hprofit & Hflag & _).
  cbv zeta in Hprofit, Hflag. rewrite Hprofit, Hflag.
  assert (Hmax : 0 <= factory_max_production_scale w f mobilization_impact
                        occupied).
  { unfold factory_max_production_scale.
    apply Rmult_le_pos; [apply Rmult_le_pos; [apply Rmult_le_pos|]|].
    - exact Hemp.
    - apply pos_INR.
    - destruct occupied; lra.
    - apply fmax_ge_l. }
  match goal with
  | |- context [fst (update_factory_scale ?w1 f ?m ?rp ?drp)] =>
      pose proof (update_factory_scale_range w1 f m rp drp Hple Hlevel
                    Hscale Hmax) as Heps;
      revert Heps; generalize (fst (update_factory_scale w1 f m rp drp))
  end.
  cbn [env factory_bset]. intros eps Heps.
  set (margin := factory_level_profit w f n p s
                 - factory_level_spendings w f n p s expected_min_wage).
  destruct (Rgt_dec margin 0) as [Hpos|Hneg].
  - split; [intros _|discriminate]. split; nra.
  - split; [discriminate|intros _]. split; nra.
Qed.

Lemma factory_profit_sign_follows_flag_witness :
  let w' :=
    update_single_factory_consumption idle_factory_world 0%nat 0%nat 0%nat
      0%nat 1 0 false in
  let margin :=
    factory_level_profit idle_factory_world 0%nat 0%nat 0%nat 0%nat
    - factory_level_spendings idle_factory_world 0%nat 0%nat 0%nat 0%nat 0 in
  let level := INR (factory_level (env idle_factory_world) 0%nat) in
  (factory_b w' unprofitable 0%nat = false ->
   0 <= factory_f w' full_profit 0%nat <= margin * level)
  /\ (factory_b w' unprofitable 0%nat = true ->
      margin * level <= factory_f w' full_profit 0%nat <= 0).
Proof.
  apply (factory_profit_sign_follows_flag idle_factory_world 0%nat 0%nat
           0%nat 0%nat 1 0 false); simpl; try lia; lra.
Defined.
